(** * libcopyfile: a model of [copyfile.c] and its specification

    The C translation unit [src/copyfile.c] is embedded function by function.
    The file-system primitives it calls (open, read, write, ftruncate, ...)
    are given by a small executable model of a POSIX kernel: a name table,
    an inode table, a descriptor table, [errno], a clock, and scripts that
    let the environment inject short writes, stalled writes, I/O errors and
    refused removals. *)

From Stdlib Require Import ZArith List Bool Lia Ascii String.
From Stdlib Require Import Init.Byte.
From stdpp Require Import base option list gmap strings.

Local Open Scope Z_scope.

(** ** System constants (FreeBSD values of <fcntl.h>, <sys/stat.h>,
       <sys/errno.h>, <sys/param.h>) *)

Definition O_RDONLY : Z := 0.
Definition O_WRONLY : Z := 1.
Definition O_RDWR : Z := 2.
Definition O_ACCMODE : Z := 3.
Definition O_NOFOLLOW : Z := 256.
Definition O_CREAT : Z := 512.
Definition O_EXCL : Z := 2048.

Definition S_IFMT : Z := 61440.    (* 0170000 *)
Definition S_IFDIR : Z := 16384.   (* 0040000 *)
Definition S_IFREG : Z := 32768.   (* 0100000 *)
Definition S_IFLNK : Z := 40960.   (* 0120000 *)
Definition S_IRUSR : Z := 256.     (* 0400 *)
Definition S_IWUSR : Z := 128.     (* 0200 *)
Definition S_IROTH : Z := 4.
Definition S_IWOTH : Z := 2.
Definition ALLPERMS : Z := 4095.   (* 07777 *)

Definition EPERM : Z := 1.
Definition ENOENT : Z := 2.
Definition EIO : Z := 5.
Definition EBADF : Z := 9.
Definition ENOMEM : Z := 12.
Definition EACCES : Z := 13.
Definition EFAULT : Z := 14.
Definition EEXIST : Z := 17.
Definition EISDIR : Z := 21.
Definition EINVAL : Z := 22.
Definition ERANGE : Z := 34.
Definition EAGAIN : Z := 35.
Definition ENOTSUP : Z := 45.
Definition EOPNOTSUPP : Z := 45.

Definition MAXPATHLEN : Z := 1024.

Definition LONG_MAX : Z := 2 ^ 63 - 1.
Definition LONG_MIN : Z := - 2 ^ 63.
Definition SSIZE_MAX : Z := 2 ^ 63 - 1.

(** Conversions to the unsigned C types the source stores values in. *)
Definition to_uint32 (z : Z) : Z := z mod 2 ^ 32.
Definition to_size_t (z : Z) : Z := z mod 2 ^ 64.

(** [x & ~m] on mode and flag words. *)
Definition clear_bits (x m : Z) : Z := Z.land x (Z.lnot m).

(** C truth value of an integer expression. *)
Definition truthy (z : Z) : bool := negb (z =? 0).

(** ** Kernel objects *)

Record inode := mkInode {
  i_mode : Z;
  i_uid : Z;
  i_gid : Z;
  i_atime : Z;
  i_mtime : Z;
  i_flags : Z;
  i_blksize : Z;
  i_data : list byte
}.

(** An open file description: inode number, file offset, access mode. *)
Record ofd := mkOfd {
  ofd_ino : nat;
  ofd_off : nat;
  ofd_acc : Z
}.

(** [struct stat], restricted to the members the source reads. *)
Record stat := mkStat {
  st_mode : Z;
  st_size : Z;
  st_blksize : Z;
  st_uid : Z;
  st_gid : Z;
  st_atime : Z;
  st_mtime : Z;
  st_flags : Z
}.

Definition zero_stat : stat := mkStat 0 0 0 0 0 0 0 0.

(** What the environment answers to one [write] call: an error, or the
    largest number of bytes it accepts (0 is a stalled write). *)
Inductive wres :=
  | WErr (e : Z)
  | WAccept (k : nat).

(** System calls and warnings, as they are issued (most recent first). *)
Inductive event :=
  | EvOpen (p : string) (oflags : Z) (r : Z)
  | EvClose (fd : Z) (r : Z)
  | EvStat (p : string)
  | EvFstat (fd : Z)
  | EvRead (fd : Z) (r : Z)
  | EvWrite (fd : Z) (r : Z)
  | EvFtruncate (fd : Z) (len : Z)
  | EvUnlink (p : string) (r : Z)
  | EvRemove (p : string) (r : Z)
  | EvMkdir (p : string) (r : Z)
  | EvChmod (p : string) (m : Z) (r : Z)
  | EvFchmod (fd : Z) (m : Z)
  | EvFchown (fd : Z) (u g : Z)
  | EvFchflags (fd : Z) (fl : Z)
  | EvFutimes (fd : Z) (a m : Z)
  | EvWarn (msg : string).

Record world := mkWorld {
  w_names : gmap string nat;      (* path -> inode number *)
  w_inodes : list inode;          (* inode table, indexed by inode number *)
  w_fds : list (option ofd);      (* descriptor table, indexed by descriptor *)
  w_errno : Z;
  w_euid : Z;
  w_umask : Z;
  w_iosize : option Z;            (* f_iosize of fstatfs; None: fstatfs fails *)
  w_noflags : bool;               (* the file system has no chflags support *)
  w_env : option string;          (* value of COPYFILE_DEBUG in the environment *)
  w_mem : nat;                    (* allocations that will still succeed *)
  w_rscript : list (option Z);    (* per read call: Some e injects errno e *)
  w_wscript : list wres;          (* per write call; exhausted: full writes *)
  w_trace : list event;
  w_now : Z;                      (* the clock: what the next time stamp reads *)
  w_groups : list Z;              (* the groups the caller is a member of *)
  w_uscript : list (option Z)     (* per removal of an existing name: Some e
                                     refuses it with errno e *)
}.

Definition set_names (f : gmap string nat) (w : world) : world :=
  mkWorld f (w_inodes w) (w_fds w) (w_errno w) (w_euid w) (w_umask w)
    (w_iosize w) (w_noflags w) (w_env w) (w_mem w) (w_rscript w) (w_wscript w)
    (w_trace w) (w_now w) (w_groups w) (w_uscript w).
Definition set_inodes (f : list inode) (w : world) : world :=
  mkWorld (w_names w) f (w_fds w) (w_errno w) (w_euid w) (w_umask w)
    (w_iosize w) (w_noflags w) (w_env w) (w_mem w) (w_rscript w) (w_wscript w)
    (w_trace w) (w_now w) (w_groups w) (w_uscript w).
Definition set_fds (f : list (option ofd)) (w : world) : world :=
  mkWorld (w_names w) (w_inodes w) f (w_errno w) (w_euid w) (w_umask w)
    (w_iosize w) (w_noflags w) (w_env w) (w_mem w) (w_rscript w) (w_wscript w)
    (w_trace w) (w_now w) (w_groups w) (w_uscript w).
Definition set_errno (e : Z) (w : world) : world :=
  mkWorld (w_names w) (w_inodes w) (w_fds w) e (w_euid w) (w_umask w)
    (w_iosize w) (w_noflags w) (w_env w) (w_mem w) (w_rscript w) (w_wscript w)
    (w_trace w) (w_now w) (w_groups w) (w_uscript w).
Definition set_mem (n : nat) (w : world) : world :=
  mkWorld (w_names w) (w_inodes w) (w_fds w) (w_errno w) (w_euid w) (w_umask w)
    (w_iosize w) (w_noflags w) (w_env w) n (w_rscript w) (w_wscript w)
    (w_trace w) (w_now w) (w_groups w) (w_uscript w).
Definition set_rscript (r : list (option Z)) (w : world) : world :=
  mkWorld (w_names w) (w_inodes w) (w_fds w) (w_errno w) (w_euid w) (w_umask w)
    (w_iosize w) (w_noflags w) (w_env w) (w_mem w) r (w_wscript w)
    (w_trace w) (w_now w) (w_groups w) (w_uscript w).
Definition set_wscript (r : list wres) (w : world) : world :=
  mkWorld (w_names w) (w_inodes w) (w_fds w) (w_errno w) (w_euid w) (w_umask w)
    (w_iosize w) (w_noflags w) (w_env w) (w_mem w) (w_rscript w) r
    (w_trace w) (w_now w) (w_groups w) (w_uscript w).
Definition log (ev : event) (w : world) : world :=
  mkWorld (w_names w) (w_inodes w) (w_fds w) (w_errno w) (w_euid w) (w_umask w)
    (w_iosize w) (w_noflags w) (w_env w) (w_mem w) (w_rscript w) (w_wscript w)
    (ev :: w_trace w) (w_now w) (w_groups w) (w_uscript w).
Definition set_now (t : Z) (w : world) : world :=
  mkWorld (w_names w) (w_inodes w) (w_fds w) (w_errno w) (w_euid w) (w_umask w)
    (w_iosize w) (w_noflags w) (w_env w) (w_mem w) (w_rscript w) (w_wscript w)
    (w_trace w) t (w_groups w) (w_uscript w).
Definition set_uscript (u : list (option Z)) (w : world) : world :=
  mkWorld (w_names w) (w_inodes w) (w_fds w) (w_errno w) (w_euid w) (w_umask w)
    (w_iosize w) (w_noflags w) (w_env w) (w_mem w) (w_rscript w) (w_wscript w)
    (w_trace w) (w_now w) (w_groups w) u.

(** ** Descriptor table *)

Definition fd_lookup (fd : Z) (w : world) : option ofd :=
  if fd <? 0 then None else mjoin (w_fds w !! Z.to_nat fd).

(** The lowest free slot receives the new description, as POSIX requires. *)
Fixpoint fd_alloc (t : list (option ofd)) (o : ofd) : nat * list (option ofd) :=
  match t with
  | [] => (0%nat, [Some o])
  | None :: t' => (0%nat, Some o :: t')
  | Some o' :: t' => let '(i, t'') := fd_alloc t' o in (S i, Some o' :: t'')
  end.

Definition fd_update (fd : Z) (o : option ofd) (w : world) : world :=
  set_fds (<[Z.to_nat fd := o]> (w_fds w)) w.

(** ** Inodes *)

Definition file_type (i : inode) : Z := Z.land (i_mode i) S_IFMT.
Definition is_dir (i : inode) : bool := file_type i =? S_IFDIR.

Definition stat_of_inode (i : inode) : stat :=
  mkStat (i_mode i) (Z.of_nat (length (i_data i))) (i_blksize i)
    (i_uid i) (i_gid i) (i_atime i) (i_mtime i) (i_flags i).

Definition with_mode (m : Z) (i : inode) : inode :=
  mkInode m (i_uid i) (i_gid i) (i_atime i) (i_mtime i) (i_flags i)
    (i_blksize i) (i_data i).
Definition with_owner (u g : Z) (i : inode) : inode :=
  mkInode (i_mode i) u g (i_atime i) (i_mtime i) (i_flags i)
    (i_blksize i) (i_data i).
Definition with_times (a m : Z) (i : inode) : inode :=
  mkInode (i_mode i) (i_uid i) (i_gid i) a m (i_flags i)
    (i_blksize i) (i_data i).
Definition with_flags (f : Z) (i : inode) : inode :=
  mkInode (i_mode i) (i_uid i) (i_gid i) (i_atime i) (i_mtime i) f
    (i_blksize i) (i_data i).
Definition with_data (d : list byte) (i : inode) : inode :=
  mkInode (i_mode i) (i_uid i) (i_gid i) (i_atime i) (i_mtime i) (i_flags i)
    (i_blksize i) d.
Definition with_atime (a : Z) (i : inode) : inode := with_times a (i_mtime i) i.
Definition with_mtime (m : Z) (i : inode) : inode := with_times (i_atime i) m i.

(** Owner and other permission classes; the superuser passes every check. *)
Definition owns (w : world) (i : inode) : bool :=
  (w_euid w =? 0) || (w_euid w =? i_uid i).

Definition may_read (w : world) (i : inode) : bool :=
  (w_euid w =? 0)
  || (if w_euid w =? i_uid i then truthy (Z.land (i_mode i) S_IRUSR)
      else truthy (Z.land (i_mode i) S_IROTH)).

Definition may_write (w : world) (i : inode) : bool :=
  (w_euid w =? 0)
  || (if w_euid w =? i_uid i then truthy (Z.land (i_mode i) S_IWUSR)
      else truthy (Z.land (i_mode i) S_IWOTH)).

Definition access_ok (w : world) (i : inode) (acc : Z) : bool :=
  if acc =? O_RDONLY then may_read w i
  else if acc =? O_WRONLY then may_write w i
  else may_read w i && may_write w i.

(** A file that is created takes both time stamps from the clock. *)
Definition new_inode (w : world) (mode : Z) : inode :=
  mkInode mode (w_euid w) 0 (w_now w) (w_now w) 0 4096 [].

(** Time moves on with every time stamp the kernel hands out. *)
Definition tick (w : world) : world := set_now (w_now w + 1) w.

(** Bytes [b] stored at offset [off]; a hole before [off] reads as zeros. *)
Definition pwrite_bytes (data : list byte) (off : nat) (b : list byte) : list byte :=
  take off data ++ replicate (off - length data)%nat x00 ++ b
    ++ drop (off + length b)%nat data.

Definition resize_bytes (data : list byte) (n : nat) : list byte :=
  take n data ++ replicate (n - length data)%nat x00.

(** ** System calls.  Each returns the C return value and the new world;
       a failing call sets [errno]. *)

Definition sys_fail {A} (r : A) (e : Z) (ev : event) (w : world) : A * world :=
  (r, set_errno e (log ev w)).

Definition sys_close (fd : Z) (w : world) : Z * world :=
  match fd_lookup fd w with
  | None => sys_fail (-1) EBADF (EvClose fd (-1)) w
  | Some _ => (0, fd_update fd None (log (EvClose fd 0) w))
  end.

Definition install_fd (p : string) (oflags : Z) (ino : nat) (w : world) : Z * world :=
  let '(n, t) := fd_alloc (w_fds w) (mkOfd ino 0 (Z.land oflags O_ACCMODE)) in
  (Z.of_nat n, set_fds t (log (EvOpen p oflags (Z.of_nat n)) w)).

Definition sys_open (p : string) (oflags mode : Z) (w : world) : Z * world :=
  match w_names w !! p with
  | None =>
      if truthy (Z.land oflags O_CREAT) then
        let i := new_inode w (Z.lor S_IFREG
                   (clear_bits (Z.land mode ALLPERMS) (w_umask w))) in
        let ino := length (w_inodes w) in
        install_fd p oflags ino
          (set_names (<[p := ino]> (w_names w))
             (set_inodes (w_inodes w ++ [i]) (tick w)))
      else sys_fail (-1) ENOENT (EvOpen p oflags (-1)) w
  | Some ino =>
      if truthy (Z.land oflags O_CREAT) && truthy (Z.land oflags O_EXCL) then
        sys_fail (-1) EEXIST (EvOpen p oflags (-1)) w
      else
        match w_inodes w !! ino with
        | None => sys_fail (-1) ENOENT (EvOpen p oflags (-1)) w
        | Some i =>
            if is_dir i && negb (Z.land oflags O_ACCMODE =? O_RDONLY) then
              sys_fail (-1) EISDIR (EvOpen p oflags (-1)) w
            else if negb (access_ok w i (Z.land oflags O_ACCMODE)) then
              sys_fail (-1) EACCES (EvOpen p oflags (-1)) w
            else install_fd p oflags ino w
        end
  end.

Definition sys_stat (p : string) (w : world) : Z * option stat * world :=
  match w_names w !! p ≫= (λ ino, w_inodes w !! ino) with
  | None => (-1, None, set_errno ENOENT (log (EvStat p) w))
  | Some i => (0, Some (stat_of_inode i), log (EvStat p) w)
  end.

Definition fd_inode (fd : Z) (w : world) : option inode :=
  fd_lookup fd w ≫= (λ o, w_inodes w !! ofd_ino o).

Definition sys_fstat (fd : Z) (w : world) : Z * option stat * world :=
  match fd_inode fd w with
  | None => (-1, None, set_errno EBADF (log (EvFstat fd) w))
  | Some i => (0, Some (stat_of_inode i), log (EvFstat fd) w)
  end.

Definition sys_fstatfs (fd : Z) (w : world) : option Z :=
  match fd_inode fd w with
  | None => None
  | Some _ => w_iosize w
  end.

Definition sys_mkdir (p : string) (mode : Z) (w : world) : Z * world :=
  match w_names w !! p with
  | Some _ => sys_fail (-1) EEXIST (EvMkdir p (-1)) w
  | None =>
      let i := new_inode w (Z.lor S_IFDIR
                 (clear_bits (Z.land mode ALLPERMS) (w_umask w))) in
      let ino := length (w_inodes w) in
      (0, set_names (<[p := ino]> (w_names w))
            (set_inodes (w_inodes w ++ [i]) (tick (log (EvMkdir p 0) w))))
  end.

(** Whether a name that exists may be removed is decided by the directory
    that holds it (search and write permission, the sticky bit, a read-only
    file system, a directory that is not empty), which the flat name table
    does not record: the environment answers through [w_uscript], one entry
    per call that reaches this point; once the script is exhausted every
    removal goes through. *)
Definition removal (p : string) (ev : Z → event) (w : world) : Z * world :=
  match w_uscript w with
  | Some e :: us => sys_fail (-1) e (ev (-1)) (set_uscript us w)
  | us => (0, set_names (delete p (w_names w))
                (set_uscript (tail us) (log (ev 0) w)))
  end.

Definition sys_unlink (p : string) (w : world) : Z * world :=
  match w_names w !! p ≫= (λ ino, w_inodes w !! ino) with
  | None => sys_fail (-1) ENOENT (EvUnlink p (-1)) w
  | Some i =>
      if is_dir i then sys_fail (-1) EPERM (EvUnlink p (-1)) w
      else removal p (EvUnlink p) w
  end.

(** [remove] is [unlink] for files and [rmdir] for directories. *)
Definition sys_remove (p : string) (w : world) : Z * world :=
  match w_names w !! p with
  | None => sys_fail (-1) ENOENT (EvRemove p (-1)) w
  | Some _ => removal p (EvRemove p) w
  end.

Definition update_inode (ino : nat) (f : inode → inode) (w : world) : world :=
  set_inodes (alter f ino (w_inodes w)) w.

(** A time stamp on inode [ino]: [f] stores the clock's reading. *)
Definition touch (f : Z → inode → inode) (ino : nat) (w : world) : world :=
  tick (update_inode ino (f (w_now w)) w).

Definition chmod_bits (m : Z) (i : inode) : inode :=
  with_mode (Z.lor (Z.land (i_mode i) S_IFMT) (Z.land m ALLPERMS)) i.

Definition sys_chmod (p : string) (m : Z) (w : world) : Z * world :=
  match w_names w !! p with
  | None => sys_fail (-1) ENOENT (EvChmod p m (-1)) w
  | Some ino =>
      match w_inodes w !! ino with
      | None => sys_fail (-1) ENOENT (EvChmod p m (-1)) w
      | Some i =>
          if owns w i then (0, update_inode ino (chmod_bits m) (log (EvChmod p m 0) w))
          else sys_fail (-1) EPERM (EvChmod p m (-1)) w
      end
  end.

(** The metadata calls on a descriptor share one shape. *)
Definition sys_fmeta (ev : event) (fd : Z) (f : inode → inode) (w : world) : Z * world :=
  match fd_lookup fd w with
  | None => sys_fail (-1) EBADF ev w
  | Some o =>
      match w_inodes w !! ofd_ino o with
      | None => sys_fail (-1) EBADF ev w
      | Some i =>
          if owns w i then (0, update_inode (ofd_ino o) f (log ev w))
          else sys_fail (-1) EPERM ev w
      end
  end.

Definition sys_fchmod (fd : Z) (m : Z) (w : world) : Z * world :=
  sys_fmeta (EvFchmod fd m) fd (chmod_bits m) w.

(** [(uid_t)-1] and [(gid_t)-1] ask [fchown] to leave the id alone. *)
Definition NO_ID : Z := 4294967295.
Definition chown_id (new old : Z) : Z := if new =? NO_ID then old else new.

Definition in_group (g : Z) (w : world) : bool := bool_decide (g ∈ w_groups w).

(** Without privilege the owner of a file may not give it away, and may
    change its group only to one of the caller's own groups. *)
Definition sys_fchown (fd : Z) (u g : Z) (w : world) : Z * world :=
  match fd_inode fd w with
  | Some i =>
      let u' := chown_id u (i_uid i) in
      let g' := chown_id g (i_gid i) in
      if negb (w_euid w =? 0)
         && (negb (u' =? i_uid i) || negb ((g' =? i_gid i) || in_group g' w)) then
        sys_fail (-1) EPERM (EvFchown fd u g) w
      else sys_fmeta (EvFchown fd u g) fd (with_owner u' g') w
  | None => sys_fail (-1) EBADF (EvFchown fd u g) w
  end.

Definition sys_fchflags (fd : Z) (fl : Z) (w : world) : Z * world :=
  if w_noflags w then sys_fail (-1) EOPNOTSUPP (EvFchflags fd fl) w
  else sys_fmeta (EvFchflags fd fl) fd (with_flags fl) w.

Definition sys_futimes (fd : Z) (a m : Z) (w : world) : Z * world :=
  sys_fmeta (EvFutimes fd a m) fd (with_times a m) w.

(** One [read] transfers at most SSIZE_MAX bytes.  A [read] that asks for
    at least one byte and does not fail marks the file as accessed. *)
Definition sys_read (fd : Z) (nbyte : Z) (w : world) : Z * list byte * world :=
  match fd_lookup fd w with
  | None => (-1, [], set_errno EBADF (log (EvRead fd (-1)) w))
  | Some o =>
      match w_inodes w !! ofd_ino o with
      | None => (-1, [], set_errno EBADF (log (EvRead fd (-1)) w))
      | Some i =>
          if ofd_acc o =? O_WRONLY then
            (-1, [], set_errno EBADF (log (EvRead fd (-1)) w))
          else if is_dir i then
            (-1, [], set_errno EISDIR (log (EvRead fd (-1)) w))
          else
            match w_rscript w with
            | Some e :: rs =>
                (-1, [], set_errno e (set_rscript rs (log (EvRead fd (-1)) w)))
            | rs =>
                let avail := drop (ofd_off o) (i_data i) in
                let b := take (Z.to_nat ((nbyte `min` SSIZE_MAX)
                                           `min` Z.of_nat (length avail))) avail in
                let n := Z.of_nat (length b) in
                let w1 := set_rscript (tail rs) (log (EvRead fd n) w) in
                (n, b,
                 fd_update fd
                   (Some (mkOfd (ofd_ino o) (ofd_off o + length b) (ofd_acc o)))
                   (if 0 <? nbyte then touch with_atime (ofd_ino o) w1 else w1))
            end
      end
  end.

(** A [write] that stores at least one byte marks the file as modified. *)
Definition sys_write (fd : Z) (b : list byte) (w : world) : Z * world :=
  match fd_lookup fd w with
  | None => sys_fail (-1) EBADF (EvWrite fd (-1)) w
  | Some o =>
      match w_inodes w !! ofd_ino o with
      | None => sys_fail (-1) EBADF (EvWrite fd (-1)) w
      | Some i =>
          if ofd_acc o =? O_RDONLY then sys_fail (-1) EBADF (EvWrite fd (-1)) w
          else
            match w_wscript w with
            | WErr e :: ws =>
                (-1, set_errno e (set_wscript ws (log (EvWrite fd (-1)) w)))
            | ws =>
                let k := match ws with
                         | WAccept k :: _ => (k `min` length b)%nat
                         | _ => length b
                         end in
                let n := Z.of_nat k in
                let w1 := update_inode (ofd_ino o)
                            (with_data (pwrite_bytes (i_data i) (ofd_off o) (take k b)))
                            (set_wscript (tail ws) (log (EvWrite fd n) w)) in
                (n,
                 fd_update fd
                   (Some (mkOfd (ofd_ino o) (ofd_off o + k) (ofd_acc o)))
                   (if 0 <? n then touch with_mtime (ofd_ino o) w1 else w1))
            end
      end
  end.

(** [ftruncate] marks the file as modified, also when the length stays. *)
Definition sys_ftruncate (fd : Z) (len : Z) (w : world) : Z * world :=
  match fd_lookup fd w with
  | None => sys_fail (-1) EBADF (EvFtruncate fd len) w
  | Some o =>
      match w_inodes w !! ofd_ino o with
      | None => sys_fail (-1) EBADF (EvFtruncate fd len) w
      | Some i =>
          if (ofd_acc o =? O_RDONLY) || (len <? 0) then
            sys_fail (-1) EINVAL (EvFtruncate fd len) w
          else
            (0, touch with_mtime (ofd_ino o)
                  (update_inode (ofd_ino o)
                     (with_data (resize_bytes (i_data i) (Z.to_nat len)))
                     (log (EvFtruncate fd len) w)))
      end
  end.

(** [malloc], [calloc], [strdup]: succeed while the budget lasts. *)
Definition sys_alloc (w : world) : bool * world :=
  match w_mem w with
  | O => (false, set_errno ENOMEM w)
  | S n => (true, set_mem n w)
  end.

Definition copyfile_warn (msg : string) (w : world) : world := log (EvWarn msg) w.

(** ** The C library's [strtol(e, NULL, 0)], as BSD libc documents it:
       leading white space, an optional sign, base 16 after [0x], base 8
       after [0], base 10 otherwise; no digits: 0 with EINVAL; out of range:
       LONG_MAX or LONG_MIN with ERANGE.  The second component is the value
       [errno] is set to, if any. *)

Definition isspace (c : ascii) : bool :=
  let n := nat_of_ascii c in
  (n =? 32)%nat || ((9 <=? n)%nat && (n <=? 13)%nat).

Definition digit_val (c : ascii) : option Z :=
  let n := Z.of_nat (nat_of_ascii c) in
  if (48 <=? n) && (n <=? 57) then Some (n - 48)
  else if (97 <=? n) && (n <=? 122) then Some (n - 87)
  else if (65 <=? n) && (n <=? 90) then Some (n - 55)
  else None.

Fixpoint skip_space (e : string) : string :=
  match e with
  | String c e' => if isspace c then skip_space e' else e
  | EmptyString => e
  end.

(** Accumulated value of the longest digit prefix, and whether it is
    non-empty. *)
Fixpoint strtol_digits (base : Z) (e : string) (acc : Z) (any : bool) : Z * bool :=
  match e with
  | String c e' =>
      match digit_val c with
      | Some d => if d <? base then strtol_digits base e' (acc * base + d) true
                  else (acc, any)
      | None => (acc, any)
      end
  | EmptyString => (acc, any)
  end.

Definition is_hex_digit (e : string) : bool :=
  match e with
  | String c _ => match digit_val c with Some d => d <? 16 | None => false end
  | EmptyString => false
  end.

Definition strtol_unsigned (e : string) : Z * bool :=
  match e with
  | String "0" (String x e') =>
      if (Ascii.eqb x "x" || Ascii.eqb x "X") && is_hex_digit e'
      then strtol_digits 16 e' 0 false
      else strtol_digits 8 e 0 false
  | String "0" _ => strtol_digits 8 e 0 false
  | _ => strtol_digits 10 e 0 false
  end.

(** White space and sign are skipped, then the digits are scanned: the
    sign, the accumulated magnitude, and whether any digit was converted. *)
Definition strtol_scan (e : string) : bool * (Z * bool) :=
  let e1 := skip_space e in
  match e1 with
  | String "-" e' => (true, strtol_unsigned e')
  | String "+" e' => (false, strtol_unsigned e')
  | _ => (false, strtol_unsigned e1)
  end.

Definition strtol (e : string) : Z * option Z :=
  let '(neg, (acc, any)) := strtol_scan e in
  if negb any then (0, Some EINVAL)
  else
    let v := if neg then - acc else acc in
    if v >? LONG_MAX then (LONG_MAX, Some ERANGE)
    else if v <? LONG_MIN then (LONG_MIN, Some ERANGE)
    else (v, None).

(** The override is parseable as an integer when at least one digit is
    converted. *)
Definition parseable (e : string) : bool := snd (snd (strtol_scan e)).

(** The integer a parseable override denotes: the digits converted, with
    their sign, before [strtol] forces the value into a [long]. *)
Definition denoted (e : string) : Z :=
  let '(neg, (acc, _)) := strtol_scan e in if neg then - acc else acc.

(** [strncmp]: difference of the first differing characters among the
    first [n]. *)
Fixpoint strncmp (a b : string) (n : nat) : Z :=
  match n with
  | O => 0
  | S n' =>
      match a, b with
      | EmptyString, EmptyString => 0
      | EmptyString, String d _ => - Z.of_nat (nat_of_ascii d)
      | String c _, EmptyString => Z.of_nat (nat_of_ascii c)
      | String c a', String d b' =>
          if Ascii.eqb c d then strncmp a' b' n'
          else Z.of_nat (nat_of_ascii c) - Z.of_nat (nat_of_ascii d)
      end
  end.

Definition strdup (p : string) (w : world) : option string * world :=
  let '(ok, w1) := sys_alloc w in
  if ok then (Some p, w1) else (None, w1).

(** ** copyfile.h *)

(** Modelled from the spec: the header [copyfile.h] is not among the
    sources.  Its flag bits and field selectors are parameters of the
    development; the selectors are the labels of a C [switch], hence
    pairwise distinct. *)
Class copyfile_h := {
  COPYFILE_STAT : Z;
  COPYFILE_DATA : Z;
  COPYFILE_EXCL : Z;
  COPYFILE_UNLINK : Z;
  COPYFILE_NOFOLLOW_DST : Z;
  COPYFILE_STATE_SRC_FD : Z;
  COPYFILE_STATE_SRC_FILENAME : Z;
  COPYFILE_STATE_DST_FD : Z;
  COPYFILE_STATE_DST_FILENAME : Z;
  state_selectors_distinct :
    NoDup [COPYFILE_STATE_SRC_FD; COPYFILE_STATE_DST_FD;
           COPYFILE_STATE_SRC_FILENAME; COPYFILE_STATE_DST_FILENAME]
}.

Definition COPYFILE_DEBUG : Z := Z.shiftl 1 31.

(** [struct _copyfile_state]; the unused [stats] and [callbacks] pointers
    are left out.  A [copyfile_state_t] is an [option]: [None] is NULL. *)
Record copyfile_state := mkState {
  src : option string;
  dst : option string;
  src_fd : Z;
  dst_fd : Z;
  sb : stat;
  flags : Z;
  debug : Z
}.

Definition set_src (p : option string) (s : copyfile_state) : copyfile_state :=
  mkState p (dst s) (src_fd s) (dst_fd s) (sb s) (flags s) (debug s).
Definition set_dst (p : option string) (s : copyfile_state) : copyfile_state :=
  mkState (src s) p (src_fd s) (dst_fd s) (sb s) (flags s) (debug s).
Definition set_src_fd (fd : Z) (s : copyfile_state) : copyfile_state :=
  mkState (src s) (dst s) fd (dst_fd s) (sb s) (flags s) (debug s).
Definition set_dst_fd (fd : Z) (s : copyfile_state) : copyfile_state :=
  mkState (src s) (dst s) (src_fd s) fd (sb s) (flags s) (debug s).
Definition set_sb (b : stat) (s : copyfile_state) : copyfile_state :=
  mkState (src s) (dst s) (src_fd s) (dst_fd s) b (flags s) (debug s).
Definition set_flags (f : Z) (s : copyfile_state) : copyfile_state :=
  mkState (src s) (dst s) (src_fd s) (dst_fd s) (sb s) f (debug s).
Definition set_debug (d : Z) (s : copyfile_state) : copyfile_state :=
  mkState (src s) (dst s) (src_fd s) (dst_fd s) (sb s) (flags s) d.

(** The object a [const void *thing] points at, as read through [int *]
    and through [char *]. *)
Record thing_t := mkThing {
  thing_int : Z;
  thing_str : string
}.

(** What [copyfile_state_get] writes through its output pointer. *)
Inductive got :=
  | GotInt (i : Z)
  | GotStr (p : option string).

Section Copyfile.
Context `{hdr : copyfile_h}.

(** [copyfile_state_alloc] (lines 329-341). *)
Definition copyfile_state_alloc (w : world) : option copyfile_state * world :=
  let '(ok, w1) := sys_alloc w in
  if ok then (Some (mkState None None (-2) (-2) zero_stat 0 0), w1)
  else (None, set_errno ENOMEM w1).

(** [copyfile_close] (lines 370-381). *)
Definition copyfile_close (s : copyfile_state) (w : world) : Z * world :=
  let w1 :=
    if bool_decide (is_Some (src s)) && (src_fd s >=? 0)
    then snd (sys_close (src_fd s) w) else w in
  if bool_decide (is_Some (dst s)) && (dst_fd s >=? 0) then
    let '(r, w2) := sys_close (dst_fd s) w1 in
    if truthy r then (-1, w2) else (0, w2)
  else (0, w1).

(** [copyfile_state_free] (lines 347-364). *)
Definition copyfile_state_free (s : option copyfile_state) (w : world) : Z * world :=
  match s with
  | Some s =>
      let '(r, w1) := copyfile_close s w in
      if r <? 0 then (-1, copyfile_warn "error closing files" w1)
      else (0, w1)
  | None => (0, w)
  end.

(** [copyfile_preamble] (lines 239-278).  The state pointer it may have
    allocated is returned next to the C return value. *)
Definition copyfile_preamble (state : option copyfile_state) (flags : Z) (w : world)
  : Z * option copyfile_state * world :=
  let '(state, w) :=
    match state with
    | None => copyfile_state_alloc w
    | Some _ => (state, w)
    end in
  match state with
  | None => (-1, None, w)
  | Some s =>
      let '(s, w) :=
        if truthy (Z.land COPYFILE_DEBUG flags) then
          match w_env w with
          | Some e =>
              let w := set_errno 0 w in
              let '(v, err) := strtol e in
              let w := match err with Some x => set_errno x w | None => w end in
              let s := set_debug (to_uint32 v) s in
              if (debug s =? 0) && negb (w_errno w =? 0)
              then (set_debug 1 s, w) else (s, w)
          | None => (s, w)
          end
        else (s, w) in
      (0, Some (set_flags flags s), w)
  end.

(** The macro [COPYFILE_SET_FNAME] (lines 193-211), on the path [name]
    given by the caller and the pair of members [S->NAME], [S->NAME_fd].
    The boolean tells whether the macro makes [copyfile] return -1. *)
Definition COPYFILE_SET_FNAME (name : option string)
    (s_name : option string) (s_fd : Z) (w : world)
  : bool * option string * Z * world :=
  match name with
  | Some n =>
      let '(s_fd, w) :=
        match s_name with
        | Some old =>
            if truthy (strncmp n old (Z.to_nat MAXPATHLEN)) then
              if negb (s_fd =? -2) && (s_fd >? -1)
              then (-2, snd (sys_close s_fd w))
              else (s_fd, w)
            else (s_fd, w)
        | None => (s_fd, w)
        end in
      let '(s_name, w) := strdup n w in
      match s_name with
      | None => (true, None, s_fd, w)
      | Some _ => (false, s_name, s_fd, w)
      end
  | None => (false, s_name, s_fd, w)
  end.

(** The destination [open] loop of [copyfile_open] (lines 460-492): one
    unit of fuel per attempt. *)
Fixpoint open_dst_loop (fuel : nat) (isdir : bool) (dsrc oflags : Z) (p : string)
    (s : copyfile_state) (w : world) : option (Z * copyfile_state * world) :=
  match fuel with
  | O => None
  | S fuel =>
      let '(fd, w) := sys_open p (Z.lor oflags dsrc)
                        (Z.lor (st_mode (sb s)) S_IWUSR) w in
      let s := set_dst_fd fd s in
      if fd <? 0 then
        let abort := Some (-1, s, copyfile_warn "open on dst" w) in
        if w_errno w =? EEXIST then
          if truthy (Z.land (flags s) COPYFILE_EXCL) then abort
          else open_dst_loop fuel isdir dsrc (clear_bits oflags O_CREAT) p s w
        else if w_errno w =? EACCES then
          let '(r, w) := sys_chmod p
                           (clear_bits (Z.lor (st_mode (sb s)) S_IWUSR) S_IFMT) w in
          if r =? 0 then open_dst_loop fuel isdir dsrc oflags p s w
          else Some (-1, s, copyfile_warn "open on dst" w)
        else if w_errno w =? EISDIR then
          if truthy (Z.land (flags s) COPYFILE_EXCL)
             || (negb isdir && truthy (Z.land (flags s) COPYFILE_DATA))
          then abort
          else open_dst_loop fuel isdir dsrc
                 (Z.lor (clear_bits oflags O_WRONLY) O_RDONLY) p s w
        else abort
      else Some (0, s, w)
  end.

(** The second half of [copyfile_open] (lines 426-503): the destination
    is opened or created, then both descriptors are checked.  [isdir] is the
    local variable set while the source was examined. *)
Definition copyfile_open_dst (fuel : nat) (isdir : bool) (s : copyfile_state)
    (w : world) : option (Z * copyfile_state * world) :=
  let oflags := Z.lor (Z.lor O_EXCL O_CREAT) O_WRONLY in
  let finish (s : copyfile_state) (w : world) :=
    if (dst_fd s <? 0) || (src_fd s <? 0)
    then Some (-1, s, set_errno EINVAL w) else Some (0, s, w) in
  match dst s with
  | Some d =>
      if dst_fd s =? -2 then
        let '(stop, w) :=
          if truthy (Z.land COPYFILE_UNLINK (flags s)) then
            let '(r, w) := sys_remove d w in
            if (r <? 0) && negb (w_errno w =? ENOENT)
            then (true, copyfile_warn "remove" w) else (false, w)
          else (false, w) in
        if stop then Some (-1, s, w)
        else
          let dsrc := if truthy (Z.land (flags s) COPYFILE_NOFOLLOW_DST)
                      then O_NOFOLLOW else 0 in
          if isdir then
            let mode := clear_bits (st_mode (sb s)) S_IFMT in
            let '(r, w) := sys_mkdir d mode w in
            if (r =? -1) && (negb (w_errno w =? EEXIST)
                             || truthy (Z.land (flags s) COPYFILE_EXCL))
            then Some (-1, s, copyfile_warn "Cannot make directory" w)
            else
              let '(fd, w) := sys_open d (Z.lor O_RDONLY dsrc) 0 w in
              let s := set_dst_fd fd s in
              if fd =? -1
              then Some (-1, s, copyfile_warn "Cannot open directory for reading" w)
              else finish s w
          else
            match open_dst_loop fuel isdir dsrc oflags d s w with
            | None => None
            | Some (r, s, w) => if r <? 0 then Some (r, s, w) else finish s w
            end
      else finish s w
  | None => finish s w
  end.

(** [copyfile_open] (lines 389-504): the source is examined and opened
    (lines 395-424), then [copyfile_open_dst] takes over. *)
Definition copyfile_open (fuel : nat) (s : copyfile_state) (w : world)
  : option (Z * copyfile_state * world) :=
  let osrc := 0 in
  match src s with
  | Some p =>
      if src_fd s =? -2 then
        let '(r, st, w) := sys_stat p w in
        let s := match st with Some b => set_sb b s | None => s end in
        if r <? 0 then Some (-1, s, copyfile_warn "stat on src" w)
        else
          let fmt := Z.land (st_mode (sb s)) S_IFMT in
          if negb (fmt =? S_IFDIR) && negb (fmt =? S_IFREG)
          then Some (-1, s, set_errno ENOTSUP w)
          else
            let isdir := fmt =? S_IFDIR in
            let '(fd, w) := sys_open p (Z.lor O_RDONLY osrc) 0 w in
            let s := set_src_fd fd s in
            if fd <? 0 then Some (-1, s, copyfile_warn "open on src" w)
            else copyfile_open_dst fuel isdir s w
      else copyfile_open_dst fuel false s w
  | None => copyfile_open_dst fuel false s w
  end.

(** The inner [while (left > 0)] loop of [copyfile_data] (lines 552-573).
    [loop] is declared in the loop body, so every iteration starts it at 0.
    The result is the value of [ret] when the loop is left: 0 when the block
    is written, -1 on [goto exit]. *)
Fixpoint write_block (fuel : nat) (fd : Z) (bp : list byte) (ptr : nat) (left : Z)
    (w : world) : option (Z * world) :=
  if left >? 0 then
    match fuel with
    | O => None
    | S fuel =>
        let loop := 0 in
        let '(r, w) := sys_write fd (take (Z.to_nat left) (drop ptr bp)) w in
        let nwritten := to_size_t r in
        if nwritten =? 0 then
          let loop := loop + 1 in
          if loop >? 5 then
            Some (-1, set_errno EAGAIN
                        (copyfile_warn "writing to output resulted in 0 bytes written" w))
          else write_block fuel fd bp ptr left w
        else if nwritten =? to_size_t (-1) then
          Some (-1, copyfile_warn "writing to output file got error" w)
        else
          write_block fuel fd bp (ptr + Z.to_nat nwritten)
            (to_size_t (left - nwritten)) w
    end
  else Some (0, w).

(** The outer [while ((nread = read(...)) > 0)] loop (lines 546-574); the
    result carries [ret] and the last [nread]. *)
Fixpoint read_loop (fuel : nat) (s : copyfile_state) (blen : Z) (w : world)
  : option (Z * Z * world) :=
  match fuel with
  | O => None
  | S fuel =>
      let '(nread, bp, w) := sys_read (src_fd s) blen w in
      if nread >? 0 then
        match write_block fuel (dst_fd s) bp 0 (to_size_t nread) w with
        | None => None
        | Some (ret, w) =>
            if ret <? 0 then Some (ret, nread, w) else read_loop fuel s blen w
        end
      else Some (0, nread, w)
  end.

(** [copyfile_data] (lines 512-590).  F_PREALLOCATE is not defined on the
    target system, and where it is the request is advisory and leaves the
    file's length alone. *)
Definition copyfile_data (fuel : nat) (s : copyfile_state) (w : world)
  : option (Z * world) :=
  let iBlocksize :=
    match sys_fstatfs (src_fd s) w with
    | None => to_size_t (st_blksize (sb s))
    | Some io => to_size_t io
    end in
  let '(ok, w) := sys_alloc w in
  if negb ok then Some (-1, w)
  else
    let blen := iBlocksize in
    match read_loop fuel s blen w with
    | None => None
    | Some (ret, nread, w) =>
        if ret <? 0 then Some (ret, w)
        else if nread <? 0 then Some (ret, copyfile_warn "reading from src" w)
        else
          let '(r, w) := sys_ftruncate (dst_fd s) (st_size (sb s)) w in
          if r <? 0 then Some (-1, w) else Some (ret, w)
    end.

(** [copyfile_stat] (lines 596-621). *)
Definition copyfile_stat (s : copyfile_state) (w : world) : Z * world :=
  let '(r, w) := sys_fchflags (dst_fd s) (to_uint32 (st_flags (sb s))) w in
  let w :=
    if truthy r && (negb (w_errno w =? EOPNOTSUPP) || negb (st_flags (sb s) =? 0))
    then copyfile_warn "set flags" w else w in
  let w := snd (sys_fchown (dst_fd s) (st_uid (sb s)) (st_gid (sb s)) w) in
  let w := snd (sys_fchmod (dst_fd s) (clear_bits (st_mode (sb s)) S_IFMT) w) in
  let '(r, w) := sys_futimes (dst_fd s) (st_atime (sb s)) (st_mtime (sb s)) w in
  let w := if truthy r then copyfile_warn "set times" w else w in
  (0, w).

(** [copyfile_internal] (lines 285-324). *)
Definition copyfile_internal (fuel : nat) (s : copyfile_state) (flags : Z) (w : world)
  : option (Z * world) :=
  if (dst_fd s <? 0) || (src_fd s <? 0) then Some (-1, set_errno EINVAL w)
  else
    let stat_step (w : world) :=
      if truthy (Z.land COPYFILE_STAT flags) then
        let '(ret, w) := copyfile_stat s w in
        if ret <? 0
        then Some (ret, copyfile_warn "error processing POSIX information" w)
        else Some (ret, w)
      else Some (0, w) in
    if truthy (Z.land COPYFILE_DATA flags) then
      match copyfile_data fuel s w with
      | None => None
      | Some (ret, w) =>
          if ret <? 0 then
            let w := copyfile_warn "error processing data" w in
            match dst s with
            | Some d =>
                let '(r, w) := sys_unlink d w in
                if truthy r then Some (ret, copyfile_warn "remove" w)
                else Some (ret, w)
            | None => Some (ret, w)
            end
          else
            if truthy (Z.land COPYFILE_STAT flags) then stat_step w
            else Some (ret, w)
      end
    else stat_step w.

(** [copyfile] (lines 167-232).  The third component is the caller's
    state pointer after the call. *)
Definition copyfile (fuel : nat) (src' dst' : option string)
    (state : option copyfile_state) (flags : Z) (w : world)
  : option (Z * option copyfile_state * world) :=
  if bool_decide (src' = None) && bool_decide (dst' = None)
  then Some (-1, state, set_errno EINVAL w)
  else
    let caller (s : copyfile_state) :=
      match state with Some _ => Some s | None => None end in
    match copyfile_preamble state flags w with
    | (r, Some s, w) =>
        if r <? 0 then Some (-1, caller s, w)
        else
          let '(stop, n, fd, w) := COPYFILE_SET_FNAME src' (src s) (src_fd s) w in
          let s := set_src_fd fd (set_src n s) in
          if stop then Some (-1, caller s, w)
          else
            let '(stop, n, fd, w) := COPYFILE_SET_FNAME dst' (dst s) (dst_fd s) w in
            let s := set_dst_fd fd (set_dst n s) in
            if stop then Some (-1, caller s, w)
            else
              match copyfile_open fuel s w with
              | None => None
              | Some (ret, s, w) =>
                  let run :=
                    if ret <? 0 then Some (-1, w)
                    else copyfile_internal fuel s flags w in
                  match run with
                  | None => None
                  | Some (ret, w) =>
                      match state with
                      | None => Some (ret, None, snd (copyfile_state_free (Some s) w))
                      | Some _ => Some (ret, Some s, w)
                      end
                  end
              end
    | (_, None, w) => Some (-1, None, w)
    end.

(** [fcopyfile] (lines 105-159).  When [fstat] on the destination fails,
    [dst_sb] keeps the indeterminate contents of an uninitialised local,
    here [zero_stat]; the [fchmod] calls then fail on the same descriptor. *)
Definition fcopyfile (fuel : nat) (src_fd' dst_fd' : Z)
    (state : option copyfile_state) (flags' : Z) (w : world)
  : option (Z * option copyfile_state * world) :=
  if (src_fd' <? 0) || (dst_fd' <? 0)
  then Some (-1, state, set_errno EINVAL w)
  else
    let caller (s : copyfile_state) :=
      match state with Some _ => Some s | None => None end in
    match copyfile_preamble state flags' w with
    | (r, Some s, w) =>
        if r <? 0 then Some (-1, caller s, w)
        else
          let s := if (src_fd s =? -2) && (src_fd' >? -1)
                   then set_src_fd src_fd' s else s in
          let '(_, st, w) := sys_fstat (src_fd s) w in
          let s := match st with Some b => set_sb b s | None => s end in
          let fmt := Z.land (st_mode (sb s)) S_IFMT in
          if negb (fmt =? S_IFLNK) && negb (fmt =? S_IFDIR) && negb (fmt =? S_IFREG)
          then Some (-1, caller s, set_errno ENOTSUP w)
          else
            let s := if (dst_fd s =? -2) && (dst_fd' >? -1)
                     then set_dst_fd dst_fd' s else s in
            let '(_, st, w) := sys_fstat (dst_fd s) w in
            let dst_sb := match st with Some b => b | None => zero_stat end in
            let w := snd (sys_fchmod (dst_fd s)
                            (Z.lor (clear_bits (st_mode dst_sb) S_IFMT)
                                   (Z.lor S_IRUSR S_IWUSR)) w) in
            match copyfile_internal fuel s flags' w with
            | None => None
            | Some (ret, w) =>
                let w :=
                  if (ret >=? 0) && negb (truthy (Z.land (flags s) COPYFILE_STAT))
                  then snd (sys_fchmod (dst_fd s) (clear_bits (st_mode dst_sb) S_IFMT) w)
                  else w in
                match state with
                | None => Some (ret, None, snd (copyfile_state_free (Some s) w))
                | Some _ => Some (ret, Some s, w)
                end
            end
    | (_, None, w) => Some (-1, None, w)
    end.

(** The macro [copyfile_set_string] (lines 670-680). *)
Definition copyfile_set_string (DST : option string) (SRC : option string)
    (w : world) : option string * world :=
  match SRC with
  | Some p => strdup p w
  | None => (None, w)
  end.

(** [copyfile_state_set] (lines 668-716); [thing = None] is a NULL pointer. *)
Definition copyfile_state_set (s : copyfile_state) (flag : Z) (thing : option thing_t)
    (w : world) : Z * copyfile_state * world :=
  match thing with
  | None => (-1, s, set_errno EFAULT w)
  | Some t =>
      if flag =? COPYFILE_STATE_SRC_FD then (0, set_src_fd (thing_int t) s, w)
      else if flag =? COPYFILE_STATE_DST_FD then (0, set_dst_fd (thing_int t) s, w)
      else if flag =? COPYFILE_STATE_SRC_FILENAME then
        let '(p, w) := copyfile_set_string (src s) (thing_str <$> thing) w in
        (0, set_src p s, w)
      else if flag =? COPYFILE_STATE_DST_FILENAME then
        let '(p, w) := copyfile_set_string (dst s) (thing_str <$> thing) w in
        (0, set_dst p s, w)
      else (-1, s, set_errno EINVAL w)
  end.

(** [copyfile_state_get] (lines 626-662).  [ret] says whether the output
    pointer is non-null; the second component is what the call stores
    through it, if anything: an [int] or a [char *] ([None] is NULL). *)
Definition copyfile_state_get (s : copyfile_state) (flag : Z) (ret : bool)
    (w : world) : Z * option got * world :=
  if negb ret then (-1, None, set_errno EFAULT w)
  else if flag =? COPYFILE_STATE_SRC_FD then (0, Some (GotInt (src_fd s)), w)
  else if flag =? COPYFILE_STATE_DST_FD then (0, Some (GotInt (dst_fd s)), w)
  else if flag =? COPYFILE_STATE_SRC_FILENAME then (0, Some (GotStr (src s)), w)
  else if flag =? COPYFILE_STATE_DST_FILENAME then (0, Some (GotStr (dst s)), w)
  else (-1, None, set_errno EINVAL w).

End Copyfile.

(** ** A concrete header and concrete worlds, used to run the model *)

(** The constants of Darwin's [copyfile.h]. *)
Definition darwin_copyfile_h : copyfile_h :=
  {| COPYFILE_STAT := 2; COPYFILE_DATA := 8; COPYFILE_EXCL := 131072;
     COPYFILE_UNLINK := 2097152; COPYFILE_NOFOLLOW_DST := 524288;
     COPYFILE_STATE_SRC_FD := 1; COPYFILE_STATE_SRC_FILENAME := 2;
     COPYFILE_STATE_DST_FD := 3; COPYFILE_STATE_DST_FILENAME := 4;
     state_selectors_distinct :=
       bool_decide_eq_true_1 (NoDup [1; 3; 2; 4]) eq_refl |}.

Definition regular (mode : Z) (d : list byte) : inode :=
  mkInode (Z.lor S_IFREG mode) 1000 1000 7 9 0 4096 d.

(** Two regular files: "a" holds three bytes, "b" five; nothing is open. *)
Definition two_files : world :=
  mkWorld (<["a" := 0%nat]> (<["b" := 1%nat]> ∅))
    [regular 420 [x01; x02; x03]; regular 420 [x09; x09; x09; x09; x09]]
    [] 0 1000 18 (Some 2) false None 10 [] [] [] 100 [1000] [].

(** The same files with "a" open for reading on descriptor 0 and "b" open
    for writing on descriptor 1. *)
Definition two_open_files : world :=
  set_fds [Some (mkOfd 0 0 O_RDONLY); Some (mkOfd 1 0 O_WRONLY)] two_files.

(** A handle on the two open files, without and with path strings. *)
Definition fd_handle : copyfile_state :=
  mkState None None 0 1 (stat_of_inode (regular 420 [x01; x02; x03])) 0 0.
Definition path_handle : copyfile_state :=
  set_dst (Some "b") (set_src (Some "a") fd_handle).

Definition file_data (p : string) (w : world) : option (list byte) :=
  i_data <$> (w_names w !! p ≫= (λ ino, w_inodes w !! ino)).

(** Number of [write] calls in a trace that returned 0. *)
Fixpoint stalled_writes (t : list event) : nat :=
  match t with
  | EvWrite _ r :: t' => ((if (r =? 0)%Z then 1 else 0) + stalled_writes t')%nat
  | _ :: t' => stalled_writes t'
  | [] => 0%nat
  end.

(** Number of [unlink] and [remove] calls in a trace, and number of calls
    of the STAT step ([fchflags], [fchown], [fchmod], [futimes]). *)
Fixpoint removals (t : list event) : nat :=
  match t with
  | EvUnlink _ _ :: t' | EvRemove _ _ :: t' => S (removals t')
  | _ :: t' => removals t'
  | [] => 0%nat
  end.

Fixpoint stat_calls (t : list event) : nat :=
  match t with
  | EvFchflags _ _ :: t' | EvFchown _ _ _ :: t' | EvFchmod _ _ :: t'
  | EvFutimes _ _ _ :: t' => S (stat_calls t')
  | _ :: t' => stat_calls t'
  | [] => 0%nat
  end.

(** A file of type [ty] with permission bits [mode], owned by [uid]. *)
Definition file_of (ty mode uid : Z) (d : list byte) : inode :=
  mkInode (Z.lor ty mode) uid uid 7 9 0 4096 d.

Definition S_IFIFO : Z := 4096.    (* 0010000 *)

(** More kinds of files, for the caller 1000 with umask 022: the two regular
    files of [two_files]; "d", a directory 0755 of the caller's; "p", a FIFO;
    "r", a file 0444 of the superuser's; "o", a file 0044 of the superuser's,
    which the caller reads through the bits for others; "x", a directory 0300
    of the caller's, which the caller may not read. *)
Definition mixed_files : world :=
  mkWorld (<["a" := 0%nat]> (<["b" := 1%nat]> (<["d" := 2%nat]> (<["p" := 3%nat]>
            (<["r" := 4%nat]> (<["o" := 5%nat]> (<["x" := 6%nat]> ∅)))))))
    [regular 420 [x01; x02; x03]; regular 420 [x09; x09; x09; x09; x09];
     file_of S_IFDIR 493 1000 []; file_of S_IFIFO 420 1000 [];
     file_of S_IFREG 292 0 [x05]; file_of S_IFREG 36 0 [x06];
     file_of S_IFDIR 192 1000 []]
    [] 0 1000 18 (Some 2) false None 10 [] [] [] 100 [1000] [].

(** The same with "a" open for reading on 0, "b" for writing on 1, the
    FIFO "p" for reading on 2 and "r" for writing on 3. *)
Definition mixed_open_files : world :=
  set_fds [Some (mkOfd 0 0 O_RDONLY); Some (mkOfd 1 0 O_WRONLY);
           Some (mkOfd 3 0 O_RDONLY); Some (mkOfd 4 0 O_WRONLY)] mixed_files.


(** [two_open_files] on a file system that reports a transfer size of 0. *)
Definition zero_iosize_files : world :=
  mkWorld (w_names two_files) (w_inodes two_files) (w_fds two_open_files) 0 1000 18
    (Some 0) false None 10 [] [] [] 100 [1000] [].

(** The world [two_files] with COPYFILE_DEBUG set to [e] in the environment. *)
Definition two_files_env (e : string) : world :=
  mkWorld (w_names two_files) (w_inodes two_files) (w_fds two_files) 0 1000 18
    (Some 2) false (Some e) 10 [] [] [] 100 [1000] [].

(** ** The footprint of a data transfer *)

(** The two descriptors of a transfer, the inodes behind them, their
    access modes and the source inode. *)
Record xfer := mkXfer {
  x_src_fd : Z;
  x_dst_fd : Z;
  x_src_ino : nat;
  x_dst_ino : nat;
  x_src_acc : Z;
  x_dst_acc : Z;
  x_src : inode
}.

Definition xfer_ok (x : xfer) : Prop :=
  x_src_fd x ≠ x_dst_fd x ∧ x_src_ino x ≠ x_dst_ino x
  ∧ x_src_acc x ≠ O_WRONLY ∧ x_dst_acc x ≠ O_RDONLY
  ∧ is_dir (x_src x) = false.

(** Loop invariant of [copyfile_data]: the source has been read up to
    offset [ks], the destination written up to [kd], the source is the file
    it was up to its access time, and the first [kd] bytes of the destination
    are those of the source; source reads do not fail. *)
Definition copy_inv (x : xfer) (ks kd : nat) (w : world) : Prop :=
  fd_lookup (x_src_fd x) w = Some (mkOfd (x_src_ino x) ks (x_src_acc x))
  ∧ fd_lookup (x_dst_fd x) w = Some (mkOfd (x_dst_ino x) kd (x_dst_acc x))
  ∧ (∃ t, w_inodes w !! x_src_ino x = Some (with_atime t (x_src x)))
  ∧ (∃ i, w_inodes w !! x_dst_ino x = Some i
          ∧ take kd (i_data i) = take kd (i_data (x_src x)))
  ∧ (kd ≤ length (i_data (x_src x)))%nat
  ∧ Forall (λ e, e = None) (w_rscript w).

(** The environment answers no [write] with an error (short and stalled
    writes are allowed). *)
Definition no_write_error (w : world) : Prop :=
  Forall (λ r, ∃ k, r = WAccept k) (w_wscript w).

Definition data_of (ino : nat) (w : world) : option (list byte) :=
  i_data <$> w_inodes w !! ino.

(** The scripts and parameters of the environment are the same in both
    worlds. *)
Definition same_env (w w' : world) : Prop :=
  w_rscript w' = w_rscript w ∧ w_wscript w' = w_wscript w
  ∧ w_iosize w' = w_iosize w ∧ w_mem w' = w_mem w
  ∧ w_euid w' = w_euid w ∧ w_umask w' = w_umask w.

(** While the destination [d] is being opened: the source [p] is open
    read-only on [fs] at offset 0, its inode is in place, the destination
    path is not (or no longer) a name of the source, and the source path, if
    it is another path, still names the source. *)
Definition src_held (fs : Z) (ino : nat) (isrc : inode) (p d : string) (w : world) : Prop :=
  fd_lookup fs w = Some (mkOfd ino 0 O_RDONLY)
  ∧ w_inodes w !! ino = Some isrc
  ∧ w_names w !! d ≠ Some ino
  ∧ (p ≠ d → w_names w !! p = Some ino).


(** Same path table and same file contents. *)
Definition same_content (w w' : world) : Prop :=
  w_names w' = w_names w ∧ ∀ ino, data_of ino w' = data_of ino w.

(** The errno of the next removal of an existing name, if the environment
    refuses it. *)
Definition removal_refused (w : world) : option Z :=
  match w_uscript w with
  | Some e :: _ => Some e
  | _ => None
  end.

(** Whether the environment refuses the removal after the next one. *)
Definition cleanup_refused (w : world) : bool :=
  match tail (w_uscript w) with
  | Some _ :: _ => true
  | _ => false
  end.

(** A destination the open loop gets through: nothing is there, or UNLINK
    is set and the removal is not refused, or UNLINK and EXCL are not set and
    what is there is a file the caller may write. *)
Definition dst_ready (unlink excl : bool) (d : string) (w : world) : Prop :=
  w_names w !! d = None
  ∨ (unlink = true ∧ removal_refused w = None)
  ∨ (unlink = false
     ∧ ∃ id i, w_names w !! d = Some id ∧ w_inodes w !! id = Some i
         ∧ is_dir i = false ∧ may_write w i = true ∧ excl = false).

(** Every file of [w] has the same bytes in [w'] (files may have been
    added, and other attributes may differ). *)
Definition contents_kept (w w' : world) : Prop :=
  ∀ ino i, w_inodes w !! ino = Some i → data_of ino w' = Some (i_data i).

(** Two states of one descriptor slot that agree on the file and on the
    access mode; the offset may differ. *)
Definition same_file (x y : option ofd) : Prop :=
  ofd_ino <$> x = ofd_ino <$> y ∧ ofd_acc <$> x = ofd_acc <$> y.

(** Every descriptor is open on the same file as before, and every
    descriptor other than [a] and [b] is exactly as before. *)
Definition fds_moved (a b : Z) (w w' : world) : Prop :=
  ∀ fd, same_file (fd_lookup fd w') (fd_lookup fd w)
        ∧ (fd ≠ a → fd ≠ b → fd_lookup fd w' = fd_lookup fd w).

(** The caller, the path table and the files are the same in both worlds,
    and every file has the type, permission bits, owner, group and flags it
    had: at most its bytes and its two time stamps differ. *)
Definition attrs_kept (w w' : world) : Prop :=
  w_euid w' = w_euid w ∧ w_names w' = w_names w
  ∧ length (w_inodes w') = length (w_inodes w)
  ∧ ∀ ino i, w_inodes w !! ino = Some i →
             ∃ bytes a m, w_inodes w' !! ino
                          = Some (with_times a m (with_data bytes i)).

(** A file copied onto itself: descriptor [a] reads it at offset [ks],
    descriptor [b] writes it at offset [kd], and it is still the file [isrc]
    up to its time stamps; source reads do not fail. *)
Definition self_inv (a b : Z) (ino : nat) (isrc : inode) (ks kd : nat) (w : world)
  : Prop :=
  fd_lookup a w = Some (mkOfd ino ks O_RDONLY)
  ∧ fd_lookup b w = Some (mkOfd ino kd O_WRONLY)
  ∧ a ≠ b ∧ (∃ ta tm, w_inodes w !! ino = Some (with_times ta tm isrc))
  ∧ is_dir isrc = false
  ∧ (ks ≤ length (i_data isrc))%nat
  ∧ Forall (λ e, e = None) (w_rscript w).

(** The descriptor [fcopyfile] works on: the caller's argument when the
    member of the handle is unset (-2), the member otherwise. *)
Definition adopted (arg member : Z) : Z := if member =? -2 then arg else member.

(** Two states of one inode slot that differ at most in the access time. *)
Definition up_to_atime (x y : option inode) : Prop :=
  with_atime 0 <$> x = with_atime 0 <$> y.

(** Inode [ino] after a transfer that reads through a descriptor open on
    [srcino]: it is what it was up to its access time, and exactly what it
    was when it is not the file read. *)
Definition only_read (srcino : option nat) (ino : nat) (w w' : world) : Prop :=
  (srcino ≠ Some ino → w_inodes w' !! ino = w_inodes w !! ino)
  ∧ up_to_atime (w_inodes w' !! ino) (w_inodes w !! ino).

(** A handle argument that holds no descriptor yet: none at all, or one
    whose two descriptor members are unset. *)
Definition no_descriptors (st : option copyfile_state) : Prop :=
  match st with
  | None => True
  | Some s => src_fd s = -2 ∧ dst_fd s = -2
  end.

(** What [copyfile] hands back for the caller's handle. *)
Definition handed_back (st : option copyfile_state) (s : copyfile_state)
  : option copyfile_state :=
  match st with Some _ => Some s | None => None end.

(** * Properties *)

(** ** Descriptor table and [close] *)

Lemma fd_lookup_log fd ev w : fd_lookup fd (log ev w) = fd_lookup fd w.
Proof. reflexivity. Qed.

Lemma fd_lookup_set_errno fd e w : fd_lookup fd (set_errno e w) = fd_lookup fd w.
Proof. reflexivity. Qed.

Lemma fd_lookup_update_eq fd o w :
  is_Some (fd_lookup fd w) → fd_lookup fd (fd_update fd o w) = o.
Proof.
  unfold fd_lookup, fd_update. simpl. destruct (fd <? 0); [by intros [? ?]|].
  intros [x Hx]. destruct (w_fds w !! Z.to_nat fd) eqn:E; [|done].
  rewrite list_lookup_insert_eq; [done|]. by eapply lookup_lt_Some.
Qed.

Lemma fd_lookup_update_ne fd fd' o w :
  fd ≠ fd' → 0 ≤ fd → 0 ≤ fd' → fd_lookup fd' (fd_update fd o w) = fd_lookup fd' w.
Proof.
  intros Hne H1 H2. unfold fd_lookup, fd_update. simpl.
  rewrite list_lookup_insert_ne; [done|lia].
Qed.

Lemma fd_lookup_neg fd w : fd < 0 → fd_lookup fd w = None.
Proof. intros. unfold fd_lookup. by rewrite (proj2 (Z.ltb_lt _ _)). Qed.

(** After [close fd], descriptor [fd] is free, whatever the call returned. *)
Lemma sys_close_closed fd w : fd_lookup fd (snd (sys_close fd w)) = None.
Proof.
  unfold sys_close. destruct (fd_lookup fd w) eqn:E; simpl.
  - rewrite fd_lookup_update_eq; [done|]. rewrite fd_lookup_log. eauto.
  - by rewrite fd_lookup_set_errno, fd_lookup_log.
Qed.

(** [close] only ever frees descriptors. *)
Lemma sys_close_mono fd fd' w :
  fd_lookup fd' w = None → fd_lookup fd' (snd (sys_close fd w)) = None.
Proof.
  intros Hn. destruct (decide (fd = fd')) as [->|Hne]; [apply sys_close_closed|].
  unfold sys_close. destruct (fd_lookup fd w) eqn:E; simpl; [|done].
  destruct (Z.ltb_spec fd' 0); [by apply fd_lookup_neg|].
  destruct (Z.ltb_spec fd 0); [by rewrite fd_lookup_neg in E|].
  by rewrite fd_lookup_update_ne.
Qed.

Lemma sys_close_other fd fd' w :
  fd ≠ fd' → fd_lookup fd' (snd (sys_close fd w)) = fd_lookup fd' w.
Proof.
  intros Hne. unfold sys_close. destruct (fd_lookup fd w) eqn:E; simpl; [|done].
  destruct (Z.ltb_spec fd' 0); [by rewrite !fd_lookup_neg|].
  destruct (Z.ltb_spec fd 0); [by rewrite fd_lookup_neg in E|].
  by rewrite fd_lookup_update_ne.
Qed.

Lemma strncmp_refl a n : strncmp a a n = 0.
Proof.
  revert a. induction n as [|n IH]; intros [|c a]; simpl; try done.
  by rewrite Ascii.eqb_refl.
Qed.

Section Properties.
Context `{hdr : copyfile_h}.

Lemma selector_src_filename :
  COPYFILE_STATE_SRC_FILENAME ≠ COPYFILE_STATE_SRC_FD
  ∧ COPYFILE_STATE_SRC_FILENAME ≠ COPYFILE_STATE_DST_FD.
Proof.
  pose proof state_selectors_distinct as Hd.
  rewrite !NoDup_cons, !not_elem_of_cons in Hd. intuition congruence.
Qed.

Lemma selector_dst_filename :
  COPYFILE_STATE_DST_FILENAME ≠ COPYFILE_STATE_SRC_FD
  ∧ COPYFILE_STATE_DST_FILENAME ≠ COPYFILE_STATE_DST_FD
  ∧ COPYFILE_STATE_DST_FILENAME ≠ COPYFILE_STATE_SRC_FILENAME.
Proof.
  pose proof state_selectors_distinct as Hd.
  rewrite !NoDup_cons, !not_elem_of_cons in Hd. intuition congruence.
Qed.

(** [copyfile_state_set] on a path selector with a non-null value. *)
Lemma copyfile_state_set_src_filename s t w :
  copyfile_state_set s COPYFILE_STATE_SRC_FILENAME (Some t) w
  = (0, set_src (fst (strdup (thing_str t) w)) s, snd (strdup (thing_str t) w)).
Proof.
  unfold copyfile_state_set. destruct selector_src_filename as [H1 H2].
  rewrite (proj2 (Z.eqb_neq _ _) H1), (proj2 (Z.eqb_neq _ _) H2), Z.eqb_refl.
  simpl. by destruct (strdup _ _).
Qed.

Lemma copyfile_state_set_dst_filename s t w :
  copyfile_state_set s COPYFILE_STATE_DST_FILENAME (Some t) w
  = (0, set_dst (fst (strdup (thing_str t) w)) s, snd (strdup (thing_str t) w)).
Proof.
  unfold copyfile_state_set. destruct selector_dst_filename as (H1 & H2 & H3).
  rewrite (proj2 (Z.eqb_neq _ _) H1), (proj2 (Z.eqb_neq _ _) H2),
    (proj2 (Z.eqb_neq _ _) H3), Z.eqb_refl.
  simpl. by destruct (strdup _ _).
Qed.

Lemma strdup_ok p w : (0 < w_mem w)%nat → fst (strdup p w) = Some p.
Proof. unfold strdup, sys_alloc. destruct (w_mem w); [lia|done]. Qed.

Lemma strdup_fds p w : w_fds (snd (strdup p w)) = w_fds w.
Proof. unfold strdup, sys_alloc. by destruct (w_mem w). Qed.

Lemma strdup_trace p w : w_trace (snd (strdup p w)) = w_trace w.
Proof. unfold strdup, sys_alloc. by destruct (w_mem w). Qed.

(** ** The accessors *)

(** C8 (amended): a null value makes [copyfile_state_set] fail with EFAULT
    for every selector, path selectors included; the handle (path strings
    and descriptors) is left exactly as it was and nothing is closed. *)
Theorem copyfile_state_set_null s flag w :
  copyfile_state_set s flag None w = (-1, s, set_errno EFAULT w).
Proof. reflexivity. Qed.

(** C7 (amended): given a non-null string, [copyfile_state_set] on a path
    selector stores a duplicate and leaves both descriptors, the descriptor
    table and the system-call trace untouched, whatever the stored path was:
    it never closes a descriptor.  Closing is done by the path assignment of
    [copyfile] (COPYFILE_SET_FNAME): a path that differs from the stored one
    within MAXPATHLEN characters closes the open descriptor first, resets it
    to -2, then stores the duplicate; an identical path closes nothing. *)
Theorem copyfile_state_set_path_keeps_fd s t w :
  (0 < w_mem w)%nat →
  (∀ flag, flag = COPYFILE_STATE_SRC_FILENAME ∨ flag = COPYFILE_STATE_DST_FILENAME →
     ∃ s' w', copyfile_state_set s flag (Some t) w = (0, s', w')
       ∧ (flag = COPYFILE_STATE_SRC_FILENAME → src s' = Some (thing_str t))
       ∧ (flag = COPYFILE_STATE_DST_FILENAME → dst s' = Some (thing_str t))
       ∧ src_fd s' = src_fd s ∧ dst_fd s' = dst_fd s
       ∧ w_fds w' = w_fds w ∧ w_trace w' = w_trace w)
  ∧ (∀ old fd, truthy (strncmp (thing_str t) old (Z.to_nat MAXPATHLEN)) = true →
       0 ≤ fd →
       COPYFILE_SET_FNAME (Some (thing_str t)) (Some old) fd w
       = (false, Some (thing_str t), -2,
          snd (strdup (thing_str t) (snd (sys_close fd w))))
       ∧ fd_lookup fd (snd (strdup (thing_str t) (snd (sys_close fd w)))) = None)
  ∧ (∀ fd,
       COPYFILE_SET_FNAME (Some (thing_str t)) (Some (thing_str t)) fd w
       = (false, Some (thing_str t), fd, snd (strdup (thing_str t) w))
       ∧ w_fds (snd (strdup (thing_str t) w)) = w_fds w
       ∧ w_trace (snd (strdup (thing_str t) w)) = w_trace w).
Proof.
  intros Hmem. split; [|split].
  - intros flag [-> | ->].
    + rewrite copyfile_state_set_src_filename. eexists _, _. split; [done|].
      rewrite strdup_fds, strdup_trace, (strdup_ok _ _ Hmem). simpl.
      destruct selector_dst_filename as (_ & _ & Hne). by repeat split.
    + rewrite copyfile_state_set_dst_filename. eexists _, _. split; [done|].
      rewrite strdup_fds, strdup_trace, (strdup_ok _ _ Hmem). simpl.
      destruct selector_dst_filename as (_ & _ & Hne). by repeat split.
  - intros old fd Hdiff Hfd. unfold COPYFILE_SET_FNAME. rewrite Hdiff.
    assert (negb (fd =? -2) && (fd >? -1) = true) as ->.
    { apply andb_true_iff. split; [apply negb_true_iff|]; lia. }
    assert (0 < w_mem (snd (sys_close fd w)))%nat as Hmem'.
    { unfold sys_close. by destruct (fd_lookup fd w). }
    pose proof (strdup_ok (thing_str t) _ Hmem') as Hd.
    destruct (strdup (thing_str t) (snd (sys_close fd w))) as [o w'] eqn:E.
    simpl in *. subst o. split; [done|].
    pose proof (strdup_fds (thing_str t) (snd (sys_close fd w))) as Hf.
    rewrite E in Hf. simpl in Hf.
    pose proof (sys_close_closed fd w) as Hc.
    unfold fd_lookup in *. by rewrite Hf.
  - intros fd. unfold COPYFILE_SET_FNAME. rewrite strncmp_refl. simpl.
    pose proof (strdup_ok (thing_str t) _ Hmem) as Hd.
    destruct (strdup (thing_str t) w) as [o w'] eqn:E. simpl in *. subst o.
    split; [done|].
    pose proof (strdup_fds (thing_str t) w) as Hf.
    pose proof (strdup_trace (thing_str t) w) as Ht.
    rewrite E in Hf, Ht. done.
Qed.

(** ** Teardown *)

Lemma copyfile_warn_fd fd msg w : fd_lookup fd (copyfile_warn msg w) = fd_lookup fd w.
Proof. reflexivity. Qed.

(** C6 (amended): freeing the handle closes an Open descriptor exactly when
    the matching path string is stored on the handle, whoever opened it; on a
    handle without path strings (descriptor mode) nothing is closed and the
    world is unchanged. *)
Theorem copyfile_state_free_closes_named s w :
  (is_Some (src s) → 0 ≤ src_fd s →
     fd_lookup (src_fd s) (snd (copyfile_state_free (Some s) w)) = None)
  ∧ (is_Some (dst s) → 0 ≤ dst_fd s →
     fd_lookup (dst_fd s) (snd (copyfile_state_free (Some s) w)) = None)
  ∧ (src s = None → dst s = None → copyfile_state_free (Some s) w = (0, w))
  ∧ (src s = None → (dst s = None ∨ dst_fd s ≠ src_fd s) →
     fd_lookup (src_fd s) (snd (copyfile_state_free (Some s) w))
     = fd_lookup (src_fd s) w)
  ∧ (dst s = None → (src s = None ∨ src_fd s ≠ dst_fd s) →
     fd_lookup (dst_fd s) (snd (copyfile_state_free (Some s) w))
     = fd_lookup (dst_fd s) w).
Proof.
  assert (∀ fd (rw : Z * world),
    fd_lookup fd (snd (let '(r, w1) := rw in
                       if r <? 0 then (-1, copyfile_warn "error closing files" w1)
                       else (0, w1))) = fd_lookup fd (snd rw)) as Hfree.
  { intros fd [r w1]. simpl. by destruct (r <? 0). }
  unfold copyfile_state_free.
  repeat split.
  - intros Hs Hfd. rewrite Hfree. unfold copyfile_close.
    rewrite (bool_decide_eq_true_2 _ Hs), (proj2 (Z.geb_le _ _) Hfd). simpl.
    destruct (bool_decide (is_Some (dst s)) && (dst_fd s >=? 0)).
    + destruct (sys_close (dst_fd s) (snd (sys_close (src_fd s) w))) as [r w2] eqn:E.
      assert (fd_lookup (src_fd s) w2 = None) as Hn.
      { change w2 with (snd (r, w2)). rewrite <- E.
        apply sys_close_mono, sys_close_closed. }
      by destruct (truthy r).
    + apply sys_close_closed.
  - intros Hs Hfd. rewrite Hfree. unfold copyfile_close.
    rewrite (bool_decide_eq_true_2 _ Hs), (proj2 (Z.geb_le _ _) Hfd). simpl.
    match goal with |- context [sys_close (dst_fd s) ?w0] =>
      destruct (sys_close (dst_fd s) w0) as [r w2] eqn:E;
      assert (fd_lookup (dst_fd s) w2 = None) as Hn
        by (change w2 with (snd (r, w2)); rewrite <- E; apply sys_close_closed)
    end.
    by destruct (truthy r).
  - intros Hs Hd. unfold copyfile_close. rewrite Hs, Hd. done.
  - intros Hs Hd. rewrite Hfree. unfold copyfile_close. rewrite Hs. simpl.
    destruct (bool_decide (is_Some (dst s)) && (dst_fd s >=? 0)) eqn:Eb; [|done].
    destruct Hd as [Hd|Hd]; [by rewrite Hd in Eb|].
    destruct (sys_close (dst_fd s) w) as [r w2] eqn:E.
    assert (fd_lookup (src_fd s) w2 = fd_lookup (src_fd s) w) as Hn.
    { change w2 with (snd (r, w2)). rewrite <- E. by apply sys_close_other. }
    by destruct (truthy r).
  - intros Hd Hs. rewrite Hfree. unfold copyfile_close. rewrite Hd. simpl.
    destruct (bool_decide (is_Some (src s)) && (src_fd s >=? 0)) eqn:Eb; [|done].
    destruct Hs as [Hs|Hs]; [by rewrite Hs in Eb|].
    by apply sys_close_other.
Qed.

(** ** Preamble *)

Lemma strtol_unparseable e : parseable e = false → strtol e = (0, Some EINVAL).
Proof.
  unfold parseable, strtol. destruct (strtol_scan e) as [neg [acc any]].
  simpl. by intros ->.
Qed.

Lemma to_uint32_small v : 0 ≤ v < 2 ^ 32 → to_uint32 v = v.
Proof. intros. unfold to_uint32. by apply Z.mod_small. Qed.

(** [copyfile_preamble] on a handle the caller supplied: it only touches
    [debug] and [flags]. *)
Lemma copyfile_preamble_some s fl w :
  ∃ s' w', copyfile_preamble (Some s) fl w = (0, Some s', w')
    ∧ src s' = src s ∧ dst s' = dst s ∧ src_fd s' = src_fd s
    ∧ dst_fd s' = dst_fd s ∧ sb s' = sb s ∧ flags s' = fl
    ∧ w_names w' = w_names w ∧ w_inodes w' = w_inodes w ∧ w_fds w' = w_fds w
    ∧ w_trace w' = w_trace w ∧ w_mem w' = w_mem w ∧ w_euid w' = w_euid w
    ∧ w_rscript w' = w_rscript w ∧ w_wscript w' = w_wscript w
    ∧ w_iosize w' = w_iosize w ∧ w_umask w' = w_umask w
    ∧ w_uscript w' = w_uscript w.
Proof.
  unfold copyfile_preamble.
  destruct (truthy (Z.land COPYFILE_DEBUG fl)); [|by eexists _, _].
  destruct (w_env w) as [e|]; [|by eexists _, _].
  destruct (strtol e) as [v [x|]]; simpl;
    match goal with |- context [if ?b then _ else _] => destruct b end;
    by eexists _, _.
Qed.

(** [strtol] in terms of what the override denotes. *)
Lemma strtol_denoted e :
  strtol e
  = if negb (parseable e) then (0, Some EINVAL)
    else if denoted e >? LONG_MAX then (LONG_MAX, Some ERANGE)
    else if denoted e <? LONG_MIN then (LONG_MIN, Some ERANGE)
    else (denoted e, None).
Proof.
  unfold strtol, parseable, denoted. by destruct (strtol_scan e) as [neg [acc any]].
Qed.

(** C9 (amended): with the DEBUG bit set and the override present, the
    preamble succeeds (given a handle or memory for one) and stores
    verbosity 1 when the override is not parseable as an integer.  When it is
    parseable, the verbosity stored is the value [strtol] returns for it, as
    a uint32_t: an integer from 0 to 4294967295 is stored as it is, 0
    included, and any other integer that fits a [long] is stored modulo 2^32
    (with no clamp when that is 0); an integer above LONG_MAX is stored as
    4294967295 and one below LONG_MIN as 1. *)
Theorem copyfile_preamble_verbosity state fl w e :
  truthy (Z.land COPYFILE_DEBUG fl) = true →
  w_env w = Some e →
  is_Some state ∨ (0 < w_mem w)%nat →
  ∃ s' w', copyfile_preamble state fl w = (0, Some s', w')
    ∧ debug s' = (if negb (parseable e) then 1
                  else if denoted e >? LONG_MAX then 4294967295
                  else if denoted e <? LONG_MIN then 1
                  else to_uint32 (denoted e))
    ∧ (parseable e = true → 0 ≤ denoted e < 2 ^ 32 → debug s' = denoted e).
Proof.
  intros Hdbg Henv Hst.
  assert (∃ s0 w0, (match state with
                    | None => copyfile_state_alloc w
                    | Some _ => (state, w)
                    end) = (Some s0, w0) ∧ w_env w0 = Some e) as (s0 & w0 & E & Henv0).
  { destruct state as [s|]; [by eexists _, _|].
    destruct Hst as [[? ?]|Hm]; [done|].
    unfold copyfile_state_alloc, sys_alloc. destruct (w_mem w); [lia|].
    by eexists _, _. }
  assert (∃ s' w', copyfile_preamble state fl w = (0, Some s', w')
            ∧ debug s' = (if negb (parseable e) then 1
                          else if denoted e >? LONG_MAX then 4294967295
                          else if denoted e <? LONG_MIN then 1
                          else to_uint32 (denoted e)))
    as (s' & w' & Hrun & Hdebug).
  { unfold copyfile_preamble. rewrite E, Hdbg, Henv0, strtol_denoted.
    destruct (negb (parseable e)); [by eexists _, _|].
    destruct (denoted e >? LONG_MAX); [by eexists _, _|].
    destruct (denoted e <? LONG_MIN); [by eexists _, _|].
    cbv beta iota zeta. cbn [debug set_debug w_errno set_errno].
    change (negb (0 =? 0)) with false. rewrite andb_false_r. by eexists _, _. }
  exists s', w'. split; [exact Hrun|]. split; [exact Hdebug|].
  intros Hp Hv. rewrite Hdebug, Hp. cbn [negb].
  assert ((denoted e >? LONG_MAX) = false) as -> by (unfold LONG_MAX; lia).
  assert ((denoted e <? LONG_MIN) = false) as -> by (unfold LONG_MIN; lia).
  by apply to_uint32_small.
Qed.

(** ** The coordinator *)

Lemma sys_unlink_trace d w :
  w_trace (snd (sys_unlink d w)) = EvUnlink d (fst (sys_unlink d w)) :: w_trace w.
Proof.
  unfold sys_unlink.
  destruct (w_names w !! d ≫= (λ ino, w_inodes w !! ino)) as [i|]; [|done].
  destruct (is_dir i); [done|]. unfold removal.
  by destruct (w_uscript w) as [|[e|] us].
Qed.

(** When the DATA step runs and [copyfile_data] fails with a negative
    [ret], [copyfile_internal] returns that same [ret]; what it does after
    the failure is one warning, then one [unlink] of the stored destination
    path if and only if a path is stored (with a second warning when the
    unlink fails), and nothing else: no call of the STAT step is issued. *)
Lemma copyfile_internal_data_failure fuel s fl w ret wd :
  truthy (Z.land COPYFILE_DATA fl) = true →
  0 ≤ dst_fd s → 0 ≤ src_fd s →
  copyfile_data fuel s w = Some (ret, wd) →
  ret < 0 →
  ∃ w', copyfile_internal fuel s fl w = Some (ret, w')
    ∧ match dst s with
      | None => w_trace w' = EvWarn "error processing data" :: w_trace wd
      | Some d =>
          ∃ r, w_trace w'
               = (if truthy r then [EvWarn "remove"] else [])
                 ++ EvUnlink d r :: EvWarn "error processing data" :: w_trace wd
      end.
Proof.
  intros Hdata Hd Hs Hrun Hret. unfold copyfile_internal.
  assert ((dst_fd s <? 0) || (src_fd s <? 0) = false) as ->.
  { apply orb_false_iff. split; lia. }
  rewrite Hdata, Hrun. rewrite (proj2 (Z.ltb_lt _ _) Hret).
  destruct (dst s) as [d|]; [|by eexists].
  pose proof (sys_unlink_trace d (copyfile_warn "error processing data" wd)) as Ht.
  destruct (sys_unlink d (copyfile_warn "error processing data" wd)) as [r w1].
  simpl in Ht. destruct (truthy r) eqn:Er; eexists; (split; [reflexivity|]);
    exists r; rewrite Er; simpl; by rewrite ?Ht.
Qed.

(** ** The data transfer *)

Lemma take_add {A} (l : list A) (a m : nat) :
  take (a + m) l = take a l ++ take m (drop a l).
Proof.
  revert l. induction a as [|a IH]; intros [|x l]; simpl; try done.
  - by rewrite take_nil.
  - by rewrite IH.
Qed.

Lemma take_eq_length {A} (d c : list A) (k : nat) :
  take k d = take k c → (k ≤ length c)%nat → (k ≤ length d)%nat.
Proof.
  intros E Hk. apply (f_equal length) in E. rewrite !length_take in E. lia.
Qed.

Lemma pwrite_prefix (d c bs : list byte) (kd m : nat) :
  take kd d = take kd c → (kd + m ≤ length c)%nat → bs = take m (drop kd c) →
  take (kd + m) (pwrite_bytes d kd bs) = take (kd + m) c.
Proof.
  intros E Hk ->. pose proof (take_eq_length d c kd E ltac:(lia)) as Hd.
  unfold pwrite_bytes. replace (kd - length d)%nat with 0%nat by lia. simpl.
  rewrite take_app_add'; [|rewrite length_take; lia].
  rewrite take_app_length'; [|rewrite length_take, length_drop; lia].
  by rewrite E, take_add.
Qed.

Lemma pwrite_nothing (d : list byte) (kd : nat) :
  (kd ≤ length d)%nat → pwrite_bytes d kd [] = d.
Proof.
  intros Hd. unfold pwrite_bytes. replace (kd - length d)%nat with 0%nat by lia.
  simpl. rewrite Nat.add_0_r. apply take_drop.
Qed.

Lemma resize_exact (d c : list byte) :
  take (length c) d = c → resize_bytes d (length c) = c.
Proof.
  intros E. unfold resize_bytes.
  assert (length c ≤ length d)%nat as Hd.
  { apply (f_equal length) in E. rewrite length_take in E. lia. }
  replace (length c - length d)%nat with 0%nat by lia. simpl.
  by rewrite app_nil_r.
Qed.

Lemma fd_lookup_nonneg fd w o : fd_lookup fd w = Some o → 0 ≤ fd.
Proof.
  unfold fd_lookup. destruct (Z.ltb_spec fd 0); [done|lia].
Qed.

(** [copy_inv] only looks at the descriptor table, the inode table and the
    read script. *)
Lemma copy_inv_ext x ks kd w w' :
  w_fds w' = w_fds w → w_inodes w' = w_inodes w → w_rscript w' = w_rscript w →
  copy_inv x ks kd w → copy_inv x ks kd w'.
Proof.
  unfold copy_inv, fd_lookup. intros -> -> ->. done.
Qed.



Lemma with_atime_idem t t' i : with_atime t (with_atime t' i) = with_atime t i.
Proof. reflexivity. Qed.

Lemma with_atime_same i : with_atime (i_atime i) i = i.
Proof. by destruct i. Qed.

(** A file that has not been read yet is the file it was. *)
Lemma untouched ino isrc w :
  w_inodes w !! ino = Some isrc →
  ∃ t, w_inodes w !! ino = Some (with_atime t isrc).
Proof. intros ->. exists (i_atime isrc). by rewrite with_atime_same. Qed.

Lemma sys_read_step x k w blen :
  xfer_ok x → copy_inv x k k w → 0 < blen →
  let c := i_data (x_src x) in
  let n := Z.to_nat ((blen `min` SSIZE_MAX) `min` Z.of_nat (length c - k)) in
  ∃ w1, sys_read (x_src_fd x) blen w = (Z.of_nat n, take n (drop k c), w1)
    ∧ copy_inv x (k + n) k w1
    ∧ w_wscript w1 = w_wscript w ∧ w_names w1 = w_names w
    ∧ (k + n ≤ length c)%nat ∧ (n = 0%nat → k = length c)
    ∧ Z.of_nat n ≤ SSIZE_MAX.
Proof.
  intros (Hfd & Hino & Hsa & Hda & Hdir) (Hs & Hd & [t Hsi] & Hdi & Hk & Hr) Hb c n.
  subst c n. set (c := i_data (x_src x)) in *.
  set (n := Z.to_nat _) in *.
  assert (0 < SSIZE_MAX) as Hmax by done.
  assert (n ≤ length c - k)%nat as Hn by lia.
  assert (k + n ≤ length c)%nat as Hkn by lia.
  assert (n = 0%nat → k = length c) as Hz by lia.
  assert (Z.of_nat n ≤ SSIZE_MAX) as Hsz by lia.
  assert (length (take n (drop k c)) = n) as Hlen.
  { rewrite length_take, length_drop. lia. }
  unfold sys_read. rewrite Hs. simpl. rewrite Hsi.
  rewrite (proj2 (Z.eqb_neq _ _) Hsa). change (is_dir (with_atime t (x_src x)))
    with (is_dir (x_src x)). rewrite Hdir.
  change (i_data (with_atime t (x_src x))) with c.
  rewrite length_drop. fold n. rewrite Hlen.
  rewrite (proj2 (Z.ltb_lt _ _) Hb).
  pose proof (fd_lookup_nonneg _ _ _ Hs). pose proof (fd_lookup_nonneg _ _ _ Hd).
  destruct Hdi as (i & Hdi & Hpre).
  destruct (w_rscript w) as [|[e|] rs] eqn:E;
    [ | by apply Forall_cons in Hr as [? _] | ];
    (eexists; split; [reflexivity|];
     split; [|done];
     repeat split;
       [ rewrite fd_lookup_update_eq; [done|]; unfold fd_lookup in *; simpl; eauto
       | rewrite fd_lookup_update_ne; [exact Hd|done..]
       | exists (w_now w); simpl; by rewrite list_lookup_alter_eq, Hsi
       | exists i; simpl; by rewrite list_lookup_alter_ne
       | done
       | simpl; try constructor; by apply Forall_cons in Hr as [_ ?] ]).
Qed.

Lemma sys_write_step x ks kd w bs :
  xfer_ok x → copy_inv x ks kd w →
  bs = take (length bs) (drop kd (i_data (x_src x))) →
  (kd + length bs ≤ length (i_data (x_src x)))%nat →
  ∃ r w1, sys_write (x_dst_fd x) bs w = (r, w1)
    ∧ w_names w1 = w_names w
    ∧ w_wscript w1 = tail (w_wscript w)
    ∧ ((r = -1 ∧ ¬ no_write_error w)
       ∨ (∃ m, r = Z.of_nat m ∧ (m ≤ length bs)%nat
            ∧ copy_inv x ks (kd + m) w1
            ∧ (w_wscript w = [] → m = length bs))).
Proof.
  intros (Hfd & Hino & Hsa & Hda & Hdir)
    (Hs & Hd & [t Hsi] & (i & Hdi & Hpre) & Hk & Hr) Hbs Hlen.
  unfold sys_write. rewrite Hd. simpl. rewrite Hdi.
  rewrite (proj2 (Z.eqb_neq _ _) Hda).
  pose proof (fd_lookup_nonneg _ _ _ Hs). pose proof (fd_lookup_nonneg _ _ _ Hd).
  destruct (w_wscript w) as [|[e|a] ws] eqn:E.
  - (* script exhausted: everything is written *)
    destruct (0 <? Z.of_nat (length bs));
      (eexists _, _; split; [reflexivity|]; split; [done|]; split; [done|];
       right; exists (length bs); split; [done|]; split; [done|]; split; [|done];
       repeat split;
       [ rewrite fd_lookup_update_ne; [exact Hs|done..]
       | rewrite fd_lookup_update_eq; [done|]; unfold fd_lookup in *; simpl; eauto
       | exists t; simpl; by rewrite ?list_lookup_alter_ne
       | simpl; rewrite ?list_lookup_alter_eq, Hdi; simpl; eexists; split; [done|];
         simpl; rewrite (take_ge bs) by lia; by apply pwrite_prefix
       | lia
       | done ]).
  - eexists _, _. split; [reflexivity|]. split; [done|]. split; [done|].
    left. split; [done|]. unfold no_write_error. rewrite E.
    intros Hf. apply Forall_cons in Hf as [[k' ?] _]. done.
  - destruct (0 <? Z.of_nat (a `min` length bs));
      (eexists _, _; split; [reflexivity|]; split; [done|]; split; [done|];
       right; exists (a `min` length bs)%nat; split; [done|]; split; [lia|];
       split; [|done]; repeat split;
       [ rewrite fd_lookup_update_ne; [exact Hs|done..]
       | rewrite fd_lookup_update_eq; [done|]; unfold fd_lookup in *; simpl; eauto
       | exists t; simpl; by rewrite ?list_lookup_alter_ne
       | simpl; rewrite ?list_lookup_alter_eq, Hdi; simpl; eexists; split; [done|];
         simpl; apply pwrite_prefix; [done|lia|];
         transitivity (take (a `min` length bs)
                         (take (length bs) (drop kd (i_data (x_src x)))));
           [by rewrite <- Hbs|]; rewrite take_take; f_equal; lia
       | lia
       | done ]).
Qed.

Lemma sys_ftruncate_step x ks w :
  xfer_ok x →
  copy_inv x ks (length (i_data (x_src x))) w →
  ∃ w1, sys_ftruncate (x_dst_fd x) (Z.of_nat (length (i_data (x_src x)))) w = (0, w1)
    ∧ data_of (x_dst_ino x) w1 = Some (i_data (x_src x))
    ∧ data_of (x_src_ino x) w1 = Some (i_data (x_src x))
    ∧ w_names w1 = w_names w ∧ w_fds w1 = w_fds w
    ∧ length (w_inodes w1) = length (w_inodes w).
Proof.
  intros (Hfd & Hino & Hsa & Hda & Hdir)
    (Hs & Hd & [t Hsi] & (i & Hdi & Hpre) & Hk & Hr).
  unfold sys_ftruncate. rewrite Hd. simpl. rewrite Hdi.
  rewrite (proj2 (Z.eqb_neq _ _) Hda).
  rewrite (proj2 (Z.ltb_ge _ _)) by lia. simpl.
  eexists. split; [reflexivity|]. unfold data_of. simpl.
  rewrite !list_lookup_alter_eq, Hdi, !list_lookup_alter_ne, Hsi by done. simpl.
  rewrite Nat2Z.id, !length_alter. repeat split. f_equal. apply resize_exact.
  by rewrite Hpre, take_ge.
Qed.

(** One iteration of the inner loop.  The stall branch has gone: [loop] is
    0 at the head of every iteration, so [++loop > 5] compares 1 with 5. *)
Lemma write_block_unfold fuel fd bp ptr left w :
  write_block fuel fd bp ptr left w =
  if left >? 0 then
    match fuel with
    | O => None
    | S f =>
        let '(r, w1) := sys_write fd (take (Z.to_nat left) (drop ptr bp)) w in
        if to_size_t r =? 0 then write_block f fd bp ptr left w1
        else if to_size_t r =? to_size_t (-1) then
          Some (-1, copyfile_warn "writing to output file got error" w1)
        else write_block f fd bp (ptr + Z.to_nat (to_size_t r))
               (to_size_t (left - to_size_t r)) w1
    end
  else Some (0, w).
Proof.
  destruct fuel; simpl; [done|].
  destruct (left >? 0); [|done]. by destruct (sys_write _ _ _).
Qed.

Lemma to_size_t_small z : 0 ≤ z ≤ SSIZE_MAX → to_size_t z = z.
Proof. intros. unfold to_size_t. apply Z.mod_small. unfold SSIZE_MAX in *. lia. Qed.

Lemma block_slice (c : list byte) (k n j : nat) :
  (j ≤ n)%nat →
  take (Z.to_nat (Z.of_nat (n - j))) (drop j (take n (drop k c)))
  = take (n - j) (drop (k + j) c).
Proof.
  intros Hj. rewrite Nat2Z.id, <- drop_drop.
  rewrite (take_drop_commute (drop k c) (n - j) j).
  replace (j + (n - j))%nat with n by lia.
  apply take_ge. rewrite length_drop, length_take. lia.
Qed.

Lemma drop_tail {A} (l : list A) (i : nat) : drop i (tail l) = drop (S i) l.
Proof. destruct l; simpl; [by rewrite drop_nil|done]. Qed.

Lemma no_write_error_drop i w w' :
  w_wscript w' = drop i (w_wscript w) → no_write_error w → no_write_error w'.
Proof. unfold no_write_error. intros ->. apply Forall_drop. Qed.

Lemma write_block_spec x k n fuel : ∀ j w,
  xfer_ok x →
  (k + n ≤ length (i_data (x_src x)))%nat → Z.of_nat n ≤ SSIZE_MAX → (j ≤ n)%nat →
  copy_inv x (k + n) (k + j) w →
  (∀ ret w',
     write_block fuel (x_dst_fd x) (take n (drop k (i_data (x_src x)))) j
       (Z.of_nat (n - j)) w = Some (ret, w') →
     ret = -1
     ∨ (ret = 0 ∧ w_names w' = w_names w ∧ copy_inv x (k + n) (k + n) w'
        ∧ ∃ i, w_wscript w' = drop i (w_wscript w)))
  ∧ (no_write_error w → (n = j ∨ length (w_wscript w) < fuel)%nat →
     ∃ w', write_block fuel (x_dst_fd x) (take n (drop k (i_data (x_src x)))) j
             (Z.of_nat (n - j)) w = Some (0, w')).
Proof.
  induction fuel as [|f IH]; intros j w Hx Hkn Hn Hj Hinv;
    rewrite write_block_unfold.
  - destruct (Z.gtb_spec (Z.of_nat (n - j)) 0) as [Hpos|Hz].
    + split; [done|]. intros _ [?|?]; lia.
    + assert (j = n) as -> by lia. split; [|by eauto].
      intros ret w' [= <- <-]. right. split; [done|]. split; [done|]. split; [done|]. by exists 0%nat.
  - destruct (Z.gtb_spec (Z.of_nat (n - j)) 0) as [Hpos|Hz]; last first.
    { assert (j = n) as -> by lia. split; [|by eauto].
      intros ret w' [= <- <-]. right. split; [done|]. split; [done|]. split; [done|]. by exists 0%nat. }
    rewrite block_slice by done.
    set (bs := take (n - j) (drop (k + j) (i_data (x_src x)))).
    assert (length bs = (n - j)%nat) as Hlen.
    { unfold bs. rewrite length_take, length_drop. lia. }
    destruct (sys_write_step x (k + n) (k + j) w bs Hx Hinv)
      as (r & w1 & Hw & Hnames & Hscript & Hcases).
    { by rewrite Hlen. }
    { lia. }
    rewrite Hw.
    destruct Hcases as [[-> Herr]|(m & -> & Hm & Hinv1 & Hall)].
    { (* the write failed *)
      change (to_size_t (-1) =? 0) with false. rewrite Z.eqb_refl.
      split; [intros ret w' [= <- <-]; by left|]. by intros Hne. }
    rewrite to_size_t_small by lia.
    assert (to_size_t (-1) = 2 ^ 64 - 1) as -> by done.
    assert (Z.of_nat m ≠ 2 ^ 64 - 1) as Hne.
    { unfold SSIZE_MAX in Hn. lia. }
    rewrite (proj2 (Z.eqb_neq _ _) Hne).
    destruct (Z.eqb_spec (Z.of_nat m) 0) as [Hm0|Hm0].
    + (* a stalled write: the same bytes are offered again *)
      assert (m = 0%nat) as -> by lia. rewrite Nat.add_0_r in Hinv1.
      destruct (IH j w1 Hx Hkn Hn Hj Hinv1) as [IH1 IH2]. split.
      * intros ret w' Hrun.
        destruct (IH1 ret w' Hrun) as [?|(? & ? & ? & i & Hi)]; [by left|right].
        split; [done|]. split; [congruence|]. split; [done|]. exists (S i).
        rewrite Hi, Hscript. apply drop_tail.
      * intros Herr Hfuel. apply IH2.
        { eapply (no_write_error_drop 1); [|done]. by rewrite Hscript, <- drop_tail. }
        right. rewrite Hscript. destruct (w_wscript w); simpl in *; [|lia].
        specialize (Hall eq_refl). lia.
    + rewrite Nat2Z.id.
      replace (to_size_t (Z.of_nat (n - j) - Z.of_nat m))
        with (Z.of_nat (n - (j + m))).
      2:{ rewrite to_size_t_small; lia. }
      replace (k + j + m)%nat with (k + (j + m))%nat in Hinv1 by lia.
      destruct (IH (j + m)%nat w1 Hx Hkn Hn ltac:(lia) Hinv1) as [IH1 IH2]. split.
      * intros ret w' Hrun.
        destruct (IH1 ret w' Hrun) as [?|(? & ? & ? & i & Hi)]; [by left|right].
        split; [done|]. split; [congruence|]. split; [done|]. exists (S i).
        rewrite Hi, Hscript. apply drop_tail.
      * intros Herr Hfuel. apply IH2.
        { eapply (no_write_error_drop 1); [|done]. by rewrite Hscript, <- drop_tail. }
        rewrite Hscript. destruct (w_wscript w); simpl in *; [|lia].
        specialize (Hall eq_refl). lia.
Qed.



Lemma read_loop_spec x s blen fuel : ∀ k w,
  xfer_ok x → src_fd s = x_src_fd x → dst_fd s = x_dst_fd x →
  0 < blen →
  copy_inv x k k w →
  (∀ ret nread w', read_loop fuel s blen w = Some (ret, nread, w') →
     ret = -1
     ∨ (ret = 0 ∧ nread = 0 ∧ w_names w' = w_names w
        ∧ copy_inv x (length (i_data (x_src x))) (length (i_data (x_src x))) w'
        ∧ ∃ i, w_wscript w' = drop i (w_wscript w)))
  ∧ (no_write_error w →
     (length (i_data (x_src x)) - k + length (w_wscript w) + 2 ≤ fuel)%nat →
     ∃ w', read_loop fuel s blen w = Some (0, 0, w')).
Proof.
  induction fuel as [|f IH]; intros k w Hx Hsfd Hdfd Hblen Hinv; simpl.
  { split; [done|]. intros _ ?. lia. }
  rewrite Hsfd, Hdfd.
  destruct (sys_read_step x k w blen Hx Hinv Hblen)
    as (w1 & -> & Hinv1 & Hscript1 & Hnames1 & Hkn & Hz & Hn).
  set (n := Z.to_nat _) in *.
  destruct (Z.gtb_spec (Z.of_nat n) 0) as [Hpos|Hzero].
  - rewrite to_size_t_small by lia.
    replace (k + n)%nat with (k + n + 0)%nat in Hinv1 at 2 by lia.
    replace (k + n + 0)%nat with (k + n)%nat in Hinv1 at 1 by lia.
    assert (copy_inv x (k + n) (k + 0) w1) as Hinv1'.
    { by rewrite Nat.add_0_r. }
    destruct (write_block_spec x k n f 0%nat w1 Hx Hkn Hn ltac:(lia) Hinv1')
      as [Hw1 Hw2].
    rewrite Nat.sub_0_r in Hw1, Hw2.
    destruct (write_block f (x_dst_fd x) _ 0 (Z.of_nat n) w1) as [[ret w2]|] eqn:Hwb.
    + destruct (Hw1 ret w2 eq_refl) as [->|(-> & Hnames2 & Hinv2 & i & Hi)].
      { simpl. split; [intros ? ? ? [= <- <- <-]; by left|].
        intros Herr Hfuel. destruct Hw2 as [w' Hw'].
        - eapply (no_write_error_drop 0); [|done]. by rewrite Hscript1.
        - right. rewrite Hscript1. lia.
        - done. }
      simpl. destruct (IH (k + n)%nat w2 Hx Hsfd Hdfd Hblen Hinv2) as [IH1 IH2].
      split.
      * intros ret nread w' Hrun.
        destruct (IH1 ret nread w' Hrun) as [?|(? & ? & ? & ? & i' & Hi')]; [by left|].
        right. split; [done|]. split; [done|]. split; [congruence|]. split; [done|].
        exists (i + i')%nat. by rewrite Hi', Hi, Hscript1, drop_drop.
      * intros Herr Hfuel. apply IH2.
        { eapply (no_write_error_drop i); [|done]. by rewrite Hi, Hscript1. }
        rewrite Hi, Hscript1, length_drop. lia.
    + split; [done|]. intros Herr Hfuel. destruct Hw2 as [w' Hw'].
      * eapply (no_write_error_drop 0); [|done]. by rewrite Hscript1.
      * right. rewrite Hscript1. lia.
      * done.
  - assert (n = 0%nat) as Hn0 by lia. specialize (Hz Hn0).
    rewrite Hn0, Nat.add_0_r, Hz in Hinv1. split.
    + intros ret nread w' [= <- <- <-]. right. rewrite Hn0.
      split; [done|]. split; [done|]. split; [done|]. split; [done|].
      exists 0%nat. by rewrite Hscript1.
    + intros _ _. rewrite Hn0. eauto.
Qed.

(** ** Opening the files *)

Lemma same_env_refl w : same_env w w.
Proof. by repeat split. Qed.

Lemma same_env_trans w1 w2 w3 : same_env w1 w2 → same_env w2 w3 → same_env w1 w3.
Proof. unfold same_env. intros (?&?&?&?&?&?) (?&?&?&?&?&?). repeat split; congruence. Qed.

(** What a removal leaves alone, whether it is refused or not. *)
Lemma removal_frame p ev w :
  w_inodes (snd (removal p ev w)) = w_inodes w
  ∧ w_fds (snd (removal p ev w)) = w_fds w
  ∧ same_env w (snd (removal p ev w))
  ∧ (∀ q, q ≠ p → w_names (snd (removal p ev w)) !! q = w_names w !! q).
Proof.
  unfold removal. destruct (w_uscript w) as [|[e|] us]; simpl;
    (repeat split; try done; intros q Hq; by rewrite lookup_delete_ne).
Qed.

Lemma sys_remove_inodes p w : w_inodes (snd (sys_remove p w)) = w_inodes w.
Proof.
  unfold sys_remove. destruct (w_names w !! p); [|done].
  by destruct (removal_frame p (EvRemove p) w) as (? & _).
Qed.

Lemma sys_unlink_inodes p w : w_inodes (snd (sys_unlink p w)) = w_inodes w.
Proof.
  unfold sys_unlink. destruct (w_names w !! p ≫= _) as [i|]; [|done].
  destruct (is_dir i); [done|].
  by destruct (removal_frame p (EvUnlink p) w) as (? & _).
Qed.

Lemma sys_remove_fds p w : w_fds (snd (sys_remove p w)) = w_fds w.
Proof.
  unfold sys_remove. destruct (w_names w !! p); [|done].
  by destruct (removal_frame p (EvRemove p) w) as (_ & ? & _).
Qed.

Lemma sys_unlink_fds_eq p w : w_fds (snd (sys_unlink p w)) = w_fds w.
Proof.
  unfold sys_unlink. destruct (w_names w !! p ≫= _) as [i|]; [|done].
  destruct (is_dir i); [done|].
  by destruct (removal_frame p (EvUnlink p) w) as (_ & ? & _).
Qed.

Lemma fd_alloc_spec t o :
  mjoin (t !! fst (fd_alloc t o)) = None
  ∧ mjoin (snd (fd_alloc t o) !! fst (fd_alloc t o)) = Some o
  ∧ ∀ i, i ≠ fst (fd_alloc t o) →
         mjoin (snd (fd_alloc t o) !! i) = mjoin (t !! i).
Proof.
  induction t as [|[o'|] t IH]; simpl.
  - repeat split; try done. by intros [|i].
  - destruct (fd_alloc t o) as [n t'] eqn:E. simpl in *.
    destruct IH as (IH1 & IH2 & IH3). repeat split; try done.
    intros [|i] Hi; [done|]. simpl. apply IH3. congruence.
  - repeat split; try done. by intros [|i].
Qed.

Lemma install_fd_spec p fl ino w :
  let fd := fst (install_fd p fl ino w) in
  let w' := snd (install_fd p fl ino w) in
  0 ≤ fd ∧ fd_lookup fd w = None
  ∧ fd_lookup fd w' = Some (mkOfd ino 0 (Z.land fl O_ACCMODE))
  ∧ (∀ fd', fd' ≠ fd → fd_lookup fd' w' = fd_lookup fd' w)
  ∧ w_names w' = w_names w ∧ w_inodes w' = w_inodes w
  ∧ same_env w w' ∧ w_errno w' = w_errno w
  ∧ w_uscript w' = w_uscript w ∧ w_now w' = w_now w.
Proof.
  unfold install_fd.
  pose proof (fd_alloc_spec (w_fds w) (mkOfd ino 0 (Z.land fl O_ACCMODE)))
    as (H1 & H2 & H3).
  destruct (fd_alloc _ _) as [n t]. simpl in *.
  split; [lia|]. unfold fd_lookup. simpl.
  rewrite (proj2 (Z.ltb_ge _ _)) by lia. rewrite Nat2Z.id.
  repeat split; try done.
  intros fd' Hne. destruct (Z.ltb_spec fd' 0); [done|].
  apply H3. lia.
Qed.



Lemma sys_open_cases p fl mode w :
  (∃ e, sys_open p fl mode w = sys_fail (-1) e (EvOpen p fl (-1)) w
        ∧ (e = ENOENT ∨ e = EEXIST ∨ e = EISDIR ∨ e = EACCES))
  ∨ (∃ ino i, w_names w !! p = Some ino ∧ w_inodes w !! ino = Some i
        ∧ sys_open p fl mode w = install_fd p fl ino w)
  ∨ (∃ i, w_names w !! p = None
        ∧ sys_open p fl mode w
          = install_fd p fl (length (w_inodes w))
              (set_names (<[p := length (w_inodes w)]> (w_names w))
                 (set_inodes (w_inodes w ++ [i]) (tick w)))).
Proof.
  unfold sys_open. destruct (w_names w !! p) as [ino|] eqn:E.
  - destruct (_ && _); [left; eauto 10|].
    destruct (w_inodes w !! ino) as [i|] eqn:E'; [|left; eauto 10].
    destruct (_ && _); [left; eauto 10|].
    destruct (negb _); [left; eauto 10|]. right. left. eauto.
  - destruct (truthy _); [|left; eauto 10]. right. right. eauto.
Qed.

Lemma sys_chmod_cases p m w :
  (∃ e, sys_chmod p m w = sys_fail (-1) e (EvChmod p m (-1)) w)
  ∨ (∃ ino i, w_names w !! p = Some ino ∧ w_inodes w !! ino = Some i
        ∧ sys_chmod p m w
          = (0, update_inode ino (chmod_bits m) (log (EvChmod p m 0) w))).
Proof.
  unfold sys_chmod. destruct (w_names w !! p) as [ino|] eqn:E; [|left; eauto].
  destruct (w_inodes w !! ino) as [i|] eqn:E'; [|left; eauto].
  destruct (owns w i); [right|left]; eauto 10.
Qed.

Lemma open_dst_loop_spec fs ino isrc p d dsrc fuel : ∀ oflags s w ret s' w',
  oflags = Z.lor (Z.lor O_EXCL O_CREAT) O_WRONLY
  ∨ oflags = clear_bits (Z.lor (Z.lor O_EXCL O_CREAT) O_WRONLY) O_CREAT →
  dsrc = 0 ∨ dsrc = O_NOFOLLOW →
  truthy (Z.land (flags s) COPYFILE_DATA) = true →
  src_held fs ino isrc p d w →
  open_dst_loop fuel false dsrc oflags d s w = Some (ret, s', w') →
  ret = -1
  ∨ (ret = 0 ∧ src s' = src s ∧ dst s' = dst s ∧ src_fd s' = src_fd s
     ∧ sb s' = sb s ∧ flags s' = flags s
     ∧ 0 ≤ dst_fd s' ∧ dst_fd s' ≠ fs
     ∧ src_held fs ino isrc p d w'
     ∧ (∃ id, fd_lookup (dst_fd s') w' = Some (mkOfd id 0 O_WRONLY)
              ∧ w_names w' !! d = Some id ∧ is_Some (w_inodes w' !! id))
     ∧ same_env w w').
Proof.
  induction fuel as [|f IH]; intros oflags s w ret s' w' Hofl Hdsrc Hdata Hheld Hrun;
    [done|].
  assert (Z.land (Z.lor oflags dsrc) O_ACCMODE = O_WRONLY) as Hacc.
  { by destruct Hofl as [-> | ->], Hdsrc as [-> | ->]. }
  assert (clear_bits oflags O_CREAT
          = clear_bits (Z.lor (Z.lor O_EXCL O_CREAT) O_WRONLY) O_CREAT) as Hclr.
  { by destruct Hofl as [-> | ->]. }
  destruct Hheld as (Hfs & Hino & Hnd & Hnp).
  simpl in Hrun.
  destruct (sys_open_cases d (Z.lor oflags dsrc) (Z.lor (st_mode (sb s)) S_IWUSR) w)
    as [(e & Hopen & He)|[(id & i & Hd & Hi & Hopen)|(i & Hd & Hopen)]];
    rewrite Hopen in Hrun.
  - (* the open failed *)
    simpl in Hrun.
    destruct He as [-> | [-> | [-> | ->]]]; simpl in Hrun.
    + injection Hrun as <- <- <-. by left.
    + destruct (truthy (Z.land (flags s) COPYFILE_EXCL)).
      { injection Hrun as <- <- <-. by left. }
      eapply IH in Hrun; [|by right|done|done|by repeat split].
      destruct Hrun as [?|(? & ? & ? & ? & ? & ? & ? & ? & ? & ? & Henv)];
        [by left|right].
      by repeat (split; [done|]).
    + rewrite Hdata in Hrun. rewrite orb_true_r in Hrun.
      injection Hrun as <- <- <-. by left.
    + match type of Hrun with context [sys_chmod d ?m ?w0] =>
        destruct (sys_chmod_cases d m w0)
          as [(e & Hch)|(id & i & Hd & Hi & Hch)]; rewrite Hch in Hrun
      end; simpl in Hrun.
      { injection Hrun as <- <- <-. by left. }
      eapply IH in Hrun; [|done|done|done|].
      * destruct Hrun as [?|(? & ? & ? & ? & ? & ? & ? & ? & ? & ? & Henv)];
          [by left|right].
        by repeat (split; [done|]).
      * repeat split; [done| |done|done]. simpl in *.
        rewrite list_lookup_alter_ne; [done|]. congruence.
  - (* an existing file is opened *)
    pose proof (install_fd_spec d (Z.lor oflags dsrc) id w)
      as (Hfd & Hfree & Hnew & Hold & Hnames & Hinodes & Henv & _).
    destruct (install_fd d (Z.lor oflags dsrc) id w) as [fd w1]. simpl in *.
    rewrite (proj2 (Z.ltb_ge _ _) Hfd) in Hrun. injection Hrun as <- <- <-.
    right. simpl. repeat (split; [done|]).
    assert (fd ≠ fs) as Hne by congruence.
    split; [done|]. split.
    { repeat split; [by rewrite Hold|congruence|congruence|].
      intros Hpd. rewrite Hnames. by apply Hnp. }
    split; [|done]. exists id. rewrite Hnew, Hacc, Hnames, Hinodes. eauto.
  - (* the file is created *)
    match type of Hrun with context [install_fd d ?fl ?n ?w0] =>
      pose proof (install_fd_spec d fl n w0)
        as (Hfd & Hfree & Hnew & Hold & Hnames & Hinodes & Henv & _);
      destruct (install_fd d fl n w0) as [fd w1]
    end.
    simpl in *.
    rewrite (proj2 (Z.ltb_ge _ _) Hfd) in Hrun. injection Hrun as <- <- <-.
    right. simpl. repeat (split; [done|]).
    assert (fd ≠ fs) as Hne.
    { intros ->. unfold fd_lookup in *. simpl in *. congruence. }
    pose proof (lookup_lt_Some _ _ _ Hino) as Hlt.
    split; [done|]. split.
    { repeat split.
      - by rewrite Hold.
      - rewrite Hinodes. by rewrite lookup_app_l.
      - rewrite Hnames, lookup_insert_eq. intros [= E]. lia.
      - intros Hpd. rewrite Hnames. simpl. rewrite lookup_insert_ne by done.
        by apply Hnp. }
    split; [|done]. exists (length (w_inodes w)).
    rewrite Hnew, Hacc, Hnames, Hinodes, lookup_insert_eq.
    split; [done|]. split; [done|].
    rewrite lookup_app_r, Nat.sub_diag by lia. by eexists.
Qed.



Lemma sys_remove_held fs ino isrc p d w :
  src_held fs ino isrc p d w →
  src_held fs ino isrc p d (snd (sys_remove d w)) ∧ same_env w (snd (sys_remove d w)).
Proof.
  intros (Hfs & Hino & Hnd & Hnp). unfold sys_remove.
  destruct (w_names w !! d) eqn:E; simpl.
  - unfold removal. destruct (w_uscript w) as [|[e|] us]; simpl.
    + repeat split; try done; simpl.
      * by rewrite lookup_delete_eq.
      * intros Hpd. rewrite lookup_delete_ne by done. by apply Hnp.
    + repeat split; try done; simpl. congruence.
    + repeat split; try done; simpl.
      * by rewrite lookup_delete_eq.
      * intros Hpd. rewrite lookup_delete_ne by done. by apply Hnp.
  - repeat split; simpl; try done. by rewrite E.
Qed.

Lemma copyfile_open_dst_spec fs ino isrc p d fuel s w ret s' w' :
  dst s = Some d → dst_fd s = -2 → src_fd s = fs →
  truthy (Z.land (flags s) COPYFILE_DATA) = true →
  src_held fs ino isrc p d w →
  copyfile_open_dst fuel false s w = Some (ret, s', w') →
  ret = -1
  ∨ (ret = 0 ∧ src s' = src s ∧ dst s' = dst s ∧ src_fd s' = src_fd s
     ∧ sb s' = sb s ∧ flags s' = flags s
     ∧ 0 ≤ dst_fd s' ∧ dst_fd s' ≠ fs
     ∧ src_held fs ino isrc p d w'
     ∧ (∃ id, fd_lookup (dst_fd s') w' = Some (mkOfd id 0 O_WRONLY)
              ∧ w_names w' !! d = Some id ∧ is_Some (w_inodes w' !! id))
     ∧ same_env w w').
Proof.
  intros Hd Hdfd Hsfd Hdata Hheld Hrun. unfold copyfile_open_dst in Hrun.
  rewrite Hd, Hdfd in Hrun. simpl in Hrun.
  assert (∃ stop w1,
    (if truthy (Z.land COPYFILE_UNLINK (flags s))
     then let '(r, w0) := sys_remove d w in
          if (r <? 0) && negb (w_errno w0 =? ENOENT)
          then (true, copyfile_warn "remove" w0) else (false, w0)
     else (false, w)) = (stop, w1)
    ∧ src_held fs ino isrc p d w1 ∧ same_env w w1) as (stop & w1 & E & Hheld1 & Henv1).
  { destruct (truthy (Z.land COPYFILE_UNLINK (flags s))).
    - destruct (sys_remove_held fs ino isrc p d w Hheld) as [Hh He].
      destruct (sys_remove d w) as [r w0]. simpl in *.
      destruct (_ && _); by eexists _, _.
    - eexists _, _. split; [done|]. split; [done|]. apply same_env_refl. }
  rewrite E in Hrun. destruct stop.
  { injection Hrun as <- <- <-. by left. }
  match type of Hrun with context [open_dst_loop fuel false ?dsrc ?ofl d s w1] =>
    destruct (open_dst_loop fuel false dsrc ofl d s w1) as [[[r s2] w2]|] eqn:Hloop;
    [|done];
    eapply (open_dst_loop_spec fs ino isrc p d dsrc) in Hloop;
    [|by left
     |destruct (truthy (Z.land (flags s) COPYFILE_NOFOLLOW_DST)); auto
     |done|done]
  end.
  destruct Hloop as [->|(-> & Hs1 & Hs2 & Hs3 & Hs4 & Hs5 & Hfd & Hne & Hheld2 & Hid & Henv2)].
  { simpl in Hrun. injection Hrun as <- <- <-. by left. }
  simpl in Hrun.
  rewrite (proj2 (Z.ltb_ge _ _) Hfd) in Hrun.
  destruct Hheld as (Hfs & _). pose proof (fd_lookup_nonneg _ _ _ Hfs) as Hfs0.
  rewrite Hs3, Hsfd, (proj2 (Z.ltb_ge _ _) Hfs0) in Hrun.
  injection Hrun as <- <- <-. right. rewrite Hs3, Hsfd.
  repeat (split; [done|]). by eapply same_env_trans.
Qed.

(** The source half of [copyfile_open] on a fresh handle whose source path
    names a regular file. *)
Lemma copyfile_open_spec ino isrc p d fuel s w ret s' w' :
  src s = Some p → dst s = Some d → src_fd s = -2 → dst_fd s = -2 →
  truthy (Z.land (flags s) COPYFILE_DATA) = true →
  w_names w !! p = Some ino → w_inodes w !! ino = Some isrc →
  file_type isrc = S_IFREG →
  w_names w !! d ≠ Some ino →
  copyfile_open fuel s w = Some (ret, s', w') →
  ret = -1
  ∨ (ret = 0 ∧ dst s' = Some d ∧ sb s' = stat_of_inode isrc ∧ flags s' = flags s
     ∧ 0 ≤ src_fd s' ∧ 0 ≤ dst_fd s' ∧ dst_fd s' ≠ src_fd s'
     ∧ src_held (src_fd s') ino isrc p d w'
     ∧ (∃ id, fd_lookup (dst_fd s') w' = Some (mkOfd id 0 O_WRONLY)
              ∧ w_names w' !! d = Some id ∧ is_Some (w_inodes w' !! id))
     ∧ same_env w w').
Proof.
  intros Hp Hd Hsfd Hdfd Hdata Hnp Hino Hreg Hnd Hrun.
  unfold copyfile_open in Hrun. rewrite Hp, Hsfd in Hrun. simpl in Hrun.
  unfold sys_stat in Hrun. rewrite Hnp in Hrun. simpl in Hrun.
  rewrite Hino in Hrun. simpl in Hrun.
  unfold file_type in Hreg. rewrite Hreg in Hrun. simpl in Hrun.
  destruct (sys_open_cases p (Z.lor O_RDONLY 0) 0 (log (EvStat p) w))
    as [(e & Hopen & He)|[(ino' & i & Hp' & Hi & Hopen)|(i & Hp' & Hopen)]];
    rewrite Hopen in Hrun.
  - simpl in Hrun. injection Hrun as <- <- <-. by left.
  - simpl in Hp', Hi. assert (ino' = ino) as -> by congruence.
    pose proof (install_fd_spec p (Z.lor O_RDONLY 0) ino (log (EvStat p) w))
      as (Hfd & Hfree & Hnew & Hold & Hnames & Hinodes & Henv & _).
    destruct (install_fd p (Z.lor O_RDONLY 0) ino (log (EvStat p) w)) as [fd w1].
    simpl in Hfd, Hfree, Hnew, Hold, Hnames, Hinodes, Henv.
    rewrite (proj2 (Z.ltb_ge _ _) Hfd) in Hrun.
    eapply (copyfile_open_dst_spec fd ino isrc p d) in Hrun;
      [|done|done|done|done|].
    + destruct Hrun as [?|(-> & Hs1 & Hs2 & Hs3 & Hs4 & Hs5 & Hdst & Hne & Hheld & Hid & Henv')];
        [by left|right].
      simpl in *. rewrite Hs3. change (same_env w w1) in Henv.
      split; [done|]. split; [congruence|]. do 7 (split; [done|]).
      by eapply same_env_trans.
    + repeat split; [done|congruence|congruence|intros _; congruence].
  - simpl in Hp'. congruence.
Qed.



(** What a successful [copyfile_data] leaves behind, and when it succeeds. *)
Lemma copyfile_data_spec x s fuel w :
  xfer_ok x → src_fd s = x_src_fd x → dst_fd s = x_dst_fd x →
  st_size (sb s) = Z.of_nat (length (i_data (x_src x))) →
  0 < match w_iosize w with
      | Some io => to_size_t io
      | None => to_size_t (st_blksize (sb s))
      end →
  copy_inv x 0 0 w →
  (∀ ret w', copyfile_data fuel s w = Some (ret, w') →
     ret = -1
     ∨ (ret = 0 ∧ data_of (x_dst_ino x) w' = Some (i_data (x_src x))
        ∧ data_of (x_src_ino x) w' = Some (i_data (x_src x))
        ∧ w_names w' = w_names w))
  ∧ (no_write_error w → (0 < w_mem w)%nat →
     (length (i_data (x_src x)) + length (w_wscript w) + 2 ≤ fuel)%nat →
     ∃ w', copyfile_data fuel s w = Some (0, w')).
Proof.
  intros Hx Hsfd Hdfd Hsize Hblk Hinv. unfold copyfile_data.
  assert (sys_fstatfs (src_fd s) w = w_iosize w) as ->.
  { destruct Hinv as (Hs & _ & [t Hsi] & _). unfold sys_fstatfs, fd_inode.
    rewrite Hsfd, Hs. simpl. by rewrite Hsi. }
  unfold sys_alloc. destruct (w_mem w) as [|m] eqn:Hmem.
  { simpl. split; [intros ? ? [= <- <-]; by left|]. intros _ ?. lia. }
  simpl.
  set (blen := match w_iosize w with
               | Some io => to_size_t io
               | None => to_size_t (st_blksize (sb s))
               end) in *.
  assert (copy_inv x 0 0 (set_mem m w)) as Hinv' by (by eapply copy_inv_ext).
  destruct (read_loop_spec x s blen fuel 0%nat (set_mem m w) Hx Hsfd Hdfd Hblk Hinv')
    as [Hr1 Hr2].
  assert (∀ w1, copy_inv x (length (i_data (x_src x))) (length (i_data (x_src x))) w1 →
            ∃ w2, sys_ftruncate (dst_fd s) (st_size (sb s)) w1 = (0, w2)
              ∧ data_of (x_dst_ino x) w2 = Some (i_data (x_src x))
              ∧ data_of (x_src_ino x) w2 = Some (i_data (x_src x))
              ∧ w_names w2 = w_names w1) as Htrunc.
  { intros w1 Hinv1. rewrite Hdfd, Hsize.
    destruct (sys_ftruncate_step x _ w1 Hx Hinv1) as (w2 & ? & ? & ? & ? & _).
    by exists w2. }
  destruct (read_loop fuel s blen (set_mem m w)) as [[[ret nread] w1]|] eqn:Hloop.
  - destruct (Hr1 ret nread w1 eq_refl) as [->|(-> & -> & Hnames & Hinv1 & _)].
    { simpl. split; [intros ? ? [= <- <-]; by left|].
      intros Herr _ Hfuel. destruct Hr2 as [w2 Hw2]; [done|simpl; lia|done]. }
    simpl. destruct (Htrunc w1 Hinv1) as (w2 & -> & Hd & Hs & Hn). simpl.
    split; [|by eauto]. intros ret w' [= <- <-]. right.
    repeat split; try done. by rewrite Hn, Hnames.
  - split; [done|]. intros Herr _ Hfuel.
    destruct Hr2 as [w2 Hw2]; [done|simpl; lia|done].
Qed.

(** ** Metadata calls and teardown leave names and contents alone *)

Lemma same_content_refl w : same_content w w.
Proof. by split. Qed.

Lemma same_content_trans w1 w2 w3 :
  same_content w1 w2 → same_content w2 w3 → same_content w1 w3.
Proof.
  intros [? H1] [? H2]. split; [congruence|]. intros ino. by rewrite H2, H1.
Qed.

Lemma sys_fmeta_content ev fd f w :
  (∀ i, i_data (f i) = i_data i) → same_content w (snd (sys_fmeta ev fd f w)).
Proof.
  intros Hf. unfold sys_fmeta. destruct (fd_lookup fd w) as [o|]; [|by split].
  destruct (w_inodes w !! ofd_ino o) as [i|] eqn:E; [|by split].
  destruct (owns w i); [|by split]. split; [done|]. intros ino.
  unfold data_of. simpl. destruct (decide (ofd_ino o = ino)) as [<-|Hne].
  - rewrite list_lookup_alter_eq, E. simpl. by rewrite Hf.
  - by rewrite list_lookup_alter_ne.
Qed.

Lemma copyfile_stat_content s w : same_content w (snd (copyfile_stat s w)).
Proof.
  unfold copyfile_stat.
  assert (same_content w (snd (sys_fchflags (dst_fd s) (to_uint32 (st_flags (sb s))) w)))
    as H1.
  { unfold sys_fchflags. destruct (w_noflags w); [by split|].
    by apply sys_fmeta_content. }
  destruct (sys_fchflags _ _ w) as [r1 w1]. simpl in H1.
  set (w2 := if _ && _ then copyfile_warn "set flags" w1 else w1).
  assert (same_content w w2) as H2 by (unfold w2; by destruct (_ && _)).
  clearbody w2.
  assert (same_content w2 (snd (sys_fchown (dst_fd s) (st_uid (sb s)) (st_gid (sb s)) w2)))
    as H3.
  { unfold sys_fchown. destruct (fd_inode _ _); [|by split].
    destruct (_ && _); [by split|]. by apply sys_fmeta_content. }
  set (w3 := snd (sys_fchown _ _ _ w2)) in *.
  assert (same_content w3 (snd (sys_fchmod (dst_fd s) (clear_bits (st_mode (sb s)) S_IFMT) w3)))
    as H4 by (by apply sys_fmeta_content).
  set (w4 := snd (sys_fchmod _ _ w3)) in *.
  assert (same_content w4 (snd (sys_futimes (dst_fd s) (st_atime (sb s)) (st_mtime (sb s)) w4)))
    as H5 by (by apply sys_fmeta_content).
  destruct (sys_futimes _ _ _ w4) as [r5 w5]. simpl in *.
  assert (same_content w w5) as H6.
  { repeat (eapply same_content_trans; [|eassumption]). apply same_content_refl. }
  by destruct (truthy r5).
Qed.

Lemma copyfile_stat_ret s w : fst (copyfile_stat s w) = 0.
Proof.
  unfold copyfile_stat. destruct (sys_fchflags _ _ w) as [r1 w1].
  by destruct (sys_futimes _ _ _ _) as [r2 w2].
Qed.

Lemma sys_close_content fd w : same_content w (snd (sys_close fd w)).
Proof. unfold sys_close. by destruct (fd_lookup fd w). Qed.

Lemma copyfile_state_free_content s w :
  same_content w (snd (copyfile_state_free s w)).
Proof.
  destruct s as [s|]; [|apply same_content_refl].
  unfold copyfile_state_free, copyfile_close.
  set (w1 := if _ && _ then snd (sys_close (src_fd s) w) else w).
  assert (same_content w w1) as H1.
  { unfold w1. destruct (_ && _); [apply sys_close_content|apply same_content_refl]. }
  clearbody w1. destruct (_ && _); [|done].
  pose proof (sys_close_content (dst_fd s) w1) as H2.
  destruct (sys_close (dst_fd s) w1) as [r w2]. simpl in H2.
  destruct (truthy r); simpl; by eapply same_content_trans.
Qed.



(** ** The path-mode entry point on a fresh handle *)

Lemma copyfile_preamble_none fl w m :
  w_mem w = S m →
  ∃ dbg e, copyfile_preamble None fl w
           = (0, Some (mkState None None (-2) (-2) zero_stat fl dbg),
              set_errno e (set_mem m w)).
Proof.
  intros Hm. unfold copyfile_preamble, copyfile_state_alloc, sys_alloc. rewrite Hm.
  destruct (truthy (Z.land COPYFILE_DEBUG fl)); [|by exists 0, (w_errno w)].
  simpl. destruct (w_env w) as [e|]; [|by exists 0, (w_errno w)].
  destruct (strtol e) as [v [x|]]; simpl;
    match goal with |- context [if ?b then _ else _] => destruct b end;
    by eexists _, _.
Qed.

(** With no handle and both paths given, [copyfile] allocates the handle
    and the two path strings, then opens, copies and tears down. *)
Lemma copyfile_fresh fuel p d fl w m :
  w_mem w = S (S (S m)) →
  ∃ dbg e,
    copyfile fuel (Some p) (Some d) None fl w
    = match copyfile_open fuel (mkState (Some p) (Some d) (-2) (-2) zero_stat fl dbg)
              (set_errno e (set_mem m w)) with
      | None => None
      | Some (ret, s', w') =>
          match (if ret <? 0 then Some (-1, w')
                 else copyfile_internal fuel s' fl w') with
          | None => None
          | Some (ret, w'') =>
              Some (ret, None, snd (copyfile_state_free (Some s') w''))
          end
      end.
Proof.
  intros Hm. destruct (copyfile_preamble_none fl w _ Hm) as (dbg & e & Hpre).
  exists dbg, e. unfold copyfile. rewrite Hpre. simpl.
  unfold strdup, sys_alloc. simpl. reflexivity.
Qed.

Lemma copyfile_fresh_oom fuel p d fl w :
  (w_mem w < 3)%nat →
  ∃ w', copyfile fuel (Some p) (Some d) None fl w = Some (-1, None, w').
Proof.
  intros Hm. unfold copyfile. simpl.
  destruct (w_mem w) as [|m] eqn:E.
  { unfold copyfile_preamble, copyfile_state_alloc, sys_alloc. rewrite E. by eexists. }
  destruct (copyfile_preamble_none fl w _ E) as (dbg & e & ->). simpl.
  unfold strdup, sys_alloc. simpl.
  destruct m as [|[|m]]; [by eexists..|lia].
Qed.

(** The same on any handle that holds no descriptor yet: the preamble
    and the two path assignments either run out of memory, and the call
    returns -1, or leave a handle with both paths stored and both descriptors
    unset, in a world that differs in [errno] and in the memory left only. *)
Lemma copyfile_unset fuel p d st fl w :
  no_descriptors st →
  ((w_mem w < 3)%nat
   ∧ ∃ st' w', copyfile fuel (Some p) (Some d) st fl w = Some (-1, st', w'))
  ∨ (∃ s0 w0,
       src s0 = Some p ∧ dst s0 = Some d ∧ src_fd s0 = -2 ∧ dst_fd s0 = -2
       ∧ flags s0 = fl
       ∧ w_names w0 = w_names w ∧ w_inodes w0 = w_inodes w ∧ w_fds w0 = w_fds w
       ∧ same_env (set_mem (w_mem w0) w) w0 ∧ w_uscript w0 = w_uscript w
       ∧ (w_mem w ≤ w_mem w0 + 3)%nat
       ∧ copyfile fuel (Some p) (Some d) st fl w
         = match copyfile_open fuel s0 w0 with
           | None => None
           | Some (ret, s', w') =>
               match (if ret <? 0 then Some (-1, w')
                      else copyfile_internal fuel s' fl w') with
               | None => None
               | Some (ret, w'') =>
                   match st with
                   | None => Some (ret, None, snd (copyfile_state_free (Some s') w''))
                   | Some _ => Some (ret, Some s', w'')
                   end
               end
           end).
Proof.
  intros Hst. destruct st as [s|].
  - destruct Hst as [Hsfd Hdfd].
    destruct (copyfile_preamble_some s fl w)
      as (s1 & w1 & Hpre & Hs1 & Hd1 & Hsf1 & Hdf1 & Hsb1 & Hfl1 & Hn1 & Hi1 & Hf1
          & _ & Hm1 & He1 & Hr1 & Hw1 & Hio1 & Hu1 & Hus1).
    unfold copyfile. rewrite (bool_decide_eq_false_2 (Some p = None)) by done.
    cbn [andb]. rewrite Hpre. change (0 <? 0) with false. cbv iota.
    assert (∀ name old wx, COPYFILE_SET_FNAME (Some name) old (-2) wx
              = match w_mem wx with
                | O => (true, None, -2, set_errno ENOMEM wx)
                | S n => (false, Some name, -2, set_mem n wx)
                end) as Hset.
    { intros name old wx. unfold COPYFILE_SET_FNAME.
      assert (match old with
              | Some old0 =>
                  if truthy (strncmp name old0 (Z.to_nat MAXPATHLEN))
                  then if negb (-2 =? -2) && (-2 >? -1)
                       then (-2, snd (sys_close (-2) wx)) else (-2, wx)
                  else (-2, wx)
              | None => (-2, wx)
              end = (-2, wx)) as ->.
      { destruct old as [old0|]; [|done]. by destruct (truthy _). }
      unfold strdup, sys_alloc. by destruct (w_mem wx). }
    rewrite Hsf1, Hsfd, Hset.
    destruct (w_mem w1) as [|m1] eqn:Em1;
      [left; split; [lia|by eexists _, _]|].
    cbv iota beta. cbn [dst dst_fd set_src set_src_fd]. rewrite Hdf1, Hdfd, Hset.
    cbn [w_mem set_mem].
    destruct m1 as [|m2]; [left; split; [lia|by eexists _, _]|].
    cbv iota beta. right.
    eexists (set_dst_fd (-2) (set_dst (Some d) (set_src_fd (-2) (set_src (Some p) s1)))),
            (set_mem m2 (set_mem (S m2) w1)).
    repeat split; try done; simpl; try congruence. lia.
  - destruct (w_mem w) as [|[|[|m]]] eqn:Em;
      try (left; destruct (copyfile_fresh_oom fuel p d fl w ltac:(lia)) as [w' E];
           split; [lia|by eexists _, _]).
    destruct (copyfile_fresh fuel p d fl w m Em) as (dbg & e & E).
    right. eexists _, (set_errno e (set_mem m w)). rewrite E.
    repeat split; try done. simpl. lia.
Qed.

(** [copyfile_internal] with the DATA bit: the data step decides. *)
Lemma copyfile_internal_data fuel s fl w ret w' :
  truthy (Z.land COPYFILE_DATA fl) = true →
  0 ≤ dst_fd s → 0 ≤ src_fd s →
  copyfile_internal fuel s fl w = Some (ret, w') →
  ∃ r wd, copyfile_data fuel s w = Some (r, wd)
    ∧ ((r < 0 ∧ ret = r) ∨ (0 ≤ r ∧ (ret = r ∨ ret = 0) ∧ same_content wd w')).
Proof.
  intros Hdata Hd Hs. unfold copyfile_internal.
  assert ((dst_fd s <? 0) || (src_fd s <? 0) = false) as ->.
  { apply orb_false_iff. split; lia. }
  rewrite Hdata. destruct (copyfile_data fuel s w) as [[r wd]|]; [|done].
  intros Hrun. exists r, wd. split; [done|].
  destruct (Z.ltb_spec r 0) as [Hneg|Hpos].
  - left. split; [done|]. destruct (dst s) as [d|].
    + destruct (sys_unlink d _) as [r' w1]. destruct (truthy r'); congruence.
    + congruence.
  - right. split; [done|]. destruct (truthy (Z.land COPYFILE_STAT fl)).
    + pose proof (copyfile_stat_content s wd) as Hc.
      pose proof (copyfile_stat_ret s wd) as Hr.
      destruct (copyfile_stat s wd) as [r' w1]. simpl in Hc, Hr. subst r'.
      simpl in Hrun. injection Hrun as <- <-. split; [by right|done].
    + injection Hrun as <- <-. split; [by left|apply same_content_refl].
Qed.



Lemma file_data_of p ino w : w_names w !! p = Some ino → file_data p w = data_of ino w.
Proof. unfold file_data, data_of. by intros ->. Qed.

(** After the open step has left the source open on [ino] and the
    destination on another file [id]: a coordinator run that returns 0 has
    left [id] with the bytes of the source. *)
Lemma copyfile_held_content fuel p d fl s1 w1 ino isrc id w2 :
  truthy (Z.land COPYFILE_DATA fl) = true →
  sb s1 = stat_of_inode isrc → 0 ≤ src_fd s1 → 0 ≤ dst_fd s1 →
  dst_fd s1 ≠ src_fd s1 →
  src_held (src_fd s1) ino isrc p d w1 →
  fd_lookup (dst_fd s1) w1 = Some (mkOfd id 0 O_WRONLY) →
  w_names w1 !! d = Some id → is_Some (w_inodes w1 !! id) →
  file_type isrc = S_IFREG →
  Forall (λ e, e = None) (w_rscript w1) →
  0 < match w_iosize w1 with
      | Some io => to_size_t io
      | None => to_size_t (i_blksize isrc)
      end →
  copyfile_internal fuel s1 fl w1 = Some (0, w2) →
  w_names w2 = w_names w1
  ∧ data_of id w2 = Some (i_data isrc) ∧ data_of ino w2 = Some (i_data isrc).
Proof.
  intros Hdata Hsb Hsfd Hdfd Hne Hheld Hdl Hdn [idst Hdi] Hreg Hrs Hblk Hint.
  destruct (copyfile_internal_data _ _ _ _ _ _ Hdata Hdfd Hsfd Hint)
    as (r1 & wd & Hcd & Hres).
  destruct Hheld as (Hsl & Hsi & Hnd1 & Hnp1).
  set (x := mkXfer (src_fd s1) (dst_fd s1) ino id O_RDONLY O_WRONLY isrc).
  assert (xfer_ok x) as Hx.
  { split; [simpl; congruence|]. split; [simpl; congruence|].
    split; [done|]. split; [done|]. simpl. unfold is_dir. by rewrite Hreg. }
  assert (copy_inv x 0 0 w1) as Hinv.
  { split; [done|]. split; [done|]. split; [by apply untouched|].
    split; [by eauto|]. split; [simpl; lia|done]. }
  destruct (copyfile_data_spec x s1 fuel w1 Hx eq_refl eq_refl) as [Hspec _];
    [by rewrite Hsb|by rewrite Hsb|done|].
  destruct (Hspec r1 wd Hcd) as [->|(-> & Hdd & Hsd & Hnames)].
  { destruct Hres as [[_ ?]|[? _]]; lia. }
  destruct Hres as [[? _]|(_ & _ & [Hn Hd])]; [lia|].
  split; [congruence|]. by rewrite !Hd.
Qed.

(** A successful data copy from a regular file, on a handle that holds no
    descriptor yet, to a path that does not name the source, leaves the
    destination with the bytes of the source. *)
Lemma copyfile_success_content_gen fuel p d st fl w ino isrc r w' :
  no_descriptors st →
  truthy (Z.land COPYFILE_DATA fl) = true →
  w_names w !! p = Some ino → w_inodes w !! ino = Some isrc →
  file_type isrc = S_IFREG →
  w_names w !! d ≠ Some ino →
  Forall (λ e, e = None) (w_rscript w) →
  0 < match w_iosize w with
      | Some io => to_size_t io
      | None => to_size_t (i_blksize isrc)
      end →
  copyfile fuel (Some p) (Some d) st fl w = Some (0, r, w') →
  file_data d w' = Some (i_data isrc) ∧ file_data p w' = Some (i_data isrc).
Proof.
  intros Hst Hdata Hnp Hino Hreg Hnd Hrs Hblk Hrun.
  assert (truthy (Z.land fl COPYFILE_DATA) = true) as Hdata'
    by (by rewrite Z.land_comm).
  assert (p ≠ d) as Hpd by (intros ->; congruence).
  destruct (copyfile_unset fuel p d st fl w Hst)
    as [(_ & st' & w'' & E)|(s0 & w0 & Hs0 & Hd0 & Hsf0 & Hdf0 & Hfl0 & Hn0 & Hi0 & Hf0
                               & Henv0 & _ & _ & E)];
    rewrite E in Hrun; [discriminate|]. clear E.
  destruct Henv0 as (Hrs0 & _ & Hio0 & _). simpl in Hrs0, Hio0.
  destruct (copyfile_open fuel s0 w0) as [[[ret s1] w1]|] eqn:Hopen; [|done].
  eapply (copyfile_open_spec ino isrc p d) in Hopen; try done;
    [|by rewrite Hfl0|by rewrite Hn0|by rewrite Hi0|by rewrite Hn0].
  destruct Hopen as [->|(-> & Hdst & Hsb & Hfl & Hsfd & Hdfd & Hne & Hheld
                          & (id & Hdl & Hdn & Hdi) & Henv)].
  { simpl in Hrun. by destruct st. }
  change (0 <? 0) with false in Hrun. cbv iota in Hrun.
  destruct (copyfile_internal fuel s1 fl w1) as [[ret w2]|] eqn:Hint; [|done].
  destruct Henv as (Hers & _ & Heio & _).
  assert (ret = 0 ∧ w' = match st with
                         | None => snd (copyfile_state_free (Some s1) w2)
                         | Some _ => w2
                         end) as [-> ->].
  { destruct st; injection Hrun as -> _ <-; by split. }
  clear Hrun.
  destruct (copyfile_held_content fuel p d fl s1 w1 ino isrc id w2)
    as (Hnames & Hdd & Hsd); try done;
    [by rewrite Hers, Hrs0|by rewrite Heio, Hio0|].
  destruct Hheld as (_ & _ & _ & Hnp1). specialize (Hnp1 Hpd).
  assert (same_content w2 match st with
                          | None => snd (copyfile_state_free (Some s1) w2)
                          | Some _ => w2
                          end) as [Hn Hd].
  { destruct st; [apply same_content_refl|]. apply copyfile_state_free_content. }
  set (wf := match st with None => _ | Some _ => w2 end) in *.
  assert (w_names wf !! d = Some id) as Hfd by (by rewrite Hn, Hnames).
  assert (w_names wf !! p = Some ino) as Hfp by (by rewrite Hn, Hnames).
  by rewrite (file_data_of _ _ _ Hfd), (file_data_of _ _ _ Hfp), !Hd.
Qed.

Lemma copyfile_success_content fuel p d fl w ino isrc r w' :
  truthy (Z.land COPYFILE_DATA fl) = true →
  w_names w !! p = Some ino → w_inodes w !! ino = Some isrc →
  file_type isrc = S_IFREG →
  w_names w !! d ≠ Some ino →
  Forall (λ e, e = None) (w_rscript w) →
  0 < match w_iosize w with
      | Some io => to_size_t io
      | None => to_size_t (i_blksize isrc)
      end →
  copyfile fuel (Some p) (Some d) None fl w = Some (0, r, w') →
  file_data d w' = Some (i_data isrc) ∧ file_data p w' = Some (i_data isrc).
Proof. by apply copyfile_success_content_gen. Qed.

(** ** Progress: when the copy goes through *)

Lemma open_flag_bits dsrc :
  dsrc = 0 ∨ dsrc = O_NOFOLLOW →
  let oflags := Z.lor (Z.lor O_EXCL O_CREAT) O_WRONLY in
  truthy (Z.land (Z.lor oflags dsrc) O_CREAT) = true
  ∧ truthy (Z.land (Z.lor oflags dsrc) O_EXCL) = true
  ∧ truthy (Z.land (Z.lor (clear_bits oflags O_CREAT) dsrc) O_CREAT) = false
  ∧ Z.land (Z.lor (clear_bits oflags O_CREAT) dsrc) O_ACCMODE = O_WRONLY.
Proof. by intros [-> | ->]. Qed.

(** The destination does not exist: the first attempt creates it. *)
Lemma open_dst_loop_absent fuel isdir dsrc d s w :
  dsrc = 0 ∨ dsrc = O_NOFOLLOW →
  w_names w !! d = None →
  ∃ fd w', 0 ≤ fd
    ∧ open_dst_loop (S fuel) isdir dsrc (Z.lor (Z.lor O_EXCL O_CREAT) O_WRONLY) d s w
      = Some (0, set_dst_fd fd s, w').
Proof.
  intros Hdsrc Hd.
  destruct Hdsrc as [-> | ->];
    (cbn [open_dst_loop]; unfold sys_open; rewrite Hd; simpl;
     match goal with |- context [install_fd d ?fl ?n ?w0] =>
       pose proof (install_fd_spec d fl n w0) as (Hfd & _);
       destruct (install_fd d fl n w0) as [fd w1]
     end;
     simpl in Hfd; rewrite (proj2 (Z.ltb_ge _ _) Hfd); by exists fd, w1).
Qed.

(** The destination is a file the caller may write and EXCL is not set:
    the second attempt opens it. *)
Lemma open_dst_loop_present fuel isdir dsrc d s w id i :
  dsrc = 0 ∨ dsrc = O_NOFOLLOW →
  w_names w !! d = Some id → w_inodes w !! id = Some i →
  is_dir i = false → may_write w i = true →
  truthy (Z.land (flags s) COPYFILE_EXCL) = false →
  ∃ fd w', 0 ≤ fd
    ∧ open_dst_loop (S (S fuel)) isdir dsrc (Z.lor (Z.lor O_EXCL O_CREAT) O_WRONLY) d s w
      = Some (0, set_dst_fd fd s, w').
Proof.
  intros Hdsrc Hd Hi Hdir Hw Hexcl.
  destruct Hdsrc as [-> | ->];
    (cbn [open_dst_loop]; unfold sys_open at 1; rewrite Hd; simpl;
     rewrite Hexcl; unfold sys_open; simpl; rewrite Hd, Hi, Hdir; simpl;
     unfold access_ok; simpl; unfold may_write in *; simpl; rewrite Hw; simpl;
     match goal with |- context [install_fd d ?fl ?n ?w0] =>
       pose proof (install_fd_spec d fl n w0) as (Hfd & _);
       destruct (install_fd d fl n w0) as [fd w1]
     end;
     simpl in Hfd; rewrite (proj2 (Z.ltb_ge _ _) Hfd); by exists fd, w1).
Qed.

Lemma copyfile_open_dst_total fuel s w d :
  dst s = Some d → dst_fd s = -2 → 0 ≤ src_fd s →
  dst_ready (truthy (Z.land COPYFILE_UNLINK (flags s)))
            (truthy (Z.land (flags s) COPYFILE_EXCL)) d w →
  ∃ s' w', copyfile_open_dst (S (S fuel)) false s w = Some (0, s', w').
Proof.
  intros Hd Hdfd Hsfd Hready. unfold copyfile_open_dst. rewrite Hd, Hdfd.
  cbn -[open_dst_loop sys_remove Z.lor].
  set (dsrc := if truthy (Z.land (flags s) COPYFILE_NOFOLLOW_DST)
               then O_NOFOLLOW else 0).
  assert (dsrc = 0 ∨ dsrc = O_NOFOLLOW) as Hdsrc.
  { unfold dsrc. destruct (truthy (Z.land (flags s) COPYFILE_NOFOLLOW_DST)); auto. }
  assert (∀ fd w1, 0 ≤ fd →
    (if (dst_fd (set_dst_fd fd s) <? 0) || (src_fd (set_dst_fd fd s) <? 0)
     then Some (-1, set_dst_fd fd s, set_errno EINVAL w1)
     else Some (0, set_dst_fd fd s, w1)) = Some (0, set_dst_fd fd s, w1)) as Hfin.
  { intros fd w1 Hfd. simpl.
    by rewrite (proj2 (Z.ltb_ge _ _) Hfd), (proj2 (Z.ltb_ge _ _) Hsfd). }
  assert (∀ w0, w_names w0 !! d = None →
    ∃ s' w', match open_dst_loop (S (S fuel)) false dsrc
                     (Z.lor (Z.lor O_EXCL O_CREAT) O_WRONLY) d s w0 with
             | Some (r, s1, w1) =>
                 if r <? 0 then Some (r, s1, w1)
                 else if (dst_fd s1 <? 0) || (src_fd s1 <? 0)
                      then Some (-1, s1, set_errno EINVAL w1) else Some (0, s1, w1)
             | None => None
             end = Some (0, s', w')) as Habsent.
  { intros w0 Hn.
    destruct (open_dst_loop_absent (S fuel) false dsrc d s w0 Hdsrc Hn)
      as (fd & w1 & Hfd & ->).
    simpl. rewrite (proj2 (Z.ltb_ge _ _) Hfd), (proj2 (Z.ltb_ge _ _) Hsfd).
    by eexists _, _. }
  destruct (truthy (Z.land COPYFILE_UNLINK (flags s))) eqn:Hunlink.
  - (* the destination is removed first *)
    unfold sys_remove. destruct (w_names w !! d) eqn:E; simpl; [|by apply Habsent].
    destruct Hready as [?|[[_ Hrm]|[? _]]]; [congruence| |done].
    unfold removal. unfold removal_refused in Hrm.
    destruct (w_uscript w) as [|[e|] us]; [|done|]; simpl;
      apply Habsent; simpl; by rewrite lookup_delete_eq.
  - destruct Hready as [Hn|[[? _]|(_ & id & i & Hn & Hi & Hdir & Hw & Hexcl)]];
      [|done|].
    + by apply Habsent.
    + destruct (open_dst_loop_present fuel false dsrc d s w id i Hdsrc Hn Hi Hdir Hw Hexcl)
        as (fd & w1 & Hfd & ->).
      simpl. rewrite (proj2 (Z.ltb_ge _ _) Hfd), (proj2 (Z.ltb_ge _ _) Hsfd).
      by eexists _, _.
Qed.

(** The source and its descriptor after the first half of [copyfile_open],
    when the source is a readable file or directory. *)
Lemma copyfile_open_src fuel s w p ino isrc :
  src s = Some p → src_fd s = -2 →
  w_names w !! p = Some ino → w_inodes w !! ino = Some isrc →
  file_type isrc = S_IFREG ∨ file_type isrc = S_IFDIR →
  may_read w isrc = true →
  ∃ fd w1, 0 ≤ fd ∧ fd_lookup fd w1 = Some (mkOfd ino 0 O_RDONLY)
    ∧ w_names w1 = w_names w ∧ w_inodes w1 = w_inodes w
    ∧ w_errno w1 = w_errno w ∧ (same_env w w1 ∧ w_uscript w1 = w_uscript w)
    ∧ copyfile_open fuel s w
      = copyfile_open_dst fuel (is_dir isrc)
          (set_src_fd fd (set_sb (stat_of_inode isrc) s)) w1.
Proof.
  intros Hp Hsfd Hnp Hino Htype Hread.
  unfold copyfile_open. rewrite Hp, Hsfd.
  unfold sys_stat. rewrite Hnp. cbn -[copyfile_open_dst sys_open]. rewrite Hino.
  cbn -[copyfile_open_dst sys_open].
  assert (negb (Z.land (i_mode isrc) S_IFMT =? S_IFDIR)
          && negb (Z.land (i_mode isrc) S_IFMT =? S_IFREG) = false) as ->.
  { unfold file_type in Htype. by destruct Htype as [-> | ->]. }
  unfold sys_open. cbn -[copyfile_open_dst install_fd]. rewrite Hnp, Hino.
  unfold access_ok.
  change (Z.land (Z.lor O_RDONLY 0) O_ACCMODE =? O_RDONLY) with true.
  change (Z.lor O_RDONLY 0) with 0.
  change (may_read (log (EvStat p) w) isrc) with (may_read w isrc). rewrite Hread.
  cbn -[copyfile_open_dst install_fd]. rewrite ?andb_false_r.
  pose proof (install_fd_spec p 0 ino (log (EvStat p) w))
    as (Hfd & _ & Hnew & _ & Hnames & Hinodes & Henv & Herrno & Hus & _).
  destruct (install_fd p 0 ino (log (EvStat p) w)) as [fd w1].
  simpl in Hfd, Hnew, Hnames, Hinodes, Herrno, Hus.
  rewrite ?andb_false_r. cbv iota. rewrite (proj2 (Z.ltb_ge _ _) Hfd).
  by exists fd, w1.
Qed.

Lemma copyfile_open_total fuel s w p d ino isrc :
  src s = Some p → dst s = Some d → src_fd s = -2 → dst_fd s = -2 →
  w_names w !! p = Some ino → w_inodes w !! ino = Some isrc →
  file_type isrc = S_IFREG → may_read w isrc = true →
  w_names w !! d ≠ Some ino →
  dst_ready (truthy (Z.land COPYFILE_UNLINK (flags s)))
            (truthy (Z.land (flags s) COPYFILE_EXCL)) d w →
  ∃ s' w', copyfile_open (S (S fuel)) s w = Some (0, s', w').
Proof.
  intros Hp Hd Hsfd Hdfd Hnp Hino Hreg Hread Hnd Hready.
  destruct (copyfile_open_src (S (S fuel)) s w p ino isrc)
    as (fd & w1 & Hfd & _ & Hnames & Hinodes & _ & [Henv Hus] & ->);
    try done; [by left|].
  assert (is_dir isrc = false) as -> by (unfold is_dir; by rewrite Hreg).
  apply (copyfile_open_dst_total fuel _ w1 d); try done.
  simpl. destruct Hready as [Hn|[[? Hrm]|(? & id & i & Hn & Hi & Hdir & Hw & Hexcl)]].
  - left. by rewrite Hnames.
  - right. left. split; [done|]. unfold removal_refused in *. by rewrite Hus.
  - right. right. split; [done|]. exists id, i. rewrite Hnames, Hinodes.
    repeat split; try done. destruct Henv as (_ & _ & _ & _ & Heuid & _).
    unfold may_write in *. by rewrite Heuid.
Qed.

(** On a handle that holds no descriptor yet, with memory for the handle,
    the two path strings and the buffer, a readable regular source, a
    destination the open loop gets through, no read or write error and
    enough fuel, [copyfile] with the DATA bit returns 0 and hands a caller's
    handle back. *)
Lemma copyfile_total_gen fuel p d st fl w ino isrc :
  no_descriptors st →
  truthy (Z.land COPYFILE_DATA fl) = true →
  w_names w !! p = Some ino → w_inodes w !! ino = Some isrc →
  file_type isrc = S_IFREG → may_read w isrc = true →
  w_names w !! d ≠ Some ino →
  Forall (λ e, e = None) (w_rscript w) →
  0 < match w_iosize w with
      | Some io => to_size_t io
      | None => to_size_t (i_blksize isrc)
      end →
  no_write_error w →
  dst_ready (truthy (Z.land COPYFILE_UNLINK fl)) (truthy (Z.land fl COPYFILE_EXCL)) d w →
  (4 ≤ w_mem w)%nat →
  (length (i_data isrc) + length (w_wscript w) + 2 ≤ fuel)%nat →
  ∃ st' w', copyfile fuel (Some p) (Some d) st fl w = Some (0, st', w')
            ∧ (is_Some st' ↔ is_Some st).
Proof.
  intros Hst Hdata Hnp Hino Hreg Hread Hnd Hrs Hblk Hws Hready Hmem Hfuel.
  assert (truthy (Z.land fl COPYFILE_DATA) = true) as Hdata'
    by (by rewrite Z.land_comm).
  destruct (copyfile_unset fuel p d st fl w Hst)
    as [(? & _)|(s0 & w0 & Hs0 & Hd0 & Hsf0 & Hdf0 & Hfl0 & Hn0 & Hi0 & Hf0
                  & Henv0 & Hus0 & Hm0 & ->)]; [lia|].
  destruct Henv0 as (Hrs0 & Hws0 & Hio0 & _ & Heu0 & _).
  simpl in Hrs0, Hws0, Hio0, Heu0.
  destruct fuel as [|[|fuel]]; try lia.
  destruct (copyfile_open_total fuel s0 w0 p d ino isrc) as (s1 & w1 & Hopen);
    try done; [by rewrite Hn0|by rewrite Hi0|
               unfold may_read in *; by rewrite Heu0|by rewrite Hn0| |].
  { rewrite Hfl0.
    destruct Hready as [Hn|[[? Hrm]|(? & id & i & Hn & Hi & Hdir & Hw & Hexcl)]].
    - left. by rewrite Hn0.
    - right. left. split; [done|]. unfold removal_refused in *. by rewrite Hus0.
    - right. right. split; [done|]. exists id, i. rewrite Hn0, Hi0.
      repeat split; try done. unfold may_write in *. by rewrite Heu0. }
  rewrite Hopen. change (0 <? 0) with false. cbv iota.
  eapply (copyfile_open_spec ino isrc p d) in Hopen; try done;
    [|by rewrite Hfl0|by rewrite Hn0|by rewrite Hi0|by rewrite Hn0].
  destruct Hopen as [?|(_ & Hdst & Hsb & Hfl & Hsfd & Hdfd & Hne & Hheld
                          & (id & Hdl & Hdn & [idst Hdi]) & Henv)]; [lia|].
  destruct Hheld as (Hsl & Hsi & Hnd1 & Hnp1).
  destruct Henv as (Hers & Hews & Heio & Hemem & _).
  set (x := mkXfer (src_fd s1) (dst_fd s1) ino id O_RDONLY O_WRONLY isrc).
  assert (xfer_ok x) as Hx.
  { split; [simpl; congruence|]. split; [simpl; congruence|].
    split; [done|]. split; [done|]. simpl. unfold is_dir. by rewrite Hreg. }
  assert (copy_inv x 0 0 w1) as Hinv.
  { split; [done|]. split; [done|]. split; [by apply untouched|].
    split; [by eauto|]. split; [simpl; lia|]. by rewrite Hers, Hrs0. }
  destruct (copyfile_data_spec x s1 (S (S fuel)) w1 Hx eq_refl eq_refl) as [_ Htot];
    [by rewrite Hsb|by rewrite Heio, Hio0, Hsb|done|].
  destruct Htot as [wd Hwd].
  { unfold no_write_error. by rewrite Hews, Hws0. }
  { rewrite Hemem. lia. }
  { unfold x. simpl. rewrite Hews, Hws0. lia. }
  unfold copyfile_internal.
  assert ((dst_fd s1 <? 0) || (src_fd s1 <? 0) = false) as ->.
  { apply orb_false_iff. split; lia. }
  rewrite Hdata, Hwd. change (0 <? 0) with false. cbv iota beta zeta.
  assert (∀ wx, ∃ st' w',
            match st with
            | None => Some (0, None, snd (copyfile_state_free (Some s1) wx))
            | Some _ => Some (0, Some s1, wx)
            end = Some (0, st', w') ∧ (is_Some st' ↔ is_Some st)) as Hfin.
  { intros wx. destruct st; eexists _, _; (split; [reflexivity|]);
      split; intros [? ?]; by eauto. }
  destruct (truthy (Z.land COPYFILE_STAT fl)); [|apply Hfin].
  pose proof (copyfile_stat_ret s1 wd) as Hr.
  destruct (copyfile_stat s1 wd) as [r' w2]. simpl in Hr. subst r'.
  change (0 <? 0) with false. cbv iota. apply Hfin.
Qed.

Lemma copyfile_total fuel p d fl w ino isrc :
  truthy (Z.land COPYFILE_DATA fl) = true →
  w_names w !! p = Some ino → w_inodes w !! ino = Some isrc →
  file_type isrc = S_IFREG → may_read w isrc = true →
  w_names w !! d ≠ Some ino →
  Forall (λ e, e = None) (w_rscript w) →
  0 < match w_iosize w with
      | Some io => to_size_t io
      | None => to_size_t (i_blksize isrc)
      end →
  no_write_error w →
  dst_ready (truthy (Z.land COPYFILE_UNLINK fl)) (truthy (Z.land fl COPYFILE_EXCL)) d w →
  (4 ≤ w_mem w)%nat →
  (length (i_data isrc) + length (w_wscript w) + 2 ≤ fuel)%nat →
  ∃ w', copyfile fuel (Some p) (Some d) None fl w = Some (0, None, w').
Proof.
  intros Hdata Hnp Hino Hreg Hread Hnd Hrs Hblk Hws Hready Hmem Hfuel.
  destruct (copyfile_total_gen fuel p d None fl w ino isrc) as (st' & w' & E & Hst);
    try done.
  destruct st' as [s'|]; [|by exists w'].
  destruct Hst as [Hst _]. by destruct Hst.
Qed.

(** ** Claims on the path-mode entry point *)

(** C4 (amended): on a fresh handle, with EXCL set and UNLINK not set, a
    source that is a readable regular file or directory and a destination
    path that already exists, [copyfile] returns -1 with [errno] EEXIST and
    leaves every path and every inode, the destination's content included,
    as it was. *)
Theorem copyfile_excl_existing fuel p d fl w ino isrc :
  truthy (Z.land fl COPYFILE_EXCL) = true →
  truthy (Z.land COPYFILE_UNLINK fl) = false →
  w_names w !! p = Some ino → w_inodes w !! ino = Some isrc →
  file_type isrc = S_IFREG ∨ file_type isrc = S_IFDIR →
  may_read w isrc = true →
  is_Some (w_names w !! d) →
  (3 ≤ w_mem w)%nat → (1 ≤ fuel)%nat →
  ∃ w', copyfile fuel (Some p) (Some d) None fl w = Some (-1, None, w')
    ∧ w_errno w' = EEXIST
    ∧ w_names w' = w_names w ∧ w_inodes w' = w_inodes w
    ∧ file_data d w' = file_data d w.
Proof.
  intros Hexcl Hunlink Hnp Hino Htype Hread [id Hd] Hmem Hfuel.
  destruct (w_mem w) as [|[|[|m]]] eqn:Em; try lia.
  destruct (copyfile_fresh fuel p d fl w m Em) as (dbg & e & ->).
  destruct fuel as [|fuel]; [lia|].
  set (s0 := mkState _ _ _ _ _ _ _). set (w0 := set_errno e _).
  destruct (copyfile_open_src (S fuel) s0 w0 p ino isrc)
    as (fd & w1 & Hfd & Hnew & Hnames & Hinodes & _ & _ & ->); try done.
  assert (∃ s1 w2, copyfile_open_dst (S fuel) (is_dir isrc)
                     (set_src_fd fd (set_sb (stat_of_inode isrc) s0)) w1
                   = Some (-1, s1, w2)
            ∧ src s1 = Some p ∧ src_fd s1 = fd ∧ dst_fd s1 < 0
            ∧ fd_lookup fd w2 = Some (mkOfd ino 0 O_RDONLY)
            ∧ w_errno w2 = EEXIST
            ∧ w_names w2 = w_names w ∧ w_inodes w2 = w_inodes w)
    as (s1 & w2 & -> & Hs1 & Hs2 & Hs3 & Hl & He & Hn & Hi).
  { unfold copyfile_open_dst. simpl. rewrite Hunlink.
    destruct (is_dir isrc).
    - unfold sys_mkdir. rewrite Hnames. simpl. rewrite Hd. simpl.
      rewrite Hexcl. eexists _, _. split; [reflexivity|]. by repeat split.
    - unfold sys_open. rewrite Hnames. simpl. rewrite Hd.
      set (dsrc := if truthy (Z.land fl COPYFILE_NOFOLLOW_DST) then O_NOFOLLOW else 0).
      assert (dsrc = 0 ∨ dsrc = O_NOFOLLOW) as Hdsrc.
      { unfold dsrc. destruct (truthy (Z.land fl COPYFILE_NOFOLLOW_DST)); auto. }
      destruct (open_flag_bits dsrc Hdsrc) as (Hc & Hx & _). simpl in Hc, Hx.
      rewrite Hc, Hx. simpl. rewrite Hexcl. simpl.
      eexists _, _. split; [reflexivity|]. by repeat split. }
  simpl. unfold copyfile_close. rewrite Hs1, Hs2. simpl.
  rewrite (proj2 (Z.geb_le _ _) Hfd).
  assert ((dst_fd s1 >=? 0) = false) as -> by lia. rewrite andb_false_r.
  unfold sys_close. rewrite Hl. simpl.
  eexists. split; [reflexivity|]. simpl. unfold file_data. simpl.
  by rewrite He, Hn, Hi.
Qed.



(** ** Further properties of the accessors *)

Lemma selectors_ne :
  COPYFILE_STATE_DST_FD ≠ COPYFILE_STATE_SRC_FD
  ∧ COPYFILE_STATE_SRC_FILENAME ≠ COPYFILE_STATE_SRC_FD
  ∧ COPYFILE_STATE_SRC_FILENAME ≠ COPYFILE_STATE_DST_FD
  ∧ COPYFILE_STATE_DST_FILENAME ≠ COPYFILE_STATE_SRC_FD
  ∧ COPYFILE_STATE_DST_FILENAME ≠ COPYFILE_STATE_DST_FD
  ∧ COPYFILE_STATE_DST_FILENAME ≠ COPYFILE_STATE_SRC_FILENAME.
Proof.
  pose proof state_selectors_distinct as Hd.
  rewrite !NoDup_cons, !not_elem_of_cons in Hd. intuition congruence.
Qed.

(** What [copyfile_state_get] yields for each of the four selectors. *)
Lemma copyfile_state_get_fields s w :
  copyfile_state_get s COPYFILE_STATE_SRC_FD true w = (0, Some (GotInt (src_fd s)), w)
  ∧ copyfile_state_get s COPYFILE_STATE_DST_FD true w = (0, Some (GotInt (dst_fd s)), w)
  ∧ copyfile_state_get s COPYFILE_STATE_SRC_FILENAME true w = (0, Some (GotStr (src s)), w)
  ∧ copyfile_state_get s COPYFILE_STATE_DST_FILENAME true w = (0, Some (GotStr (dst s)), w).
Proof.
  destruct selectors_ne as (H1 & H2 & H3 & H4 & H5 & H6).
  unfold copyfile_state_get. simpl.
  rewrite !Z.eqb_refl.
  rewrite (proj2 (Z.eqb_neq _ _) H1), (proj2 (Z.eqb_neq _ _) H2),
    (proj2 (Z.eqb_neq _ _) H3), (proj2 (Z.eqb_neq _ _) H4),
    (proj2 (Z.eqb_neq _ _) H5), (proj2 (Z.eqb_neq _ _) H6).
  done.
Qed.

Lemma copyfile_state_set_fds s t w :
  copyfile_state_set s COPYFILE_STATE_SRC_FD (Some t) w = (0, set_src_fd (thing_int t) s, w)
  ∧ copyfile_state_set s COPYFILE_STATE_DST_FD (Some t) w
    = (0, set_dst_fd (thing_int t) s, w).
Proof.
  destruct selectors_ne as (H1 & _).
  unfold copyfile_state_set. rewrite !Z.eqb_refl.
  by rewrite (proj2 (Z.eqb_neq _ _) H1).
Qed.

(** X1: what [copyfile_state_set] stores, [copyfile_state_get] reads back:
    a descriptor is stored verbatim (no system call, no validation) and read
    back, with the other three fields unchanged; a path is read back as the
    duplicate of the given string as long as memory lasts. *)
Theorem copyfile_state_set_get s t w :
  (∃ s', copyfile_state_set s COPYFILE_STATE_SRC_FD (Some t) w = (0, s', w)
     ∧ copyfile_state_get s' COPYFILE_STATE_SRC_FD true w
       = (0, Some (GotInt (thing_int t)), w)
     ∧ dst_fd s' = dst_fd s ∧ src s' = src s ∧ dst s' = dst s)
  ∧ (∃ s', copyfile_state_set s COPYFILE_STATE_DST_FD (Some t) w = (0, s', w)
     ∧ copyfile_state_get s' COPYFILE_STATE_DST_FD true w
       = (0, Some (GotInt (thing_int t)), w)
     ∧ src_fd s' = src_fd s ∧ src s' = src s ∧ dst s' = dst s)
  ∧ ((0 < w_mem w)%nat →
     (∃ s' w', copyfile_state_set s COPYFILE_STATE_SRC_FILENAME (Some t) w = (0, s', w')
        ∧ copyfile_state_get s' COPYFILE_STATE_SRC_FILENAME true w'
          = (0, Some (GotStr (Some (thing_str t))), w')
        ∧ src_fd s' = src_fd s ∧ dst_fd s' = dst_fd s ∧ dst s' = dst s)
     ∧ (∃ s' w', copyfile_state_set s COPYFILE_STATE_DST_FILENAME (Some t) w = (0, s', w')
        ∧ copyfile_state_get s' COPYFILE_STATE_DST_FILENAME true w'
          = (0, Some (GotStr (Some (thing_str t))), w')
        ∧ src_fd s' = src_fd s ∧ dst_fd s' = dst_fd s ∧ src s' = src s)).
Proof.
  destruct (copyfile_state_set_fds s t w) as [Hs Hd].
  split; [|split].
  - eexists. split; [exact Hs|].
    destruct (copyfile_state_get_fields (set_src_fd (thing_int t) s) w) as (-> & _).
    done.
  - eexists. split; [exact Hd|].
    destruct (copyfile_state_get_fields (set_dst_fd (thing_int t) s) w) as (_ & -> & _).
    done.
  - intros Hmem. split.
    + rewrite copyfile_state_set_src_filename. eexists _, _. split; [done|].
      rewrite (strdup_ok _ _ Hmem).
      match goal with |- context [copyfile_state_get ?s1 _ _ ?w1] =>
        destruct (copyfile_state_get_fields s1 w1) as (_ & _ & -> & _)
      end.
      done.
    + rewrite copyfile_state_set_dst_filename. eexists _, _. split; [done|].
      rewrite (strdup_ok _ _ Hmem).
      match goal with |- context [copyfile_state_get ?s1 _ _ ?w1] =>
        destruct (copyfile_state_get_fields s1 w1) as (_ & _ & _ & ->)
      end.
      done.
Qed.

(** X2: the error paths of the two accessors.  A selector that is none of
    the four yields -1 with EINVAL from both, and [copyfile_state_get] with a
    null output pointer yields -1 with EFAULT for every selector; in each
    case nothing is stored and the handle is unchanged. *)
Theorem copyfile_state_accessor_errors s flag t w :
  (flag ≠ COPYFILE_STATE_SRC_FD → flag ≠ COPYFILE_STATE_DST_FD →
   flag ≠ COPYFILE_STATE_SRC_FILENAME → flag ≠ COPYFILE_STATE_DST_FILENAME →
   copyfile_state_get s flag true w = (-1, None, set_errno EINVAL w)
   ∧ copyfile_state_set s flag (Some t) w = (-1, s, set_errno EINVAL w))
  ∧ copyfile_state_get s flag false w = (-1, None, set_errno EFAULT w).
Proof.
  split; [|done]. intros H1 H2 H3 H4.
  unfold copyfile_state_get, copyfile_state_set. simpl.
  by rewrite (proj2 (Z.eqb_neq _ _) H1), (proj2 (Z.eqb_neq _ _) H2),
    (proj2 (Z.eqb_neq _ _) H3), (proj2 (Z.eqb_neq _ _) H4).
Qed.

(** X3: [copyfile_state_set] does not check [strdup]: when the duplication
    fails for lack of memory, the call on a path selector still returns 0
    and the stored path is NULL afterwards, whatever it was before. *)
Theorem copyfile_state_set_path_oom s t w :
  w_mem w = 0%nat →
  (∃ s' w', copyfile_state_set s COPYFILE_STATE_SRC_FILENAME (Some t) w = (0, s', w')
     ∧ src s' = None
     ∧ copyfile_state_get s' COPYFILE_STATE_SRC_FILENAME true w'
       = (0, Some (GotStr None), w'))
  ∧ (∃ s' w', copyfile_state_set s COPYFILE_STATE_DST_FILENAME (Some t) w = (0, s', w')
       ∧ dst s' = None
       ∧ copyfile_state_get s' COPYFILE_STATE_DST_FILENAME true w'
         = (0, Some (GotStr None), w')).
Proof.
  intros Hmem.
  assert (fst (strdup (thing_str t) w) = None) as Hdup.
  { unfold strdup, sys_alloc. by rewrite Hmem. }
  split.
  - rewrite copyfile_state_set_src_filename, Hdup. eexists _, _.
    split; [done|]. split; [done|].
    match goal with |- context [copyfile_state_get ?s1 _ _ ?w1] =>
      destruct (copyfile_state_get_fields s1 w1) as (_ & _ & -> & _)
    end.
    done.
  - rewrite copyfile_state_set_dst_filename, Hdup. eexists _, _.
    split; [done|]. split; [done|].
    match goal with |- context [copyfile_state_get ?s1 _ _ ?w1] =>
      destruct (copyfile_state_get_fields s1 w1) as (_ & _ & _ & ->)
    end.
    done.
Qed.

(** ** Failures of the path-mode entry point *)

Lemma copyfile_open_src_frame fuel s w p ino isrc :
  src s = Some p → src_fd s = -2 →
  w_names w !! p = Some ino → w_inodes w !! ino = Some isrc →
  file_type isrc = S_IFREG ∨ file_type isrc = S_IFDIR →
  may_read w isrc = true →
  ∃ fd w1, 0 ≤ fd ∧ fd_lookup fd w = None
    ∧ fd_lookup fd w1 = Some (mkOfd ino 0 O_RDONLY)
    ∧ (∀ fd', fd' ≠ fd → fd_lookup fd' w1 = fd_lookup fd' w)
    ∧ w_names w1 = w_names w ∧ w_inodes w1 = w_inodes w
    ∧ w_errno w1 = w_errno w ∧ same_env w w1
    ∧ (w_uscript w1 = w_uscript w ∧ w_now w1 = w_now w)
    ∧ copyfile_open fuel s w
      = copyfile_open_dst fuel (is_dir isrc)
          (set_src_fd fd (set_sb (stat_of_inode isrc) s)) w1.
Proof.
  intros Hp Hsfd Hnp Hino Htype Hread.
  unfold copyfile_open. rewrite Hp, Hsfd.
  unfold sys_stat. rewrite Hnp. cbn -[copyfile_open_dst sys_open]. rewrite Hino.
  cbn -[copyfile_open_dst sys_open].
  assert (negb (Z.land (i_mode isrc) S_IFMT =? S_IFDIR)
          && negb (Z.land (i_mode isrc) S_IFMT =? S_IFREG) = false) as ->.
  { unfold file_type in Htype. by destruct Htype as [-> | ->]. }
  unfold sys_open. cbn -[copyfile_open_dst install_fd]. rewrite Hnp, Hino.
  unfold access_ok.
  change (Z.land (Z.lor O_RDONLY 0) O_ACCMODE =? O_RDONLY) with true.
  change (Z.lor O_RDONLY 0) with 0.
  change (may_read (log (EvStat p) w) isrc) with (may_read w isrc). rewrite Hread.
  cbn -[copyfile_open_dst install_fd]. rewrite ?andb_false_r.
  pose proof (install_fd_spec p 0 ino (log (EvStat p) w))
    as (Hfd & Hfree & Hnew & Hold & Hnames & Hinodes & Henv & Herrno & Hus & Hnow).
  destruct (install_fd p 0 ino (log (EvStat p) w)) as [fd w1].
  simpl in Hfd, Hnew, Hnames, Hinodes, Herrno, Hus, Hnow.
  rewrite ?andb_false_r. cbv iota. rewrite (proj2 (Z.ltb_ge _ _) Hfd).
  by exists fd, w1.
Qed.

(** Closing the one descriptor that was added gives back the descriptor
    table one started from. *)
Lemma close_restores fd w w1 w2 :
  fd_lookup fd w = None → is_Some (fd_lookup fd w2) →
  (∀ fd', fd' ≠ fd → fd_lookup fd' w1 = fd_lookup fd' w) →
  w_fds w2 = w_fds w1 →
  (∀ fd', fd_lookup fd' (snd (sys_close fd w2)) = fd_lookup fd' w)
  ∧ w_errno (snd (sys_close fd w2)) = w_errno w2
  ∧ w_names (snd (sys_close fd w2)) = w_names w2
  ∧ w_inodes (snd (sys_close fd w2)) = w_inodes w2.
Proof.
  intros Hfree [o Ho] Hold Hfds. split.
  - intros fd'. destruct (decide (fd' = fd)) as [->|Hne].
    + by rewrite sys_close_closed.
    + rewrite sys_close_other by done. rewrite <- Hold by done.
      unfold fd_lookup. by rewrite Hfds.
  - unfold sys_close. by rewrite Ho.
Qed.

(** When the destination half of [copyfile_open] fails without opening
    anything, [copyfile] on a fresh handle returns -1 with the [errno] of that
    failure, closes the source again and leaves paths and inodes alone. *)
Lemma copyfile_dst_failure fuel p d fl w ino isrc E :
  (3 ≤ w_mem w)%nat →
  w_names w !! p = Some ino → w_inodes w !! ino = Some isrc →
  file_type isrc = S_IFREG ∨ file_type isrc = S_IFDIR →
  may_read w isrc = true →
  (∀ s w1, dst s = Some d → dst_fd s = -2 → flags s = fl →
     sb s = stat_of_inode isrc →
     w_names w1 = w_names w → w_inodes w1 = w_inodes w → w_euid w1 = w_euid w →
     w_uscript w1 = w_uscript w →
     ∃ s1 w2, copyfile_open_dst fuel (is_dir isrc) s w1 = Some (-1, s1, w2)
       ∧ src s1 = src s ∧ src_fd s1 = src_fd s ∧ dst_fd s1 < 0
       ∧ w_fds w2 = w_fds w1 ∧ w_errno w2 = E
       ∧ w_names w2 = w_names w1 ∧ w_inodes w2 = w_inodes w1) →
  ∃ w', copyfile fuel (Some p) (Some d) None fl w = Some (-1, None, w')
    ∧ w_errno w' = E ∧ w_names w' = w_names w ∧ w_inodes w' = w_inodes w
    ∧ ∀ fd', fd_lookup fd' w' = fd_lookup fd' w.
Proof.
  intros Hmem Hnp Hino Htype Hread Hdst.
  destruct (w_mem w) as [|[|[|m]]] eqn:Em; try lia.
  destruct (copyfile_fresh fuel p d fl w m Em) as (dbg & e & ->).
  set (s0 := mkState _ _ _ _ _ _ _). set (w0 := set_errno e _).
  destruct (copyfile_open_src_frame fuel s0 w0 p ino isrc)
    as (fd & w1 & Hfd & Hfree & Hnew & Hold & Hnames & Hinodes & _ & Henv & Hclk & ->);
    try done.
  destruct (Hdst (set_src_fd fd (set_sb (stat_of_inode isrc) s0)) w1)
    as (s1 & w2 & -> & Hs1 & Hs2 & Hs3 & Hfds & He & Hn & Hi); try done.
  { by destruct Henv as (_ & _ & _ & _ & ? & _). }
  { by destruct Hclk as [? _]. }
  simpl in Hs1, Hs2.
  change (-1 <? 0) with true. cbv iota.
  unfold copyfile_state_free, copyfile_close. rewrite Hs1, Hs2. simpl.
  rewrite (proj2 (Z.geb_le _ _) Hfd).
  assert ((dst_fd s1 >=? 0) = false) as -> by lia. rewrite andb_false_r.
  simpl.
  destruct (close_restores fd w0 w1 w2) as (Hrest & Herr & Hcn & Hci); try done.
  { unfold fd_lookup in *. rewrite Hfds. by eexists. }
  eexists. split; [reflexivity|]. simpl.
  rewrite Herr, Hcn, Hci, He, Hn, Hi, Hnames, Hinodes. by repeat split.
Qed.

(** The destination is a directory and the source is not: the second
    attempt ends the loop with EISDIR when DATA is requested. *)
Lemma open_dst_loop_isdir fuel dsrc d s w id i :
  dsrc = 0 ∨ dsrc = O_NOFOLLOW →
  w_names w !! d = Some id → w_inodes w !! id = Some i → is_dir i = true →
  truthy (Z.land (flags s) COPYFILE_EXCL) = false →
  truthy (Z.land (flags s) COPYFILE_DATA) = true →
  ∃ w', open_dst_loop (S (S fuel)) false dsrc (Z.lor (Z.lor O_EXCL O_CREAT) O_WRONLY) d s w
        = Some (-1, set_dst_fd (-1) s, w')
    ∧ w_errno w' = EISDIR ∧ w_fds w' = w_fds w
    ∧ w_names w' = w_names w ∧ w_inodes w' = w_inodes w.
Proof.
  intros Hdsrc Hd Hi Hdir Hexcl Hdata.
  destruct Hdsrc as [-> | ->];
    (cbn [open_dst_loop]; unfold sys_open at 1; rewrite Hd; simpl;
     rewrite Hexcl; unfold sys_open; simpl; rewrite Hd, Hi, Hdir; simpl;
     rewrite ?Hexcl, Hdata; simpl; by eexists).
Qed.

(** The destination is a file the caller may neither write nor chmod. *)
Lemma open_dst_loop_denied fuel dsrc d s w id i :
  dsrc = 0 ∨ dsrc = O_NOFOLLOW →
  w_names w !! d = Some id → w_inodes w !! id = Some i → is_dir i = false →
  may_write w i = false → owns w i = false →
  truthy (Z.land (flags s) COPYFILE_EXCL) = false →
  ∃ w', open_dst_loop (S (S fuel)) false dsrc (Z.lor (Z.lor O_EXCL O_CREAT) O_WRONLY) d s w
        = Some (-1, set_dst_fd (-1) s, w')
    ∧ w_errno w' = EPERM ∧ w_fds w' = w_fds w
    ∧ w_names w' = w_names w ∧ w_inodes w' = w_inodes w.
Proof.
  intros Hdsrc Hd Hi Hdir Hw Hown Hexcl.
  destruct Hdsrc as [-> | ->];
    (cbn [open_dst_loop]; unfold sys_open at 1; rewrite Hd; simpl;
     rewrite Hexcl; unfold sys_open; simpl; rewrite Hd, Hi, Hdir; simpl;
     unfold access_ok; simpl; unfold may_write in *; simpl; rewrite Hw; simpl;
     unfold sys_chmod; simpl; rewrite Hd, Hi; unfold owns in *; simpl;
     rewrite Hown; simpl; by eexists).
Qed.

(** X4: TypeMismatch.  On a fresh handle, a DATA copy of a regular file
    onto a path that names a directory (EXCL and UNLINK not set) returns -1
    with [errno] EISDIR; no path and no inode changes, and the descriptor
    table is as before the call (the source is closed again). *)
Theorem copyfile_onto_directory fuel p d fl w ino isrc id i :
  truthy (Z.land fl COPYFILE_DATA) = true →
  truthy (Z.land fl COPYFILE_EXCL) = false →
  truthy (Z.land COPYFILE_UNLINK fl) = false →
  w_names w !! p = Some ino → w_inodes w !! ino = Some isrc →
  file_type isrc = S_IFREG → may_read w isrc = true →
  w_names w !! d = Some id → w_inodes w !! id = Some i → is_dir i = true →
  (3 ≤ w_mem w)%nat → (2 ≤ fuel)%nat →
  ∃ w', copyfile fuel (Some p) (Some d) None fl w = Some (-1, None, w')
    ∧ w_errno w' = EISDIR ∧ w_names w' = w_names w ∧ w_inodes w' = w_inodes w
    ∧ ∀ fd', fd_lookup fd' w' = fd_lookup fd' w.
Proof.
  intros Hdata Hexcl Hunlink Hnp Hino Hreg Hread Hd Hi Hdir Hmem Hfuel.
  destruct fuel as [|[|fuel]]; try lia.
  apply (copyfile_dst_failure _ p d fl w ino isrc EISDIR); try done; [by left|].
  intros s w1 Hsd Hsf Hfl Hsb Hn1 Hi1 Heu _.
  assert (is_dir isrc = false) as -> by (unfold is_dir; by rewrite Hreg).
  unfold copyfile_open_dst. rewrite Hsd, Hsf, Hfl, Hunlink.
  cbn -[open_dst_loop Z.lor].
  set (dsrc := if truthy (Z.land fl COPYFILE_NOFOLLOW_DST) then O_NOFOLLOW else 0).
  assert (dsrc = 0 ∨ dsrc = O_NOFOLLOW) as Hdsrc.
  { unfold dsrc. destruct (truthy (Z.land fl COPYFILE_NOFOLLOW_DST)); auto. }
  destruct (open_dst_loop_isdir fuel dsrc d s w1 id i)
    as (w2 & -> & He & Hf & Hn & Hin); try done; try congruence.
  simpl. eexists _, _. split; [reflexivity|]. by repeat split.
Qed.

(** X5: PermissionDenied.  On a fresh handle, when the destination is an
    existing file that the caller may not write and does not own (EXCL and
    UNLINK not set), the copy returns -1: the [chmod] that should make the
    file writable fails and leaves [errno] EPERM; no path and no inode
    changes, and the descriptor table is as before the call. *)
Theorem copyfile_destination_denied fuel p d fl w ino isrc id i :
  truthy (Z.land fl COPYFILE_EXCL) = false →
  truthy (Z.land COPYFILE_UNLINK fl) = false →
  w_names w !! p = Some ino → w_inodes w !! ino = Some isrc →
  file_type isrc = S_IFREG → may_read w isrc = true →
  w_names w !! d = Some id → w_inodes w !! id = Some i → is_dir i = false →
  may_write w i = false → owns w i = false →
  (3 ≤ w_mem w)%nat → (2 ≤ fuel)%nat →
  ∃ w', copyfile fuel (Some p) (Some d) None fl w = Some (-1, None, w')
    ∧ w_errno w' = EPERM ∧ w_names w' = w_names w ∧ w_inodes w' = w_inodes w
    ∧ ∀ fd', fd_lookup fd' w' = fd_lookup fd' w.
Proof.
  intros Hexcl Hunlink Hnp Hino Hreg Hread Hd Hi Hdir Hw Hown Hmem Hfuel.
  destruct fuel as [|[|fuel]]; try lia.
  apply (copyfile_dst_failure _ p d fl w ino isrc EPERM); try done; [by left|].
  intros s w1 Hsd Hsf Hfl Hsb Hn1 Hi1 Heu _.
  assert (is_dir isrc = false) as -> by (unfold is_dir; by rewrite Hreg).
  unfold copyfile_open_dst. rewrite Hsd, Hsf, Hfl, Hunlink.
  cbn -[open_dst_loop Z.lor].
  set (dsrc := if truthy (Z.land fl COPYFILE_NOFOLLOW_DST) then O_NOFOLLOW else 0).
  assert (dsrc = 0 ∨ dsrc = O_NOFOLLOW) as Hdsrc.
  { unfold dsrc. destruct (truthy (Z.land fl COPYFILE_NOFOLLOW_DST)); auto. }
  destruct (open_dst_loop_denied fuel dsrc d s w1 id i)
    as (w2 & -> & He & Hf & Hn & Hin); try done; try congruence.
  { unfold may_write in *. by rewrite Heu. }
  { unfold owns in *. by rewrite Heu. }
  simpl. eexists _, _. split; [reflexivity|]. by repeat split.
Qed.

(** ** Unusable sources and missing paths *)

(** With a fresh handle and one path, [copyfile] allocates the handle and
    the path string, then opens. *)
Lemma copyfile_fresh_dst_only fuel d fl w m :
  w_mem w = S (S m) →
  ∃ dbg e,
    copyfile fuel None (Some d) None fl w
    = match copyfile_open fuel (mkState None (Some d) (-2) (-2) zero_stat fl dbg)
              (set_errno e (set_mem m w)) with
      | None => None
      | Some (ret, s', w') =>
          match (if ret <? 0 then Some (-1, w')
                 else copyfile_internal fuel s' fl w') with
          | None => None
          | Some (ret, w'') =>
              Some (ret, None, snd (copyfile_state_free (Some s') w''))
          end
      end.
Proof.
  intros Hm. destruct (copyfile_preamble_none fl w _ Hm) as (dbg & e & Hpre).
  exists dbg, e. unfold copyfile. rewrite Hpre. simpl.
  unfold strdup, sys_alloc. simpl. reflexivity.
Qed.

Lemma copyfile_fresh_src_only fuel p fl w m :
  w_mem w = S (S m) →
  ∃ dbg e,
    copyfile fuel (Some p) None None fl w
    = match copyfile_open fuel (mkState (Some p) None (-2) (-2) zero_stat fl dbg)
              (set_errno e (set_mem m w)) with
      | None => None
      | Some (ret, s', w') =>
          match (if ret <? 0 then Some (-1, w')
                 else copyfile_internal fuel s' fl w') with
          | None => None
          | Some (ret, w'') =>
              Some (ret, None, snd (copyfile_state_free (Some s') w''))
          end
      end.
Proof.
  intros Hm. destruct (copyfile_preamble_none fl w _ Hm) as (dbg & e & Hpre).
  exists dbg, e. unfold copyfile. rewrite Hpre. simpl.
  unfold strdup, sys_alloc. simpl. reflexivity.
Qed.

(** X6: SourceRejected.  On a fresh handle, a source path that names
    nothing makes [copyfile] return -1 with [errno] ENOENT, and one that names
    a file that is neither regular nor a directory makes it return -1 with
    [errno] ENOTSUP; in both cases no descriptor is opened, the destination is
    neither created nor removed (even with UNLINK set), and no inode
    changes.  No attempt of the open loop is spent. *)
Theorem copyfile_source_rejected fuel p d fl w :
  (3 ≤ w_mem w)%nat →
  match w_names w !! p ≫= (λ ino, w_inodes w !! ino) with
  | Some i => file_type i ≠ S_IFREG ∧ file_type i ≠ S_IFDIR
  | None => True
  end →
  ∃ w', copyfile fuel (Some p) (Some d) None fl w = Some (-1, None, w')
    ∧ w_errno w' = match w_names w !! p ≫= (λ ino, w_inodes w !! ino) with
                   | Some _ => ENOTSUP
                   | None => ENOENT
                   end
    ∧ w_fds w' = w_fds w ∧ w_names w' = w_names w ∧ w_inodes w' = w_inodes w.
Proof.
  intros Hmem Hsrc.
  destruct (w_mem w) as [|[|[|m]]] eqn:Em; try lia.
  destruct (copyfile_fresh fuel p d fl w m Em) as (dbg & e & ->).
  unfold copyfile_open, sys_stat. cbn -[copyfile_open_dst sys_open].
  destruct (w_names w !! p ≫= (λ ino, w_inodes w !! ino)) as [i|].
  - destruct Hsrc as [Hreg Hdir]. cbn -[copyfile_open_dst sys_open].
    unfold file_type in Hreg, Hdir.
    rewrite (proj2 (Z.eqb_neq _ _) Hreg), (proj2 (Z.eqb_neq _ _) Hdir).
    simpl. by eexists.
  - simpl. by eexists.
Qed.

(** X7: MissingDestination.  [copyfile] with a source path and a null
    destination path, on a fresh handle, opens the source, finds no
    destination descriptor and returns -1 with [errno] EINVAL; the source
    descriptor is closed again, and no path and no inode changes. *)
Theorem copyfile_null_destination fuel p fl w ino isrc :
  (2 ≤ w_mem w)%nat →
  w_names w !! p = Some ino → w_inodes w !! ino = Some isrc →
  file_type isrc = S_IFREG ∨ file_type isrc = S_IFDIR →
  may_read w isrc = true →
  ∃ w', copyfile fuel (Some p) None None fl w = Some (-1, None, w')
    ∧ w_errno w' = EINVAL ∧ w_names w' = w_names w ∧ w_inodes w' = w_inodes w
    ∧ ∀ fd', fd_lookup fd' w' = fd_lookup fd' w.
Proof.
  intros Hmem Hnp Hino Htype Hread.
  destruct (w_mem w) as [|[|m]] eqn:Em; try lia.
  destruct (copyfile_fresh_src_only fuel p fl w m Em) as (dbg & e & ->).
  set (s0 := mkState _ _ _ _ _ _ _). set (w0 := set_errno e _).
  destruct (copyfile_open_src_frame fuel s0 w0 p ino isrc)
    as (fd & w1 & Hfd & Hfree & Hnew & Hold & Hnames & Hinodes & _ & Henv & Hclk & ->);
    try done.
  unfold copyfile_open_dst. simpl.
  unfold copyfile_close. simpl. rewrite (proj2 (Z.geb_le _ _) Hfd). simpl.
  destruct (close_restores fd w0 w1 (set_errno EINVAL w1))
    as (Hrest & Herr & Hcn & Hci); try done.
  eexists. split; [reflexivity|].
  rewrite Herr, Hcn, Hci. simpl. by rewrite Hnames, Hinodes.
Qed.

(** X8: OrphanDestination.  [copyfile] with a null source path and a
    destination path that names nothing, on a fresh handle, returns -1 with
    [errno] EINVAL but has by then created the destination: an empty regular
    file whose permission bits are owner-write less the umask stays behind
    under the destination path.  The descriptor it was opened on is closed
    again. *)
Theorem copyfile_null_source_creates fuel d fl w :
  (2 ≤ w_mem w)%nat → (1 ≤ fuel)%nat →
  w_names w !! d = None →
  ∃ w', copyfile fuel None (Some d) None fl w = Some (-1, None, w')
    ∧ w_errno w' = EINVAL
    ∧ w_names w' = <[d := length (w_inodes w)]> (w_names w)
    ∧ w_inodes w'
      = w_inodes w ++ [new_inode w (Z.lor S_IFREG (clear_bits S_IWUSR (w_umask w)))]
    ∧ ∀ fd', fd_lookup fd' w' = fd_lookup fd' w.
Proof.
  intros Hmem Hfuel Hd.
  destruct (w_mem w) as [|[|m]] eqn:Em; try lia.
  destruct (copyfile_fresh_dst_only fuel d fl w m Em) as (dbg & e & ->).
  destruct fuel as [|fuel]; [lia|].
  set (s0 := mkState _ _ _ _ _ _ _). set (w0 := set_errno e _).
  unfold copyfile_open, copyfile_open_dst. cbn -[open_dst_loop sys_remove Z.lor].
  set (dsrc := if truthy (Z.land fl COPYFILE_NOFOLLOW_DST) then O_NOFOLLOW else 0).
  assert (dsrc = 0 ∨ dsrc = O_NOFOLLOW) as Hdsrc.
  { unfold dsrc. destruct (truthy (Z.land fl COPYFILE_NOFOLLOW_DST)); auto. }
  assert (∃ w1,
    (if truthy (Z.land COPYFILE_UNLINK fl)
     then let '(r, w) := sys_remove d w0 in
          if (r <? 0) && negb (w_errno w =? ENOENT)
          then (true, copyfile_warn "remove" w) else (false, w)
     else (false, w0)) = (false, w1)
    ∧ w_names w1 = w_names w ∧ w_inodes w1 = w_inodes w ∧ w_fds w1 = w_fds w
    ∧ w_euid w1 = w_euid w ∧ w_umask w1 = w_umask w ∧ w_now w1 = w_now w)
    as (w1 & -> & Hn1 & Hi1 & Hf1 & He1 & Hu1 & Ht1).
  { destruct (truthy (Z.land COPYFILE_UNLINK fl)); [|by eexists].
    unfold sys_remove. simpl. rewrite Hd. simpl. by eexists. }
  cbn [open_dst_loop]. unfold sys_open. rewrite Hn1, Hd.
  assert (truthy (Z.land (Z.lor (Z.lor (Z.lor O_EXCL O_CREAT) O_WRONLY) dsrc) O_CREAT)
          = true) as -> by (by destruct Hdsrc as [-> | ->]).
  match goal with |- context [install_fd d ?fl ?n ?wx] =>
    pose proof (install_fd_spec d fl n wx)
      as (Hfd & Hfree & Hnew & Hold & Hnames & Hinodes & Henv & Herrno & _);
    destruct (install_fd d fl n wx) as [fd w2]
  end.
  simpl in Hfd, Hfree, Hnew, Hold, Hnames, Hinodes.
  cbn -[Z.lor]. rewrite (proj2 (Z.ltb_ge _ _) Hfd). cbn -[Z.lor].
  rewrite (proj2 (Z.ltb_ge _ _) Hfd). cbn -[Z.lor].
  unfold copyfile_close. cbn -[Z.lor]. rewrite (proj2 (Z.geb_le _ _) Hfd).
  cbn -[Z.lor].
  assert (sys_close fd (set_errno EINVAL w2)
          = (0, fd_update fd None (log (EvClose fd 0) (set_errno EINVAL w2)))) as ->.
  { unfold sys_close.
    change (fd_lookup fd (set_errno EINVAL w2)) with (fd_lookup fd w2).
    by rewrite Hnew. }
  simpl. eexists. split; [reflexivity|]. simpl.
  rewrite Hnames, Hinodes, Hi1. unfold new_inode. rewrite He1, Hu1, Ht1.
  repeat split; try done.
  intros fd'. destruct (decide (fd' = fd)) as [->|Hne].
  - pose proof (sys_close_closed fd (set_errno EINVAL w2)) as Hc.
    unfold sys_close in Hc.
    change (fd_lookup fd (set_errno EINVAL w2)) with (fd_lookup fd w2) in Hc.
    rewrite Hnew in Hc. simpl in Hc.
    etransitivity; [exact Hc|]. symmetry. unfold fd_lookup in *. simpl in Hfree.
    by rewrite <- Hf1.
  - unfold fd_lookup in *. simpl.
    destruct (Z.ltb_spec fd' 0) as [|Hpos]; [done|].
    rewrite list_lookup_insert_ne by lia.
    specialize (Hold fd' Hne). rewrite (proj2 (Z.ltb_ge _ _) Hpos) in Hold.
    simpl in Hold. by rewrite Hold, Hf1.
Qed.

(** X9: DescriptorRejected.  [fcopyfile] on a fresh handle: when the
    source descriptor is not open, or is open on a file that is neither a
    regular file, a directory nor a symbolic link, the call returns -1 with
    [errno] ENOTSUP (also for a descriptor that is not open at all, where
    [fstat] had set EBADF); the destination descriptor is not touched: no
    descriptor, path or inode changes. *)
Theorem fcopyfile_source_rejected fuel sfd dfd fl w :
  0 ≤ sfd → 0 ≤ dfd → (1 ≤ w_mem w)%nat →
  match fd_inode sfd w with
  | Some i => file_type i ≠ S_IFLNK ∧ file_type i ≠ S_IFDIR ∧ file_type i ≠ S_IFREG
  | None => True
  end →
  ∃ w', fcopyfile fuel sfd dfd None fl w = Some (-1, None, w')
    ∧ w_errno w' = ENOTSUP
    ∧ w_fds w' = w_fds w ∧ w_names w' = w_names w ∧ w_inodes w' = w_inodes w.
Proof.
  intros Hs Hd Hmem Hsrc. unfold fcopyfile.
  assert ((sfd <? 0) || (dfd <? 0) = false) as -> by (apply orb_false_iff; lia).
  destruct (w_mem w) as [|m] eqn:Em; [lia|].
  destruct (copyfile_preamble_none fl w _ Em) as (dbg & e & ->).
  cbn -[sys_fstat copyfile_internal]. assert ((sfd >? -1) = true) as -> by lia.
  cbn -[sys_fstat copyfile_internal]. unfold sys_fstat at 1.
  assert (fd_inode sfd (set_errno e (set_mem m w)) = fd_inode sfd w) as -> by done.
  destruct (fd_inode sfd w) as [i|].
  - destruct Hsrc as (Hl & Hdi & Hr). cbn -[sys_fstat copyfile_internal].
    unfold file_type in Hl, Hdi, Hr.
    rewrite (proj2 (Z.eqb_neq _ _) Hl), (proj2 (Z.eqb_neq _ _) Hdi),
      (proj2 (Z.eqb_neq _ _) Hr).
    simpl. by eexists.
  - simpl. by eexists.
Qed.

(** ** The metadata step *)


Lemma sys_fmeta_denied ev fd f w :
  match fd_inode fd w with Some i => owns w i = false | None => True end →
  ∃ e, sys_fmeta ev fd f w = (-1, set_errno e (log ev w)).
Proof.
  unfold fd_inode, sys_fmeta. destruct (fd_lookup fd w) as [o|]; simpl; [|by eexists].
  destruct (w_inodes w !! ofd_ino o) as [i|]; [|by eexists].
  intros ->. by eexists.
Qed.



(** X11: MetadataBestEffort.  [copyfile_stat] reports success whatever
    happens: when the destination descriptor is not open, or is open on a
    file the caller does not own, every one of its four calls fails, it
    still returns 0, and no inode, path or descriptor has changed. *)
Theorem copyfile_stat_denied s w :
  match fd_inode (dst_fd s) w with Some i => owns w i = false | None => True end →
  ∃ w', copyfile_stat s w = (0, w')
    ∧ w_inodes w' = w_inodes w ∧ w_names w' = w_names w ∧ w_fds w' = w_fds w.
Proof.
  intros Hden. unfold copyfile_stat.
  assert (∃ e ev, sys_fchflags (dst_fd s) (to_uint32 (st_flags (sb s))) w
                  = (-1, set_errno e (log ev w))) as (e1 & ev1 & ->).
  { unfold sys_fchflags. destruct (w_noflags w); [by eexists _, _|].
    destruct (sys_fmeta_denied (EvFchflags (dst_fd s) (to_uint32 (st_flags (sb s))))
                (dst_fd s) (with_flags (to_uint32 (st_flags (sb s)))) w Hden)
      as [e ->]. by eexists _, _. }
  set (w1 := if _ && _ then copyfile_warn "set flags" _ else _).
  assert (w_inodes w1 = w_inodes w ∧ w_names w1 = w_names w ∧ w_fds w1 = w_fds w
          ∧ w_euid w1 = w_euid w) as (Hi1 & Hn1 & Hf1 & He1).
  { unfold w1. by destruct (_ && _). }
  assert (match fd_inode (dst_fd s) w1 with
          | Some i => owns w1 i = false | None => True end) as Hden1.
  { unfold fd_inode, fd_lookup, owns in *. by rewrite Hi1, Hf1, He1. }
  clearbody w1.
  assert (∃ e ev, sys_fchown (dst_fd s) (st_uid (sb s)) (st_gid (sb s)) w1
                  = (-1, set_errno e (log ev w1))) as (e2 & ev2 & ->).
  { unfold sys_fchown.
    destruct (fd_inode (dst_fd s) w1) as [i|] eqn:Ei; [|by eexists _, _].
    destruct (_ && _); [by eexists _, _|].
    destruct (sys_fmeta_denied (EvFchown (dst_fd s) (st_uid (sb s)) (st_gid (sb s)))
                (dst_fd s)
                (with_owner (chown_id (st_uid (sb s)) (i_uid i))
                            (chown_id (st_gid (sb s)) (i_gid i))) w1)
      as [e ->]; [by rewrite Ei|]. by eexists _, _. }
  simpl.
  set (w2 := set_errno e2 (log ev2 w1)).
  assert (match fd_inode (dst_fd s) w2 with
          | Some i => owns w2 i = false | None => True end) as Hden2 by done.
  unfold sys_fchmod.
  destruct (sys_fmeta_denied (EvFchmod (dst_fd s) (clear_bits (st_mode (sb s)) S_IFMT))
              (dst_fd s) (chmod_bits (clear_bits (st_mode (sb s)) S_IFMT)) w2 Hden2)
    as [e3 ->].
  simpl. set (w3 := set_errno e3 _).
  assert (match fd_inode (dst_fd s) w3 with
          | Some i => owns w3 i = false | None => True end) as Hden3 by done.
  unfold sys_futimes.
  destruct (sys_fmeta_denied (EvFutimes (dst_fd s) (st_atime (sb s)) (st_mtime (sb s)))
              (dst_fd s) (with_times (st_atime (sb s)) (st_mtime (sb s))) w3 Hden3)
    as [e4 ->].
  change (truthy (-1)) with true. cbv iota.
  eexists. split; [reflexivity|]. by simpl.
Qed.

(** ** Contents are only touched by the DATA step *)

Lemma contents_kept_refl w : contents_kept w w.
Proof. intros ino i Hi. unfold data_of. by rewrite Hi. Qed.

Lemma contents_kept_trans w1 w2 w3 :
  contents_kept w1 w2 → contents_kept w2 w3 → contents_kept w1 w3.
Proof.
  intros H1 H2 ino i Hi. specialize (H1 ino i Hi). unfold data_of in H1.
  destruct (w_inodes w2 !! ino) as [i2|] eqn:E; [|done].
  simpl in H1. injection H1 as H1. rewrite <- H1. by apply H2.
Qed.

Lemma contents_kept_same w w' : w_inodes w' = w_inodes w → contents_kept w w'.
Proof. intros H ino i Hi. unfold data_of. by rewrite H, Hi. Qed.

Lemma contents_kept_app w w' l : w_inodes w' = w_inodes w ++ l → contents_kept w w'.
Proof.
  intros H ino i Hi. unfold data_of. rewrite H.
  by rewrite (lookup_app_l_Some _ _ _ _ Hi).
Qed.

Lemma contents_kept_alter w w' f ino :
  (∀ i, i_data (f i) = i_data i) → w_inodes w' = alter f ino (w_inodes w) →
  contents_kept w w'.
Proof.
  intros Hf H k i Hi. unfold data_of. rewrite H.
  destruct (decide (ino = k)) as [->|Hne].
  - rewrite list_lookup_alter_eq, Hi. simpl. by rewrite Hf.
  - by rewrite list_lookup_alter_ne, Hi.
Qed.

Lemma contents_kept_content w w' : same_content w w' → contents_kept w w'.
Proof.
  intros [_ H] ino i Hi. rewrite H. unfold data_of. by rewrite Hi.
Qed.

Lemma sys_open_kept p fl m w : contents_kept w (snd (sys_open p fl m w)).
Proof.
  unfold sys_open. destruct (w_names w !! p) as [ino|].
  - destruct (_ && _); [by apply contents_kept_same|].
    destruct (w_inodes w !! ino) as [i|]; [|by apply contents_kept_same].
    destruct (_ && _); [by apply contents_kept_same|].
    destruct (negb _); [by apply contents_kept_same|].
    apply contents_kept_same.
    by destruct (install_fd_spec p fl ino w) as (_ & _ & _ & _ & _ & ? & _).
  - destruct (truthy _); [|by apply contents_kept_same].
    eapply contents_kept_app.
    match goal with |- context [install_fd p fl ?n ?w0] =>
      destruct (install_fd_spec p fl n w0) as (_ & _ & _ & _ & _ & H & _)
    end.
    rewrite H. reflexivity.
Qed.

Lemma sys_chmod_kept p m w : contents_kept w (snd (sys_chmod p m w)).
Proof.
  unfold sys_chmod. destruct (w_names w !! p) as [ino|]; [|by apply contents_kept_same].
  destruct (w_inodes w !! ino) as [i|]; [|by apply contents_kept_same].
  destruct (owns w i); [|by apply contents_kept_same].
  by eapply (contents_kept_alter _ _ (chmod_bits m) ino).
Qed.

Lemma sys_mkdir_kept p m w : contents_kept w (snd (sys_mkdir p m w)).
Proof.
  unfold sys_mkdir. destruct (w_names w !! p); [by apply contents_kept_same|].
  by eapply contents_kept_app.
Qed.

Lemma sys_remove_kept p w : contents_kept w (snd (sys_remove p w)).
Proof.
  apply contents_kept_same, sys_remove_inodes.
Qed.

Lemma open_dst_loop_kept fuel : ∀ isdir dsrc oflags p s w r s' w',
  open_dst_loop fuel isdir dsrc oflags p s w = Some (r, s', w') →
  contents_kept w w'.
Proof.
  induction fuel as [|f IH]; [done|]. intros isdir dsrc oflags p s w r s' w'.
  cbn [open_dst_loop].
  pose proof (sys_open_kept p (Z.lor oflags dsrc) (Z.lor (st_mode (sb s)) S_IWUSR) w)
    as Ho.
  destruct (sys_open _ _ _ w) as [fd w1]. simpl in Ho.
  destruct (fd <? 0); [|by intros [= <- <- <-]].
  destruct (w_errno w1 =? EEXIST).
  { destruct (truthy _); [by intros [= <- <- <-]|].
    intros H. apply IH in H. by eapply contents_kept_trans. }
  destruct (w_errno w1 =? EACCES).
  { match goal with |- context [sys_chmod p ?m w1] =>
      pose proof (sys_chmod_kept p m w1) as Hc; destruct (sys_chmod p m w1) as [r1 w2]
    end.
    simpl in Hc.
    assert (contents_kept w w2) as Hk by (by eapply contents_kept_trans).
    destruct (r1 =? 0); [|by intros [= <- <- <-]].
    intros H. apply IH in H. by eapply contents_kept_trans. }
  destruct (w_errno w1 =? EISDIR); [|by intros [= <- <- <-]].
  destruct (_ || _); [by intros [= <- <- <-]|].
  intros H. apply IH in H. by eapply contents_kept_trans.
Qed.

Lemma copyfile_open_dst_kept fuel isdir s w r s' w' :
  copyfile_open_dst fuel isdir s w = Some (r, s', w') → contents_kept w w'.
Proof.
  unfold copyfile_open_dst.
  assert (∀ s1 w1, contents_kept w w1 →
    (if (dst_fd s1 <? 0) || (src_fd s1 <? 0)
     then Some (-1, s1, set_errno EINVAL w1) else Some (0, s1, w1))
    = Some (r, s', w') → contents_kept w w') as Hfin.
  { intros s1 w1 Hk. by destruct (_ || _); intros [= <- <- <-]. }
  destruct (dst s) as [d|]; [|apply Hfin, contents_kept_refl].
  destruct (dst_fd s =? -2); [|apply Hfin, contents_kept_refl].
  assert (∃ stop w1,
    (if truthy (Z.land COPYFILE_UNLINK (flags s))
     then let '(r, w0) := sys_remove d w in
          if (r <? 0) && negb (w_errno w0 =? ENOENT)
          then (true, copyfile_warn "remove" w0) else (false, w0)
     else (false, w)) = (stop, w1) ∧ contents_kept w w1) as (stop & w1 & -> & Hk1).
  { destruct (truthy _); [|eexists _, _; split; [done|apply contents_kept_refl]].
    pose proof (sys_remove_kept d w) as Hr. destruct (sys_remove d w) as [r0 w0].
    destruct (_ && _); by eexists _, _. }
  destruct stop; [by intros [= <- <- <-]|].
  destruct isdir.
  - match goal with |- context [sys_mkdir d ?m w1] =>
      pose proof (sys_mkdir_kept d m w1) as Hm; destruct (sys_mkdir d m w1) as [r2 w2]
    end.
    simpl in Hm. assert (contents_kept w w2) as Hk2 by (by eapply contents_kept_trans).
    destruct (_ && _); [by intros [= <- <- <-]|].
    match goal with |- context [sys_open d ?fl ?m w2] =>
      pose proof (sys_open_kept d fl m w2) as Ho; destruct (sys_open d fl m w2) as [fd w3]
    end.
    simpl in Ho. assert (contents_kept w w3) as Hk3 by (by eapply contents_kept_trans).
    destruct (fd =? -1); [by intros [= <- <- <-]|]. by apply Hfin.
  - destruct (open_dst_loop _ _ _ _ _ _ _) as [[[r3 s3] w3]|] eqn:Hloop; [|done].
    apply open_dst_loop_kept in Hloop.
    assert (contents_kept w w3) as Hk3 by (by eapply contents_kept_trans).
    destruct (r3 <? 0); [by intros [= <- <- <-]|]. by apply Hfin.
Qed.

Lemma copyfile_open_kept fuel s w r s' w' :
  copyfile_open fuel s w = Some (r, s', w') → contents_kept w w'.
Proof.
  unfold copyfile_open.
  destruct (src s) as [p|]; [|apply copyfile_open_dst_kept].
  destruct (src_fd s =? -2); [|apply copyfile_open_dst_kept].
  unfold sys_stat.
  destruct (w_names w !! p ≫= (λ ino, w_inodes w !! ino)) as [i|];
    [|simpl; intros [= <- <- <-]; by apply contents_kept_same].
  cbn -[copyfile_open_dst sys_open].
  destruct (_ && _); [intros [= <- <- <-]; by apply contents_kept_same|].
  match goal with |- context [sys_open p ?fl ?m ?w0] =>
    pose proof (sys_open_kept p fl m w0) as Ho; destruct (sys_open p fl m w0) as [fd w1]
  end.
  simpl in Ho. destruct (fd <? 0); [by intros [= <- <- <-]|].
  intros H. apply copyfile_open_dst_kept in H.
  eapply contents_kept_trans; [|exact H]. exact Ho.
Qed.

(** Without the DATA bit the coordinator runs at most the metadata step. *)
Lemma copyfile_internal_kept fuel s fl w r w' :
  truthy (Z.land COPYFILE_DATA fl) = false →
  copyfile_internal fuel s fl w = Some (r, w') → same_content w w'.
Proof.
  intros Hdata. unfold copyfile_internal. rewrite Hdata.
  destruct (_ || _); [by intros [= <- <-]|]. cbv zeta iota beta.
  destruct (truthy (Z.land COPYFILE_STAT fl));
    [|intros [= <- <-]; apply same_content_refl].
  pose proof (copyfile_stat_content s w) as Hs.
  destruct (copyfile_stat s w) as [r1 w1]. simpl in Hs.
  by destruct (r1 <? 0); intros [= <- <-].
Qed.

Lemma copyfile_preamble_inodes state fl w :
  w_inodes (snd (copyfile_preamble state fl w)) = w_inodes w.
Proof.
  unfold copyfile_preamble, copyfile_state_alloc, sys_alloc.
  assert (∀ s w0, w_inodes w0 = w_inodes w →
    w_inodes (snd (let '(s1, w1) :=
       if truthy (Z.land COPYFILE_DEBUG fl) then
         match w_env w0 with
         | Some e =>
             let w := set_errno 0 w0 in
             let '(v, err) := strtol e in
             let w := match err with Some x => set_errno x w | None => w end in
             let s := set_debug (to_uint32 v) s in
             if (debug s =? 0) && negb (w_errno w =? 0)
             then (set_debug 1 s, w) else (s, w)
         | None => (s, w0)
         end
       else (s, w0) in (0, Some (set_flags fl s1), w1))) = w_inodes w) as Hbody.
  { intros s w0 H0. destruct (truthy _); [|done].
    destruct (w_env w0) as [e|]; [|done].
    destruct (strtol e) as [v [x|]]; cbv zeta iota beta; by destruct (_ && _). }
  destruct state as [s|]; [by apply Hbody|].
  destruct (w_mem w) as [|m]; [done|]. by apply Hbody.
Qed.

Lemma COPYFILE_SET_FNAME_inodes name s_name s_fd w :
  w_inodes (snd (COPYFILE_SET_FNAME name s_name s_fd w)) = w_inodes w.
Proof.
  unfold COPYFILE_SET_FNAME. destruct name as [n|]; [|done].
  assert (∀ fd, w_inodes (snd (sys_close fd w)) = w_inodes w) as Hc.
  { intros fd. unfold sys_close. by destruct (fd_lookup fd w). }
  set (c := match s_name with Some _ => _ | None => _ end).
  assert (w_inodes (snd c) = w_inodes w) as Hk.
  { unfold c. destruct s_name as [old|]; [|done].
    destruct (truthy _); [|done]. destruct (_ && _); [apply Hc|done]. }
  destruct c as [fd w1]. simpl in Hk. unfold strdup, sys_alloc.
  by destruct (w_mem w1).
Qed.

(** X12: ContentsUntouchedWithoutData.  A call of [copyfile] whose flags
    lack the DATA bit never changes the bytes of any file, whatever its other
    arguments are and however it ends: every file that existed before the
    call has the content it had (the destination may have been created, its
    path removed or its attributes changed). *)
Theorem copyfile_without_data_keeps_contents fuel src' dst' state fl w r st w' :
  truthy (Z.land COPYFILE_DATA fl) = false →
  copyfile fuel src' dst' state fl w = Some (r, st, w') →
  contents_kept w w'.
Proof.
  intros Hdata. unfold copyfile.
  destruct (_ && _); [by intros [= <- <- <-]; apply contents_kept_same|].
  pose proof (copyfile_preamble_inodes state fl w) as Hp.
  destruct (copyfile_preamble state fl w) as [[r0 [s0|]] w0]; simpl in Hp;
    [|by intros [= <- <- <-]; apply contents_kept_same].
  destruct (r0 <? 0); [by intros [= <- <- <-]; apply contents_kept_same|].
  pose proof (COPYFILE_SET_FNAME_inodes src' (src s0) (src_fd s0) w0) as H1.
  destruct (COPYFILE_SET_FNAME src' (src s0) (src_fd s0) w0) as [[[stop1 n1] fd1] w1].
  simpl in H1. rewrite Hp in H1.
  destruct stop1; [by intros [= <- <- <-]; apply contents_kept_same|].
  cbn [dst dst_fd set_src set_src_fd].
  pose proof (COPYFILE_SET_FNAME_inodes dst' (dst s0) (dst_fd s0) w1) as H2.
  destruct (COPYFILE_SET_FNAME dst' (dst s0) (dst_fd s0) w1) as [[[stop2 n2] fd2] w2].
  simpl in H2. rewrite H1 in H2.
  destruct stop2; [by intros [= <- <- <-]; apply contents_kept_same|].
  destruct (copyfile_open fuel _ w2) as [[[r3 s3] w3]|] eqn:Hopen; [|done].
  apply copyfile_open_kept in Hopen.
  assert (contents_kept w w3) as Hk3.
  { eapply contents_kept_trans; [|exact Hopen]. by apply contents_kept_same. }
  assert (∀ r4 w4, (if r3 <? 0 then Some (-1, w3) else copyfile_internal fuel s3 fl w3)
                   = Some (r4, w4) → contents_kept w w4) as Hrun.
  { intros r4 w4. destruct (r3 <? 0); [by intros [= <- <-]|].
    intros H. apply copyfile_internal_kept in H; [|done].
    eapply contents_kept_trans; [exact Hk3|]. by apply contents_kept_content. }
  destruct (if r3 <? 0 then _ else _) as [[r4 w4]|]; [|done].
  specialize (Hrun r4 w4 eq_refl).
  destruct state; intros [= <- <- <-]; [done|].
  eapply contents_kept_trans; [exact Hrun|].
  apply contents_kept_content. apply (copyfile_state_free_content (Some s3) w4).
Qed.

(** X13: DescriptorModeContentsUntouchedWithoutData.  The same for
    [fcopyfile]: without the DATA bit no file's bytes change, neither those
    behind the two descriptors nor any other. *)
Theorem fcopyfile_without_data_keeps_contents fuel a b state fl w r st w' :
  truthy (Z.land COPYFILE_DATA fl) = false →
  fcopyfile fuel a b state fl w = Some (r, st, w') →
  contents_kept w w'.
Proof.
  intros Hdata. unfold fcopyfile.
  destruct (_ || _); [by intros [= <- <- <-]; apply contents_kept_same|].
  pose proof (copyfile_preamble_inodes state fl w) as Hp.
  destruct (copyfile_preamble state fl w) as [[r0 [s0|]] w0]; simpl in Hp;
    [|by intros [= <- <- <-]; apply contents_kept_same].
  destruct (r0 <? 0); [by intros [= <- <- <-]; apply contents_kept_same|].
  set (s1 := if (src_fd s0 =? -2) && (a >? -1) then set_src_fd a s0 else s0).
  clearbody s1.
  assert (∀ fd w1, w_inodes (snd (sys_fstat fd w1)) = w_inodes w1) as Hfs.
  { intros fd w1. unfold sys_fstat. by destruct (fd_inode fd w1). }
  pose proof (Hfs (src_fd s1) w0) as Hf1.
  destruct (sys_fstat (src_fd s1) w0) as [[r1 st1] w1]. simpl in Hf1.
  set (s2 := match st1 with Some b0 => set_sb b0 s1 | None => s1 end). clearbody s2.
  destruct (negb _ && negb _ && negb _);
    [intros [= <- <- <-]; apply contents_kept_same; simpl; congruence|].
  set (s3 := if (dst_fd s2 =? -2) && (b >? -1) then set_dst_fd b s2 else s2).
  clearbody s3.
  pose proof (Hfs (dst_fd s3) w1) as Hf2.
  destruct (sys_fstat (dst_fd s3) w1) as [[r2 st2] w2]. simpl in Hf2.
  set (dst_sb := match st2 with Some b0 => b0 | None => zero_stat end). clearbody dst_sb.
  match goal with |- context [copyfile_internal fuel s3 fl ?wx] =>
    assert (contents_kept w wx) as Hk3;
      [|destruct (copyfile_internal fuel s3 fl wx) as [[r4 w4]|] eqn:Hint; [|done]]
  end.
  { eapply contents_kept_trans;
      [|apply contents_kept_content, sys_fmeta_content; by intros []].
    apply contents_kept_same. congruence. }
  apply copyfile_internal_kept in Hint; [|done].
  match goal with |- context [Some (r4, Some s3, ?wx)] =>
    assert (contents_kept w wx) as Hk5
  end.
  { eapply contents_kept_trans; [exact Hk3|].
    eapply contents_kept_trans; [apply contents_kept_content, Hint|].
    destruct (_ && _); [|apply contents_kept_refl].
    apply contents_kept_content, sys_fmeta_content. by intros []. }
  destruct state; intros [= <- <- <-]; [done|].
  eapply contents_kept_trans; [exact Hk5|].
  apply contents_kept_content.
  match goal with |- same_content ?wx _ =>
    apply (copyfile_state_free_content (Some s3) wx)
  end.
Qed.

(** ** Descriptors: what is opened is closed, what is given is kept *)

Lemma same_file_refl x : same_file x x.
Proof. by split. Qed.

Lemma fds_moved_refl a b w : fds_moved a b w w.
Proof. intros fd. split; [apply same_file_refl|done]. Qed.

Lemma fds_moved_trans a b w1 w2 w3 :
  fds_moved a b w1 w2 → fds_moved a b w2 w3 → fds_moved a b w1 w3.
Proof.
  intros H1 H2 fd. destruct (H1 fd) as [[Hi1 Ha1] He1], (H2 fd) as [[Hi2 Ha2] He2].
  split; [split; congruence|]. intros Ha Hb. by rewrite He2, He1.
Qed.

Lemma fds_moved_same a b w w' : w_fds w' = w_fds w → fds_moved a b w w'.
Proof.
  intros H fd. unfold fd_lookup. rewrite H. split; [apply same_file_refl|done].
Qed.

Lemma fds_moved_update a b x o o' w w0 :
  x = a ∨ x = b → w_fds w0 = w_fds w → fd_lookup x w = Some o →
  ofd_ino o' = ofd_ino o → ofd_acc o' = ofd_acc o →
  fds_moved a b w (fd_update x (Some o') w0).
Proof.
  intros Hx Hf Ho Hi Ha fd.
  assert (0 ≤ x) as Hx0 by (by eapply fd_lookup_nonneg).
  assert (fd_lookup x w0 = Some o) as Ho0 by (unfold fd_lookup in *; by rewrite Hf).
  destruct (decide (fd = x)) as [->|Hne].
  - rewrite fd_lookup_update_eq by (rewrite Ho0; eauto). rewrite Ho.
    split; [split; simpl; congruence|]. intros; destruct Hx; congruence.
  - assert (fd_lookup fd (fd_update x (Some o') w0) = fd_lookup fd w) as ->.
    { destruct (Z.ltb_spec fd 0); [by rewrite !fd_lookup_neg|].
      rewrite fd_lookup_update_ne by done. unfold fd_lookup. by rewrite Hf. }
    split; [apply same_file_refl|done].
Qed.

Lemma sys_read_fds a b x n w :
  x = a ∨ x = b → fds_moved a b w (snd (sys_read x n w)).
Proof.
  intros Hx. unfold sys_read.
  destruct (fd_lookup x w) as [o|] eqn:Ho; [|by apply fds_moved_same].
  destruct (w_inodes w !! ofd_ino o) as [i|]; [|by apply fds_moved_same].
  destruct (ofd_acc o =? O_WRONLY); [by apply fds_moved_same|].
  destruct (is_dir i); [by apply fds_moved_same|].
  destruct (w_rscript w) as [|[e|] rs]; simpl; try (by apply fds_moved_same);
    destruct (0 <? n); by eapply fds_moved_update.
Qed.

Lemma sys_write_fds a b x bs w :
  x = a ∨ x = b → fds_moved a b w (snd (sys_write x bs w)).
Proof.
  intros Hx. unfold sys_write.
  destruct (fd_lookup x w) as [o|] eqn:Ho; [|by apply fds_moved_same].
  destruct (w_inodes w !! ofd_ino o) as [i|]; [|by apply fds_moved_same].
  destruct (ofd_acc o =? O_RDONLY); [by apply fds_moved_same|].
  destruct (w_wscript w) as [|[e|k] ws]; simpl; try (by apply fds_moved_same);
    destruct (0 <? _); by eapply fds_moved_update.
Qed.

Lemma sys_fmeta_fds ev fd f w : w_fds (snd (sys_fmeta ev fd f w)) = w_fds w.
Proof.
  unfold sys_fmeta. destruct (fd_lookup fd w) as [o|]; [|done].
  destruct (w_inodes w !! ofd_ino o) as [i|]; [|done]. by destruct (owns w i).
Qed.

Lemma sys_ftruncate_fds fd n w : w_fds (snd (sys_ftruncate fd n w)) = w_fds w.
Proof.
  unfold sys_ftruncate. destruct (fd_lookup fd w) as [o|]; [|done].
  destruct (w_inodes w !! ofd_ino o) as [i|]; [|done]. by destruct (_ || _).
Qed.

Lemma sys_unlink_fds p w : w_fds (snd (sys_unlink p w)) = w_fds w.
Proof. apply sys_unlink_fds_eq. Qed.

Lemma copyfile_stat_fds s w : w_fds (snd (copyfile_stat s w)) = w_fds w.
Proof.
  unfold copyfile_stat.
  assert (w_fds (snd (sys_fchflags (dst_fd s) (to_uint32 (st_flags (sb s))) w))
          = w_fds w) as H1.
  { unfold sys_fchflags. destruct (w_noflags w); [done|]. apply sys_fmeta_fds. }
  destruct (sys_fchflags _ _ w) as [r1 w1]. simpl in H1.
  set (w2 := if _ && _ then copyfile_warn "set flags" w1 else w1).
  assert (w_fds w2 = w_fds w) as H2 by (unfold w2; by destruct (_ && _)).
  clearbody w2.
  assert (w_fds (snd (sys_fchown (dst_fd s) (st_uid (sb s)) (st_gid (sb s)) w2))
          = w_fds w2) as H3.
  { unfold sys_fchown. destruct (fd_inode _ _); [|done].
    destruct (_ && _); [done|]. apply sys_fmeta_fds. }
  set (w3 := snd (sys_fchown _ _ _ w2)) in *.
  pose proof (sys_fmeta_fds (EvFchmod (dst_fd s) (clear_bits (st_mode (sb s)) S_IFMT))
                (dst_fd s) (chmod_bits (clear_bits (st_mode (sb s)) S_IFMT)) w3) as H4.
  unfold sys_fchmod.
  set (w4 := snd (sys_fmeta _ _ _ w3)) in *.
  pose proof (sys_fmeta_fds (EvFutimes (dst_fd s) (st_atime (sb s)) (st_mtime (sb s)))
                (dst_fd s) (with_times (st_atime (sb s)) (st_mtime (sb s))) w4) as H5.
  unfold sys_futimes.
  destruct (sys_fmeta _ _ _ w4) as [r5 w5]. simpl in H5.
  destruct (truthy r5); simpl; congruence.
Qed.

Lemma write_block_fds a b fuel : ∀ fd bp ptr left w r w',
  fd = a ∨ fd = b →
  write_block fuel fd bp ptr left w = Some (r, w') → fds_moved a b w w'.
Proof.
  induction fuel as [|f IH]; intros fd bp ptr left w r w' Hfd.
  - simpl. destruct (left >? 0); [done|]. intros [= <- <-]. apply fds_moved_refl.
  - cbn [write_block]. destruct (left >? 0);
      [|intros [= <- <-]; apply fds_moved_refl].
    pose proof (sys_write_fds a b fd (take (Z.to_nat left) (drop ptr bp)) w Hfd) as Hw.
    destruct (sys_write fd _ w) as [r0 w1]. simpl in Hw.
    destruct (to_size_t r0 =? 0).
    { change (0 + 1 >? 5) with false. cbv iota. intros H. apply IH in H; [|done].
      by eapply fds_moved_trans. }
    destruct (to_size_t r0 =? to_size_t (-1)); [by intros [= <- <-]|].
    intros H. apply IH in H; [|done]. by eapply fds_moved_trans.
Qed.

Lemma read_loop_fds fuel : ∀ s blen w r n w',
  read_loop fuel s blen w = Some (r, n, w') →
  fds_moved (src_fd s) (dst_fd s) w w'.
Proof.
  induction fuel as [|f IH]; intros s blen w r n w'; [done|].
  cbn [read_loop].
  pose proof (sys_read_fds (src_fd s) (dst_fd s) (src_fd s) blen w (or_introl eq_refl))
    as Hr.
  destruct (sys_read (src_fd s) blen w) as [[nread bp] w1]. simpl in Hr.
  destruct (nread >? 0); [|by intros [= <- <- <-]].
  destruct (write_block f (dst_fd s) bp 0 (to_size_t nread) w1) as [[r1 w2]|] eqn:Hwb;
    [|done].
  apply (write_block_fds (src_fd s) (dst_fd s)) in Hwb; [|by right].
  assert (fds_moved (src_fd s) (dst_fd s) w w2) as H2 by (by eapply fds_moved_trans).
  destruct (r1 <? 0); [by intros [= <- <- <-]|].
  intros H. apply IH in H. by eapply fds_moved_trans.
Qed.

Lemma copyfile_data_fds fuel s w r w' :
  copyfile_data fuel s w = Some (r, w') → fds_moved (src_fd s) (dst_fd s) w w'.
Proof.
  unfold copyfile_data, sys_alloc.
  set (blen := match sys_fstatfs (src_fd s) w with
               | Some io => to_size_t io
               | None => to_size_t (st_blksize (sb s))
               end).
  clearbody blen.
  destruct (w_mem w) as [|m]; simpl.
  { intros [= <- <-]. by apply fds_moved_same. }
  destruct (read_loop fuel s blen (set_mem m w)) as [[[r1 n1] w1]|] eqn:Hloop; [|done].
  apply read_loop_fds in Hloop.
  assert (fds_moved (src_fd s) (dst_fd s) w w1) as H1.
  { eapply fds_moved_trans; [|exact Hloop]. by apply fds_moved_same. }
  destruct (r1 <? 0); [by intros [= <- <-]|].
  destruct (n1 <? 0).
  { intros [= <- <-]. eapply fds_moved_trans; [exact H1|]. by apply fds_moved_same. }
  pose proof (sys_ftruncate_fds (dst_fd s) (st_size (sb s)) w1) as Ht.
  destruct (sys_ftruncate _ _ w1) as [r2 w2]. simpl in Ht.
  assert (fds_moved (src_fd s) (dst_fd s) w w2) as H2.
  { eapply fds_moved_trans; [exact H1|]. by apply fds_moved_same. }
  by destruct (r2 <? 0); intros [= <- <-].
Qed.

Lemma copyfile_internal_fds fuel s fl w r w' :
  copyfile_internal fuel s fl w = Some (r, w') →
  fds_moved (src_fd s) (dst_fd s) w w'.
Proof.
  unfold copyfile_internal.
  destruct (_ || _); [intros [= <- <-]; by apply fds_moved_same|].
  cbv zeta beta.
  assert (∀ w0 r0 w1, fds_moved (src_fd s) (dst_fd s) w w0 →
    (if truthy (Z.land COPYFILE_STAT fl)
     then let '(ret, w) := copyfile_stat s w0 in
          if ret <? 0
          then Some (ret, copyfile_warn "error processing POSIX information" w)
          else Some (ret, w)
     else Some (0, w0)) = Some (r0, w1) →
    fds_moved (src_fd s) (dst_fd s) w w1) as Hstat.
  { intros w0 r0 w1 H0. destruct (truthy (Z.land COPYFILE_STAT fl));
      [|by intros [= <- <-]].
    pose proof (copyfile_stat_fds s w0) as Hs.
    destruct (copyfile_stat s w0) as [r1 w2]. simpl in Hs.
    destruct (r1 <? 0); intros [= <- <-];
      (eapply fds_moved_trans; [exact H0|]; by apply fds_moved_same). }
  destruct (truthy (Z.land COPYFILE_DATA fl));
    [|apply Hstat, fds_moved_refl].
  destruct (copyfile_data fuel s w) as [[r1 w1]|] eqn:Hdata; [|done].
  apply copyfile_data_fds in Hdata.
  destruct (r1 <? 0).
  - destruct (dst s) as [d|]; [|by intros [= <- <-]].
    pose proof (sys_unlink_fds d (copyfile_warn "error processing data" w1)) as Hu.
    destruct (sys_unlink d _) as [r2 w2]. simpl in Hu.
    destruct (truthy r2); intros [= <- <-];
      (eapply fds_moved_trans; [exact Hdata|]; by apply fds_moved_same).
  - destruct (truthy (Z.land COPYFILE_STAT fl)).
    + intros H. exact (Hstat w1 r w' Hdata H).
    + by intros [= <- <-].
Qed.

(** [open] either fails and leaves the table alone, or takes a free
    descriptor and leaves the others alone. *)
Lemma sys_open_fds p fl m w :
  (fst (sys_open p fl m w) = -1 ∧ w_fds (snd (sys_open p fl m w)) = w_fds w)
  ∨ (0 ≤ fst (sys_open p fl m w)
     ∧ fd_lookup (fst (sys_open p fl m w)) w = None
     ∧ is_Some (fd_lookup (fst (sys_open p fl m w)) (snd (sys_open p fl m w)))
     ∧ ∀ fd', fd' ≠ fst (sys_open p fl m w) →
         fd_lookup fd' (snd (sys_open p fl m w)) = fd_lookup fd' w).
Proof.
  destruct (sys_open_cases p fl m w)
    as [(e & -> & _)|[(ino & i & _ & _ & ->)|(i & _ & ->)]].
  - by left.
  - right. destruct (install_fd_spec p fl ino w) as (H1 & H2 & H3 & H4 & _).
    split; [done|]. split; [done|]. split; [by rewrite H3|done].
  - right.
    match goal with |- context [install_fd p fl ?n ?w0] =>
      destruct (install_fd_spec p fl n w0) as (H1 & H2 & H3 & H4 & _)
    end.
    split; [done|]. split; [done|]. split; [by rewrite H3|done].
Qed.

Lemma sys_chmod_fds p m w : w_fds (snd (sys_chmod p m w)) = w_fds w.
Proof.
  by destruct (sys_chmod_cases p m w) as [(e & ->)|(ino & i & _ & _ & ->)].
Qed.

Lemma open_dst_loop_fds fuel : ∀ isdir dsrc oflags p s w r s' w',
  open_dst_loop fuel isdir dsrc oflags p s w = Some (r, s', w') →
  src s' = src s ∧ dst s' = dst s ∧ src_fd s' = src_fd s
  ∧ ((dst_fd s' < 0 ∧ w_fds w' = w_fds w)
     ∨ (0 ≤ dst_fd s' ∧ fd_lookup (dst_fd s') w = None
        ∧ is_Some (fd_lookup (dst_fd s') w')
        ∧ ∀ fd, fd ≠ dst_fd s' → fd_lookup fd w' = fd_lookup fd w)).
Proof.
  induction fuel as [|f IH]; [done|]. intros isdir dsrc oflags p s w r s' w'.
  cbn [open_dst_loop].
  pose proof (sys_open_fds p (Z.lor oflags dsrc) (Z.lor (st_mode (sb s)) S_IWUSR) w)
    as Ho.
  destruct (sys_open _ _ _ w) as [fd w1]. simpl in Ho.
  destruct (Z.ltb_spec fd 0) as [Hneg|Hpos].
  - destruct Ho as [[-> Hf]|[? _]]; [|lia].
    assert (∀ oflags' w2, w_fds w2 = w_fds w →
      open_dst_loop f isdir dsrc oflags' p (set_dst_fd (-1) s) w2 = Some (r, s', w') →
      src s' = src s ∧ dst s' = dst s ∧ src_fd s' = src_fd s
      ∧ ((dst_fd s' < 0 ∧ w_fds w' = w_fds w)
         ∨ (0 ≤ dst_fd s' ∧ fd_lookup (dst_fd s') w = None
            ∧ is_Some (fd_lookup (dst_fd s') w')
            ∧ ∀ fd, fd ≠ dst_fd s' → fd_lookup fd w' = fd_lookup fd w))) as Hrec.
    { intros oflags' w2 H2 H. apply IH in H.
      destruct H as (? & ? & ? & H). repeat split; try done.
      unfold fd_lookup in *. rewrite H2 in H.
      destruct H as [[? ?]|?]; [left; split; [done|congruence]|by right]. }
    destruct (w_errno w1 =? EEXIST).
    { destruct (truthy _); [|by apply Hrec].
      intros [= <- <- <-]. repeat split; try done. by left. }
    destruct (w_errno w1 =? EACCES).
    { match goal with |- context [sys_chmod p ?m w1] =>
        pose proof (sys_chmod_fds p m w1) as Hc;
        destruct (sys_chmod p m w1) as [r1 w2]
      end.
      simpl in Hc. destruct (r1 =? 0); [apply Hrec; congruence|].
      intros [= <- <- <-]. repeat split; try done. left. split; [done|]. simpl.
      congruence. }
    destruct (w_errno w1 =? EISDIR).
    { destruct (_ || _); [|by apply Hrec].
      intros [= <- <- <-]. repeat split; try done. by left. }
    intros [= <- <- <-]. repeat split; try done. by left.
  - intros [= <- <- <-]. repeat split; try done. right.
    destruct Ho as [[-> _]|(? & ? & ? & ?)]; [lia|]. by repeat split.
Qed.

Lemma copyfile_open_dst_fds fuel isdir s w r s' w' :
  dst_fd s = -2 →
  copyfile_open_dst fuel isdir s w = Some (r, s', w') →
  src s' = src s ∧ dst s' = dst s ∧ src_fd s' = src_fd s
  ∧ ((dst_fd s' < 0 ∧ w_fds w' = w_fds w)
     ∨ (is_Some (dst s) ∧ 0 ≤ dst_fd s' ∧ fd_lookup (dst_fd s') w = None
        ∧ is_Some (fd_lookup (dst_fd s') w')
        ∧ ∀ fd, fd ≠ dst_fd s' → fd_lookup fd w' = fd_lookup fd w)).
Proof.
  intros Hdfd. unfold copyfile_open_dst.
  destruct (dst s) as [d|] eqn:Hd.
  2: { rewrite Hdfd. simpl. intros [= <- <- <-]. repeat split; try done.
       left. by rewrite Hdfd. }
  rewrite Hdfd. change (-2 =? -2) with true. cbv iota.
  assert (∃ stop w1,
    (if truthy (Z.land COPYFILE_UNLINK (flags s))
     then let '(r, w0) := sys_remove d w in
          if (r <? 0) && negb (w_errno w0 =? ENOENT)
          then (true, copyfile_warn "remove" w0) else (false, w0)
     else (false, w)) = (stop, w1) ∧ w_fds w1 = w_fds w) as (stop & w1 & -> & Hf1).
  { destruct (truthy _); [|by eexists _, _].
    pose proof (sys_remove_fds d w) as Hrf.
    destruct (sys_remove d w) as [r0 w0]. simpl in Hrf.
    destruct (_ && _); by eexists _, _. }
  destruct stop.
  { intros [= <- <- <-]. repeat split; try done. left. by rewrite Hdfd. }
  assert (∀ s1 w2,
    src s1 = src s → dst s1 = Some d → src_fd s1 = src_fd s →
    ((dst_fd s1 < 0 ∧ w_fds w2 = w_fds w)
     ∨ (0 ≤ dst_fd s1 ∧ fd_lookup (dst_fd s1) w = None
        ∧ is_Some (fd_lookup (dst_fd s1) w2)
        ∧ ∀ fd, fd ≠ dst_fd s1 → fd_lookup fd w2 = fd_lookup fd w)) →
    (if (dst_fd s1 <? 0) || (src_fd s1 <? 0)
     then Some (-1, s1, set_errno EINVAL w2) else Some (0, s1, w2))
    = Some (r, s', w') →
    src s' = src s ∧ dst s' = Some d ∧ src_fd s' = src_fd s
    ∧ ((dst_fd s' < 0 ∧ w_fds w' = w_fds w)
       ∨ (is_Some (Some d) ∧ 0 ≤ dst_fd s' ∧ fd_lookup (dst_fd s') w = None
          ∧ is_Some (fd_lookup (dst_fd s') w')
          ∧ ∀ fd, fd ≠ dst_fd s' → fd_lookup fd w' = fd_lookup fd w))) as Hfin.
  { intros s1 w2 H1 H2 H3 H4.
    destruct (_ || _); intros [= <- <- <-]; (repeat split; try done);
      (destruct H4 as [?|?]; [by left|right; by split]). }
  destruct isdir.
  - match goal with |- context [sys_mkdir d ?m w1] =>
      assert (w_fds (snd (sys_mkdir d m w1)) = w_fds w1) as Hm
        by (unfold sys_mkdir; by destruct (w_names w1 !! d));
      destruct (sys_mkdir d m w1) as [r2 w2]
    end.
    simpl in Hm.
    destruct (_ && _).
    { intros [= <- <- <-]. repeat split; try done. left. rewrite Hdfd.
      split; [done|]. simpl. congruence. }
    match goal with |- context [sys_open d ?fl ?m w2] =>
      pose proof (sys_open_fds d fl m w2) as Ho; destruct (sys_open d fl m w2) as [fd w3]
    end.
    simpl in Ho.
    assert (∀ x, fd_lookup x w2 = fd_lookup x w) as H2.
    { intros x. unfold fd_lookup. by rewrite Hm, Hf1. }
    destruct (Z.eqb_spec fd (-1)) as [->|Hne].
    { intros [= <- <- <-]. repeat split; try done. left. split; [done|]. simpl.
      destruct Ho as [[_ ?]|[? _]]; [congruence|lia]. }
    apply Hfin; try done.
    destruct Ho as [[? _]|(? & ? & ? & Hx)]; [done|]. right. simpl.
    rewrite <- H2. repeat split; try done. intros x Hx'. rewrite <- H2. by apply Hx.
  - destruct (open_dst_loop _ _ _ _ _ _ _) as [[[r3 s3] w3]|] eqn:Hloop; [|done].
    apply open_dst_loop_fds in Hloop. destruct Hloop as (Hs1 & Hs2 & Hs3 & Hcase).
    assert (∀ x, fd_lookup x w1 = fd_lookup x w) as H2.
    { intros x. unfold fd_lookup. by rewrite Hf1. }
    assert ((dst_fd s3 < 0 ∧ w_fds w3 = w_fds w)
            ∨ (0 ≤ dst_fd s3 ∧ fd_lookup (dst_fd s3) w = None
               ∧ is_Some (fd_lookup (dst_fd s3) w3)
               ∧ ∀ fd, fd ≠ dst_fd s3 → fd_lookup fd w3 = fd_lookup fd w)) as Hcase'.
    { destruct Hcase as [[? ?]|(? & ? & ? & Hx)]; [left; split; [done|congruence]|].
      right. rewrite <- H2. repeat split; try done.
      intros x Hx'. rewrite <- H2. by apply Hx. }
    destruct (r3 <? 0).
    + intros [= <- <- <-]. repeat split; try congruence.
      destruct Hcase' as [?|?]; [by left|right; by split].
    + apply Hfin; congruence.
Qed.

Lemma copyfile_open_fds fuel s w r s' w' :
  src_fd s = -2 → dst_fd s = -2 →
  copyfile_open fuel s w = Some (r, s', w') →
  src s' = src s ∧ dst s' = dst s
  ∧ (src_fd s' < 0 ∨ (is_Some (src s) ∧ fd_lookup (src_fd s') w = None))
  ∧ (dst_fd s' < 0 ∨ (is_Some (dst s) ∧ fd_lookup (dst_fd s') w = None))
  ∧ (∀ fd, fd ≠ src_fd s' → fd ≠ dst_fd s' → fd_lookup fd w' = fd_lookup fd w).
Proof.
  intros Hsfd Hdfd. unfold copyfile_open.
  assert (∀ isdir s1 w1,
    src s1 = src s → dst s1 = dst s → dst_fd s1 = -2 →
    (src_fd s1 < 0 ∨ (is_Some (src s) ∧ fd_lookup (src_fd s1) w = None
                      ∧ is_Some (fd_lookup (src_fd s1) w1))) →
    (∀ fd, fd ≠ src_fd s1 → fd_lookup fd w1 = fd_lookup fd w) →
    copyfile_open_dst fuel isdir s1 w1 = Some (r, s', w') →
    src s' = src s ∧ dst s' = dst s
    ∧ (src_fd s' < 0 ∨ (is_Some (src s) ∧ fd_lookup (src_fd s') w = None))
    ∧ (dst_fd s' < 0 ∨ (is_Some (dst s) ∧ fd_lookup (dst_fd s') w = None))
    ∧ (∀ fd, fd ≠ src_fd s' → fd ≠ dst_fd s' → fd_lookup fd w' = fd_lookup fd w))
    as Hdst.
  { intros isdir s1 w1 H1 H2 H3 Hsrc Hfr Hrun.
    apply copyfile_open_dst_fds in Hrun; [|done].
    destruct Hrun as (E1 & E2 & E3 & Hcase). rewrite E1, E2, E3, H1, H2.
    split; [done|]. split; [done|].
    split; [destruct Hsrc as [?|(? & ? & ?)]; [by left|by right]|].
    destruct Hcase as [[Hneg Hf]|(Hd & Hpos & Hfree & Hopen & Hx)].
    - split; [by left|]. intros fd Ha _.
      transitivity (fd_lookup fd w1); [unfold fd_lookup; by rewrite Hf|by apply Hfr].
    - assert (src_fd s1 < 0 ∨ dst_fd s' ≠ src_fd s1) as Hne.
      { destruct Hsrc as [?|(_ & _ & Hs)]; [by left|right].
        intros E. rewrite E in Hfree. rewrite Hfree in Hs. by destruct Hs. }
      split.
      + right. rewrite <- H2. split; [done|]. rewrite <- Hfr; [done|].
        destruct Hne as [?|?]; [lia|done].
      + intros fd Ha Hb. rewrite Hx by done. by apply Hfr. }
  destruct (src s) as [p|] eqn:Hp.
  2: { apply Hdst; try done. left. lia. }
  rewrite Hsfd. change (-2 =? -2) with true. cbv iota.
  unfold sys_stat.
  destruct (w_names w !! p ≫= (λ ino, w_inodes w !! ino)) as [i|].
  2: { simpl. intros [= <- <- <-]. rewrite Hsfd, Hdfd, Hp.
       repeat split; try done; left; lia. }
  cbn -[copyfile_open_dst sys_open].
  destruct (_ && _).
  { intros [= <- <- <-]. simpl. rewrite Hsfd, Hdfd.
    repeat split; try done; left; lia. }
  match goal with |- context [sys_open p ?fl ?m ?w0] =>
    pose proof (sys_open_fds p fl m w0) as Ho; destruct (sys_open p fl m w0) as [fd w1]
  end.
  simpl in Ho.
  destruct (Z.ltb_spec fd 0) as [Hneg|Hpos].
  { intros [= <- <- <-]. simpl. rewrite Hdfd.
    split; [done|]. split; [done|]. split; [by left|]. split; [left; lia|].
    intros x _ _. destruct Ho as [[_ Hf]|[? _]]; [|lia].
    unfold fd_lookup. simpl. by rewrite Hf. }
  destruct Ho as [[-> _]|(_ & Hfree & Hopen & Hx)]; [lia|].
  apply Hdst; try done. right. by eauto.
Qed.

(** What [copyfile_state_free] does to the descriptor table. *)
Lemma copyfile_state_free_fds s w fd :
  fd_lookup fd (snd (copyfile_state_free (Some s) w))
  = if bool_decide (is_Some (src s) ∧ 0 ≤ src_fd s ∧ fd = src_fd s)
       || bool_decide (is_Some (dst s) ∧ 0 ≤ dst_fd s ∧ fd = dst_fd s)
    then None else fd_lookup fd w.
Proof.
  unfold copyfile_state_free, copyfile_close.
  set (w1 := if _ && _ then snd (sys_close (src_fd s) w) else w).
  assert (fd_lookup fd w1
          = if bool_decide (is_Some (src s) ∧ 0 ≤ src_fd s ∧ fd = src_fd s)
            then None else fd_lookup fd w) as H1.
  { unfold w1. destruct (bool_decide (is_Some (src s))) eqn:E1; simpl.
    - apply bool_decide_eq_true in E1.
      destruct (Z.geb_spec (src_fd s) 0) as [Hpos|Hneg].
      + destruct (decide (fd = src_fd s)) as [->|Hne].
        * rewrite bool_decide_eq_true_2 by (split; [done|split; [lia|done]]).
          apply sys_close_closed.
        * rewrite bool_decide_eq_false_2 by (intros (_ & _ & ?); done).
          by apply sys_close_other.
      + rewrite bool_decide_eq_false_2 by (intros (_ & ? & _); lia). done.
    - apply bool_decide_eq_false in E1.
      rewrite bool_decide_eq_false_2 by (intros (? & _); done). done. }
  clearbody w1.
  assert (∀ w2, fd_lookup fd w2
     = (if bool_decide (is_Some (dst s) ∧ 0 ≤ dst_fd s ∧ fd = dst_fd s)
        then None else fd_lookup fd w1) →
     fd_lookup fd w2
     = if bool_decide (is_Some (src s) ∧ 0 ≤ src_fd s ∧ fd = src_fd s)
          || bool_decide (is_Some (dst s) ∧ 0 ≤ dst_fd s ∧ fd = dst_fd s)
       then None else fd_lookup fd w) as Hcomb.
  { intros w2 ->. rewrite H1. by do 2 destruct (bool_decide _). }
  destruct (bool_decide (is_Some (dst s))) eqn:E2; simpl.
  - apply bool_decide_eq_true in E2.
    destruct (Z.geb_spec (dst_fd s) 0) as [Hpos|Hneg].
    + assert (fd_lookup fd (snd (sys_close (dst_fd s) w1))
              = if bool_decide (is_Some (dst s) ∧ 0 ≤ dst_fd s ∧ fd = dst_fd s)
                then None else fd_lookup fd w1) as H2.
      { destruct (decide (fd = dst_fd s)) as [->|Hne].
        * rewrite bool_decide_eq_true_2 by (split; [done|split; [lia|done]]).
          apply sys_close_closed.
        * rewrite bool_decide_eq_false_2 by (intros (_ & _ & ?); done).
          by apply sys_close_other. }
      destruct (sys_close (dst_fd s) w1) as [r2 w2]. simpl in H2.
      destruct (truthy r2); simpl; by apply Hcomb.
    + simpl. apply Hcomb.
      rewrite bool_decide_eq_false_2 by (intros (_ & ? & _); lia). done.
  - apply bool_decide_eq_false in E2. simpl. apply Hcomb.
    rewrite bool_decide_eq_false_2 by (intros (? & _); done). done.
Qed.

(** The descriptor balance of [copyfile] on a handle that holds nothing
    yet: once the handle is freed, the table is what it was. *)
Lemma copyfile_fds_balance fuel src' dst' state fl w r st w' :
  match state with
  | Some s => src s = None ∧ dst s = None ∧ src_fd s = -2 ∧ dst_fd s = -2
  | None => True
  end →
  copyfile fuel src' dst' state fl w = Some (r, st, w') →
  (is_Some st ↔ is_Some state)
  ∧ ∀ fd, fd_lookup fd (snd (copyfile_state_free st w')) = fd_lookup fd w.
Proof.
  intros Hfresh. unfold copyfile. cbv zeta beta.
  assert (∀ s wx, src_fd s < 0 → dst_fd s < 0 → w_fds wx = w_fds w →
    (is_Some (match state with Some _ => Some s | None => None end) ↔ is_Some state)
    ∧ ∀ fd, fd_lookup fd
              (snd (copyfile_state_free
                      (match state with Some _ => Some s | None => None end) wx))
            = fd_lookup fd w) as Hquiet.
  { intros s wx H1 H2 Hf. split; [by destruct state|]. intros fd.
    destruct state as [?|]; [|unfold fd_lookup; simpl; by rewrite Hf].
    rewrite copyfile_state_free_fds.
    rewrite (bool_decide_eq_false_2 (is_Some (src s) ∧ _)) by (intros (_ & ? & _); lia).
    rewrite (bool_decide_eq_false_2 (is_Some (dst s) ∧ _)) by (intros (_ & ? & _); lia).
    simpl. unfold fd_lookup. by rewrite Hf. }
  destruct (_ && _).
  { intros [= <- <- <-]. split; [done|]. destruct state as [s|]; [|done].
    destruct Hfresh as (_ & _ & H1 & H2).
    apply (Hquiet s (set_errno EINVAL w)); [lia|lia|done]. }
  assert ((∃ s0 w0, copyfile_preamble state fl w = (0, Some s0, w0)
            ∧ src s0 = None ∧ dst s0 = None ∧ src_fd s0 = -2 ∧ dst_fd s0 = -2
            ∧ w_fds w0 = w_fds w)
          ∨ (state = None ∧ ∃ w0, copyfile_preamble state fl w = (-1, None, w0)
               ∧ w_fds w0 = w_fds w)) as Hpre.
  { destruct state as [s|].
    - left. destruct (copyfile_preamble_some s fl w)
        as (s1 & w1 & -> & E1 & E2 & E3 & E4 & _ & _ & _ & _ & E5 & _).
      destruct Hfresh as (? & ? & ? & ?). exists s1, w1. repeat split; congruence.
    - destruct (w_mem w) as [|m] eqn:Em.
      + right. split; [done|].
        unfold copyfile_preamble, copyfile_state_alloc, sys_alloc. rewrite Em.
        by eexists.
      + left. destruct (copyfile_preamble_none fl w m Em) as (dbg & e & ->).
        by eexists _, _. }
  destruct Hpre as [(s0 & w0 & -> & Hs1 & Hs2 & Hs3 & Hs4 & Hf0)|(-> & w0 & -> & Hf0)].
  2: { intros [= <- <- <-]. split; [done|]. intros fd. simpl. unfold fd_lookup.
       by rewrite Hf0. }
  change (0 <? 0) with false. cbv iota.
  assert (∀ name fd wx, ∃ stop n w1,
    COPYFILE_SET_FNAME name None fd wx = (stop, n, fd, w1) ∧ w_fds w1 = w_fds wx)
    as Hset.
  { intros name fd wx. unfold COPYFILE_SET_FNAME, strdup, sys_alloc.
    destruct name as [n|]; [|by eexists _, _, _].
    destruct (w_mem wx); by eexists _, _, _. }
  rewrite Hs1, Hs3.
  destruct (Hset src' (-2) w0) as (stop1 & n1 & w1 & -> & Hf1).
  destruct stop1.
  { intros [= <- <- <-]. apply Hquiet; simpl; [lia|lia|congruence]. }
  cbn [dst dst_fd set_src set_src_fd]. rewrite Hs2, Hs4.
  destruct (Hset dst' (-2) w1) as (stop2 & n2 & w2 & -> & Hf2).
  destruct stop2.
  { intros [= <- <- <-]. apply Hquiet; simpl; [lia|lia|congruence]. }
  destruct (copyfile_open fuel _ w2) as [[[r3 s3] w3]|] eqn:Hopen; [|done].
  apply copyfile_open_fds in Hopen; [|done..].
  destruct Hopen as (Hs & Hd & Hsrc & Hdstc & Hframe).
  assert (∀ r4 w4, (if r3 <? 0 then Some (-1, w3) else copyfile_internal fuel s3 fl w3)
                   = Some (r4, w4) → fds_moved (src_fd s3) (dst_fd s3) w3 w4) as Hrun.
  { intros r4 w4. destruct (r3 <? 0); [intros [= <- <-]; apply fds_moved_refl|].
    apply copyfile_internal_fds. }
  destruct (if r3 <? 0 then _ else _) as [[r4 w4]|]; [|done].
  specialize (Hrun r4 w4 eq_refl).
  assert (∀ fd, fd_lookup fd (snd (copyfile_state_free (Some s3) w4)) = fd_lookup fd w)
    as Hend.
  { intros fd. rewrite (copyfile_state_free_fds s3 w4 fd).
    assert (∀ x, fd_lookup x w2 = fd_lookup x w) as H2.
    { intros x. unfold fd_lookup. by rewrite Hf2, Hf1, Hf0. }
    destruct (bool_decide_reflect (is_Some (src s3) ∧ 0 ≤ src_fd s3 ∧ fd = src_fd s3))
      as [(_ & Hpos & ->)|Hn1]; simpl.
    { destruct Hsrc as [?|[_ Hfree]]; [lia|]. by rewrite <- H2. }
    destruct (bool_decide_reflect (is_Some (dst s3) ∧ 0 ≤ dst_fd s3 ∧ fd = dst_fd s3))
      as [(_ & Hpos & ->)|Hn2]; simpl.
    { destruct Hdstc as [?|[_ Hfree]]; [lia|]. by rewrite <- H2. }
    destruct (Z.ltb_spec fd 0) as [Hneg|Hge]; [by rewrite !fd_lookup_neg|].
    assert (fd ≠ src_fd s3) as Ha.
    { intros ->. destruct Hsrc as [?|[Hsome _]]; [lia|]. apply Hn1.
      rewrite Hs. by repeat split. }
    assert (fd ≠ dst_fd s3) as Hb.
    { intros ->. destruct Hdstc as [?|[Hsome _]]; [lia|]. apply Hn2.
      rewrite Hd. by repeat split. }
    destruct (Hrun fd) as [_ Heq]. rewrite Heq by done.
    rewrite Hframe by done. apply H2. }
  destruct state; intros [= <- <- <-]; (split; [done|exact Hend]).
Qed.

(** X14: NoDescriptorLeak.  However a call of [copyfile] without a
    caller's handle ends, with success or with any failure, the descriptor
    table is afterwards exactly what it was before: every descriptor the call
    opened has been closed again, and no other descriptor has been closed or
    moved.  The call hands back no handle. *)
Theorem copyfile_no_descriptor_leak fuel src' dst' fl w r st w' :
  copyfile fuel src' dst' None fl w = Some (r, st, w') →
  st = None ∧ ∀ fd, fd_lookup fd w' = fd_lookup fd w.
Proof.
  intros Hrun.
  destruct (copyfile_fds_balance fuel src' dst' None fl w r st w' I Hrun) as [Hst Hfd].
  destruct st as [s|]; [|done]. destruct Hst as [Hst _].
  by destruct (Hst ltac:(eauto)).
Qed.

(** X16: HandleLifecycle.  A handle obtained from [copyfile_state_alloc],
    used for one call of [copyfile] and then released with
    [copyfile_state_free] leaves the descriptor table exactly as it was before
    the three calls, whatever the copy returned: with a caller's handle
    [copyfile] keeps the descriptors it opened in the handle, and the release
    closes them. *)
Theorem copyfile_alloc_copy_free fuel src' dst' fl w s0 w0 r st w1 :
  copyfile_state_alloc w = (Some s0, w0) →
  copyfile fuel src' dst' (Some s0) fl w0 = Some (r, st, w1) →
  is_Some st
  ∧ ∀ fd, fd_lookup fd (snd (copyfile_state_free st w1)) = fd_lookup fd w.
Proof.
  intros Halloc Hrun. unfold copyfile_state_alloc, sys_alloc in Halloc.
  destruct (w_mem w) as [|m]; [done|]. injection Halloc as <- <-.
  apply copyfile_fds_balance in Hrun; [|done]. destruct Hrun as [Hst Hfd].
  split; [apply Hst; eauto|exact Hfd].
Qed.

(** X15: DescriptorsKept.  [fcopyfile] without a caller's handle neither
    opens nor closes anything: after the call every descriptor is open on the
    same file with the same access mode as before (or still free), and every
    descriptor other than the two arguments has not moved at all. *)
Theorem fcopyfile_keeps_descriptors fuel a b fl w r st w' :
  fcopyfile fuel a b None fl w = Some (r, st, w') →
  st = None ∧ fds_moved a b w w'.
Proof.
  unfold fcopyfile.
  destruct (Z.ltb_spec a 0) as [Ha|Ha];
    [intros [= <- <- <-]; split; [done|by apply fds_moved_same]|].
  destruct (Z.ltb_spec b 0) as [Hb|Hb];
    [intros [= <- <- <-]; split; [done|by apply fds_moved_same]|].
  cbn [orb].
  destruct (w_mem w) as [|m] eqn:Em.
  { unfold copyfile_preamble, copyfile_state_alloc, sys_alloc. rewrite Em.
    intros [= <- <- <-]. split; [done|]. by apply fds_moved_same. }
  destruct (copyfile_preamble_none fl w m Em) as (dbg & e & ->).
  change (0 <? 0) with false. cbv iota.
  set (w0 := set_errno e (set_mem m w)).
  cbn [src_fd]. change (-2 =? -2) with true.
  assert ((a >? -1) = true) as -> by lia. cbn [andb].
  set (s1 := set_src_fd a _).
  assert (∀ fd w1, w_fds (snd (sys_fstat fd w1)) = w_fds w1) as Hfs.
  { intros fd w1. unfold sys_fstat. by destruct (fd_inode fd w1). }
  pose proof (Hfs (src_fd s1) w0) as Hf1.
  destruct (sys_fstat (src_fd s1) w0) as [[r1 st1] w1]. simpl in Hf1.
  set (s2 := match st1 with Some b0 => set_sb b0 s1 | None => s1 end).
  assert (src s2 = None ∧ dst s2 = None ∧ src_fd s2 = a ∧ dst_fd s2 = -2)
    as (Hn1 & Hn2 & Hn3 & Hn4) by (unfold s2; by destruct st1).
  clearbody s2.
  destruct (negb _ && negb _ && negb _).
  { intros [= <- <- <-]. split; [done|]. apply fds_moved_same. simpl. congruence. }
  rewrite Hn4. change (-2 =? -2) with true.
  assert ((b >? -1) = true) as -> by lia. cbn [andb].
  set (s3 := set_dst_fd b s2).
  assert (src s3 = None ∧ dst s3 = None ∧ src_fd s3 = a ∧ dst_fd s3 = b)
    as (Hm1 & Hm2 & Hm3 & Hm4) by done.
  clearbody s3.
  pose proof (Hfs (dst_fd s3) w1) as Hf2.
  destruct (sys_fstat (dst_fd s3) w1) as [[r2 st2] w2]. simpl in Hf2.
  set (dst_sb := match st2 with Some b0 => b0 | None => zero_stat end). clearbody dst_sb.
  match goal with |- context [copyfile_internal fuel s3 fl ?wx] =>
    assert (w_fds wx = w_fds w) as Hf3
      by (unfold sys_fchmod; rewrite sys_fmeta_fds; congruence);
    destruct (copyfile_internal fuel s3 fl wx) as [[r4 w4]|] eqn:Hint; [|done]
  end.
  apply copyfile_internal_fds in Hint. rewrite Hm3, Hm4 in Hint. rewrite Hm4 in Hf3.
  intros [= <- <- <-]. split; [done|].
  eapply fds_moved_trans; [apply fds_moved_same; exact Hf3|].
  eapply fds_moved_trans; [exact Hint|].
  intros fd.
  match goal with |- context [fd_lookup fd ?wf] =>
    match wf with context [copyfile_close s3 ?wx] =>
      assert (fd_lookup fd wf = fd_lookup fd wx) as ->
    end
  end.
  { etransitivity; [exact (copyfile_state_free_fds s3 _ fd)|].
    rewrite (bool_decide_eq_false_2 (is_Some (src s3) ∧ _))
      by (rewrite Hm1; intros ([? ?] & _); done).
    rewrite (bool_decide_eq_false_2 (is_Some (dst s3) ∧ _))
      by (rewrite Hm2; intros ([? ?] & _); done).
    done. }
  assert (∀ wx, fd_lookup fd
            (if (r4 >=? 0) && negb (truthy (Z.land (flags s3) COPYFILE_STAT))
             then snd (sys_fchmod (dst_fd s3) (clear_bits (st_mode dst_sb) S_IFMT) wx)
             else wx) = fd_lookup fd wx) as ->.
  { intros wx. destruct (_ && _); [|done]. unfold fd_lookup, sys_fchmod.
    by rewrite sys_fmeta_fds. }
  split; [apply same_file_refl|done].
Qed.

(** ** Copying between descriptors *)

Lemma sys_fmeta_frame ev fd f w o :
  fd_lookup fd w = Some o →
  w_fds (snd (sys_fmeta ev fd f w)) = w_fds w
  ∧ same_env w (snd (sys_fmeta ev fd f w))
  ∧ (∀ ino, ino ≠ ofd_ino o →
       w_inodes (snd (sys_fmeta ev fd f w)) !! ino = w_inodes w !! ino)
  ∧ (is_Some (w_inodes w !! ofd_ino o) →
     is_Some (w_inodes (snd (sys_fmeta ev fd f w)) !! ofd_ino o)).
Proof.
  intros Ho. unfold sys_fmeta. rewrite Ho.
  destruct (w_inodes w !! ofd_ino o) as [i|] eqn:Hi; [|by repeat split].
  destruct (owns w i); [|repeat split; try done; by rewrite Hi].
  simpl. repeat split; try done.
  - intros ino Hne. by rewrite list_lookup_alter_ne.
  - intros _. rewrite list_lookup_alter_eq, Hi. by eexists.
Qed.

(** [fcopyfile] up to the coordinator, once the preamble has produced the
    handle [s1]: the descriptors [c] and [d] it works on are the arguments
    where the members are unset and the members otherwise; the source is
    examined through [c] and the destination behind [d] made writable by its
    owner. *)
Lemma fcopyfile_start fuel a b st fl w s1 w1 ic id accc accd isrc idst :
  0 ≤ a → 0 ≤ b →
  copyfile_preamble st fl w = (0, Some s1, w1) →
  let c := adopted a (src_fd s1) in
  let d := adopted b (dst_fd s1) in
  let s2 := mkState (src s1) (dst s1) c d (stat_of_inode isrc) (flags s1) (debug s1) in
  fd_lookup c w1 = Some (mkOfd ic 0 accc) → fd_lookup d w1 = Some (mkOfd id 0 accd) →
  ic ≠ id → w_inodes w1 !! ic = Some isrc → file_type isrc = S_IFREG →
  w_inodes w1 !! id = Some idst →
  ∃ wA,
    fcopyfile fuel a b st fl w
    = match copyfile_internal fuel s2 fl wA with
      | None => None
      | Some (ret, w4) =>
          let w5 := if (ret >=? 0) && negb (truthy (Z.land (flags s1) COPYFILE_STAT))
                    then snd (sys_fchmod d (clear_bits (i_mode idst) S_IFMT) w4)
                    else w4 in
          match st with
          | None => Some (ret, None, snd (copyfile_state_free (Some s2) w5))
          | Some _ => Some (ret, Some s2, w5)
          end
      end
    ∧ (Forall (λ e, e = None) (w_rscript w1) →
       copy_inv (mkXfer c d ic id accc accd isrc) 0 0 wA)
    ∧ w_wscript wA = w_wscript w1 ∧ w_mem wA = w_mem w1 ∧ w_iosize wA = w_iosize w1
    ∧ w_fds wA = w_fds w1 ∧ w_euid wA = w_euid w1
    ∧ w_inodes wA !! id
      = Some (if owns w1 idst
              then chmod_bits (Z.lor (clear_bits (i_mode idst) S_IFMT)
                                     (Z.lor S_IRUSR S_IWUSR)) idst
              else idst).
Proof.
  intros Ha0 Hb0 Hpre c d s2 Hc Hd Hne Hic Hreg Hid.
  unfold fcopyfile.
  assert ((a <? 0) || (b <? 0) = false) as -> by (apply orb_false_iff; lia).
  rewrite Hpre. change (0 <? 0) with false. cbv iota.
  assert ((a >? -1) = true) as -> by lia.
  assert ((b >? -1) = true) as -> by lia.
  rewrite !andb_true_r.
  assert ((if src_fd s1 =? -2 then set_src_fd a s1 else s1) = set_src_fd c s1) as ->.
  { unfold c, adopted. destruct (src_fd s1 =? -2); [done|]. by destruct s1. }
  cbn [src_fd set_src_fd].
  unfold sys_fstat at 1, fd_inode. rewrite Hc. simpl mbind. rewrite Hic.
  cbn [src_fd dst_fd set_sb set_src_fd set_dst_fd flags sb src dst debug
       st_mode stat_of_inode].
  assert (Z.land (i_mode isrc) S_IFMT = S_IFREG) as -> by done.
  change (negb (S_IFREG =? S_IFLNK) && negb (S_IFREG =? S_IFDIR)
          && negb (S_IFREG =? S_IFREG)) with false. cbv iota.
  assert ((if (dst_fd s1 =? -2) && true
           then set_dst_fd b (set_sb (stat_of_inode isrc) (set_src_fd c s1))
           else set_sb (stat_of_inode isrc) (set_src_fd c s1)) = s2) as ->.
  { rewrite andb_true_r. unfold s2, d, adopted. by destruct (dst_fd s1 =? -2). }
  replace (dst_fd s2) with d by done.
  unfold sys_fstat, fd_inode.
  change (fd_lookup d (log (EvFstat c) w1)) with (fd_lookup d w1). rewrite Hd.
  simpl mbind. change (w_inodes (log (EvFstat c) w1)) with (w_inodes w1). rewrite Hid.
  cbv iota.
  set (w2 := log (EvFstat d) (log (EvFstat c) w1)).
  set (M := Z.lor (clear_bits (st_mode (stat_of_inode idst)) S_IFMT)
                  (Z.lor S_IRUSR S_IWUSR)).
  assert (fd_lookup d w2 = Some (mkOfd id 0 accd)) as Hd2 by done.
  destruct (sys_fmeta_frame (EvFchmod d M) d (chmod_bits M) w2 _ Hd2)
    as (Hf & Henv & Hother & Hsame).
  exists (snd (sys_fchmod d M w2)).
  split; [reflexivity|]. unfold sys_fchmod.
  destruct Henv as (Hers & Hews & Heio & Hemem & Heuid & _).
  split; [|rewrite Hews, Hemem, Heio, Hf, Heuid; repeat split; try done].
  - unfold copy_inv. simpl. unfold fd_lookup in *. rewrite Hf. simpl.
    rewrite Hother by done. simpl. rewrite Hers. simpl.
    intros Hrs. repeat split; try done; [by apply untouched| |lia].
    destruct Hsame as [i' Hi']; [by eexists|]. simpl in Hi'. by exists i'.
  - unfold sys_fmeta. rewrite Hd2. simpl. change (w_inodes w2) with (w_inodes w1).
    rewrite Hid. change (owns w2 idst) with (owns w1 idst).
    destruct (owns w1 idst); simpl; [|done].
    by rewrite list_lookup_alter_eq, Hid.
Qed.

(** [fcopyfile] without a handle, on two open descriptors, up to the
    coordinator: the handle is allocated, both descriptors are adopted, the
    source is examined and the destination made writable by its owner. *)
Lemma fcopyfile_fresh fuel a b fl w m ia ib acca accb isrc idst :
  fd_lookup a w = Some (mkOfd ia 0 acca) → fd_lookup b w = Some (mkOfd ib 0 accb) →
  ia ≠ ib → w_inodes w !! ia = Some isrc → file_type isrc = S_IFREG →
  w_inodes w !! ib = Some idst → w_mem w = S m →
  ∃ dbg wA,
    fcopyfile fuel a b None fl w
    = match copyfile_internal fuel
              (mkState None None a b (stat_of_inode isrc) fl dbg) fl wA with
      | None => None
      | Some (ret, w4) =>
          Some (ret, None,
                snd (copyfile_state_free
                       (Some (mkState None None a b (stat_of_inode isrc) fl dbg))
                       (if (ret >=? 0) && negb (truthy (Z.land fl COPYFILE_STAT))
                        then snd (sys_fchmod b (clear_bits (i_mode idst) S_IFMT) w4)
                        else w4)))
      end
    ∧ (Forall (λ e, e = None) (w_rscript w) →
       copy_inv (mkXfer a b ia ib acca accb isrc) 0 0 wA)
    ∧ w_wscript wA = w_wscript w ∧ w_mem wA = m ∧ w_iosize wA = w_iosize w
    ∧ w_fds wA = w_fds w ∧ w_euid wA = w_euid w
    ∧ w_inodes wA !! ib
      = Some (if owns w idst
              then chmod_bits (Z.lor (clear_bits (i_mode idst) S_IFMT)
                                     (Z.lor S_IRUSR S_IWUSR)) idst
              else idst).
Proof.
  intros Ha Hb Hne Hia Hreg Hib Hmem.
  assert (0 ≤ a) as Ha0 by (by eapply fd_lookup_nonneg).
  assert (0 ≤ b) as Hb0 by (by eapply fd_lookup_nonneg).
  destruct (copyfile_preamble_none fl w m Hmem) as (dbg & e & Hpre).
  destruct (fcopyfile_start fuel a b None fl w _ _ ia ib acca accb isrc idst
              Ha0 Hb0 Hpre) as (wA & E & Hrest); try done.
  exists dbg, wA. split; [exact E|exact Hrest].
Qed.

(** The descriptor copy in general, after the preamble: the bytes go from
    the file behind [c] to the file behind [d], the descriptors the call
    works on. *)
Lemma fcopyfile_content fuel a b st fl w s1 w1 ic id accc accd isrc :
  0 ≤ a → 0 ≤ b →
  copyfile_preamble st fl w = (0, Some s1, w1) → flags s1 = fl →
  let c := adopted a (src_fd s1) in
  let d := adopted b (dst_fd s1) in
  truthy (Z.land COPYFILE_DATA fl) = true →
  fd_lookup c w1 = Some (mkOfd ic 0 accc) → fd_lookup d w1 = Some (mkOfd id 0 accd) →
  accc ≠ O_WRONLY → accd ≠ O_RDONLY → ic ≠ id →
  w_inodes w1 !! ic = Some isrc → file_type isrc = S_IFREG →
  is_Some (w_inodes w1 !! id) →
  Forall (λ e, e = None) (w_rscript w1) →
  0 < match w_iosize w1 with
      | Some io => to_size_t io
      | None => to_size_t (i_blksize isrc)
      end →
  (∀ r w', fcopyfile fuel a b st fl w = Some (0, r, w') →
     data_of id w' = Some (i_data isrc) ∧ data_of ic w' = Some (i_data isrc))
  ∧ (no_write_error w1 → (1 ≤ w_mem w1)%nat →
     (length (i_data isrc) + length (w_wscript w1) + 2 ≤ fuel)%nat →
     ∃ s2 w', fcopyfile fuel a b st fl w = Some (0, handed_back st s2, w')
           ∧ src_fd s2 = c ∧ dst_fd s2 = d
           ∧ data_of id w' = Some (i_data isrc)).
Proof.
  intros Ha0 Hb0 Hpre Hfl c d Hdata Hc Hd Haccc Haccd Hne Hic Hreg [idst Hid] Hrs Hblk.
  assert (0 ≤ c) as Hc0 by (by eapply fd_lookup_nonneg).
  assert (0 ≤ d) as Hd0 by (by eapply fd_lookup_nonneg).
  set (x := mkXfer c d ic id accc accd isrc).
  assert (xfer_ok x) as Hx.
  { split; [simpl; intros E; rewrite E in Hc; congruence|]. split; [done|].
    split; [done|]. split; [done|]. simpl. unfold is_dir. by rewrite Hreg. }
  destruct (fcopyfile_start fuel a b st fl w s1 w1 ic id accc accd isrc idst
              Ha0 Hb0 Hpre Hc Hd Hne Hic Hreg Hid)
    as (wA & E & Hinv & Hws & HmA & Hio & _).
  change (adopted a (src_fd s1)) with c in E, Hinv.
  change (adopted b (dst_fd s1)) with d in E, Hinv.
  apply Hinv in Hrs.
  set (s2 := mkState (src s1) (dst s1) c d (stat_of_inode isrc) (flags s1) (debug s1))
    in *.
  assert (∀ ret w4, same_content w4
            (if (ret >=? 0) && negb (truthy (Z.land (flags s1) COPYFILE_STAT))
             then snd (sys_fchmod d (clear_bits (i_mode idst) S_IFMT) w4) else w4))
    as Hchmod.
  { intros ret w4. destruct (_ && _); [|apply same_content_refl].
    apply sys_fmeta_content. by intros []. }
  assert (∀ r w', fcopyfile fuel a b st fl w = Some (0, r, w') →
            data_of id w' = Some (i_data isrc) ∧ data_of ic w' = Some (i_data isrc))
    as Hpart1.
  { intros r w' Hrun. rewrite E in Hrun.
    destruct (copyfile_internal fuel s2 fl wA) as [[ret w4]|] eqn:Hint; [|done].
    cbv zeta in Hrun.
    set (w5 := if _ && _ then _ else w4) in Hrun.
    assert (ret = 0 ∧ w' = match st with
                           | None => snd (copyfile_state_free (Some s2) w5)
                           | Some _ => w5
                           end) as [-> ->].
    { destruct st; injection Hrun as -> _ <-; by split. }
    clear Hrun.
    destruct (copyfile_internal_data fuel s2 fl wA 0 w4 Hdata Hd0 Hc0 Hint)
      as (r1 & wd & Hcd & Hres).
    destruct (copyfile_data_spec x s2 fuel wA Hx eq_refl eq_refl) as [Hspec _];
      [done|by rewrite Hio|done|].
    destruct (Hspec r1 wd Hcd) as [->|(-> & Hdd & Hsd & Hnames)].
    { destruct Hres as [[_ ?]|[? _]]; lia. }
    destruct Hres as [[? _]|(_ & _ & Hc1)]; [lia|].
    pose proof (Hchmod 0 w4) as Hc2. fold w5 in Hc2.
    assert (same_content wd match st with
                            | None => snd (copyfile_state_free (Some s2) w5)
                            | Some _ => w5
                            end) as [_ Hdat].
    { destruct st.
      - by eapply same_content_trans.
      - eapply same_content_trans; [by eapply same_content_trans|].
        apply copyfile_state_free_content. }
    by rewrite !Hdat. }
  split; [exact Hpart1|].
  intros Hnw Hmem Hfuel.
  assert (∃ w', fcopyfile fuel a b st fl w = Some (0, handed_back st s2, w'))
    as [w' Hrun].
  { rewrite E.
    destruct (copyfile_data_spec x s2 fuel wA Hx eq_refl eq_refl) as [_ Htot];
      [done|by rewrite Hio|done|].
    destruct Htot as [wd Hwd].
    { unfold no_write_error. by rewrite Hws. }
    { rewrite HmA. lia. }
    { unfold x. simpl. by rewrite Hws. }
    unfold copyfile_internal.
    assert ((dst_fd s2 <? 0) || (src_fd s2 <? 0) = false) as ->.
    { apply orb_false_iff. simpl. split; lia. }
    rewrite Hdata, Hwd. change (0 <? 0) with false. cbv iota zeta beta.
    destruct (truthy (Z.land COPYFILE_STAT fl)); [|destruct st; by eexists].
    pose proof (copyfile_stat_ret s2 wd) as Hr.
    destruct (copyfile_stat s2 wd) as [r' w2]. simpl in Hr. subst r'.
    change (0 <? 0) with false. cbv iota. destruct st; by eexists. }
  exists s2, w'. split; [done|]. split; [done|]. split; [done|].
  by destruct (Hpart1 _ w' Hrun).
Qed.

(** X17: DescriptorCopy.  [fcopyfile] with the DATA bit and no handle, on
    a source descriptor open for reading on a regular file and a destination
    descriptor open for writing on another file, both at offset 0, with a
    transfer block size above 0: as long as source reads do not fail, a call
    that returns 0 leaves the destination file with exactly the bytes of the
    source, whatever it held before, and the bytes of the source unchanged;
    and the call does return 0 when no write fails (short and stalled writes
    are fine), and memory and fuel suffice. *)
Theorem fcopyfile_copies_content fuel a b fl w ia ib acca accb isrc :
  truthy (Z.land COPYFILE_DATA fl) = true →
  fd_lookup a w = Some (mkOfd ia 0 acca) → fd_lookup b w = Some (mkOfd ib 0 accb) →
  acca ≠ O_WRONLY → accb ≠ O_RDONLY → ia ≠ ib →
  w_inodes w !! ia = Some isrc → file_type isrc = S_IFREG →
  is_Some (w_inodes w !! ib) →
  Forall (λ e, e = None) (w_rscript w) →
  0 < match w_iosize w with
      | Some io => to_size_t io
      | None => to_size_t (i_blksize isrc)
      end →
  (∀ r w', fcopyfile fuel a b None fl w = Some (0, r, w') →
     data_of ib w' = Some (i_data isrc) ∧ data_of ia w' = Some (i_data isrc))
  ∧ (no_write_error w → (2 ≤ w_mem w)%nat →
     (length (i_data isrc) + length (w_wscript w) + 2 ≤ fuel)%nat →
     ∃ w', fcopyfile fuel a b None fl w = Some (0, None, w')
           ∧ data_of ib w' = Some (i_data isrc)).
Proof.
  intros Hdata Ha Hb Hacca Haccb Hne Hia Hreg Hib Hrs Hblk.
  assert (0 ≤ a) as Ha0 by (by eapply fd_lookup_nonneg).
  assert (0 ≤ b) as Hb0 by (by eapply fd_lookup_nonneg).
  destruct (w_mem w) as [|m] eqn:Hmem.
  { split; [|intros; lia]. intros r w' Hrun. unfold fcopyfile in Hrun.
    assert ((a <? 0) || (b <? 0) = false) as Hg by (apply orb_false_iff; lia).
    rewrite Hg in Hrun.
    unfold copyfile_preamble, copyfile_state_alloc, sys_alloc in Hrun.
    rewrite Hmem in Hrun. discriminate. }
  destruct (copyfile_preamble_none fl w m Hmem) as (dbg & e & Hpre).
  destruct (fcopyfile_content fuel a b None fl w _ _ ia ib acca accb isrc
              Ha0 Hb0 Hpre eq_refl) as [H1 H2]; try done.
  split; [exact H1|]. intros Hnw Hm Hfuel.
  destruct H2 as (s2 & w' & Hrun & _ & _ & Hd); try done; [simpl; lia|].
  by exists w'.
Qed.

(** ** What teardown reports *)

Lemma copyfile_state_free_inodes s w :
  w_inodes (snd (copyfile_state_free s w)) = w_inodes w.
Proof.
  destruct s as [s|]; [|done]. unfold copyfile_state_free, copyfile_close.
  assert (∀ x wy, w_inodes (snd (sys_close x wy)) = w_inodes wy) as Hc.
  { intros x wy. unfold sys_close. by destruct (fd_lookup x wy). }
  set (wa := if _ && _ then _ else w).
  assert (w_inodes wa = w_inodes w) as Ha
    by (unfold wa; destruct (_ && _); [apply Hc|done]).
  clearbody wa. destruct (_ && _); [|done].
  pose proof (Hc (dst_fd s) wa) as Hb. destruct (sys_close (dst_fd s) wa) as [r2 wb].
  simpl in Hb. destruct (truthy r2); simpl; congruence.
Qed.

(** Teardown only adds to the trace. *)
Lemma copyfile_state_free_trace s w ev :
  In ev (w_trace w) → In ev (w_trace (snd (copyfile_state_free s w))).
Proof.
  intros Hev. destruct s as [s|]; [|done]. unfold copyfile_state_free, copyfile_close.
  assert (∀ x wy, In ev (w_trace wy) → In ev (w_trace (snd (sys_close x wy)))) as Hc.
  { intros x wy Hy. unfold sys_close. destruct (fd_lookup x wy); simpl; auto. }
  set (wa := if _ && _ then _ else w).
  assert (In ev (w_trace wa)) as Ha
    by (unfold wa; destruct (_ && _); [by apply Hc|done]).
  clearbody wa. destruct (_ && _); [|done].
  pose proof (Hc (dst_fd s) wa Ha) as Hb. destruct (sys_close (dst_fd s) wa) as [r2 wb].
  simpl in Hb. destruct (truthy r2); simpl; auto.
Qed.

(** X18: TeardownResult.  [copyfile_state_free] on a handle returns -1
    exactly when the destination path is set, the destination descriptor is
    non-negative and its [close] fails, which happens when that descriptor is
    not open or has just been closed as the source descriptor of the same
    handle; in every other case it returns 0.  A failing [close] of the source
    descriptor is never reported. *)
Theorem copyfile_state_free_result s w :
  (fst (copyfile_state_free (Some s) w) = -1
   ↔ is_Some (dst s) ∧ 0 ≤ dst_fd s
     ∧ (fd_lookup (dst_fd s) w = None ∨ (is_Some (src s) ∧ src_fd s = dst_fd s)))
  ∧ (fst (copyfile_state_free (Some s) w) = 0
     ∨ fst (copyfile_state_free (Some s) w) = -1).
Proof.
  unfold copyfile_state_free, copyfile_close.
  set (w1 := if _ && _ then snd (sys_close (src_fd s) w) else w).
  assert (0 ≤ dst_fd s →
          (fd_lookup (dst_fd s) w1 = None
           ↔ fd_lookup (dst_fd s) w = None ∨ (is_Some (src s) ∧ src_fd s = dst_fd s)))
    as H1.
  { intros Hpos. unfold w1. destruct (bool_decide (is_Some (src s))) eqn:E1; simpl.
    - apply bool_decide_eq_true in E1.
      destruct (Z.geb_spec (src_fd s) 0) as [Hs|Hs].
      + destruct (decide (src_fd s = dst_fd s)) as [E|Hne].
        * rewrite <- E, sys_close_closed. by intuition.
        * rewrite sys_close_other by done. by intuition.
      + split; [by left|]. intros [?|[_ ?]]; [done|lia].
    - apply bool_decide_eq_false in E1. by intuition. }
  clearbody w1.
  destruct (bool_decide (is_Some (dst s))) eqn:E2; simpl.
  - apply bool_decide_eq_true in E2.
    destruct (Z.geb_spec (dst_fd s) 0) as [Hpos|Hneg].
    + specialize (H1 ltac:(lia)). unfold sys_close.
      destruct (fd_lookup (dst_fd s) w1) as [o|] eqn:Ho; simpl.
      * split; [|by left]. split; [done|]. intros (_ & _ & H). by apply H1 in H.
      * split; [|by right]. split; [|done]. intros _. split; [done|].
        split; [lia|]. by apply H1.
    + simpl. split; [|by left]. split; [done|]. intros (_ & ? & _). lia.
  - apply bool_decide_eq_false in E2. simpl. split; [|by left].
    split; [done|]. by intros (? & _).
Qed.

(** ** Directory sources *)

(** X19: DirectoryCreated.  On a fresh handle, with flags that request
    neither DATA nor STAT, a source that is a readable directory and a
    destination path that names nothing: [copyfile] creates the destination
    as a directory whose permission bits are those of the source less the
    umask, opens it read-only, and returns 0 with both descriptors closed
    again, provided the caller may read the directory just made.  No attempt
    of the open loop is spent. *)
Theorem copyfile_directory_source fuel p d fl w ino isrc :
  truthy (Z.land COPYFILE_DATA fl) = false →
  truthy (Z.land COPYFILE_STAT fl) = false →
  w_names w !! p = Some ino → w_inodes w !! ino = Some isrc →
  file_type isrc = S_IFDIR → may_read w isrc = true →
  w_names w !! d = None →
  may_read w (new_inode w (Z.lor S_IFDIR
                (clear_bits (Z.land (i_mode isrc) ALLPERMS) (w_umask w)))) = true →
  (3 ≤ w_mem w)%nat →
  ∃ w', copyfile fuel (Some p) (Some d) None fl w = Some (0, None, w')
    ∧ w_names w' = <[d := length (w_inodes w)]> (w_names w)
    ∧ w_inodes w'
      = w_inodes w ++ [new_inode w (Z.lor S_IFDIR
                         (clear_bits (Z.land (i_mode isrc) ALLPERMS) (w_umask w)))]
    ∧ ∀ fd, fd_lookup fd w' = fd_lookup fd w.
Proof.
  intros Hdata Hstat Hnp Hino Hdir Hread Hd Hnew Hmem.
  assert (∃ w', copyfile fuel (Some p) (Some d) None fl w = Some (0, None, w')
    ∧ w_names w' = <[d := length (w_inodes w)]> (w_names w)
    ∧ w_inodes w'
      = w_inodes w ++ [new_inode w (Z.lor S_IFDIR
                         (clear_bits (Z.land (i_mode isrc) ALLPERMS) (w_umask w)))])
    as (w' & Hrun & Hn & Hi).
  2: { exists w'. repeat split; try done.
       by destruct (copyfile_fds_balance fuel (Some p) (Some d) None fl w _ _ _ I Hrun). }
  destruct (w_mem w) as [|[|[|m]]] eqn:Em; try lia.
  destruct (copyfile_fresh fuel p d fl w m Em) as (dbg & e & ->).
  set (s0 := mkState _ _ _ _ _ _ _). set (w0 := set_errno e _).
  destruct (copyfile_open_src_frame fuel s0 w0 p ino isrc)
    as (fd & w1 & Hfd & Hfree & Hopen & Hold & Hnames & Hinodes & _ & Henv & Hclk & ->);
    try done; [by right|].
  destruct Henv as (_ & _ & _ & _ & Heu & Hum).
  assert (is_dir isrc = true) as -> by (unfold is_dir; by rewrite Hdir).
  unfold copyfile_open_dst. cbn -[sys_remove sys_mkdir sys_open Z.lor].
  assert (∃ w2,
    (if truthy (Z.land COPYFILE_UNLINK fl)
     then let '(r, w) := sys_remove d w1 in
          if (r <? 0) && negb (w_errno w =? ENOENT)
          then (true, copyfile_warn "remove" w) else (false, w)
     else (false, w1)) = (false, w2)
    ∧ w_names w2 = w_names w ∧ w_inodes w2 = w_inodes w ∧ w_fds w2 = w_fds w1
    ∧ w_euid w2 = w_euid w ∧ w_umask w2 = w_umask w ∧ w_now w2 = w_now w)
    as (w2 & -> & Hn2 & Hi2 & Hf2 & He2 & Hu2 & Ht2).
  { destruct Hclk as [_ Hnow].
    destruct (truthy (Z.land COPYFILE_UNLINK fl)); [|by eexists].
    unfold sys_remove. rewrite Hnames. simpl. rewrite Hd. simpl. by eexists. }
  unfold sys_mkdir. rewrite Hn2, Hd. cbn -[sys_open Z.lor].
  assert (Z.land (clear_bits (i_mode isrc) S_IFMT) ALLPERMS
          = Z.land (i_mode isrc) ALLPERMS) as ->.
  { unfold clear_bits. rewrite <- Z.land_assoc.
    by assert (Z.land (Z.lnot S_IFMT) ALLPERMS = ALLPERMS) as -> by done. }
  rewrite Hi2, Hu2. unfold new_inode at 1. cbn [w_now w_euid log tick set_now].
  rewrite He2, Ht2.
  fold (new_inode w (Z.lor S_IFDIR
          (clear_bits (Z.land (i_mode isrc) ALLPERMS) (w_umask w)))).
  set (inew := new_inode w _) in *.
  set (dsrc := if truthy (Z.land fl COPYFILE_NOFOLLOW_DST) then O_NOFOLLOW else 0).
  assert (dsrc = 0 ∨ dsrc = O_NOFOLLOW) as Hdsrc.
  { unfold dsrc. destruct (truthy (Z.land fl COPYFILE_NOFOLLOW_DST)); auto. }
  unfold sys_open. cbn -[Z.lor install_fd].
  rewrite lookup_insert_eq. cbn -[Z.lor install_fd].
  assert (truthy (Z.land (Z.lor O_RDONLY dsrc) O_CREAT)
          && truthy (Z.land (Z.lor O_RDONLY dsrc) O_EXCL) = false) as ->
    by (by destruct Hdsrc as [-> | ->]).
  rewrite lookup_app_r by done. rewrite Nat.sub_diag. cbn -[Z.lor install_fd].
  assert ((Z.land (Z.lor O_RDONLY dsrc) O_ACCMODE =? O_RDONLY) = true) as Hacc
    by (by destruct Hdsrc as [-> | ->]).
  rewrite Hacc, andb_false_r. unfold access_ok. rewrite Hacc.
  assert (∀ wx, w_euid wx = w_euid w → may_read wx inew = true) as Hr.
  { intros wx Hx. unfold may_read in *. by rewrite Hx. }
  rewrite Hr by done. cbn -[Z.lor install_fd].
  match goal with |- context [install_fd d ?fl ?n ?wx] =>
    pose proof (install_fd_spec d fl n wx)
      as (Hfd2 & _ & _ & _ & Hn3 & Hi3 & _ & _);
    destruct (install_fd d fl n wx) as [fd2 w3]
  end.
  simpl in Hfd2, Hn3, Hi3.
  assert ((fd2 =? -1) = false) as -> by lia. cbv iota.
  cbn [dst_fd src_fd set_dst_fd set_src_fd set_sb].
  rewrite (proj2 (Z.ltb_ge _ _) Hfd2), (proj2 (Z.ltb_ge _ _) Hfd). cbn [orb].
  cbv iota. change (0 <? 0) with false. cbv iota.
  unfold copyfile_internal.
  cbn [dst_fd src_fd set_dst_fd set_src_fd set_sb].
  rewrite (proj2 (Z.ltb_ge _ _) Hfd2), (proj2 (Z.ltb_ge _ _) Hfd). cbn [orb].
  rewrite Hdata, Hstat. cbv iota zeta beta.
  eexists. split; [reflexivity|].
  pose proof (copyfile_state_free_content
                (Some (set_dst_fd fd2 (set_src_fd fd (set_sb (stat_of_inode isrc) s0))))
                w3) as [Hcn _].
  split; [transitivity (w_names w3); [exact Hcn|by rewrite Hn3]|].
  transitivity (w_inodes w3); [exact (copyfile_state_free_inodes (Some _) _)|by rewrite Hi3].
Qed.

(** ** The data step touches nothing but bytes and time stamps *)

Lemma with_data_id i : with_data (i_data i) i = i.
Proof. by destruct i. Qed.

Lemma with_times_id i : with_times (i_atime i) (i_mtime i) (with_data (i_data i) i) = i.
Proof. by destruct i. Qed.

Lemma attrs_kept_refl w : attrs_kept w w.
Proof.
  repeat split; try done. intros ino i Hi.
  exists (i_data i), (i_atime i), (i_mtime i). by rewrite with_times_id.
Qed.

Lemma attrs_kept_trans w1 w2 w3 :
  attrs_kept w1 w2 → attrs_kept w2 w3 → attrs_kept w1 w3.
Proof.
  intros (E1 & N1 & L1 & H1) (E2 & N2 & L2 & H2).
  split; [congruence|]. split; [congruence|]. split; [congruence|].
  intros ino i Hi. destruct (H1 ino i Hi) as (b1 & a1 & m1 & Hb1).
  destruct (H2 ino _ Hb1) as (b2 & a2 & m2 & Hb2). exists b2, a2, m2. by rewrite Hb2.
Qed.

Lemma attrs_kept_same w w' :
  w_euid w' = w_euid w → w_names w' = w_names w → w_inodes w' = w_inodes w →
  attrs_kept w w'.
Proof.
  intros E N I. repeat split; try done; [by rewrite I|].
  intros ino i Hi. exists (i_data i), (i_atime i), (i_mtime i).
  by rewrite I, with_times_id.
Qed.

(** One inode goes through [f], which changes bytes and time stamps only. *)
Lemma attrs_kept_alter w w' ino f :
  (∀ i, ∃ bytes a m, f i = with_times a m (with_data bytes i)) →
  w_euid w' = w_euid w → w_names w' = w_names w →
  w_inodes w' = alter f ino (w_inodes w) →
  attrs_kept w w'.
Proof.
  intros Hf E N I. repeat split; try done; [by rewrite I, length_alter|].
  intros k i Hi. rewrite I. destruct (decide (ino = k)) as [->|Hne].
  - rewrite list_lookup_alter_eq, Hi. simpl.
    destruct (Hf i) as (bs & a & m & ->). by exists bs, a, m.
  - rewrite list_lookup_alter_ne, Hi by done.
    exists (i_data i), (i_atime i), (i_mtime i). by rewrite with_times_id.
Qed.

Lemma attrs_kept_touch f g ino w w0 :
  (∀ t i, ∃ bytes a m, f t (g i) = with_times a m (with_data bytes i)) →
  w_euid w0 = w_euid w → w_names w0 = w_names w →
  w_inodes w0 = alter g ino (w_inodes w) →
  attrs_kept w (touch f ino w0).
Proof.
  intros Hf E N I. repeat split; try done; simpl; [by rewrite I, !length_alter|].
  intros k i Hi. rewrite I. destruct (decide (ino = k)) as [->|Hne].
  - rewrite !list_lookup_alter_eq, Hi. simpl.
    destruct (Hf (w_now w0) i) as (bs & a & m & ->). by exists bs, a, m.
  - rewrite !list_lookup_alter_ne, Hi by done.
    exists (i_data i), (i_atime i), (i_mtime i). by rewrite with_times_id.
Qed.

Lemma stamp_atime t i :
  ∃ bytes a m, with_atime t i = with_times a m (with_data bytes i).
Proof. by exists (i_data i), t, (i_mtime i). Qed.

Lemma stamp_data bytes i :
  ∃ bytes' a m, with_data bytes i = with_times a m (with_data bytes' i).
Proof. by exists bytes, (i_atime i), (i_mtime i). Qed.

Lemma stamp_mtime t bytes i :
  ∃ bytes' a m, with_mtime t (with_data bytes i) = with_times a m (with_data bytes' i).
Proof. by exists bytes, (i_atime i), t. Qed.

Lemma sys_read_attrs fd n w : attrs_kept w (snd (sys_read fd n w)).
Proof.
  unfold sys_read. destruct (fd_lookup fd w) as [o|]; [|by apply attrs_kept_same].
  destruct (w_inodes w !! ofd_ino o) as [i|]; [|by apply attrs_kept_same].
  destruct (ofd_acc o =? O_WRONLY); [by apply attrs_kept_same|].
  destruct (is_dir i); [by apply attrs_kept_same|].
  destruct (w_rscript w) as [|[e|] rs]; try (by apply attrs_kept_same);
    (destruct (0 <? n); [|by apply attrs_kept_same]);
    (eapply (attrs_kept_alter _ _ (ofd_ino o)); [apply stamp_atime|done..]).
Qed.

Lemma sys_write_attrs fd bs w : attrs_kept w (snd (sys_write fd bs w)).
Proof.
  unfold sys_write. destruct (fd_lookup fd w) as [o|]; [|by apply attrs_kept_same].
  destruct (w_inodes w !! ofd_ino o) as [i|]; [|by apply attrs_kept_same].
  destruct (ofd_acc o =? O_RDONLY); [by apply attrs_kept_same|].
  destruct (w_wscript w) as [|[e|k] ws]; try (by apply attrs_kept_same);
    (destruct (0 <? _);
     [ match goal with |- context [touch with_mtime ?n (update_inode _ ?g ?w0)] =>
         apply (attrs_kept_touch with_mtime g n w
                  (fd_update fd _ (update_inode n g w0)))
       end; [intros; apply stamp_mtime|done..]
     | eapply (attrs_kept_alter _ _ (ofd_ino o)); [apply stamp_data|done..] ]).
Qed.

Lemma sys_ftruncate_attrs fd n w : attrs_kept w (snd (sys_ftruncate fd n w)).
Proof.
  unfold sys_ftruncate. destruct (fd_lookup fd w) as [o|]; [|by apply attrs_kept_same].
  destruct (w_inodes w !! ofd_ino o) as [i|]; [|by apply attrs_kept_same].
  destruct (_ || _); [by apply attrs_kept_same|].
  apply attrs_kept_touch with (g := with_data (resize_bytes (i_data i) (Z.to_nat n)));
    [intros; apply stamp_mtime|done..].
Qed.

Lemma write_block_attrs fuel : ∀ fd bp ptr left w r w',
  write_block fuel fd bp ptr left w = Some (r, w') → attrs_kept w w'.
Proof.
  induction fuel as [|f IH]; intros fd bp ptr left w r w'.
  - simpl. destruct (left >? 0); [done|]. intros [= <- <-]. apply attrs_kept_refl.
  - cbn [write_block]. destruct (left >? 0);
      [|intros [= <- <-]; apply attrs_kept_refl].
    pose proof (sys_write_attrs fd (take (Z.to_nat left) (drop ptr bp)) w) as Hw.
    destruct (sys_write fd _ w) as [r0 w1]. simpl in Hw.
    destruct (to_size_t r0 =? 0).
    { change (0 + 1 >? 5) with false. cbv iota. intros H. apply IH in H.
      by eapply attrs_kept_trans. }
    destruct (to_size_t r0 =? to_size_t (-1)).
    { intros [= <- <-]. eapply attrs_kept_trans; [exact Hw|]. by apply attrs_kept_same. }
    intros H. apply IH in H. by eapply attrs_kept_trans.
Qed.

Lemma read_loop_attrs fuel : ∀ s blen w r n w',
  read_loop fuel s blen w = Some (r, n, w') → attrs_kept w w'.
Proof.
  induction fuel as [|f IH]; intros s blen w r n w'; [done|].
  cbn [read_loop].
  pose proof (sys_read_attrs (src_fd s) blen w) as Hr.
  destruct (sys_read (src_fd s) blen w) as [[nread bp] w1]. simpl in Hr.
  destruct (nread >? 0); [|by intros [= <- <- <-]].
  destruct (write_block f (dst_fd s) bp 0 (to_size_t nread) w1) as [[r1 w2]|] eqn:Hwb;
    [|done].
  apply write_block_attrs in Hwb.
  assert (attrs_kept w w2) as H2 by (by eapply attrs_kept_trans).
  destruct (r1 <? 0); [by intros [= <- <- <-]|].
  intros H. apply IH in H. by eapply attrs_kept_trans.
Qed.

Lemma copyfile_data_attrs fuel s w r w' :
  copyfile_data fuel s w = Some (r, w') → attrs_kept w w'.
Proof.
  unfold copyfile_data, sys_alloc.
  set (blen := match sys_fstatfs (src_fd s) w with
               | Some io => to_size_t io
               | None => to_size_t (st_blksize (sb s))
               end).
  clearbody blen.
  destruct (w_mem w) as [|m]; simpl.
  { intros [= <- <-]. by apply attrs_kept_same. }
  destruct (read_loop fuel s blen (set_mem m w)) as [[[r1 n1] w1]|] eqn:Hloop; [|done].
  apply read_loop_attrs in Hloop.
  assert (attrs_kept w w1) as H1.
  { eapply attrs_kept_trans; [|exact Hloop]. by apply attrs_kept_same. }
  destruct (r1 <? 0); [by intros [= <- <-]|].
  destruct (n1 <? 0).
  { intros [= <- <-]. eapply attrs_kept_trans; [exact H1|]. by apply attrs_kept_same. }
  pose proof (sys_ftruncate_attrs (dst_fd s) (st_size (sb s)) w1) as Ht.
  destruct (sys_ftruncate _ _ w1) as [r2 w2]. simpl in Ht.
  assert (attrs_kept w w2) as H2 by (by eapply attrs_kept_trans).
  by destruct (r2 <? 0); intros [= <- <-].
Qed.

(** X20: DataTouchesOnlyBytes.  However [copyfile_data] ends, it has
    changed no path, added or removed no file, and changed no file's type,
    permission bits, owner, group or flags: every file is what it was up to
    its bytes and its access and modification times; and no descriptor has
    been opened or closed, only the offsets of the two descriptors of the
    handle may have moved. *)
Theorem copyfile_data_keeps_attributes fuel s w r w' :
  copyfile_data fuel s w = Some (r, w') →
  attrs_kept w w' ∧ fds_moved (src_fd s) (dst_fd s) w w'.
Proof.
  intros Hrun. split; [by eapply copyfile_data_attrs|by eapply copyfile_data_fds].
Qed.

(** Without STAT and without a destination path to unlink, the
    coordinator changes bytes at most. *)
Lemma copyfile_internal_attrs fuel s fl w r w' :
  truthy (Z.land COPYFILE_STAT fl) = false → dst s = None →
  copyfile_internal fuel s fl w = Some (r, w') → attrs_kept w w'.
Proof.
  intros Hstat Hdst. unfold copyfile_internal. rewrite Hstat, Hdst.
  destruct (_ || _); [intros [= <- <-]; by apply attrs_kept_same|].
  cbv zeta beta iota.
  destruct (truthy (Z.land COPYFILE_DATA fl));
    [|intros [= <- <-]; apply attrs_kept_refl].
  destruct (copyfile_data fuel s w) as [[r1 w1]|] eqn:Hdata; [|done].
  apply copyfile_data_attrs in Hdata.
  destruct (r1 <? 0); intros [= <- <-]; [|done].
  eapply attrs_kept_trans; [exact Hdata|]. by apply attrs_kept_same.
Qed.

Lemma file_type_chmod_bits m i : file_type (chmod_bits m i) = file_type i.
Proof.
  unfold file_type, chmod_bits. simpl.
  rewrite Z.land_lor_distr_l, <- !Z.land_assoc, Z.land_diag.
  assert (Z.land ALLPERMS S_IFMT = 0) as -> by done.
  by rewrite Z.land_0_r, Z.lor_0_r.
Qed.

Lemma chmod_bits_again bytes a t m1 m2 i :
  i_mode (chmod_bits m2 (with_times a t (with_data bytes (chmod_bits m1 i))))
  = Z.lor (file_type i) (Z.land m2 ALLPERMS).
Proof.
  transitivity (Z.lor (file_type (chmod_bits m1 i)) (Z.land m2 ALLPERMS)); [done|].
  by rewrite file_type_chmod_bits.
Qed.

Lemma perms_clear_type m c :
  Z.land (Z.lor (clear_bits m S_IFMT) c) ALLPERMS = Z.land (Z.lor m c) ALLPERMS.
Proof.
  rewrite !Z.land_lor_distr_l. f_equal. unfold clear_bits.
  rewrite <- Z.land_assoc.
  by assert (Z.land (Z.lnot S_IFMT) ALLPERMS = ALLPERMS) as -> by done.
Qed.

(** X21: PermissionBitsAroundDescriptorCopy.  [fcopyfile] without a
    handle and without the STAT bit, on a regular source and a destination
    file the caller owns: before the coordinator runs the destination gets
    owner read and write permission added; a call that returns 0 puts the
    permission bits back as they were, and a call that fails past that point
    leaves the two added bits behind.  The file type is kept either way. *)
Theorem fcopyfile_permission_bits fuel a b fl w ia ib acca accb isrc idst r st w' :
  truthy (Z.land COPYFILE_STAT fl) = false →
  fd_lookup a w = Some (mkOfd ia 0 acca) → fd_lookup b w = Some (mkOfd ib 0 accb) →
  ia ≠ ib → w_inodes w !! ia = Some isrc → file_type isrc = S_IFREG →
  w_inodes w !! ib = Some idst → owns w idst = true → (1 ≤ w_mem w)%nat →
  fcopyfile fuel a b None fl w = Some (r, st, w') →
  ∃ i', w_inodes w' !! ib = Some i'
    ∧ i_mode i'
      = Z.lor (file_type idst)
          (Z.land (if r <? 0 then Z.lor (i_mode idst) (Z.lor S_IRUSR S_IWUSR)
                   else i_mode idst) ALLPERMS).
Proof.
  intros Hstat Ha Hb Hne Hia Hreg Hib Hown Hmem Hrun.
  assert (truthy (Z.land fl COPYFILE_STAT) = false) as Hstat'
    by (by rewrite Z.land_comm).
  destruct (w_mem w) as [|m] eqn:Em; [lia|].
  destruct (fcopyfile_fresh fuel a b fl w m ia ib acca accb isrc idst)
    as (dbg & wA & E & _ & _ & _ & _ & HfA & HeA & HiA); try done.
  rewrite E in Hrun. clear E. rewrite Hown in HiA. rewrite Hstat' in Hrun.
  set (s := mkState _ _ _ _ _ _ _) in *.
  set (M := Z.lor (clear_bits (i_mode idst) S_IFMT) (Z.lor S_IRUSR S_IWUSR)) in *.
  destruct (copyfile_internal fuel s fl wA) as [[ret w4]|] eqn:Hint; [|done].
  pose proof (copyfile_internal_fds _ _ _ _ _ _ Hint) as Hfds.
  apply copyfile_internal_attrs in Hint; [|done..].
  destruct Hint as (He4 & _ & _ & Hk4).
  destruct (Hk4 ib _ HiA) as (bytes & ta & tm & Hi4).
  set (w5 := if _ && _ then _ else w4) in Hrun.
  assert (r = ret ∧ w' = snd (copyfile_state_free (Some s) w5)) as [-> ->]
    by (split; congruence).
  rewrite copyfile_state_free_inodes. unfold w5. clear Hrun w5.
  destruct (Z.ltb_spec ret 0) as [Hneg|Hpos].
  - assert ((ret >=? 0) = false) as -> by lia. cbn [andb]. cbv iota.
    eexists. split; [exact Hi4|]. simpl. unfold M. by rewrite perms_clear_type.
  - assert ((ret >=? 0) = true) as -> by lia. cbn [andb negb]. cbv iota.
    destruct (Hfds b) as [[Hino _] _]. simpl in Hino.
    assert (fd_lookup b wA = Some (mkOfd ib 0 accb)) as HbA
      by (unfold fd_lookup in *; by rewrite HfA).
    rewrite HbA in Hino. simpl in Hino.
    destruct (fd_lookup b w4) as [o4|] eqn:Hb4; [|done]. simpl in Hino.
    injection Hino as Hino.
    unfold sys_fchmod, sys_fmeta. rewrite Hb4, Hino, Hi4.
    assert (owns w4 (with_times ta tm (with_data bytes (chmod_bits M idst))) = true)
      as ->.
    { unfold owns in *. simpl. by rewrite He4, HeA. }
    simpl. rewrite list_lookup_alter_eq, Hi4.
    exists (chmod_bits (clear_bits (i_mode idst) S_IFMT)
              (with_times ta tm (with_data bytes (chmod_bits M idst)))).
    split; [done|]. rewrite chmod_bits_again.
    f_equal. unfold clear_bits. rewrite <- Z.land_assoc.
    by assert (Z.land (Z.lnot S_IFMT) ALLPERMS = ALLPERMS) as -> by done.
Qed.

(** ** Edges of the data step *)

(** X22: ZeroBlockSize.  When the block size [copyfile_data] takes from
    [fstatfs] (or, failing that, from the source's [st_blksize]) is 0 and
    the allocation of the empty buffer succeeds, the first [read] asks for no
    bytes and returns 0, which the loop takes for end of file:
    [copyfile_data] returns 0 without a single [write], and the destination
    is merely resized to the size recorded for the source, its bytes being
    what it held before (cut, or padded with zeros), not those of the
    source. *)
Theorem copyfile_data_zero_block fuel s w os od isrc idst :
  fd_lookup (src_fd s) w = Some os → w_inodes w !! ofd_ino os = Some isrc →
  ofd_acc os ≠ O_WRONLY → is_dir isrc = false →
  fd_lookup (dst_fd s) w = Some od → w_inodes w !! ofd_ino od = Some idst →
  ofd_acc od ≠ O_RDONLY → src_fd s ≠ dst_fd s → 0 ≤ st_size (sb s) →
  (∀ e rs, w_rscript w ≠ Some e :: rs) →
  match w_iosize w with
  | Some io => to_size_t io
  | None => to_size_t (st_blksize (sb s))
  end = 0 →
  (1 ≤ w_mem w)%nat → (1 ≤ fuel)%nat →
  ∃ w', copyfile_data fuel s w = Some (0, w')
    ∧ data_of (ofd_ino od) w'
      = Some (resize_bytes (i_data idst) (Z.to_nat (st_size (sb s))))
    ∧ w_trace w'
      = EvFtruncate (dst_fd s) (st_size (sb s)) :: EvRead (src_fd s) 0 :: w_trace w.
Proof.
  intros Hs Hsi Hsa Hdir Hd Hdi Hda Hne Hsize Hrs Hblk Hmem Hfuel.
  pose proof (fd_lookup_nonneg _ _ _ Hs) as Hs0.
  pose proof (fd_lookup_nonneg _ _ _ Hd) as Hd0.
  unfold copyfile_data.
  assert (sys_fstatfs (src_fd s) w = w_iosize w) as ->.
  { unfold sys_fstatfs, fd_inode. rewrite Hs. simpl. by rewrite Hsi. }
  rewrite Hblk.
  unfold sys_alloc. destruct (w_mem w) as [|m]; [lia|]. cbn [negb]. cbv iota.
  destruct fuel as [|f]; [lia|]. cbn [read_loop]. unfold sys_read.
  change (fd_lookup (src_fd s) (set_mem m w)) with (fd_lookup (src_fd s) w).
  rewrite Hs. change (w_inodes (set_mem m w)) with (w_inodes w). rewrite Hsi.
  rewrite (proj2 (Z.eqb_neq _ _) Hsa), Hdir.
  change (w_rscript (set_mem m w)) with (w_rscript w).
  assert ((0 `min` SSIZE_MAX) `min` Z.of_nat (length (drop (ofd_off os) (i_data isrc)))
          = 0) as Hmin by (unfold SSIZE_MAX; lia).
  destruct (w_rscript w) as [|[e|] rs] eqn:Ers; [|by destruct (Hrs e rs)|];
    rewrite Hmin; simpl take; simpl length; change (Z.of_nat 0) with 0;
    change (0 >? 0) with false; cbv iota; change (0 <? 0) with false; cbv iota;
    unfold sys_ftruncate;
    (rewrite fd_lookup_update_ne by done);
    match goal with |- context [fd_lookup (dst_fd s) ?wx] =>
      change (fd_lookup (dst_fd s) wx) with (fd_lookup (dst_fd s) w)
    end;
    rewrite Hd; simpl; rewrite Hdi;
    rewrite (proj2 (Z.eqb_neq _ _) Hda), (proj2 (Z.ltb_ge _ _) Hsize); simpl;
    (eexists; split; [reflexivity|]; split; [|done]);
    unfold data_of; simpl; by rewrite !list_lookup_alter_eq, Hdi.
Qed.

Lemma sys_read_names fd n w : w_names (snd (sys_read fd n w)) = w_names w.
Proof.
  unfold sys_read. destruct (fd_lookup fd w) as [o|]; [|done].
  destruct (w_inodes w !! ofd_ino o) as [i|]; [|done].
  destruct (ofd_acc o =? O_WRONLY); [done|]. destruct (is_dir i); [done|].
  destruct (w_rscript w) as [|[e|] rs]; try done; by destruct (0 <? n).
Qed.

(** A [read] of at least one byte that does not fail changes one thing in
    the inode table: the access time of the file read. *)
Lemma sys_read_inodes fd n w o i :
  fd_lookup fd w = Some o → w_inodes w !! ofd_ino o = Some i →
  ofd_acc o ≠ O_WRONLY → is_dir i = false →
  Forall (λ e, e = None) (w_rscript w) → 0 < n →
  w_inodes (snd (sys_read fd n w))
  = alter (with_atime (w_now w)) (ofd_ino o) (w_inodes w).
Proof.
  intros Ho Hi Hacc Hdir Hrs Hn. unfold sys_read. rewrite Ho, Hi.
  rewrite (proj2 (Z.eqb_neq _ _) Hacc), Hdir, (proj2 (Z.ltb_lt _ _) Hn).
  destruct (w_rscript w) as [|[e|] rs]; [done| |done].
  by apply Forall_cons in Hrs as [? _].
Qed.

(** X23: WriteError.  With both descriptors at offset 0, a source that is
    not empty and a block size above 0: when the first [write] fails with
    errno [e], [copyfile_data] stops at once and returns -1; [errno] is still
    [e] on return, no path has changed, and the one change in the inode table
    is the access time of the source, which the [read] before the failing
    [write] has set: no byte, and nothing else of any file, has changed. *)
Theorem copyfile_data_write_error fuel s w ia ib acca accb isrc e ws :
  fd_lookup (src_fd s) w = Some (mkOfd ia 0 acca) →
  fd_lookup (dst_fd s) w = Some (mkOfd ib 0 accb) →
  acca ≠ O_WRONLY → accb ≠ O_RDONLY → ia ≠ ib →
  w_inodes w !! ia = Some isrc → is_dir isrc = false → i_data isrc ≠ [] →
  is_Some (w_inodes w !! ib) →
  Forall (λ e, e = None) (w_rscript w) →
  0 < match w_iosize w with
      | Some io => to_size_t io
      | None => to_size_t (st_blksize (sb s))
      end →
  w_wscript w = WErr e :: ws →
  (1 ≤ w_mem w)%nat → (2 ≤ fuel)%nat →
  ∃ w', copyfile_data fuel s w = Some (-1, w')
    ∧ w_errno w' = e
    ∧ w_inodes w' = alter (with_atime (w_now w)) ia (w_inodes w)
    ∧ w_names w' = w_names w
    ∧ w_wscript w' = ws.
Proof.
  intros Hs Hd Hsa Hda Hne Hsi Hdir Hdata [idst Hdi] Hrs Hblk Hws Hmem Hfuel.
  set (x := mkXfer (src_fd s) (dst_fd s) ia ib acca accb isrc).
  assert (xfer_ok x) as Hx.
  { split; [simpl; intros E; rewrite E in Hs; congruence|]. by repeat split. }
  unfold copyfile_data.
  assert (sys_fstatfs (src_fd s) w = w_iosize w) as ->.
  { unfold sys_fstatfs, fd_inode. rewrite Hs. simpl. by rewrite Hsi. }
  set (blen := match w_iosize w with
               | Some io => to_size_t io
               | None => to_size_t (st_blksize (sb s))
               end) in *.
  unfold sys_alloc. destruct (w_mem w) as [|m]; [lia|]. cbn [negb]. cbv iota.
  destruct fuel as [|[|f]]; try lia.
  assert (copy_inv x 0 0 (set_mem m w)) as Hinv.
  { split; [done|]. split; [done|]. split; [by apply untouched|].
    split; [by eauto|]. split; [simpl; lia|done]. }
  destruct (sys_read_step x 0 (set_mem m w) blen Hx Hinv Hblk)
    as (w1 & Hread & Hinv1 & Hws1 & Hn1 & _ & Hzero & Hmax).
  set (n := Z.to_nat _) in *.
  assert (0 < n)%nat as Hnpos.
  { destruct n; [|lia]. specialize (Hzero eq_refl). simpl in Hzero.
    by destruct (i_data isrc). }
  cbn [read_loop]. change (src_fd s) with (x_src_fd x) at 1. rewrite Hread.
  assert ((Z.of_nat n >? 0) = true) as -> by lia. cbv iota.
  rewrite to_size_t_small by lia.
  cbn [write_block]. assert ((Z.of_nat n >? 0) = true) as -> by lia. cbv iota.
  destruct Hinv1 as (_ & Hd1 & _ & (i1 & Hdi1 & _) & _).
  unfold sys_write. simpl in Hd1, Hdi1. rewrite Hd1. simpl. rewrite Hdi1.
  rewrite (proj2 (Z.eqb_neq _ _) Hda). rewrite Hws1. simpl. rewrite Hws.
  change (to_size_t (-1) =? 0) with false. cbv iota.
  rewrite Z.eqb_refl. change (-1 <? 0) with true. cbv iota.
  eexists. split; [reflexivity|]. simpl.
  pose proof (sys_read_inodes (x_src_fd x) blen (set_mem m w) _ _ Hs Hsi Hsa Hdir Hrs Hblk)
    as Hri.
  pose proof (sys_read_names (x_src_fd x) blen (set_mem m w)) as Hrn.
  rewrite Hread in Hri, Hrn. simpl in Hri, Hrn. by rewrite Hri, Hrn.
Qed.

(** ** An open loop that does not end *)

Lemma no_owner_read_after_chmod m i :
  truthy (Z.land m S_IRUSR) = false →
  truthy (Z.land (i_mode (chmod_bits (clear_bits (Z.lor m S_IWUSR) S_IFMT) i)) S_IRUSR)
  = false.
Proof.
  unfold truthy. intros H. apply negb_false_iff, Z.eqb_eq in H.
  apply negb_false_iff, Z.eqb_eq. unfold chmod_bits, clear_bits. simpl.
  rewrite Z.land_lor_distr_l, <- !Z.land_assoc.
  assert (Z.land S_IFMT S_IRUSR = 0) as -> by done.
  assert (Z.land (Z.lnot S_IFMT) (Z.land ALLPERMS S_IRUSR) = S_IRUSR) as -> by done.
  rewrite Z.land_0_r, Z.lor_0_l, Z.land_lor_distr_l, H. done.
Qed.

Lemma open_dst_loop_livelock d id dsrc fuel : ∀ oflags s w i,
  dsrc = 0 ∨ dsrc = O_NOFOLLOW →
  oflags = Z.lor (Z.lor O_EXCL O_CREAT) O_WRONLY
  ∨ oflags = clear_bits (Z.lor (Z.lor O_EXCL O_CREAT) O_WRONLY) O_CREAT
  ∨ oflags = Z.lor (clear_bits (clear_bits (Z.lor (Z.lor O_EXCL O_CREAT) O_WRONLY)
                                           O_CREAT) O_WRONLY) O_RDONLY →
  truthy (Z.land (flags s) COPYFILE_EXCL) = false →
  truthy (Z.land (flags s) COPYFILE_DATA) = false →
  truthy (Z.land (st_mode (sb s)) S_IRUSR) = false →
  w_names w !! d = Some id → w_inodes w !! id = Some i → is_dir i = true →
  (w_euid w =? 0) = false → (w_euid w =? i_uid i) = true →
  truthy (Z.land (i_mode i) S_IRUSR) = false →
  open_dst_loop fuel false dsrc oflags d s w = None.
Proof.
  induction fuel as [|f IH]; [done|].
  intros oflags s w i Hdsrc Hofl Hexcl Hdata Hsb Hd Hi Hdir Hroot Hown Hnr.
  destruct Hofl as [-> | [-> | ->]].
  - (* the first attempt: the path exists *)
    assert (open_dst_loop (S f) false dsrc (Z.lor (Z.lor O_EXCL O_CREAT) O_WRONLY) d s w
            = open_dst_loop f false dsrc
                (clear_bits (Z.lor (Z.lor O_EXCL O_CREAT) O_WRONLY) O_CREAT) d
                (set_dst_fd (-1) s)
                (set_errno EEXIST
                   (log (EvOpen d (Z.lor (Z.lor (Z.lor O_EXCL O_CREAT) O_WRONLY) dsrc)
                           (-1)) w))) as ->.
    { destruct Hdsrc as [-> | ->];
        (cbn [open_dst_loop]; unfold sys_open; rewrite Hd; simpl; by rewrite Hexcl). }
    by eapply IH; eauto.
  - (* the second attempt: it is a directory *)
    assert (open_dst_loop (S f) false dsrc
              (clear_bits (Z.lor (Z.lor O_EXCL O_CREAT) O_WRONLY) O_CREAT) d s w
            = open_dst_loop f false dsrc
                (Z.lor (clear_bits (clear_bits (Z.lor (Z.lor O_EXCL O_CREAT) O_WRONLY)
                                      O_CREAT) O_WRONLY) O_RDONLY) d
                (set_dst_fd (-1) s)
                (set_errno EISDIR
                   (log (EvOpen d (Z.lor (clear_bits (Z.lor (Z.lor O_EXCL O_CREAT) O_WRONLY)
                                            O_CREAT) dsrc) (-1)) w))) as ->.
    { destruct Hdsrc as [-> | ->];
        (cbn [open_dst_loop]; unfold sys_open; rewrite Hd; simpl; rewrite Hi, Hdir;
         simpl; by rewrite Hexcl, Hdata). }
    by eapply IH; eauto 10.
  - (* every further attempt: not readable, and [chmod] does not help *)
    set (M := clear_bits (Z.lor (st_mode (sb s)) S_IWUSR) S_IFMT).
    set (ofl := Z.lor (clear_bits (clear_bits (Z.lor (Z.lor O_EXCL O_CREAT) O_WRONLY)
                                     O_CREAT) O_WRONLY) O_RDONLY).
    assert (open_dst_loop (S f) false dsrc ofl d s w
            = open_dst_loop f false dsrc ofl d (set_dst_fd (-1) s)
                (update_inode id (chmod_bits M)
                   (log (EvChmod d M 0)
                      (set_errno EACCES (log (EvOpen d (Z.lor ofl dsrc) (-1)) w)))))
      as ->.
    { unfold ofl, M.
      destruct Hdsrc as [-> | ->];
        (cbn [open_dst_loop]; unfold sys_open; rewrite Hd; simpl; rewrite Hi, Hdir;
         simpl; unfold access_ok, may_read; simpl; rewrite Hroot, Hown, Hnr; simpl;
         unfold sys_chmod; simpl; rewrite Hd, Hi; unfold owns; simpl;
         rewrite Hroot, Hown; by simpl). }
    eapply (IH ofl _ _ (chmod_bits M i)); try done.
    + by right; right.
    + unfold update_inode. simpl. by rewrite list_lookup_alter_eq, Hi.
    + unfold is_dir in *. by rewrite file_type_chmod_bits.
    + by apply no_owner_read_after_chmod.
Qed.

(** X24: OpenLoopLivelock.  [copyfile] on a fresh handle, without DATA,
    EXCL and UNLINK, from a regular file the caller reads through the
    permission bits for others (the owner-read bit of the source is clear)
    onto an existing directory that the caller owns but may not read: the
    destination loop of [copyfile_open] never ends.  Each attempt fails with
    EACCES, the [chmod] that follows succeeds and again gives the directory
    the source's bits plus owner-write, without owner-read, and the next
    attempt fails the same way: no number of attempts makes the call
    return. *)
Theorem copyfile_open_loop_diverges fuel p d fl w ino isrc id idst :
  truthy (Z.land fl COPYFILE_DATA) = false →
  truthy (Z.land fl COPYFILE_EXCL) = false →
  truthy (Z.land COPYFILE_UNLINK fl) = false →
  w_names w !! p = Some ino → w_inodes w !! ino = Some isrc →
  file_type isrc = S_IFREG → may_read w isrc = true →
  truthy (Z.land (i_mode isrc) S_IRUSR) = false →
  w_names w !! d = Some id → w_inodes w !! id = Some idst → is_dir idst = true →
  w_euid w ≠ 0 → w_euid w = i_uid idst →
  truthy (Z.land (i_mode idst) S_IRUSR) = false →
  (3 ≤ w_mem w)%nat →
  copyfile fuel (Some p) (Some d) None fl w = None.
Proof.
  intros Hdata Hexcl Hunlink Hnp Hino Hreg Hread Hsrc Hd Hi Hdir Hroot Hown Hnr Hmem.
  destruct (w_mem w) as [|[|[|m]]] eqn:Em; try lia.
  destruct (copyfile_fresh fuel p d fl w m Em) as (dbg & e & ->).
  set (s0 := mkState _ _ _ _ _ _ _). set (w0 := set_errno e _).
  destruct (copyfile_open_src_frame fuel s0 w0 p ino isrc)
    as (fd & w1 & Hfd & Hfree & Hnew & Hold & Hnames & Hinodes & _ & Henv & Hclk & ->);
    try done; [by left|].
  destruct Henv as (_ & _ & _ & _ & Heu & _).
  assert (is_dir isrc = false) as -> by (unfold is_dir; by rewrite Hreg).
  unfold copyfile_open_dst. cbn -[open_dst_loop Z.lor]. rewrite Hunlink.
  set (dsrc := if truthy (Z.land fl COPYFILE_NOFOLLOW_DST) then O_NOFOLLOW else 0).
  assert (dsrc = 0 ∨ dsrc = O_NOFOLLOW) as Hdsrc.
  { unfold dsrc. destruct (truthy (Z.land fl COPYFILE_NOFOLLOW_DST)); auto. }
  rewrite (open_dst_loop_livelock d id dsrc fuel _ _ w1 idst); try done.
  - by left.
  - by rewrite Hnames.
  - by rewrite Hinodes.
  - rewrite Heu. by apply Z.eqb_neq.
  - rewrite Heu. by apply Z.eqb_eq.
Qed.

(** ** The data step writes through the destination descriptor only *)

Lemma sys_write_other fd bs w ino :
  ofd_ino <$> fd_lookup fd w ≠ Some ino →
  w_inodes (snd (sys_write fd bs w)) !! ino = w_inodes w !! ino.
Proof.
  intros Hne. unfold sys_write. destruct (fd_lookup fd w) as [o|]; [|done].
  destruct (w_inodes w !! ofd_ino o) as [i|]; [|done].
  destruct (ofd_acc o =? O_RDONLY); [done|].
  assert (ofd_ino o ≠ ino) as Hne' by (intros <-; by apply Hne).
  destruct (w_wscript w) as [|[e|k] ws]; simpl; try done;
    destruct (0 <? _); simpl; by rewrite !list_lookup_alter_ne.
Qed.

Lemma sys_ftruncate_other fd n w ino :
  ofd_ino <$> fd_lookup fd w ≠ Some ino →
  w_inodes (snd (sys_ftruncate fd n w)) !! ino = w_inodes w !! ino.
Proof.
  intros Hne. unfold sys_ftruncate. destruct (fd_lookup fd w) as [o|]; [|done].
  destruct (w_inodes w !! ofd_ino o) as [i|]; [|done].
  destruct (_ || _); [done|].
  assert (ofd_ino o ≠ ino) as Hne' by (intros <-; by apply Hne).
  simpl. by rewrite !list_lookup_alter_ne.
Qed.

Lemma write_block_other ino fuel : ∀ fd bp ptr left w r w',
  ofd_ino <$> fd_lookup fd w ≠ Some ino →
  write_block fuel fd bp ptr left w = Some (r, w') →
  w_inodes w' !! ino = w_inodes w !! ino.
Proof.
  induction fuel as [|f IH]; intros fd bp ptr left w r w' Hne.
  - simpl. destruct (left >? 0); [done|]. by intros [= <- <-].
  - cbn [write_block]. destruct (left >? 0); [|by intros [= <- <-]].
    pose proof (sys_write_other fd (take (Z.to_nat left) (drop ptr bp)) w ino Hne) as Hw.
    pose proof (sys_write_fds fd fd fd (take (Z.to_nat left) (drop ptr bp)) w
                  (or_introl eq_refl) fd) as [[Hsame _] _].
    destruct (sys_write fd _ w) as [r0 w1]. simpl in Hw, Hsame.
    assert (ofd_ino <$> fd_lookup fd w1 ≠ Some ino) as Hne1 by (by rewrite Hsame).
    destruct (to_size_t r0 =? 0).
    { change (0 + 1 >? 5) with false. cbv iota. intros H.
      apply IH in H; [|done]. by rewrite H. }
    destruct (to_size_t r0 =? to_size_t (-1)); [by intros [= <- <-]|].
    intros H. apply IH in H; [|done]. by rewrite H.
Qed.

Lemma only_read_refl si ino w : only_read si ino w w.
Proof. by split. Qed.

Lemma only_read_eq si ino w w' :
  w_inodes w' !! ino = w_inodes w !! ino → only_read si ino w w'.
Proof. intros E. split; [done|]. unfold up_to_atime. by rewrite E. Qed.

Lemma only_read_trans si ino w1 w2 w3 :
  only_read si ino w1 w2 → only_read si ino w2 w3 → only_read si ino w1 w3.
Proof.
  intros [E1 A1] [E2 A2]. split.
  - intros Hne. by rewrite E2, E1.
  - unfold up_to_atime in *. congruence.
Qed.

(** A [read] changes at most the access time of the file it reads. *)
Lemma sys_read_other fd n w ino :
  only_read (ofd_ino <$> fd_lookup fd w) ino w (snd (sys_read fd n w)).
Proof.
  unfold sys_read. destruct (fd_lookup fd w) as [o|]; [|by apply only_read_eq].
  destruct (w_inodes w !! ofd_ino o) as [i|] eqn:Hi; [|by apply only_read_eq].
  destruct (ofd_acc o =? O_WRONLY); [by apply only_read_eq|].
  destruct (is_dir i); [by apply only_read_eq|].
  destruct (w_rscript w) as [|[e|] rs]; try (by apply only_read_eq);
    (destruct (0 <? n); [|by apply only_read_eq]; simpl;
     destruct (decide (ofd_ino o = ino)) as [<-|Hne];
     [ split; [by intros []|]; unfold up_to_atime; simpl;
       by rewrite list_lookup_alter_eq, Hi
     | apply only_read_eq; simpl; by rewrite list_lookup_alter_ne ]).
Qed.

Lemma read_loop_other ino fuel : ∀ s blen w r n w',
  ofd_ino <$> fd_lookup (dst_fd s) w ≠ Some ino →
  read_loop fuel s blen w = Some (r, n, w') →
  only_read (ofd_ino <$> fd_lookup (src_fd s) w) ino w w'
  ∧ ofd_ino <$> fd_lookup (dst_fd s) w' = ofd_ino <$> fd_lookup (dst_fd s) w.
Proof.
  induction fuel as [|f IH]; intros s blen w r n w' Hne; [done|].
  cbn [read_loop].
  pose proof (sys_read_other (src_fd s) blen w ino) as Hri.
  pose proof (sys_read_fds (src_fd s) (dst_fd s) (src_fd s) blen w (or_introl eq_refl)
                (dst_fd s)) as [[Hsame _] _].
  pose proof (sys_read_fds (src_fd s) (dst_fd s) (src_fd s) blen w (or_introl eq_refl)
                (src_fd s)) as [[Hsrc _] _].
  destruct (sys_read (src_fd s) blen w) as [[nread bp] w1].
  simpl in Hri, Hsame, Hsrc.
  destruct (nread >? 0); [|by intros [= <- <- <-]].
  assert (ofd_ino <$> fd_lookup (dst_fd s) w1 ≠ Some ino) as Hne1 by (by rewrite Hsame).
  destruct (write_block f (dst_fd s) bp 0 (to_size_t nread) w1) as [[r1 w2]|] eqn:Hwb;
    [|done].
  pose proof (write_block_fds (src_fd s) (dst_fd s) _ _ _ _ _ _ _ _
                (or_intror eq_refl) Hwb (dst_fd s)) as [[Hsame2 _] _].
  pose proof (write_block_fds (src_fd s) (dst_fd s) _ _ _ _ _ _ _ _
                (or_intror eq_refl) Hwb (src_fd s)) as [[Hsrc2 _] _].
  apply (write_block_other ino) in Hwb; [|done].
  assert (only_read (ofd_ino <$> fd_lookup (src_fd s) w) ino w w2) as H2.
  { eapply only_read_trans; [exact Hri|]. by apply only_read_eq. }
  destruct (r1 <? 0); [intros [= <- <- <-]; split; [done|congruence]|].
  intros H. apply IH in H; [|congruence]. destruct H as [H1 H3].
  rewrite Hsrc2, Hsrc in H1. split; [|congruence].
  by eapply only_read_trans.
Qed.

Lemma copyfile_data_other fuel s w r w' ino :
  ofd_ino <$> fd_lookup (dst_fd s) w ≠ Some ino →
  copyfile_data fuel s w = Some (r, w') →
  only_read (ofd_ino <$> fd_lookup (src_fd s) w) ino w w'.
Proof.
  intros Hne. unfold copyfile_data, sys_alloc.
  set (blen := match sys_fstatfs (src_fd s) w with
               | Some io => to_size_t io
               | None => to_size_t (st_blksize (sb s))
               end).
  clearbody blen.
  destruct (w_mem w) as [|m]; simpl; [intros [= <- <-]; by apply only_read_eq|].
  destruct (read_loop fuel s blen (set_mem m w)) as [[[r1 n1] w1]|] eqn:Hloop; [|done].
  apply (read_loop_other ino) in Hloop; [|done]. destruct Hloop as [H1 H2].
  change (only_read (ofd_ino <$> fd_lookup (src_fd s) w) ino w w1) in H1.
  change (fd_lookup (dst_fd s) (set_mem m w)) with (fd_lookup (dst_fd s) w) in H2.
  destruct (r1 <? 0); [by intros [= <- <-]|].
  destruct (n1 <? 0); [by intros [= <- <-]|].
  pose proof (sys_ftruncate_other (dst_fd s) (st_size (sb s)) w1 ino) as Ht.
  destruct (sys_ftruncate _ _ w1) as [r2 w2]. simpl in Ht.
  rewrite H2 in Ht. specialize (Ht Hne).
  destruct (r2 <? 0); intros [= <- <-];
    (eapply only_read_trans; [exact H1|]; by apply only_read_eq).
Qed.

(** X25: WritesOnlyThroughDestination.  However [copyfile_data] ends, the
    only file whose bytes or attributes it may have changed is the one the
    destination descriptor of the handle is open on.  Of every other file
    at most the access time differs, and that only for the file the source
    descriptor is open on, which has been read: any file that is behind
    neither descriptor is exactly what it was. *)
Theorem copyfile_data_writes_destination_only fuel s w r w' ino :
  ofd_ino <$> fd_lookup (dst_fd s) w ≠ Some ino →
  copyfile_data fuel s w = Some (r, w') →
  (ofd_ino <$> fd_lookup (src_fd s) w ≠ Some ino →
   w_inodes w' !! ino = w_inodes w !! ino)
  ∧ up_to_atime (w_inodes w' !! ino) (w_inodes w !! ino).
Proof. apply copyfile_data_other. Qed.

(** The data step removes nothing: the script of the removals is not
    consumed. *)
Lemma sys_read_uscript fd n w : w_uscript (snd (sys_read fd n w)) = w_uscript w.
Proof.
  unfold sys_read. destruct (fd_lookup fd w) as [o|]; [|done].
  destruct (w_inodes w !! ofd_ino o) as [i|]; [|done].
  destruct (ofd_acc o =? O_WRONLY); [done|]. destruct (is_dir i); [done|].
  destruct (w_rscript w) as [|[e|] rs]; try done; by destruct (0 <? n).
Qed.

Lemma sys_write_uscript fd bs w : w_uscript (snd (sys_write fd bs w)) = w_uscript w.
Proof.
  unfold sys_write. destruct (fd_lookup fd w) as [o|]; [|done].
  destruct (w_inodes w !! ofd_ino o) as [i|]; [|done].
  destruct (ofd_acc o =? O_RDONLY); [done|].
  destruct (w_wscript w) as [|[e|k] ws]; try done; by destruct (0 <? _).
Qed.

Lemma sys_ftruncate_uscript fd n w :
  w_uscript (snd (sys_ftruncate fd n w)) = w_uscript w.
Proof.
  unfold sys_ftruncate. destruct (fd_lookup fd w) as [o|]; [|done].
  destruct (w_inodes w !! ofd_ino o) as [i|]; [|done]. by destruct (_ || _).
Qed.

Lemma write_block_uscript fuel : ∀ fd bp ptr left w r w',
  write_block fuel fd bp ptr left w = Some (r, w') → w_uscript w' = w_uscript w.
Proof.
  induction fuel as [|f IH]; intros fd bp ptr left w r w'.
  - simpl. destruct (left >? 0); [done|]. by intros [= <- <-].
  - cbn [write_block]. destruct (left >? 0); [|by intros [= <- <-]].
    pose proof (sys_write_uscript fd (take (Z.to_nat left) (drop ptr bp)) w) as Hw.
    destruct (sys_write fd _ w) as [r0 w1]. simpl in Hw.
    destruct (to_size_t r0 =? 0).
    { change (0 + 1 >? 5) with false. cbv iota. intros H. apply IH in H. congruence. }
    destruct (to_size_t r0 =? to_size_t (-1)); [by intros [= <- <-]|].
    intros H. apply IH in H. congruence.
Qed.

Lemma read_loop_uscript fuel : ∀ s blen w r n w',
  read_loop fuel s blen w = Some (r, n, w') → w_uscript w' = w_uscript w.
Proof.
  induction fuel as [|f IH]; intros s blen w r n w'; [done|].
  cbn [read_loop].
  pose proof (sys_read_uscript (src_fd s) blen w) as Hr.
  destruct (sys_read (src_fd s) blen w) as [[nread bp] w1]. simpl in Hr.
  destruct (nread >? 0); [|by intros [= <- <- <-]].
  destruct (write_block f (dst_fd s) bp 0 (to_size_t nread) w1) as [[r1 w2]|] eqn:Hwb;
    [|done].
  apply write_block_uscript in Hwb.
  destruct (r1 <? 0); [intros [= <- <- <-]; congruence|].
  intros H. apply IH in H. congruence.
Qed.

Lemma copyfile_data_uscript fuel s w r w' :
  copyfile_data fuel s w = Some (r, w') → w_uscript w' = w_uscript w.
Proof.
  unfold copyfile_data, sys_alloc.
  set (blen := match sys_fstatfs (src_fd s) w with
               | Some io => to_size_t io
               | None => to_size_t (st_blksize (sb s))
               end).
  clearbody blen.
  destruct (w_mem w) as [|m]; simpl; [by intros [= <- <-]|].
  destruct (read_loop fuel s blen (set_mem m w)) as [[[r1 n1] w1]|] eqn:Hloop; [|done].
  apply read_loop_uscript in Hloop. simpl in Hloop.
  destruct (r1 <? 0); [by intros [= <- <-]|].
  destruct (n1 <? 0); [by intros [= <- <-]|].
  pose proof (sys_ftruncate_uscript (dst_fd s) (st_size (sb s)) w1) as Ht.
  destruct (sys_ftruncate _ _ w1) as [r2 w2]. simpl in Ht.
  destruct (r2 <? 0); intros [= <- <-]; congruence.
Qed.

(** ** UNLINK replaces the destination *)

Lemma new_file_regular m u : Z.land (Z.lor S_IFREG (clear_bits (Z.land m ALLPERMS) u)) S_IFMT = S_IFREG.
Proof.
  unfold clear_bits. rewrite Z.land_lor_distr_l.
  assert (Z.land S_IFREG S_IFMT = S_IFREG) as -> by done.
  rewrite <- !Z.land_assoc, (Z.land_comm (Z.lnot u)), (Z.land_assoc ALLPERMS).
  assert (Z.land ALLPERMS S_IFMT = 0) as -> by done.
  by rewrite Z.land_0_l, Z.land_0_r, Z.lor_0_r.
Qed.

Lemma up_to_atime_refl x : up_to_atime x x.
Proof. done. Qed.

(** X26: UnlinkReplaces.  On a fresh handle, with DATA and UNLINK set and
    STAT not set, a readable regular source and a destination path that
    names a file: the copy never writes into the file that was there.
    However the call ends, that file is what it was (its other names still
    see the old bytes), up to its access time when it is the source itself.
    When the removal of the old name is refused, the call returns -1 with the
    errno of the refusal and the path still names the old file.  Otherwise
    the path names a file created by the call, unless the data step failed
    and the cleanup removed it again: then the path names nothing.  (A
    refusal reports an error other than ENOENT, since the name exists.) *)
Theorem copyfile_unlink_replaces fuel p d fl w ino isrc id idst r st w' :
  truthy (Z.land COPYFILE_DATA fl) = true →
  truthy (Z.land COPYFILE_UNLINK fl) = true →
  truthy (Z.land COPYFILE_STAT fl) = false →
  w_names w !! p = Some ino → w_inodes w !! ino = Some isrc →
  file_type isrc = S_IFREG → may_read w isrc = true →
  w_names w !! d = Some id → w_inodes w !! id = Some idst →
  (3 ≤ w_mem w)%nat →
  removal_refused w ≠ Some ENOENT →
  copyfile fuel (Some p) (Some d) None fl w = Some (r, st, w') →
  (id ≠ ino → w_inodes w' !! id = Some idst)
  ∧ up_to_atime (w_inodes w' !! id) (Some idst)
  ∧ match removal_refused w with
    | Some e => r = -1 ∧ w_errno w' = e ∧ w_names w' !! d = Some id
    | None =>
        w_names w' !! d
        = if (r <? 0) && negb (cleanup_refused w) then None
          else Some (length (w_inodes w))
    end.
Proof.
  intros Hdata Hunlink Hstat Hnp Hino Hreg Hread Hd Hi Hmem Hnoent Hrun.
  assert (is_dir isrc = false) as Hnd by (unfold is_dir; by rewrite Hreg).
  destruct (removal_refused w) as [e|] eqn:Hrf.
  { (* the removal is refused *)
    destruct (copyfile_dst_failure fuel p d fl w ino isrc e)
      as (w'' & Hrun' & He & Hn & Hi' & _); try done; [by left| |].
    { intros s w1 Hsd Hsf Hfl Hsb Hn1 Hi1 Heu Hus1. rewrite Hnd.
      unfold copyfile_open_dst. rewrite Hsd, Hsf, Hfl, Hunlink.
      cbn -[open_dst_loop sys_remove Z.lor]. unfold sys_remove. rewrite Hn1, Hd.
      unfold removal. rewrite Hus1. unfold removal_refused in Hrf, Hnoent.
      destruct (w_uscript w) as [|[e'|] us]; try done. injection Hrf as ->.
      assert ((e =? ENOENT) = false) as Hne by (apply Z.eqb_neq; congruence).
      cbn -[open_dst_loop Z.lor]. rewrite Hne. cbn -[open_dst_loop Z.lor].
      eexists _, _. split; [reflexivity|]. rewrite Hsf. by repeat split. }
    rewrite Hrun' in Hrun. injection Hrun as <- <- <-. rewrite Hi', Hn, Hi.
    by repeat split. }
  destruct (w_mem w) as [|[|[|m]]] eqn:Em; try lia.
  destruct (copyfile_fresh fuel p d fl w m Em) as (dbg & e & E).
  rewrite E in Hrun. clear E.
  set (s0 := mkState _ _ _ _ _ _ _) in Hrun. set (w0 := set_errno e _) in Hrun.
  destruct (copyfile_open_src_frame fuel s0 w0 p ino isrc)
    as (fd & w1 & Hfd & Hfree & Hnew & Hold & Hnames & Hinodes & _ & Henv & Hclk & E);
    try done; [by left|].
  rewrite E in Hrun. clear E. rewrite Hnd in Hrun.
  destruct Hclk as [Hus1 _]. change (w_uscript w0) with (w_uscript w) in Hus1.
  change (w_names w0) with (w_names w) in Hnames.
  change (w_inodes w0) with (w_inodes w) in Hinodes.
  assert (∃ w2, sys_remove d w1 = (0, w2)
            ∧ w_names w2 = delete d (w_names w) ∧ w_inodes w2 = w_inodes w
            ∧ w_uscript w2 = tail (w_uscript w)
            ∧ fd_lookup fd w2 = fd_lookup fd w1)
    as (w2 & Erm & Hn2 & Hi2 & Hus2 & Hfd2').
  { unfold sys_remove. rewrite Hnames, Hd. unfold removal. rewrite Hus1.
    unfold removal_refused in Hrf.
    destruct (w_uscript w) as [|[e'|] us]; [|done|]; eexists;
      (split; [reflexivity|]); simpl; by rewrite ?Hnames, ?Hinodes. }
  destruct fuel as [|fuel].
  { exfalso. revert Hrun. unfold copyfile_open_dst.
    cbn -[open_dst_loop sys_remove Z.lor]. rewrite Hunlink, Erm. by cbn. }
  set (n := length (w_inodes w)).
  assert (id < n)%nat as Hlt by (by eapply lookup_lt_Some).
  assert (∃ fd2 s2 w3,
    copyfile_open_dst (S fuel) false
      (set_src_fd fd (set_sb (stat_of_inode isrc) s0)) w1 = Some (0, s2, w3)
    ∧ src_fd s2 = fd ∧ dst_fd s2 = fd2 ∧ 0 ≤ fd2 ∧ dst s2 = Some d
    ∧ fd_lookup fd2 w3 = Some (mkOfd n 0 O_WRONLY)
    ∧ fd_lookup fd w3 = Some (mkOfd ino 0 O_RDONLY)
    ∧ w_names w3 = <[d := n]> (w_names w)
    ∧ (∀ k, (k < n)%nat → w_inodes w3 !! k = w_inodes w !! k)
    ∧ (∃ inew, w_inodes w3 !! n = Some inew ∧ is_dir inew = false)
    ∧ w_uscript w3 = tail (w_uscript w))
    as (fd2 & s2 & w3 & E & Hs2 & Hd2 & Hfd2 & Hdst2 & Hl2 & Hls2 & Hn3 & Hi3
        & (inew & Hin & Hind) & Hus3).
  { unfold copyfile_open_dst. cbn -[open_dst_loop sys_remove Z.lor].
    rewrite Hunlink, Erm. cbn -[open_dst_loop Z.lor].
    set (dsrc := if truthy (Z.land fl COPYFILE_NOFOLLOW_DST) then O_NOFOLLOW else 0).
    assert (dsrc = 0 ∨ dsrc = O_NOFOLLOW) as Hdsrc.
    { unfold dsrc. destruct (truthy (Z.land fl COPYFILE_NOFOLLOW_DST)); auto. }
    cbn [open_dst_loop]. unfold sys_open. rewrite Hn2, lookup_delete_eq.
    assert (truthy (Z.land (Z.lor (Z.lor (Z.lor O_EXCL O_CREAT) O_WRONLY) dsrc) O_CREAT)
            = true) as -> by (by destruct Hdsrc as [-> | ->]).
    match goal with |- context [install_fd d ?ofl ?k ?wx] =>
      pose proof (install_fd_spec d ofl k wx)
        as (Hfd2 & Hfree2 & Hnew2 & Hold2 & Hn3 & Hi3 & _ & _ & Hus3 & _);
      destruct (install_fd d ofl k wx) as [fd2 w3]
    end.
    simpl in Hfd2, Hfree2, Hnew2, Hold2, Hn3, Hi3, Hus3.
    cbn -[Z.lor]. rewrite (proj2 (Z.ltb_ge _ _) Hfd2). cbn -[Z.lor].
    rewrite (proj2 (Z.ltb_ge _ _) Hfd2), (proj2 (Z.ltb_ge _ _) Hfd). cbn -[Z.lor].
    exists fd2, (set_dst_fd fd2 (set_src_fd fd (set_sb (stat_of_inode isrc) s0))), w3.
    split; [reflexivity|]. split; [done|]. split; [done|]. split; [done|].
    split; [done|]. split.
    { rewrite Hnew2, Hi2. fold n. by destruct Hdsrc as [-> | ->]. }
    split.
    { rewrite Hold2; [by rewrite <- Hnew, <- Hfd2'|].
      intros ->. unfold fd_lookup in Hfree2, Hfd2', Hnew. simpl in Hfree2.
      rewrite Hfd2', Hnew in Hfree2. done. }
    split.
    { rewrite Hn3, Hi2. fold n. by rewrite insert_delete_eq. }
    split.
    { intros k Hk. rewrite Hi3, Hi2. by rewrite lookup_app_l. }
    split; [|by rewrite Hus3, Hus2].
    eexists. rewrite Hi3, Hi2.
    split; [rewrite lookup_app_r by done; fold n; by rewrite Nat.sub_diag|].
    unfold is_dir, file_type, new_inode. cbn [i_mode]. by rewrite new_file_regular. }
  rewrite E in Hrun. clear E. change (0 <? 0) with false in Hrun. cbv iota in Hrun.
  destruct (copyfile_internal (S fuel) s2 fl w3) as [[r4 w4]|] eqn:Hint; [|done].
  cbv iota beta in Hrun.
  set (wf := snd (copyfile_state_free (Some s2) w4)) in *.
  assert (r = r4 ∧ w' = wf) as [-> ->] by (split; congruence).
  clear Hrun. unfold wf.
  pose proof (copyfile_state_free_content (Some s2) w4) as [Hfn _].
  rewrite copyfile_state_free_inodes, Hfn.
  unfold copyfile_internal in Hint.
  assert ((dst_fd s2 <? 0) || (src_fd s2 <? 0) = false) as Hg.
  { apply orb_false_iff. split; lia. }
  rewrite Hg, Hdata, Hstat in Hint.
  destruct (copyfile_data (S fuel) s2 w3) as [[r1 wd]|] eqn:Hcd; [|done].
  pose proof (copyfile_data_other _ _ _ _ _ id
                ltac:(rewrite Hd2, Hl2; simpl; intros [= ?]; lia) Hcd) as [Hkeep Hat].
  rewrite Hs2, Hls2 in Hkeep. simpl in Hkeep.
  rewrite Hi3, Hi in Hkeep, Hat by done.
  assert (id ≠ ino → w_inodes wd !! id = Some idst) as Hkeep'.
  { intros Hne. apply Hkeep. congruence. }
  pose proof (copyfile_data_attrs _ _ _ _ _ Hcd) as (_ & Hnd' & _ & Hattr).
  pose proof (copyfile_data_uscript _ _ _ _ _ Hcd) as Husd.
  destruct (r1 <? 0) eqn:Er.
  - rewrite Hdst2 in Hint.
    assert (∃ ru wu, sys_unlink d (copyfile_warn "error processing data" wd) = (ru, wu)
              ∧ w_inodes wu = w_inodes wd
              ∧ w_names wu !! d = (if cleanup_refused w then Some n else None)
              ∧ w_inodes (if truthy ru then copyfile_warn "remove" wu else wu)
                = w_inodes wu
              ∧ w_names (if truthy ru then copyfile_warn "remove" wu else wu)
                = w_names wu)
      as (ru & wu & Eu & Hiu & Hnu & Hiw & Hnw).
    { unfold sys_unlink. simpl. rewrite Hnd', Hn3, lookup_insert_eq. simpl.
      destruct (Hattr n inew Hin) as (bytes & ta & tm & ->).
      change (is_dir (with_times ta tm (with_data bytes inew))) with (is_dir inew).
      rewrite Hind. unfold removal, cleanup_refused. simpl. rewrite Husd, Hus3.
      destruct (tail (w_uscript w)) as [|[e'|] us']; eexists _, _;
        (split; [reflexivity|]); simpl; rewrite ?Hnd', ?Hn3;
        by rewrite ?lookup_delete_eq, ?lookup_insert_eq. }
    rewrite Eu in Hint.
    assert (r4 = r1 ∧ w4 = (if truthy ru then copyfile_warn "remove" wu else wu))
      as [-> ->] by (destruct (truthy ru); split; congruence).
    rewrite Er, Hiw, Hnw, Hiu, Hnu. split; [done|]. split; [done|].
    by destruct (cleanup_refused w).
  - injection Hint as <- <-. rewrite Er. split; [done|]. split; [done|].
    by rewrite Hnd', Hn3, lookup_insert_eq.
Qed.

(** ** A failed data step removes the destination *)

Lemma open_dst_loop_present_frame fuel isdir dsrc d s w id i :
  dsrc = 0 ∨ dsrc = O_NOFOLLOW →
  w_names w !! d = Some id → w_inodes w !! id = Some i →
  is_dir i = false → may_write w i = true →
  truthy (Z.land (flags s) COPYFILE_EXCL) = false →
  ∃ fd w', 0 ≤ fd
    ∧ open_dst_loop (S (S fuel)) isdir dsrc (Z.lor (Z.lor O_EXCL O_CREAT) O_WRONLY) d s w
      = Some (0, set_dst_fd fd s, w')
    ∧ w_names w' = w_names w ∧ w_inodes w' = w_inodes w
    ∧ fd_lookup fd w = None ∧ fd_lookup fd w' = Some (mkOfd id 0 O_WRONLY)
    ∧ (∀ fd', fd' ≠ fd → fd_lookup fd' w' = fd_lookup fd' w)
    ∧ same_env w w' ∧ w_uscript w' = w_uscript w.
Proof.
  intros Hdsrc Hd Hi Hdir Hw Hexcl.
  destruct Hdsrc as [-> | ->];
    (cbn [open_dst_loop]; unfold sys_open at 1; rewrite Hd; simpl;
     rewrite Hexcl; unfold sys_open; simpl; rewrite Hd, Hi, Hdir; simpl;
     unfold access_ok; simpl; unfold may_write in *; simpl; rewrite Hw; simpl;
     match goal with |- context [install_fd d ?fl ?n ?w0] =>
       pose proof (install_fd_spec d fl n w0)
         as (Hfd & Hfree & Hnew & Hold & Hn & Hin & Henv & _ & Hus & _);
       destruct (install_fd d fl n w0) as [fd w1]
     end;
     simpl in Hfd, Hfree, Hnew, Hold, Hn, Hin, Hus;
     rewrite (proj2 (Z.ltb_ge _ _) Hfd); by exists fd, w1).
Qed.

(** X27: FailedCopyRemovesDestination.  On a fresh handle, with DATA set
    and EXCL and UNLINK not set, a readable regular source and a destination
    path that names an existing file the caller may write: whenever the call
    returns a negative value, it has tried to remove the destination path.
    Unless that removal is refused, the path names nothing afterwards, so
    that a destination that existed before the call is lost with the failed
    copy; when the removal is refused the path still names the file.  The
    destination may be the source's own path: a failed copy of a file onto
    itself removes the file's name. *)
Theorem copyfile_failure_removes_destination fuel p d fl w ino isrc id idst r st w' :
  truthy (Z.land COPYFILE_DATA fl) = true →
  truthy (Z.land fl COPYFILE_EXCL) = false →
  truthy (Z.land COPYFILE_UNLINK fl) = false →
  w_names w !! p = Some ino → w_inodes w !! ino = Some isrc →
  file_type isrc = S_IFREG → may_read w isrc = true →
  w_names w !! d = Some id → w_inodes w !! id = Some idst →
  is_dir idst = false → may_write w idst = true →
  (3 ≤ w_mem w)%nat → (2 ≤ fuel)%nat →
  copyfile fuel (Some p) (Some d) None fl w = Some (r, st, w') →
  r < 0 →
  w_names w' !! d = match removal_refused w with Some _ => Some id | None => None end
  ∧ ∃ ru, In (EvUnlink d ru) (w_trace w').
Proof.
  intros Hdata Hexcl Hunlink Hnp Hino Hreg Hread Hd Hi Hdir Hwr Hmem Hfuel Hrun Hneg.
  destruct (w_mem w) as [|[|[|m]]] eqn:Em; try lia.
  destruct (copyfile_fresh fuel p d fl w m Em) as (dbg & e & E).
  rewrite E in Hrun. clear E.
  set (s0 := mkState _ _ _ _ _ _ _) in Hrun. set (w0 := set_errno e _) in Hrun.
  destruct (copyfile_open_src_frame fuel s0 w0 p ino isrc)
    as (fd & w1 & Hfd & Hfree & Hnew & Hold & Hnames & Hinodes & _ & Henv & Hclk & E);
    try done; [by left|].
  rewrite E in Hrun. clear E.
  assert (is_dir isrc = false) as Hnd by (unfold is_dir; by rewrite Hreg).
  rewrite Hnd in Hrun.
  destruct fuel as [|[|fuel]]; try lia.
  destruct Henv as (_ & _ & _ & _ & Heu & _).
  assert (∃ fd2 s2 w3,
    copyfile_open_dst (S (S fuel)) false
      (set_src_fd fd (set_sb (stat_of_inode isrc) s0)) w1 = Some (0, s2, w3)
    ∧ src_fd s2 = fd ∧ dst_fd s2 = fd2 ∧ 0 ≤ fd2 ∧ dst s2 = Some d
    ∧ w_names w3 = w_names w ∧ w_inodes w3 = w_inodes w
    ∧ w_uscript w3 = w_uscript w)
    as (fd2 & s2 & w3 & E & Hs2 & Hd2 & Hfd2 & Hdst2 & Hn3 & Hi3 & Hus3).
  { unfold copyfile_open_dst. cbn -[open_dst_loop Z.lor]. rewrite Hunlink.
    set (dsrc := if truthy (Z.land fl COPYFILE_NOFOLLOW_DST) then O_NOFOLLOW else 0).
    assert (dsrc = 0 ∨ dsrc = O_NOFOLLOW) as Hdsrc.
    { unfold dsrc. destruct (truthy (Z.land fl COPYFILE_NOFOLLOW_DST)); auto. }
    destruct (open_dst_loop_present_frame fuel false dsrc d
                (set_src_fd fd (set_sb (stat_of_inode isrc) s0)) w1 id idst)
      as (fd2 & w3 & Hfd2 & -> & Hn3 & Hi3 & _ & _ & _ & _ & Hus3); try done.
    { by rewrite Hnames. }
    { by rewrite Hinodes. }
    { unfold may_write in *. by rewrite Heu. }
    cbn -[Z.lor]. rewrite (proj2 (Z.ltb_ge _ _) Hfd2), (proj2 (Z.ltb_ge _ _) Hfd).
    cbn -[Z.lor].
    eexists fd2, _, w3. split; [reflexivity|]. repeat split; try done.
    - by rewrite Hn3, Hnames.
    - by rewrite Hi3, Hinodes.
    - rewrite Hus3. by destruct Hclk as [-> _]. }
  rewrite E in Hrun. clear E. change (0 <? 0) with false in Hrun. cbv iota in Hrun.
  destruct (copyfile_internal (S (S fuel)) s2 fl w3) as [[r4 w4]|] eqn:Hint; [|done].
  cbv iota beta in Hrun.
  set (wf := snd (copyfile_state_free (Some s2) w4)) in *.
  assert (r = r4 ∧ w' = wf) as [-> ->] by (split; congruence).
  clear Hrun. unfold wf.
  pose proof (copyfile_state_free_content (Some s2) w4) as [Hfn _].
  rewrite Hfn.
  assert (∀ ev, In ev (w_trace w4) →
                In ev (w_trace (snd (copyfile_state_free (Some s2) w4)))) as Htr.
  { intros ev Hev. apply copyfile_state_free_trace. exact Hev. }
  unfold copyfile_internal in Hint.
  assert ((dst_fd s2 <? 0) || (src_fd s2 <? 0) = false) as Hg.
  { apply orb_false_iff. split; lia. }
  rewrite Hg, Hdata in Hint.
  destruct (copyfile_data (S (S fuel)) s2 w3) as [[r1 wd]|] eqn:Hcd; [|done].
  pose proof (copyfile_data_attrs _ _ _ _ _ Hcd) as (_ & Hnd' & _ & Hattr).
  pose proof (copyfile_data_uscript _ _ _ _ _ Hcd) as Husd.
  destruct (r1 <? 0) eqn:Er.
  - rewrite Hdst2 in Hint.
    assert (∃ ru wu, sys_unlink d (copyfile_warn "error processing data" wd) = (ru, wu)
              ∧ w_names wu !! d = match removal_refused w with Some _ => Some id | None => None end
              ∧ In (EvUnlink d ru) (w_trace wu))
      as (ru & wu & Eu & Hnu & Htu).
    { unfold sys_unlink. simpl. rewrite Hnd', Hn3, Hd. simpl.
      destruct (Hattr id idst ltac:(by rewrite Hi3)) as (bytes & ta & tm & ->).
      change (is_dir (with_times ta tm (with_data bytes idst))) with (is_dir idst).
      rewrite Hdir. unfold removal, removal_refused. simpl. rewrite Husd, Hus3.
      destruct (w_uscript w) as [|[e'|] us']; eexists _, _;
        (split; [reflexivity|]); simpl; rewrite ?Hnd', ?Hn3;
        (split; [by rewrite ?lookup_delete_eq|by left]). }
    rewrite Eu in Hint.
    assert (w_names w4 = w_names wu ∧ (∀ ev, In ev (w_trace wu) → In ev (w_trace w4)))
      as [-> Hsub].
    { destruct (truthy ru); injection Hint as <- <-; (split; [done|]);
        intros ev Hev; simpl; auto. }
    split; [done|]. exists ru. by apply Htr, Hsub.
  - exfalso. apply Z.ltb_ge in Er.
    destruct (truthy (Z.land COPYFILE_STAT fl)).
    + pose proof (copyfile_stat_ret s2 wd) as Hr.
      destruct (copyfile_stat s2 wd) as [r' w5]. simpl in Hr. subst r'.
      change (0 <? 0) with false in Hint. cbv iota in Hint.
      injection Hint as <- _. lia.
    + injection Hint as <- _. lia.
Qed.

(** ** A file copied onto itself *)

Lemma pwrite_same (c : list byte) (off m : nat) :
  (off ≤ length c)%nat → pwrite_bytes c off (take m (drop off c)) = c.
Proof.
  intros Hoff. unfold pwrite_bytes.
  replace (off - length c)%nat with 0%nat by lia. simpl.
  rewrite length_take, length_drop.
  destruct (Nat.le_gt_cases m (length c - off)) as [Hm|Hm].
  - replace (m `min` (length c - off))%nat with m by lia.
    rewrite <- (drop_drop c m off), take_drop. apply take_drop.
  - replace (m `min` (length c - off))%nat with (length c - off)%nat by lia.
    rewrite (take_ge (drop off c)) by (rewrite length_drop; lia).
    rewrite (drop_ge c (off + (length c - off))) by lia. rewrite app_nil_r. apply take_drop.
Qed.

Lemma self_read_step a b ino isrc k kd w blen :
  self_inv a b ino isrc k kd w → 0 < blen →
  let c := i_data isrc in
  let n := Z.to_nat ((blen `min` SSIZE_MAX) `min` Z.of_nat (length c - k)) in
  ∃ w1, sys_read a blen w = (Z.of_nat n, take n (drop k c), w1)
    ∧ self_inv a b ino isrc (k + n) kd w1
    ∧ w_names w1 = w_names w ∧ (k + n ≤ length c)%nat ∧ Z.of_nat n ≤ SSIZE_MAX.
Proof.
  intros (Ha & Hb & Hab & (ta & tm & Hi) & Hdir & Hk & Hr) Hblen c n.
  subst c n. set (c := i_data isrc) in *. set (n := Z.to_nat _) in *.
  assert (0 < SSIZE_MAX) as Hmax by done.
  assert (n ≤ length c - k)%nat as Hn by lia.
  assert (Z.of_nat n ≤ SSIZE_MAX) as Hsz by lia.
  assert (length (take n (drop k c)) = n) as Hlen.
  { rewrite length_take, length_drop. lia. }
  pose proof (fd_lookup_nonneg _ _ _ Ha). pose proof (fd_lookup_nonneg _ _ _ Hb).
  unfold sys_read. rewrite Ha. simpl. rewrite Hi.
  change (is_dir (with_times ta tm isrc)) with (is_dir isrc). rewrite Hdir.
  change (i_data (with_times ta tm isrc)) with c.
  rewrite length_drop. fold n. rewrite Hlen, (proj2 (Z.ltb_lt _ _) Hblen).
  destruct (w_rscript w) as [|[e|] rs] eqn:E;
    [ | by apply Forall_cons in Hr as [? _] | ];
    (eexists; split; [reflexivity|]; split; [|split; [done|split; [lia|done]]];
     split; [rewrite fd_lookup_update_eq; [done|]; unfold fd_lookup in *; simpl; eauto|];
     split; [rewrite fd_lookup_update_ne; [exact Hb|done..]|];
     split; [done|];
     split; [exists (w_now w), tm; simpl; by rewrite list_lookup_alter_eq, Hi|];
     split; [done|]; split; [unfold c in *; lia|];
     simpl; first [by constructor | by apply Forall_cons in Hr as [_ ?]]).
Qed.

Lemma self_write_step a b ino isrc ks kd w bs :
  self_inv a b ino isrc ks kd w → (kd ≤ length (i_data isrc))%nat →
  bs = take (length bs) (drop kd (i_data isrc)) →
  ∃ r w1, sys_write b bs w = (r, w1) ∧ w_names w1 = w_names w
    ∧ (r = -1
       ∨ ∃ m, r = Z.of_nat m ∧ (m ≤ length bs)%nat
              ∧ self_inv a b ino isrc ks (kd + m) w1).
Proof.
  intros (Ha & Hb & Hab & (ta & tm & Hi) & Hdir & Hk & Hr) Hkd Hbs.
  pose proof (fd_lookup_nonneg _ _ _ Ha). pose proof (fd_lookup_nonneg _ _ _ Hb).
  unfold sys_write. rewrite Hb. simpl. rewrite Hi.
  change (i_data (with_times ta tm isrc)) with (i_data isrc).
  assert (∀ m, (m ≤ length bs)%nat →
    with_data (pwrite_bytes (i_data isrc) kd (take m bs)) (with_times ta tm isrc)
    = with_times ta tm isrc) as Hsame.
  { intros m Hm. rewrite Hbs, take_take, pwrite_same by done. by destruct isrc. }
  destruct (w_wscript w) as [|[e|k] ws] eqn:E.
  - destruct (0 <? Z.of_nat (length bs));
      (eexists _, _; split; [reflexivity|]; split; [done|]; right;
       exists (length bs); split; [done|]; split; [done|];
       repeat split; try done;
       [ rewrite fd_lookup_update_ne; [exact Ha|done..]
       | rewrite fd_lookup_update_eq; [done|]; unfold fd_lookup in *; simpl; eauto
       | simpl; rewrite ?list_lookup_alter_eq, Hi; simpl; rewrite Hsame by done;
         by eexists _, _ ]).
  - eexists _, _. split; [reflexivity|]. split; [done|]. by left.
  - destruct (0 <? Z.of_nat (k `min` length bs));
      (eexists _, _; split; [reflexivity|]; split; [done|]; right;
       exists (k `min` length bs)%nat; split; [done|]; split; [lia|];
       repeat split; try done;
       [ rewrite fd_lookup_update_ne; [exact Ha|done..]
       | rewrite fd_lookup_update_eq; [done|]; unfold fd_lookup in *; simpl; eauto
       | simpl; rewrite ?list_lookup_alter_eq, Hi; simpl; rewrite Hsame by lia;
         by eexists _, _ ]).
Qed.

Lemma self_write_block a b ino isrc ks k n fuel : ∀ j w ret w',
  (k + n ≤ length (i_data isrc))%nat → Z.of_nat n ≤ SSIZE_MAX → (j ≤ n)%nat →
  self_inv a b ino isrc ks (k + j) w →
  write_block fuel b (take n (drop k (i_data isrc))) j (Z.of_nat (n - j)) w
  = Some (ret, w') →
  ret = -1 ∨ (ret = 0 ∧ w_names w' = w_names w ∧ self_inv a b ino isrc ks (k + n) w').
Proof.
  induction fuel as [|f IH]; intros j w ret w' Hkn Hn Hj Hinv;
    rewrite write_block_unfold.
  - destruct (Z.gtb_spec (Z.of_nat (n - j)) 0) as [Hpos|Hz]; [done|].
    assert (j = n) as -> by lia. intros [= <- <-]. by right.
  - destruct (Z.gtb_spec (Z.of_nat (n - j)) 0) as [Hpos|Hz]; last first.
    { assert (j = n) as -> by lia. intros [= <- <-]. by right. }
    rewrite block_slice by done.
    set (bs := take (n - j) (drop (k + j) (i_data isrc))).
    assert (length bs = (n - j)%nat) as Hlen.
    { unfold bs. rewrite length_take, length_drop. lia. }
    destruct (self_write_step a b ino isrc ks (k + j) w bs Hinv)
      as (r & w1 & Hw & Hnames & Hcases); [lia|by rewrite Hlen|].
    rewrite Hw.
    destruct Hcases as [->|(m & -> & Hm & Hinv1)].
    { change (to_size_t (-1) =? 0) with false. rewrite Z.eqb_refl.
      intros [= <- <-]. by left. }
    rewrite to_size_t_small by lia.
    assert (to_size_t (-1) = 2 ^ 64 - 1) as -> by done.
    assert (Z.of_nat m ≠ 2 ^ 64 - 1) as Hne.
    { unfold SSIZE_MAX in Hn. lia. }
    rewrite (proj2 (Z.eqb_neq _ _) Hne).
    destruct (Z.eqb_spec (Z.of_nat m) 0) as [Hm0|Hm0].
    + assert (m = 0%nat) as -> by lia. rewrite Nat.add_0_r in Hinv1.
      intros Hrun. destruct (IH j w1 ret w' Hkn Hn Hj Hinv1 Hrun)
        as [?|(? & ? & ?)]; [by left|right].
      split; [done|]. split; [congruence|done].
    + rewrite Nat2Z.id.
      replace (to_size_t (Z.of_nat (n - j) - Z.of_nat m))
        with (Z.of_nat (n - (j + m))).
      2:{ rewrite to_size_t_small; lia. }
      replace (k + j + m)%nat with (k + (j + m))%nat in Hinv1 by lia.
      intros Hrun.
      destruct (IH (j + m)%nat w1 ret w' Hkn Hn ltac:(lia) Hinv1 Hrun)
        as [?|(? & ? & ?)]; [by left|right].
      split; [done|]. split; [congruence|done].
Qed.

Lemma self_read_loop a b ino isrc s blen fuel : ∀ k w ret nread w',
  src_fd s = a → dst_fd s = b → 0 < blen →
  self_inv a b ino isrc k k w →
  read_loop fuel s blen w = Some (ret, nread, w') →
  ret = -1
  ∨ (ret = 0 ∧ 0 ≤ nread ∧ w_names w' = w_names w
     ∧ ∃ k', self_inv a b ino isrc k' k' w').
Proof.
  induction fuel as [|f IH]; intros k w ret nread w' Hsfd Hdfd Hblen Hinv; [done|].
  cbn [read_loop]. rewrite Hsfd, Hdfd.
  destruct (self_read_step a b ino isrc k k w blen Hinv Hblen)
    as (w1 & -> & Hinv1 & Hnames1 & Hkn & Hn).
  set (n := Z.to_nat _) in *.
  destruct (Z.gtb_spec (Z.of_nat n) 0) as [Hpos|Hzero].
  - rewrite to_size_t_small by lia.
    assert (self_inv a b ino isrc (k + n) (k + 0) w1) as Hinv1'
      by (by rewrite Nat.add_0_r).
    destruct (write_block f b _ 0 (Z.of_nat n) w1) as [[r1 w2]|] eqn:Hwb; [|done].
    pose proof (self_write_block a b ino isrc (k + n) k n f 0%nat w1 r1 w2 Hkn Hn
                  ltac:(lia) Hinv1') as Hw.
    rewrite Nat.sub_0_r in Hw. specialize (Hw Hwb).
    destruct Hw as [->|(-> & Hnames2 & Hinv2)].
    { intros [= <- <- <-]. by left. }
    change (0 <? 0) with false. cbv iota. intros Hrun.
    destruct (IH (k + n)%nat w2 ret nread w' Hsfd Hdfd Hblen Hinv2 Hrun)
      as [?|(? & ? & ? & ?)]; [by left|right].
    split; [done|]. split; [done|]. split; [congruence|done].
  - intros [= <- <- <-]. right. split; [done|]. split; [lia|].
    split; [done|]. exists k. assert (n = 0%nat) as Hn0 by lia.
    by rewrite Hn0, Nat.add_0_r in Hinv1.
Qed.

Lemma copyfile_data_self a b ino isrc fuel s w r w' :
  src_fd s = a → dst_fd s = b →
  st_size (sb s) = Z.of_nat (length (i_data isrc)) →
  0 < match w_iosize w with
      | Some io => to_size_t io
      | None => to_size_t (st_blksize (sb s))
      end →
  self_inv a b ino isrc 0 0 w →
  copyfile_data fuel s w = Some (r, w') →
  r = -1 ∨ (r = 0 ∧ data_of ino w' = Some (i_data isrc) ∧ w_names w' = w_names w).
Proof.
  intros Hsfd Hdfd Hsize Hblk Hinv. unfold copyfile_data.
  assert (sys_fstatfs (src_fd s) w = w_iosize w) as ->.
  { destruct Hinv as (Ha & _ & _ & (ta & tm & Hi) & _). unfold sys_fstatfs, fd_inode.
    rewrite Hsfd, Ha. simpl. by rewrite Hi. }
  unfold sys_alloc. destruct (w_mem w) as [|m] eqn:Hmem.
  { simpl. intros [= <- <-]. by left. }
  cbn [negb]. cbv iota.
  set (blen := match w_iosize w with
               | Some io => to_size_t io
               | None => to_size_t (st_blksize (sb s))
               end) in *.
  assert (self_inv a b ino isrc 0 0 (set_mem m w)) as Hinv' by done.
  destruct (read_loop fuel s blen (set_mem m w)) as [[[r1 n1] w1]|] eqn:Hloop; [|done].
  destruct (self_read_loop a b ino isrc s blen fuel 0%nat (set_mem m w) r1 n1 w1
              Hsfd Hdfd Hblk Hinv' Hloop)
    as [->|(-> & Hn1 & Hnames & k' & Hinv1)].
  { intros [= <- <-]. by left. }
  change (0 <? 0) with false. cbv iota. rewrite (proj2 (Z.ltb_ge _ _) Hn1).
  destruct Hinv1 as (_ & Hb1 & _ & (ta & tm & Hi1) & _).
  unfold sys_ftruncate. rewrite Hdfd, Hb1. simpl. rewrite Hi1, Hsize.
  rewrite (proj2 (Z.ltb_ge _ _)) by lia. simpl.
  intros [= <- <-]. right. split; [done|]. split; [|done].
  unfold data_of. simpl. rewrite !list_lookup_alter_eq, Hi1. simpl.
  rewrite Nat2Z.id. f_equal. unfold resize_bytes.
  rewrite take_ge by done. rewrite Nat.sub_diag. simpl. apply app_nil_r.
Qed.

(** X28: CopyOntoItself.  On a fresh handle, with DATA set and EXCL and
    UNLINK not set, a copy of a regular file onto its own path that returns 0
    has left the file with exactly the bytes it had: the destination is
    opened without truncation, every block is written back where it was read,
    and the final truncation is to the file's own length.  This holds as long
    as source reads do not fail; short and stalled writes are fine. *)
Theorem copyfile_onto_itself fuel p fl w ino isrc st w' :
  truthy (Z.land COPYFILE_DATA fl) = true →
  truthy (Z.land fl COPYFILE_EXCL) = false →
  truthy (Z.land COPYFILE_UNLINK fl) = false →
  w_names w !! p = Some ino → w_inodes w !! ino = Some isrc →
  file_type isrc = S_IFREG → may_read w isrc = true → may_write w isrc = true →
  Forall (λ e, e = None) (w_rscript w) →
  0 < match w_iosize w with
      | Some io => to_size_t io
      | None => to_size_t (i_blksize isrc)
      end →
  (3 ≤ w_mem w)%nat → (2 ≤ fuel)%nat →
  copyfile fuel (Some p) (Some p) None fl w = Some (0, st, w') →
  file_data p w' = Some (i_data isrc).
Proof.
  intros Hdata Hexcl Hunlink Hnp Hino Hreg Hread Hwr Hrs Hblk Hmem Hfuel Hrun.
  destruct (w_mem w) as [|[|[|m]]] eqn:Em; try lia.
  destruct (copyfile_fresh fuel p p fl w m Em) as (dbg & e & E).
  rewrite E in Hrun. clear E.
  set (s0 := mkState _ _ _ _ _ _ _) in Hrun. set (w0 := set_errno e _) in Hrun.
  destruct (copyfile_open_src_frame fuel s0 w0 p ino isrc)
    as (fd & w1 & Hfd & Hfree & Hnew & Hold & Hnames & Hinodes & _ & Henv & Hclk & E);
    try done; [by left|].
  rewrite E in Hrun. clear E.
  assert (is_dir isrc = false) as Hnd by (unfold is_dir; by rewrite Hreg).
  rewrite Hnd in Hrun.
  destruct fuel as [|[|fuel]]; try lia.
  destruct Henv as (Hrs1 & _ & Hio1 & _ & Heu & _).
  assert (∃ fd2 s2 w3,
    copyfile_open_dst (S (S fuel)) false
      (set_src_fd fd (set_sb (stat_of_inode isrc) s0)) w1 = Some (0, s2, w3)
    ∧ src_fd s2 = fd ∧ dst_fd s2 = fd2 ∧ sb s2 = stat_of_inode isrc
    ∧ w_names w3 = w_names w ∧ w_iosize w3 = w_iosize w
    ∧ self_inv fd fd2 ino isrc 0 0 w3)
    as (fd2 & s2 & w3 & E & Hs2 & Hd2 & Hsb2 & Hn3 & Hio3 & Hinv).
  { unfold copyfile_open_dst. cbn -[open_dst_loop Z.lor]. rewrite Hunlink.
    set (dsrc := if truthy (Z.land fl COPYFILE_NOFOLLOW_DST) then O_NOFOLLOW else 0).
    assert (dsrc = 0 ∨ dsrc = O_NOFOLLOW) as Hdsrc.
    { unfold dsrc. destruct (truthy (Z.land fl COPYFILE_NOFOLLOW_DST)); auto. }
    destruct (open_dst_loop_present_frame fuel false dsrc p
                (set_src_fd fd (set_sb (stat_of_inode isrc) s0)) w1 ino isrc)
      as (fd2 & w3 & Hfd2 & -> & Hn3 & Hi3 & Hfree2 & Hnew2 & Hold2 & Henv2 & _);
      try done.
    { by rewrite Hnames. }
    { by rewrite Hinodes. }
    { unfold may_write in *. by rewrite Heu. }
    cbn -[Z.lor]. rewrite (proj2 (Z.ltb_ge _ _) Hfd2), (proj2 (Z.ltb_ge _ _) Hfd).
    cbn -[Z.lor].
    destruct Henv2 as (Hrs2 & _ & Hio2 & _).
    assert (fd ≠ fd2) as Hne by (intros ->; congruence).
    eexists fd2, _, w3. split; [reflexivity|]. split; [done|]. split; [done|].
    split; [done|]. split; [by rewrite Hn3, Hnames|].
    split; [by rewrite Hio2, Hio1|].
    split; [by rewrite Hold2|]. split; [done|]. split; [done|].
    split.
    { exists (i_atime isrc), (i_mtime isrc). rewrite Hi3, Hinodes.
      change (w_inodes w0) with (w_inodes w). rewrite Hino. by destruct isrc. }
    split; [done|]. split; [lia|].
    by rewrite Hrs2, Hrs1. }
  rewrite E in Hrun. clear E. change (0 <? 0) with false in Hrun. cbv iota in Hrun.
  destruct (copyfile_internal (S (S fuel)) s2 fl w3) as [[r4 w4]|] eqn:Hint; [|done].
  cbv iota beta in Hrun.
  set (wf := snd (copyfile_state_free (Some s2) w4)) in *.
  assert (r4 = 0 ∧ w' = wf) as [-> ->] by (split; congruence).
  clear Hrun. unfold wf.
  pose proof (fd_lookup_nonneg _ _ _ (proj1 (proj2 Hinv))) as Hfd2.
  assert (0 ≤ dst_fd s2) as Hdpos by (rewrite Hd2; lia).
  assert (0 ≤ src_fd s2) as Hspos by (rewrite Hs2; lia).
  destruct (copyfile_internal_data _ _ _ _ _ _ Hdata Hdpos Hspos Hint)
    as (r1 & wd & Hcd & Hres).
  destruct (copyfile_data_self fd fd2 ino isrc _ _ _ _ _ Hs2 Hd2
              ltac:(by rewrite Hsb2) ltac:(by rewrite Hio3, Hsb2) Hinv Hcd)
    as [->|(-> & Hdd & Hnames')].
  { destruct Hres as [[_ ?]|[? _]]; lia. }
  destruct Hres as [[? _]|(_ & _ & Hc1)]; [lia|].
  pose proof (copyfile_state_free_content (Some s2) w4) as Hc2.
  destruct (same_content_trans _ _ _ Hc1 Hc2) as [Hn Hd].
  assert (w_names (snd (copyfile_state_free (Some s2) w4)) !! p = Some ino) as Hfp
    by (by rewrite Hn, Hnames', Hn3).
  by rewrite (file_data_of _ _ _ Hfp), Hd.
Qed.

(** ** A destination path that names the source *)







(** ** Claims on the two entry points *)



(** ** Stalled writes and failing reads *)

(** Any number of stalled writes in a row is waited out: with [n] zero-byte
    answers scripted and no other fault, the copy returns 0 and the
    destination holds the source's bytes. *)
Lemma copyfile_tolerates_stalls n fuel p d fl w ino isrc :
  truthy (Z.land COPYFILE_DATA fl) = true →
  w_names w !! p = Some ino → w_inodes w !! ino = Some isrc →
  file_type isrc = S_IFREG → may_read w isrc = true →
  w_names w !! d ≠ Some ino →
  w_rscript w = [] → w_wscript w = replicate n (WAccept 0) →
  0 < match w_iosize w with
      | Some io => to_size_t io
      | None => to_size_t (i_blksize isrc)
      end →
  dst_ready (truthy (Z.land COPYFILE_UNLINK fl)) (truthy (Z.land fl COPYFILE_EXCL)) d w →
  (4 ≤ w_mem w)%nat → (length (i_data isrc) + n + 2 ≤ fuel)%nat →
  ∃ w', copyfile fuel (Some p) (Some d) None fl w = Some (0, None, w')
        ∧ file_data d w' = Some (i_data isrc).
Proof.
  intros Hdata Hnp Hino Hreg Hread Hnd Hrs Hws Hblk Hready Hmem Hfuel.
  assert (Forall (λ e, e = None) (w_rscript w)) as Hrs' by (by rewrite Hrs).
  assert (no_write_error w) as Hws'.
  { unfold no_write_error. rewrite Hws. apply Forall_replicate. by eexists. }
  destruct (copyfile_total fuel p d fl w ino isrc) as [w' Hrun]; try done.
  { by rewrite Hws, length_replicate. }
  exists w'. split; [done|].
  by eapply (copyfile_success_content fuel p d fl w ino isrc None w').
Qed.

(** A failing first [read] leaves [ret] at 0: [copyfile_data] reports
    success, with the error only in [errno] and in the log. *)
Lemma copyfile_data_read_error fuel s w o i e rs m :
  fd_lookup (src_fd s) w = Some o → w_inodes w !! ofd_ino o = Some i →
  ofd_acc o ≠ O_WRONLY → is_dir i = false →
  w_rscript w = Some e :: rs → w_mem w = S m →
  ∃ w', copyfile_data (S fuel) s w = Some (0, w')
        ∧ w_errno w' = e ∧ w_inodes w' = w_inodes w.
Proof.
  intros Hfd Hi Hacc Hdir Hrs Hm. unfold copyfile_data, sys_alloc. rewrite Hm.
  simpl. unfold sys_read.
  change (fd_lookup (src_fd s) (set_mem m w)) with (fd_lookup (src_fd s) w).
  rewrite Hfd. simpl. rewrite Hi, (proj2 (Z.eqb_neq _ _) Hacc), Hdir, Hrs. simpl.
  by eexists.
Qed.

(** So the coordinator sees no failure after a failing first [read]: it
    issues no warning and no [unlink], and goes on to the STAT step when that
    is requested. *)
Lemma copyfile_internal_read_error fuel s fl w o i e rs m :
  truthy (Z.land COPYFILE_DATA fl) = true →
  0 ≤ dst_fd s →
  fd_lookup (src_fd s) w = Some o → w_inodes w !! ofd_ino o = Some i →
  ofd_acc o ≠ O_WRONLY → is_dir i = false →
  w_rscript w = Some e :: rs → w_mem w = S m →
  ∃ wd, copyfile_data (S fuel) s w = Some (0, wd) ∧ w_errno wd = e
    ∧ copyfile_internal (S fuel) s fl w
      = Some (0, if truthy (Z.land COPYFILE_STAT fl)
                 then snd (copyfile_stat s wd) else wd).
Proof.
  intros Hdata Hd Hfd Hi Hacc Hdir Hrs Hm.
  destruct (copyfile_data_read_error fuel s w o i e rs m) as (wd & Hrun & He & _);
    try done.
  exists wd. split; [done|]. split; [done|].
  pose proof (fd_lookup_nonneg _ _ _ Hfd) as Hs.
  unfold copyfile_internal.
  assert ((dst_fd s <? 0) || (src_fd s <? 0) = false) as ->
    by (apply orb_false_iff; lia).
  rewrite Hdata, Hrun. change (0 <? 0) with false. cbv iota.
  destruct (truthy (Z.land COPYFILE_STAT fl)); [|done].
  pose proof (copyfile_stat_ret s wd) as Hr.
  destruct (copyfile_stat s wd) as [r' w2]. simpl in *. by subst r'.
Qed.

End Properties.

(** * The claims at concrete inputs *)

(** C2: five zero-byte writes in a row do not abort the copy with EAGAIN:
    the sixth write is issued as if nothing had happened, the call returns 0
    and the destination holds the source's three bytes.  (The counter of
    the inner loop is reset by every iteration, see [write_block_unfold].) *)
Theorem copyfile_five_stalled_writes :
  ∃ w', copyfile (hdr := darwin_copyfile_h) 12 (Some "a") (Some "b") None 8
          (set_wscript (replicate 5 (WAccept 0)) two_files) = Some (0, None, w')
        ∧ file_data "b" w' = Some [x01; x02; x03]
        ∧ w_errno w' ≠ EAGAIN
        ∧ stalled_writes (w_trace w') = 5%nat.
Proof. eexists. vm_compute. repeat split; done. Qed.

(** C3: when the second [read] of the source fails with EIO, the path-mode
    copy with the DATA bit returns 0 (success), although the destination
    holds only the two bytes of the first block followed by its old bytes. *)
Theorem copyfile_read_error_returns_success :
  ∃ w', copyfile (hdr := darwin_copyfile_h) 12 (Some "a") (Some "b") None 8
          (set_rscript [None; Some EIO] two_files) = Some (0, None, w')
        ∧ w_errno w' = EIO
        ∧ file_data "a" w' = Some [x01; x02; x03]
        ∧ file_data "b" w' = Some [x01; x02; x09; x09; x09].
Proof. eexists. vm_compute. repeat split; done. Qed.

(** C5: a failing data transfer is not always followed by what the claim
    describes.  First run: DATA and STAT are requested and the second [read]
    of the source fails with EIO; the call returns 0, no removal of the
    destination is attempted (it keeps its name and its half-written bytes)
    and the four calls of the STAT step are issued.  Second run: the first
    [write] fails with EIO and the [unlink] that follows is refused with
    EACCES; the call returns -1 and issues no call of the STAT step, but the
    error it leaves in [errno] is the one of the removal. *)
Theorem copyfile_read_error_skips_cleanup :
  (∃ w', copyfile (hdr := darwin_copyfile_h) 12 (Some "a") (Some "b") None (8 + 2)
           (set_rscript [None; Some EIO] two_files) = Some (0, None, w')
         ∧ In (EvRead 0 (-1)) (w_trace w')
         ∧ removals (w_trace w') = 0%nat
         ∧ stat_calls (w_trace w') = 4%nat
         ∧ w_names w' !! "b" = Some 1%nat
         ∧ file_data "b" w' = Some [x01; x02; x09; x09; x09])
  ∧ (∃ w', copyfile (hdr := darwin_copyfile_h) 12 (Some "a") (Some "b") None (8 + 2)
             (set_uscript [Some EACCES] (set_wscript [WErr EIO] two_files))
           = Some (-1, None, w')
           ∧ In (EvWrite 1 (-1)) (w_trace w')
           ∧ In (EvUnlink "b" (-1)) (w_trace w')
           ∧ removals (w_trace w') = 1%nat
           ∧ stat_calls (w_trace w') = 0%nat
           ∧ w_errno w' = EACCES).
Proof.
  split; eexists; vm_compute; repeat split; try done.
  all: repeat (first [by left | right]).
Qed.



(** C4 as stated fails: with EXCL and UNLINK both set the existing
    destination is removed, the copy returns 0 and "b" has new content. *)
Lemma copyfile_excl_unlink_replaces :
  ∃ w', copyfile (hdr := darwin_copyfile_h) 5 (Some "a") (Some "b") None
          (8 + 131072 + 2097152) two_files = Some (0, None, w')
        ∧ file_data "b" two_files = Some [x09; x09; x09; x09; x09]
        ∧ file_data "b" w' = Some [x01; x02; x03].
Proof. eexists. vm_compute. repeat split; done. Qed.

Lemma copyfile_excl_existing_witness :
  ∃ w', copyfile (hdr := darwin_copyfile_h) 1 (Some "a") (Some "b") None (8 + 131072) two_files
        = Some (-1, None, w')
        ∧ w_errno w' = EEXIST
        ∧ file_data "b" w' = Some [x09; x09; x09; x09; x09].
Proof.
  assert (file_type (regular 420 [x01; x02; x03]) = S_IFREG
          ∨ file_type (regular 420 [x01; x02; x03]) = S_IFDIR) as Hty
    by (left; vm_compute; reflexivity).
  assert (is_Some (w_names two_files !! "b")) as Hex
    by (exists 1%nat; vm_compute; reflexivity).
  destruct (copyfile_excl_existing (hdr := darwin_copyfile_h) 1 "a" "b" (8 + 131072)
              two_files 0 (regular 420 [x01; x02; x03])
              ltac:(vm_compute; reflexivity) ltac:(vm_compute; reflexivity)
              ltac:(vm_compute; reflexivity) ltac:(vm_compute; reflexivity)
              Hty ltac:(vm_compute; reflexivity) Hex
              ltac:(vm_compute; lia) ltac:(lia))
    as (w' & Hrun & He & _ & _ & Hd).
  exists w'. split; [exact Hrun|]. split; [exact He|]. rewrite Hd.
  vm_compute. reflexivity.
Defined.

(** C6 as stated fails: a descriptor-mode handle holds descriptors 0 and
    1, both open, and no path; freeing it closes neither. *)
Lemma copyfile_state_free_keeps_unnamed :
  copyfile_state_free (Some fd_handle) two_open_files
  = (0, two_open_files)
  ∧ fd_lookup (src_fd fd_handle) two_open_files = Some (mkOfd 0 0 O_RDONLY)
  ∧ fd_lookup (dst_fd fd_handle) two_open_files = Some (mkOfd 1 0 O_WRONLY).
Proof. vm_compute. repeat split; reflexivity. Qed.

Lemma copyfile_state_free_closes_named_witness :
  fd_lookup 0 (snd (copyfile_state_free (Some path_handle) two_open_files))
  = None
  ∧ fd_lookup 1 (snd (copyfile_state_free (Some path_handle) two_open_files))
    = None
  ∧ copyfile_state_free (Some fd_handle) two_open_files
    = (0, two_open_files).
Proof.
  destruct (copyfile_state_free_closes_named path_handle two_open_files)
    as (Hs & Hd & _).
  destruct (copyfile_state_free_closes_named fd_handle two_open_files)
    as (_ & _ & Hn & _).
  split; [apply Hs; [by eexists|vm_compute; discriminate]|].
  split; [apply Hd; [by eexists|vm_compute; discriminate]|].
  apply Hn; reflexivity.
Defined.

(** C7 as stated fails: the handle stores "a" with descriptor 0 open;
    setting the source path to "c" stores "c" and issues no [close]:
    descriptor 0 stays in the handle and stays open. *)
Lemma copyfile_state_set_path_no_close :
  ∃ s' w', copyfile_state_set (hdr := darwin_copyfile_h) path_handle 2 (Some (mkThing 0 "c"))
             two_open_files = (0, s', w')
    ∧ src path_handle = Some "a" ∧ src s' = Some "c" ∧ src_fd s' = 0
    ∧ fd_lookup 0 w' = Some (mkOfd 0 0 O_RDONLY) ∧ w_trace w' = [].
Proof. eexists _, _. vm_compute. repeat split; reflexivity. Qed.

Lemma copyfile_state_set_path_keeps_fd_witness :
  (∃ s' w', copyfile_state_set (hdr := darwin_copyfile_h) path_handle 2 (Some (mkThing 0 "c"))
              two_open_files = (0, s', w')
     ∧ src s' = Some "c" ∧ src_fd s' = 0 ∧ w_fds w' = w_fds two_open_files)
  ∧ fst (COPYFILE_SET_FNAME (Some "c") (Some "a") 0 two_open_files)
    = (false, Some "c", -2)
  ∧ fd_lookup 0 (snd (strdup "c" (snd (sys_close 0 two_open_files)))) = None
  ∧ fst (COPYFILE_SET_FNAME (Some "c") (Some "c") 0 two_open_files)
    = (false, Some "c", 0).
Proof.
  destruct (copyfile_state_set_path_keeps_fd (hdr := darwin_copyfile_h) path_handle
              (mkThing 0 "c") two_open_files ltac:(vm_compute; lia))
    as (Hset & Hdiff & Hsame).
  destruct (Hset 2 (or_introl eq_refl)) as (s' & w' & Hrun & Hsrc & _ & Hfd & _ & Hfds & _).
  destruct (Hdiff "a" 0 ltac:(vm_compute; reflexivity) ltac:(lia)) as [Hd1 Hd2].
  destruct (Hsame 0) as [Hs1 _].
  split; [|split; [|split]].
  - exists s', w'. split; [exact Hrun|]. split; [apply Hsrc; reflexivity|].
    split; [exact Hfd|exact Hfds].
  - exact (f_equal fst Hd1).
  - exact Hd2.
  - exact (f_equal fst Hs1).
Defined.

(** C8 as stated fails: a null value for the source path is refused; the
    call returns -1 with EFAULT and the stored path is still "a". *)
Lemma copyfile_state_set_null_refused :
  ∃ s' w', copyfile_state_set (hdr := darwin_copyfile_h) path_handle 2 None two_open_files
           = (-1, s', w')
    ∧ src s' = Some "a" ∧ w_errno w' = EFAULT.
Proof. eexists _, _. vm_compute. repeat split; reflexivity. Qed.

(** C9 as stated fails: "4294967296" is parseable as an integer and the
    verbosity stored for it is 0; "-1" gives 4294967295; an integer above
    LONG_MAX gives 4294967295 and one below LONG_MIN gives 1. *)
Lemma copyfile_preamble_verbosity_wraps :
  (parseable "4294967296" = true ∧ denoted "4294967296" = 4294967296
   ∧ ∃ s' w', copyfile_preamble None COPYFILE_DEBUG (two_files_env "4294967296")
              = (0, Some s', w') ∧ debug s' = 0)
  ∧ (parseable "-1" = true ∧ denoted "-1" = -1
     ∧ ∃ s' w', copyfile_preamble None COPYFILE_DEBUG (two_files_env "-1")
                = (0, Some s', w') ∧ debug s' = 4294967295)
  ∧ (parseable "9223372036854775808" = true
     ∧ denoted "9223372036854775808" = 9223372036854775808
     ∧ ∃ s' w', copyfile_preamble None COPYFILE_DEBUG
                  (two_files_env "9223372036854775808")
                = (0, Some s', w') ∧ debug s' = 4294967295)
  ∧ (parseable "-9223372036854775809" = true
     ∧ denoted "-9223372036854775809" = -9223372036854775809
     ∧ ∃ s' w', copyfile_preamble None COPYFILE_DEBUG
                  (two_files_env "-9223372036854775809")
                = (0, Some s', w') ∧ debug s' = 1).
Proof.
  repeat split; try (vm_compute; reflexivity);
    eexists _, _; vm_compute; split; reflexivity.
Qed.

(** C9 at concrete inputs: "3" gives verbosity 3, "0" gives 0, "abc" gives
    1, "4294967297" gives 1 (modulo 2^32). *)
Lemma copyfile_preamble_verbosity_witness :
  (∃ s' w', copyfile_preamble None COPYFILE_DEBUG (two_files_env "3")
            = (0, Some s', w') ∧ debug s' = 3)
  ∧ (∃ s' w', copyfile_preamble None COPYFILE_DEBUG (two_files_env "0")
              = (0, Some s', w') ∧ debug s' = 0)
  ∧ (∃ s' w', copyfile_preamble None COPYFILE_DEBUG (two_files_env "abc")
              = (0, Some s', w') ∧ debug s' = 1)
  ∧ (∃ s' w', copyfile_preamble None COPYFILE_DEBUG (two_files_env "4294967297")
              = (0, Some s', w') ∧ debug s' = 1).
Proof.
  assert (∀ e, @is_Some copyfile_state None ∨ (0 < w_mem (two_files_env e))%nat) as Hmem.
  { intros e. right. simpl. lia. }
  split; [|split; [|split]].
  - destruct (copyfile_preamble_verbosity None COPYFILE_DEBUG
                (two_files_env "3") "3" eq_refl eq_refl (Hmem "3"))
      as (s' & w' & Hrun & _ & Hv).
    exists s', w'. split; [exact Hrun|].
    rewrite Hv; vm_compute; [reflexivity|reflexivity|split; [discriminate|reflexivity]].
  - destruct (copyfile_preamble_verbosity None COPYFILE_DEBUG
                (two_files_env "0") "0" eq_refl eq_refl (Hmem "0"))
      as (s' & w' & Hrun & _ & Hv).
    exists s', w'. split; [exact Hrun|].
    rewrite Hv; vm_compute; [reflexivity|reflexivity|split; [discriminate|reflexivity]].
  - destruct (copyfile_preamble_verbosity None COPYFILE_DEBUG
                (two_files_env "abc") "abc" eq_refl eq_refl (Hmem "abc"))
      as (s' & w' & Hrun & Hd & _).
    exists s', w'. split; [exact Hrun|]. rewrite Hd. vm_compute. reflexivity.
  - destruct (copyfile_preamble_verbosity None COPYFILE_DEBUG
                (two_files_env "4294967297") "4294967297" eq_refl eq_refl
                (Hmem "4294967297"))
      as (s' & w' & Hrun & Hd & _).
    exists s', w'. split; [exact Hrun|]. rewrite Hd. vm_compute. reflexivity.
Defined.


(** ** The further properties at concrete inputs *)

(** X1: storing "c" as the source path and reading it back. *)
Lemma copyfile_state_set_get_witness :
  ∃ s' w', copyfile_state_set (hdr := darwin_copyfile_h) fd_handle 2
             (Some (mkThing 0 "c")) two_files = (0, s', w')
    ∧ copyfile_state_get (hdr := darwin_copyfile_h) s' 2 true w'
      = (0, Some (GotStr (Some "c")), w').
Proof.
  destruct (copyfile_state_set_get (hdr := darwin_copyfile_h) fd_handle
              (mkThing 0 "c") two_files) as (_ & _ & H).
  destruct (H ltac:(vm_compute; lia)) as [(s' & w' & H1 & H2 & _) _].
  exists s', w'. split; [exact H1|exact H2].
Defined.

(** X2: selector 99 is none of the four. *)
Lemma copyfile_state_accessor_errors_witness :
  copyfile_state_get (hdr := darwin_copyfile_h) fd_handle 99 true two_files
  = (-1, None, set_errno EINVAL two_files)
  ∧ copyfile_state_set (hdr := darwin_copyfile_h) fd_handle 99 (Some (mkThing 0 "c"))
      two_files = (-1, fd_handle, set_errno EINVAL two_files).
Proof.
  destruct (copyfile_state_accessor_errors (hdr := darwin_copyfile_h) fd_handle 99
              (mkThing 0 "c") two_files) as [H _].
  apply H; vm_compute; intros E; discriminate E.
Defined.

(** X3: the handle stores "a"; with no memory left, setting the source
    path to "c" returns 0 and leaves no path at all. *)
Lemma copyfile_state_set_path_oom_witness :
  ∃ s' w', copyfile_state_set (hdr := darwin_copyfile_h) path_handle 2
             (Some (mkThing 0 "c")) (set_mem 0 two_open_files) = (0, s', w')
    ∧ src path_handle = Some "a" ∧ src s' = None.
Proof.
  destruct (copyfile_state_set_path_oom (hdr := darwin_copyfile_h) path_handle
              (mkThing 0 "c") (set_mem 0 two_open_files) eq_refl)
    as [(s' & w' & H1 & H2 & _) _].
  exists s', w'. split; [exact H1|]. split; [reflexivity|exact H2].
Defined.

(** X4: copying the file "a" onto the directory "d". *)
Lemma copyfile_onto_directory_witness :
  ∃ w', copyfile (hdr := darwin_copyfile_h) 2 (Some "a") (Some "d") None 8 mixed_files
        = Some (-1, None, w')
    ∧ w_errno w' = EISDIR ∧ w_inodes w' = w_inodes mixed_files.
Proof.
  destruct (copyfile_onto_directory (hdr := darwin_copyfile_h) 2 "a" "d" 8 mixed_files
              0 (regular 420 [x01; x02; x03]) 2 (file_of S_IFDIR 493 1000 [])
              ltac:(vm_compute; reflexivity) ltac:(vm_compute; reflexivity)
              ltac:(vm_compute; reflexivity) ltac:(vm_compute; reflexivity)
              ltac:(vm_compute; reflexivity) ltac:(vm_compute; reflexivity)
              ltac:(vm_compute; reflexivity) ltac:(vm_compute; reflexivity)
              ltac:(vm_compute; reflexivity) ltac:(vm_compute; reflexivity)
              ltac:(vm_compute; lia) ltac:(lia))
    as (w' & Hrun & He & _ & Hi & _).
  exists w'. split; [exact Hrun|]. split; [exact He|exact Hi].
Defined.

(** X5: copying "a" onto "r", a read-only file of the superuser's. *)
Lemma copyfile_destination_denied_witness :
  ∃ w', copyfile (hdr := darwin_copyfile_h) 2 (Some "a") (Some "r") None 8 mixed_files
        = Some (-1, None, w')
    ∧ w_errno w' = EPERM ∧ w_inodes w' = w_inodes mixed_files.
Proof.
  destruct (copyfile_destination_denied (hdr := darwin_copyfile_h) 2 "a" "r" 8
              mixed_files 0 (regular 420 [x01; x02; x03]) 4 (file_of S_IFREG 292 0 [x05])
              ltac:(vm_compute; reflexivity) ltac:(vm_compute; reflexivity)
              ltac:(vm_compute; reflexivity) ltac:(vm_compute; reflexivity)
              ltac:(vm_compute; reflexivity) ltac:(vm_compute; reflexivity)
              ltac:(vm_compute; reflexivity) ltac:(vm_compute; reflexivity)
              ltac:(vm_compute; reflexivity) ltac:(vm_compute; reflexivity)
              ltac:(vm_compute; reflexivity)
              ltac:(vm_compute; lia) ltac:(lia))
    as (w' & Hrun & He & _ & Hi & _).
  exists w'. split; [exact Hrun|]. split; [exact He|exact Hi].
Defined.

(** X6: the FIFO "p" is refused with ENOTSUP, the missing "q" with ENOENT;
    no attempt is needed (fuel 0), and "b" keeps its bytes. *)
Lemma copyfile_source_rejected_witness :
  (∃ w', copyfile (hdr := darwin_copyfile_h) 0 (Some "p") (Some "b") None 8 mixed_files
         = Some (-1, None, w')
     ∧ w_errno w' = ENOTSUP ∧ w_inodes w' = w_inodes mixed_files)
  ∧ (∃ w', copyfile (hdr := darwin_copyfile_h) 0 (Some "q") (Some "b") None 8 mixed_files
           = Some (-1, None, w')
       ∧ w_errno w' = ENOENT ∧ w_inodes w' = w_inodes mixed_files).
Proof.
  split.
  - destruct (copyfile_source_rejected (hdr := darwin_copyfile_h) 0 "p" "b" 8 mixed_files
                ltac:(vm_compute; lia))
      as (w' & Hrun & He & _ & _ & Hi).
    { vm_compute. split; intros E; discriminate E. }
    exists w'. split; [exact Hrun|]. split; [exact He|exact Hi].
  - destruct (copyfile_source_rejected (hdr := darwin_copyfile_h) 0 "q" "b" 8 mixed_files
                ltac:(vm_compute; lia))
      as (w' & Hrun & He & _ & _ & Hi).
    { vm_compute. exact I. }
    exists w'. split; [exact Hrun|]. split; [exact He|exact Hi].
Defined.

(** X7: a source path and no destination path. *)
Lemma copyfile_null_destination_witness :
  ∃ w', copyfile (hdr := darwin_copyfile_h) 0 (Some "a") None None 8 two_files
        = Some (-1, None, w')
    ∧ w_errno w' = EINVAL ∧ fd_lookup 0 w' = None.
Proof.
  assert (file_type (regular 420 [x01; x02; x03]) = S_IFREG
          ∨ file_type (regular 420 [x01; x02; x03]) = S_IFDIR) as Hty
    by (left; vm_compute; reflexivity).
  destruct (copyfile_null_destination (hdr := darwin_copyfile_h) 0 "a" 8 two_files 0
              (regular 420 [x01; x02; x03])
              ltac:(vm_compute; lia) ltac:(vm_compute; reflexivity)
              ltac:(vm_compute; reflexivity) Hty ltac:(vm_compute; reflexivity))
    as (w' & Hrun & He & _ & _ & Hfd).
  exists w'. split; [exact Hrun|]. split; [exact He|]. rewrite Hfd. reflexivity.
Defined.

(** X8: no source path and the new destination path "n": the call fails
    and "n" stays behind, empty. *)
Lemma copyfile_null_source_creates_witness :
  ∃ w', copyfile (hdr := darwin_copyfile_h) 1 None (Some "n") None 8 two_files
        = Some (-1, None, w')
    ∧ w_errno w' = EINVAL
    ∧ file_data "n" two_files = None ∧ file_data "n" w' = Some [].
Proof.
  destruct (copyfile_null_source_creates (hdr := darwin_copyfile_h) 1 "n" 8 two_files
              ltac:(vm_compute; lia) ltac:(lia) ltac:(vm_compute; reflexivity))
    as (w' & Hrun & He & Hn & Hi & _).
  exists w'. split; [exact Hrun|]. split; [exact He|]. split; [reflexivity|].
  unfold file_data. rewrite Hn, Hi. vm_compute. reflexivity.
Defined.

(** X9: descriptor 2 is open on the FIFO, descriptor 7 is not open. *)
Lemma fcopyfile_source_rejected_witness :
  (∃ w', fcopyfile (hdr := darwin_copyfile_h) 5 2 1 None 8 mixed_open_files
         = Some (-1, None, w')
     ∧ w_errno w' = ENOTSUP ∧ w_inodes w' = w_inodes mixed_open_files)
  ∧ (∃ w', fcopyfile (hdr := darwin_copyfile_h) 5 7 1 None 8 mixed_open_files
           = Some (-1, None, w')
       ∧ w_errno w' = ENOTSUP ∧ w_inodes w' = w_inodes mixed_open_files).
Proof.
  split.
  - destruct (fcopyfile_source_rejected (hdr := darwin_copyfile_h) 5 2 1 8
                mixed_open_files ltac:(lia) ltac:(lia) ltac:(vm_compute; lia))
      as (w' & Hrun & He & _ & _ & Hi).
    { vm_compute. repeat split; intros E; discriminate E. }
    exists w'. split; [exact Hrun|]. split; [exact He|exact Hi].
  - destruct (fcopyfile_source_rejected (hdr := darwin_copyfile_h) 5 7 1 8
                mixed_open_files ltac:(lia) ltac:(lia) ltac:(vm_compute; lia))
      as (w' & Hrun & He & _ & _ & Hi).
    { vm_compute. exact I. }
    exists w'. split; [exact Hrun|]. split; [exact He|exact Hi].
Defined.


(** X11: descriptor 3 is open on "r", which the caller does not own. *)
Lemma copyfile_stat_denied_witness :
  ∃ w', copyfile_stat (set_dst_fd 3 fd_handle) mixed_open_files = (0, w')
    ∧ w_inodes w' = w_inodes mixed_open_files.
Proof.
  destruct (copyfile_stat_denied (set_dst_fd 3 fd_handle) mixed_open_files
              ltac:(vm_compute; reflexivity))
    as (w' & Hrun & Hi & _).
  exists w'. split; [exact Hrun|exact Hi].
Defined.

(** X12: a STAT-only copy of "a" onto "b". *)
Lemma copyfile_without_data_keeps_contents_witness :
  ∃ w', copyfile (hdr := darwin_copyfile_h) 5 (Some "a") (Some "b") None 2 two_files
        = Some (0, None, w')
    ∧ contents_kept two_files w'.
Proof.
  destruct (copyfile (hdr := darwin_copyfile_h) 5 (Some "a") (Some "b") None 2 two_files)
    as [[[r st] w']|] eqn:Hrun; [|vm_compute in Hrun; discriminate Hrun].
  pose proof (copyfile_without_data_keeps_contents (hdr := darwin_copyfile_h)
                5 (Some "a") (Some "b") None 2 two_files r st w'
                ltac:(vm_compute; reflexivity) Hrun) as Hk.
  assert (r = 0 ∧ st = None) as [-> ->].
  { vm_compute in Hrun. injection Hrun as <- <- _. split; reflexivity. }
  exists w'. split; [reflexivity|exact Hk].
Defined.

(** X13: a STAT-only copy from descriptor 0 to descriptor 1. *)
Lemma fcopyfile_without_data_keeps_contents_witness :
  ∃ w', fcopyfile (hdr := darwin_copyfile_h) 5 0 1 None 2 two_open_files
        = Some (0, None, w')
    ∧ contents_kept two_open_files w'.
Proof.
  destruct (fcopyfile (hdr := darwin_copyfile_h) 5 0 1 None 2 two_open_files)
    as [[[r st] w']|] eqn:Hrun; [|vm_compute in Hrun; discriminate Hrun].
  pose proof (fcopyfile_without_data_keeps_contents (hdr := darwin_copyfile_h)
                5 0 1 None 2 two_open_files r st w'
                ltac:(vm_compute; reflexivity) Hrun) as Hk.
  assert (r = 0 ∧ st = None) as [-> ->].
  { vm_compute in Hrun. injection Hrun as <- <- _. split; reflexivity. }
  exists w'. split; [reflexivity|exact Hk].
Defined.

(** X14: a successful copy, with descriptors 0 to 3 in use before it. *)
Lemma copyfile_no_descriptor_leak_witness :
  ∃ w', copyfile (hdr := darwin_copyfile_h) 5 (Some "a") (Some "b") None 8
          mixed_open_files = Some (0, None, w')
    ∧ ∀ fd, fd_lookup fd w' = fd_lookup fd mixed_open_files.
Proof.
  destruct (copyfile (hdr := darwin_copyfile_h) 5 (Some "a") (Some "b") None 8
              mixed_open_files)
    as [[[r st] w']|] eqn:Hrun; [|vm_compute in Hrun; discriminate Hrun].
  destruct (copyfile_no_descriptor_leak (hdr := darwin_copyfile_h)
              5 (Some "a") (Some "b") 8 mixed_open_files r st w' Hrun) as [-> Hk].
  assert (r = 0) as ->.
  { vm_compute in Hrun. injection Hrun as <- _. reflexivity. }
  exists w'. split; [reflexivity|exact Hk].
Defined.

(** X15: a copy between descriptors 0 and 1; descriptors 2 and 3 stay. *)
Lemma fcopyfile_keeps_descriptors_witness :
  ∃ w', fcopyfile (hdr := darwin_copyfile_h) 5 0 1 None 8 mixed_open_files
        = Some (0, None, w')
    ∧ fds_moved 0 1 mixed_open_files w'.
Proof.
  destruct (fcopyfile (hdr := darwin_copyfile_h) 5 0 1 None 8 mixed_open_files)
    as [[[r st] w']|] eqn:Hrun; [|vm_compute in Hrun; discriminate Hrun].
  destruct (fcopyfile_keeps_descriptors (hdr := darwin_copyfile_h)
              5 0 1 8 mixed_open_files r st w' Hrun) as [-> Hk].
  assert (r = 0) as ->.
  { vm_compute in Hrun. injection Hrun as <- _. reflexivity. }
  exists w'. split; [reflexivity|exact Hk].
Defined.

(** X16: allocate, copy "a" onto "b", release. *)
Lemma copyfile_alloc_copy_free_witness :
  ∃ s0 w0 st w1,
    copyfile_state_alloc two_files = (Some s0, w0)
    ∧ copyfile (hdr := darwin_copyfile_h) 5 (Some "a") (Some "b") (Some s0) 8 w0
      = Some (0, st, w1)
    ∧ is_Some st
    ∧ ∀ fd, fd_lookup fd (snd (copyfile_state_free st w1)) = fd_lookup fd two_files.
Proof.
  set (s0 := mkState None None (-2) (-2) zero_stat 0 0).
  set (w0 := set_mem 9 two_files).
  assert (copyfile_state_alloc two_files = (Some s0, w0)) as Halloc by reflexivity.
  destruct (copyfile (hdr := darwin_copyfile_h) 5 (Some "a") (Some "b") (Some s0) 8 w0)
    as [[[r st] w1]|] eqn:Hrun; [|vm_compute in Hrun; discriminate Hrun].
  destruct (copyfile_alloc_copy_free (hdr := darwin_copyfile_h)
              5 (Some "a") (Some "b") 8 two_files s0 w0 r st w1 Halloc Hrun)
    as [Hst Hk].
  assert (r = 0) as Hr.
  { vm_compute in Hrun. injection Hrun as <- _. reflexivity. }
  rewrite Hr in Hrun.
  exists s0, w0, st, w1. split; [exact Halloc|]. split; [exact Hrun|].
  split; [exact Hst|exact Hk].
Defined.

(** X17: descriptor 0 is open on "a", descriptor 1 on the longer "b". *)
Lemma fcopyfile_copies_content_witness :
  ∃ w', fcopyfile (hdr := darwin_copyfile_h) 5 0 1 None 8 two_open_files
        = Some (0, None, w')
    ∧ data_of 1 two_open_files = Some [x09; x09; x09; x09; x09]
    ∧ data_of 1 w' = Some [x01; x02; x03].
Proof.
  assert (is_Some (w_inodes two_open_files !! 1%nat)) as Hib
    by (eexists; vm_compute; reflexivity).
  destruct (fcopyfile_copies_content (hdr := darwin_copyfile_h) 5 0 1 8 two_open_files
              0 1 O_RDONLY O_WRONLY (regular 420 [x01; x02; x03])
              ltac:(vm_compute; reflexivity) ltac:(vm_compute; reflexivity)
              ltac:(vm_compute; reflexivity)
              ltac:(vm_compute; intros E; discriminate E)
              ltac:(vm_compute; intros E; discriminate E)
              ltac:(lia)
              ltac:(vm_compute; reflexivity) ltac:(vm_compute; reflexivity)
              Hib ltac:(constructor) ltac:(vm_compute; reflexivity))
    as [_ Hrun].
  destruct Hrun as (w' & Hrun & Hd); [constructor|vm_compute; lia|vm_compute; lia|].
  exists w'. split; [exact Hrun|]. split; [reflexivity|exact Hd].
Defined.

(** X19: copying the directory "d" to the new path "e". *)
Lemma copyfile_directory_source_witness :
  ∃ w', copyfile (hdr := darwin_copyfile_h) 0 (Some "d") (Some "e") None 0 mixed_files
        = Some (0, None, w')
    ∧ w_names w' !! "e" = Some 7%nat
    ∧ i_mode <$> w_inodes w' !! 7%nat = Some (Z.lor S_IFDIR 493).
Proof.
  destruct (copyfile_directory_source (hdr := darwin_copyfile_h) 0 "d" "e" 0 mixed_files
              2 (file_of S_IFDIR 493 1000 [])
              ltac:(vm_compute; reflexivity) ltac:(vm_compute; reflexivity)
              ltac:(vm_compute; reflexivity) ltac:(vm_compute; reflexivity)
              ltac:(vm_compute; reflexivity) ltac:(vm_compute; reflexivity)
              ltac:(vm_compute; reflexivity) ltac:(vm_compute; reflexivity)
              ltac:(vm_compute; lia))
    as (w' & Hrun & Hn & Hi & _).
  exists w'. split; [exact Hrun|]. rewrite Hn, Hi. split; vm_compute; reflexivity.
Defined.

(** X20: the data step on the two open files. *)
Lemma copyfile_data_keeps_attributes_witness :
  ∃ w', copyfile_data 5 fd_handle two_open_files = Some (0, w')
    ∧ attrs_kept two_open_files w' ∧ fds_moved 0 1 two_open_files w'.
Proof.
  destruct (copyfile_data 5 fd_handle two_open_files) as [[r w']|] eqn:Hrun;
    [|vm_compute in Hrun; discriminate Hrun].
  destruct (copyfile_data_keeps_attributes 5 fd_handle two_open_files r w' Hrun)
    as [Ha Hf].
  assert (r = 0) as ->.
  { vm_compute in Hrun. injection Hrun as <- _. reflexivity. }
  exists w'. split; [reflexivity|]. split; [exact Ha|exact Hf].
Defined.

(** X21: "b" has mode 0644; a copy that succeeds leaves 0644, and one whose
    first write fails leaves 0644 as well only because the owner bits were
    there already: from mode 0444 the failed copy leaves 0644. *)
Lemma fcopyfile_permission_bits_witness :
  (∃ st w' i', fcopyfile (hdr := darwin_copyfile_h) 5 0 1 None 8 two_open_files
               = Some (0, st, w')
     ∧ w_inodes w' !! 1%nat = Some i' ∧ i_mode i' = Z.lor S_IFREG 420)
  ∧ (∃ st w' i', fcopyfile (hdr := darwin_copyfile_h) 5 0 1 None 8
                   (set_wscript [WErr EIO]
                      (set_inodes [regular 420 [x01; x02; x03]; regular 292 [x09]]
                         two_open_files))
                 = Some (-1, st, w')
       ∧ w_inodes w' !! 1%nat = Some i' ∧ i_mode i' = Z.lor S_IFREG 420).
Proof.
  split.
  - destruct (fcopyfile (hdr := darwin_copyfile_h) 5 0 1 None 8 two_open_files)
      as [[[r st] w']|] eqn:Hrun; [|vm_compute in Hrun; discriminate Hrun].
    destruct (fcopyfile_permission_bits (hdr := darwin_copyfile_h) 5 0 1 8 two_open_files
                0 1 O_RDONLY O_WRONLY (regular 420 [x01; x02; x03])
                (regular 420 [x09; x09; x09; x09; x09]) r st w'
                ltac:(vm_compute; reflexivity) ltac:(vm_compute; reflexivity)
                ltac:(vm_compute; reflexivity) ltac:(lia)
                ltac:(vm_compute; reflexivity) ltac:(vm_compute; reflexivity)
                ltac:(vm_compute; reflexivity) ltac:(vm_compute; reflexivity)
                ltac:(vm_compute; lia) Hrun)
      as (i' & Hi & Hm).
    assert (r = 0) as ->.
    { vm_compute in Hrun. injection Hrun as <- _. reflexivity. }
    exists st, w', i'. split; [reflexivity|]. split; [exact Hi|]. rewrite Hm.
    vm_compute. reflexivity.
  - set (w := set_wscript [WErr EIO]
                (set_inodes [regular 420 [x01; x02; x03]; regular 292 [x09]]
                   two_open_files)).
    destruct (fcopyfile (hdr := darwin_copyfile_h) 5 0 1 None 8 w)
      as [[[r st] w']|] eqn:Hrun; [|vm_compute in Hrun; discriminate Hrun].
    destruct (fcopyfile_permission_bits (hdr := darwin_copyfile_h) 5 0 1 8 w
                0 1 O_RDONLY O_WRONLY (regular 420 [x01; x02; x03])
                (regular 292 [x09]) r st w'
                ltac:(vm_compute; reflexivity) ltac:(vm_compute; reflexivity)
                ltac:(vm_compute; reflexivity) ltac:(lia)
                ltac:(vm_compute; reflexivity) ltac:(vm_compute; reflexivity)
                ltac:(vm_compute; reflexivity) ltac:(vm_compute; reflexivity)
                ltac:(vm_compute; lia) Hrun)
      as (i' & Hi & Hm).
    assert (r = -1) as ->.
    { vm_compute in Hrun. injection Hrun as <- _. reflexivity. }
    exists st, w', i'. split; [reflexivity|]. split; [exact Hi|]. rewrite Hm.
    vm_compute. reflexivity.
Defined.

(** X22: with a transfer size of 0 the three bytes of "a" are not copied:
    "b" is cut to three of its own bytes. *)
Lemma copyfile_data_zero_block_witness :
  ∃ w', copyfile_data 5 fd_handle zero_iosize_files = Some (0, w')
    ∧ data_of 0 w' = Some [x01; x02; x03]
    ∧ data_of 1 w' = Some [x09; x09; x09].
Proof.
  destruct (copyfile_data_zero_block 5 fd_handle zero_iosize_files
              (mkOfd 0 0 O_RDONLY) (mkOfd 1 0 O_WRONLY)
              (regular 420 [x01; x02; x03]) (regular 420 [x09; x09; x09; x09; x09])
              ltac:(vm_compute; reflexivity) ltac:(vm_compute; reflexivity)
              ltac:(vm_compute; intros E; discriminate E) ltac:(vm_compute; reflexivity)
              ltac:(vm_compute; reflexivity) ltac:(vm_compute; reflexivity)
              ltac:(vm_compute; intros E; discriminate E)
              ltac:(vm_compute; intros E; discriminate E)
              ltac:(vm_compute; intros E; discriminate E)
              ltac:(intros e rs E; discriminate E)
              ltac:(vm_compute; reflexivity) ltac:(vm_compute; lia) ltac:(lia))
    as (w' & Hrun & Hd & _).
  exists w'. split; [exact Hrun|]. split; [|exact Hd].
  clear Hd. vm_compute in Hrun. injection Hrun as <-. vm_compute. reflexivity.
Defined.

(** X23: the first write fails with EIO, at time 100: the read before it
    has set the access time of "a", nothing else has changed. *)
Lemma copyfile_data_write_error_witness :
  ∃ w', copyfile_data 5 fd_handle (set_wscript [WErr EIO] two_open_files)
        = Some (-1, w')
    ∧ w_errno w' = EIO
    ∧ w_inodes w' = [with_atime 100 (regular 420 [x01; x02; x03]);
                     regular 420 [x09; x09; x09; x09; x09]].
Proof.
  assert (is_Some (w_inodes (set_wscript [WErr EIO] two_open_files) !! 1%nat)) as Hib
    by (eexists; vm_compute; reflexivity).
  destruct (copyfile_data_write_error 5 fd_handle (set_wscript [WErr EIO] two_open_files)
              0 1 O_RDONLY O_WRONLY (regular 420 [x01; x02; x03]) EIO []
              ltac:(vm_compute; reflexivity) ltac:(vm_compute; reflexivity)
              ltac:(vm_compute; intros E; discriminate E)
              ltac:(vm_compute; intros E; discriminate E)
              ltac:(lia)
              ltac:(vm_compute; reflexivity) ltac:(vm_compute; reflexivity)
              ltac:(intros E; discriminate E) Hib ltac:(constructor)
              ltac:(vm_compute; reflexivity) ltac:(reflexivity)
              ltac:(vm_compute; lia) ltac:(lia))
    as (w' & Hrun & He & Hi & _).
  exists w'. split; [exact Hrun|]. split; [exact He|]. rewrite Hi. reflexivity.
Defined.

(** X24: from "o" onto the unreadable directory "x": a thousand attempts
    are not enough, nor is any other number. *)
Lemma copyfile_open_loop_diverges_witness :
  copyfile (hdr := darwin_copyfile_h) 1000 (Some "o") (Some "x") None 0 mixed_files
  = None.
Proof.
  apply (copyfile_open_loop_diverges (hdr := darwin_copyfile_h) 1000 "o" "x" 0
           mixed_files 5 (file_of S_IFREG 36 0 [x06]) 6 (file_of S_IFDIR 192 1000 []));
    try (vm_compute; reflexivity).
  - vm_compute. intros E. discriminate E.
  - vm_compute. lia.
Defined.

(** X25: the copy from descriptor 0 to descriptor 1 leaves "r", which is
    behind neither, exactly as it was, and "a", which is read, as it was up
    to its access time. *)
Lemma copyfile_data_writes_destination_only_witness :
  ∃ w', copyfile_data 5 fd_handle mixed_open_files = Some (0, w')
    ∧ w_inodes w' !! 4%nat = Some (file_of S_IFREG 292 0 [x05])
    ∧ up_to_atime (w_inodes w' !! 0%nat) (Some (regular 420 [x01; x02; x03])).
Proof.
  destruct (copyfile_data 5 fd_handle mixed_open_files) as [[r w']|] eqn:Hrun;
    [|vm_compute in Hrun; discriminate Hrun].
  destruct (copyfile_data_writes_destination_only 5 fd_handle mixed_open_files r w'
              4 ltac:(vm_compute; intros E; discriminate E) Hrun) as [Hk _].
  destruct (copyfile_data_writes_destination_only 5 fd_handle mixed_open_files r w'
              0 ltac:(vm_compute; intros E; discriminate E) Hrun) as [_ Hu].
  assert (r = 0) as ->.
  { vm_compute in Hrun. injection Hrun as <- _. reflexivity. }
  exists w'. split; [reflexivity|]. split; [|exact Hu].
  rewrite Hk; [reflexivity|]. vm_compute. intros E. discriminate E.
Defined.

(** X26: "b" is replaced: its old file keeps five bytes, the path names a
    third file.  When the removal of "b" is refused with EACCES, the call
    returns -1 with that errno and "b" still names its old file. *)
Lemma copyfile_unlink_replaces_witness :
  (∃ w', copyfile (hdr := darwin_copyfile_h) 5 (Some "a") (Some "b") None (8 + 2097152)
           two_files = Some (0, None, w')
     ∧ w_inodes w' !! 1%nat = Some (regular 420 [x09; x09; x09; x09; x09])
     ∧ w_names w' !! "b" = Some 2%nat)
  ∧ (∃ w', copyfile (hdr := darwin_copyfile_h) 5 (Some "a") (Some "b") None
             (8 + 2097152) (set_uscript [Some EACCES] two_files) = Some (-1, None, w')
       ∧ w_errno w' = EACCES
       ∧ w_inodes w' !! 1%nat = Some (regular 420 [x09; x09; x09; x09; x09])
       ∧ w_names w' !! "b" = Some 1%nat).
Proof.
  split.
  - destruct (copyfile (hdr := darwin_copyfile_h) 5 (Some "a") (Some "b") None
                (8 + 2097152) two_files)
      as [[[r st] w']|] eqn:Hrun; [|vm_compute in Hrun; discriminate Hrun].
    destruct (copyfile_unlink_replaces (hdr := darwin_copyfile_h) 5 "a" "b" (8 + 2097152)
                two_files 0 (regular 420 [x01; x02; x03]) 1
                (regular 420 [x09; x09; x09; x09; x09]) r st w'
                ltac:(vm_compute; reflexivity) ltac:(vm_compute; reflexivity)
                ltac:(vm_compute; reflexivity) ltac:(vm_compute; reflexivity)
                ltac:(vm_compute; reflexivity) ltac:(vm_compute; reflexivity)
                ltac:(vm_compute; reflexivity) ltac:(vm_compute; reflexivity)
                ltac:(vm_compute; reflexivity) ltac:(vm_compute; lia)
                ltac:(vm_compute; intros E; discriminate E) Hrun)
      as (Hi & _ & Hn).
    assert (r = 0 ∧ st = None) as [-> ->].
    { vm_compute in Hrun. injection Hrun as <- <- _. split; reflexivity. }
    exists w'. split; [reflexivity|]. split; [apply Hi; lia|exact Hn].
  - set (w := set_uscript [Some EACCES] two_files).
    destruct (copyfile (hdr := darwin_copyfile_h) 5 (Some "a") (Some "b") None
                (8 + 2097152) w)
      as [[[r st] w']|] eqn:Hrun; [|vm_compute in Hrun; discriminate Hrun].
    destruct (copyfile_unlink_replaces (hdr := darwin_copyfile_h) 5 "a" "b" (8 + 2097152)
                w 0 (regular 420 [x01; x02; x03]) 1
                (regular 420 [x09; x09; x09; x09; x09]) r st w'
                ltac:(vm_compute; reflexivity) ltac:(vm_compute; reflexivity)
                ltac:(vm_compute; reflexivity) ltac:(vm_compute; reflexivity)
                ltac:(vm_compute; reflexivity) ltac:(vm_compute; reflexivity)
                ltac:(vm_compute; reflexivity) ltac:(vm_compute; reflexivity)
                ltac:(vm_compute; reflexivity) ltac:(vm_compute; lia)
                ltac:(vm_compute; intros E; discriminate E) Hrun)
      as (Hi & _ & Hr & He & Hn).
    assert (st = None) as ->.
    { vm_compute in Hrun. injection Hrun as _ <- _. reflexivity. }
    exists w'. split; [by rewrite Hr|]. split; [exact He|].
    split; [apply Hi; lia|exact Hn].
Defined.

(** X27: the first write fails while "a" is copied onto itself: "a" is
    gone.  When the removal is refused with EACCES, "a" keeps its name. *)
Lemma copyfile_failure_removes_destination_witness :
  (∃ w', copyfile (hdr := darwin_copyfile_h) 5 (Some "a") (Some "a") None 8
           (set_wscript [WErr EIO] two_files) = Some (-1, None, w')
     ∧ w_names (set_wscript [WErr EIO] two_files) !! "a" = Some 0%nat
     ∧ w_names w' !! "a" = None
     ∧ ∃ ru, In (EvUnlink "a" ru) (w_trace w'))
  ∧ (∃ w', copyfile (hdr := darwin_copyfile_h) 5 (Some "a") (Some "a") None 8
             (set_uscript [Some EACCES] (set_wscript [WErr EIO] two_files))
           = Some (-1, None, w')
       ∧ w_names w' !! "a" = Some 0%nat
       ∧ ∃ ru, In (EvUnlink "a" ru) (w_trace w')).
Proof.
  split.
  - set (w := set_wscript [WErr EIO] two_files).
    destruct (copyfile (hdr := darwin_copyfile_h) 5 (Some "a") (Some "a") None 8 w)
      as [[[r st] w']|] eqn:Hrun; [|vm_compute in Hrun; discriminate Hrun].
    assert (r = -1 ∧ st = None) as [-> ->].
    { vm_compute in Hrun. injection Hrun as <- <- _. split; reflexivity. }
    pose proof (copyfile_failure_removes_destination (hdr := darwin_copyfile_h) 5 "a" "a" 8
                  w 0 (regular 420 [x01; x02; x03]) 0 (regular 420 [x01; x02; x03])
                  (-1) None w'
                  ltac:(vm_compute; reflexivity) ltac:(vm_compute; reflexivity)
                  ltac:(vm_compute; reflexivity) ltac:(vm_compute; reflexivity)
                  ltac:(vm_compute; reflexivity) ltac:(vm_compute; reflexivity)
                  ltac:(vm_compute; reflexivity) ltac:(vm_compute; reflexivity)
                  ltac:(vm_compute; reflexivity) ltac:(vm_compute; reflexivity)
                  ltac:(vm_compute; reflexivity)
                  ltac:(vm_compute; lia) ltac:(lia) Hrun ltac:(lia)) as [Hn Hu].
    exists w'. split; [reflexivity|]. split; [reflexivity|]. split; [exact Hn|exact Hu].
  - set (w := set_uscript [Some EACCES] (set_wscript [WErr EIO] two_files)).
    destruct (copyfile (hdr := darwin_copyfile_h) 5 (Some "a") (Some "a") None 8 w)
      as [[[r st] w']|] eqn:Hrun; [|vm_compute in Hrun; discriminate Hrun].
    assert (r = -1 ∧ st = None) as [-> ->].
    { vm_compute in Hrun. injection Hrun as <- <- _. split; reflexivity. }
    pose proof (copyfile_failure_removes_destination (hdr := darwin_copyfile_h) 5 "a" "a" 8
                  w 0 (regular 420 [x01; x02; x03]) 0 (regular 420 [x01; x02; x03])
                  (-1) None w'
                  ltac:(vm_compute; reflexivity) ltac:(vm_compute; reflexivity)
                  ltac:(vm_compute; reflexivity) ltac:(vm_compute; reflexivity)
                  ltac:(vm_compute; reflexivity) ltac:(vm_compute; reflexivity)
                  ltac:(vm_compute; reflexivity) ltac:(vm_compute; reflexivity)
                  ltac:(vm_compute; reflexivity) ltac:(vm_compute; reflexivity)
                  ltac:(vm_compute; reflexivity)
                  ltac:(vm_compute; lia) ltac:(lia) Hrun ltac:(lia)) as [Hn Hu].
    exists w'. split; [reflexivity|]. split; [exact Hn|exact Hu].
Defined.

(** X28: "a" copied onto itself, with a stalled and a short write on the
    way. *)
Lemma copyfile_onto_itself_witness :
  ∃ st w', copyfile (hdr := darwin_copyfile_h) 9 (Some "a") (Some "a") None 8
             (set_wscript [WAccept 0; WAccept 1] two_files) = Some (0, st, w')
    ∧ file_data "a" w' = Some [x01; x02; x03].
Proof.
  set (w := set_wscript [WAccept 0; WAccept 1] two_files).
  destruct (copyfile (hdr := darwin_copyfile_h) 9 (Some "a") (Some "a") None 8 w)
    as [[[r st] w']|] eqn:Hrun; [|vm_compute in Hrun; discriminate Hrun].
  assert (r = 0) as ->.
  { vm_compute in Hrun. injection Hrun as <- _. reflexivity. }
  pose proof (copyfile_onto_itself (hdr := darwin_copyfile_h) 9 "a" 8 w 0
                (regular 420 [x01; x02; x03]) st w'
                ltac:(vm_compute; reflexivity) ltac:(vm_compute; reflexivity)
                ltac:(vm_compute; reflexivity) ltac:(vm_compute; reflexivity)
                ltac:(vm_compute; reflexivity) ltac:(vm_compute; reflexivity)
                ltac:(vm_compute; reflexivity) ltac:(vm_compute; reflexivity)
                ltac:(constructor) ltac:(vm_compute; reflexivity)
                ltac:(vm_compute; lia) ltac:(lia) Hrun) as Hk.
  exists st, w'. split; [reflexivity|exact Hk].
Defined.
